(** * RETS data portal: the TTL cache and the field recommendations, the
      RETS query repair pass and the protocol clients, embedded from
      [utils.py], [smart_suggestions.py] and [clients/rets_client.py].

    Conventions of the embedding.
    - A Python [str] is a [string]; its characters are the code points
      below 256.
    - A Python [dict] is an association list in insertion order with unique
      keys ([PyDict]): assignment to a present key keeps its position, a new
      key goes to the end, [del] removes the binding.  The order is kept
      because it decides which key [min] returns when access times tie.
    - [time.time()] reads a clock [clock : nat -> Q]; the number of reads so
      far is part of the state, so that every call in the source is one read
      in the model.  Clock values are exact rationals (the rounding of
      floating point subtraction is not modelled).
    - Code that can raise returns an [outcome]; [try]/[except Exception]
      is [try_except].
    - The libraries the code calls ([requests], [ET.fromstring],
      [chr(int(...))], [re.search] with the OData pattern) are parameters:
      a network that answers or raises, and a parser that returns a tree or
      fails.
    - What the code prints is left out; an expression evaluated for a
      print is kept where it can raise.
    - A module-level table that the application overwrites while it runs
      is an argument of the code that reads it. *)

From Stdlib Require Import ZArith QArith List String Ascii Bool Arith Lia Lqa.
From Stdlib Require Import DecimalString Sorted Permutation.
Import ListNotations.

Set Implicit Arguments.
Set Warnings "-register-all".

(* ------------------------------------------------------------------ *)
(** ** Exceptions *)

Module Py.

(** The exceptions the embedded code can meet; all of them derive from
    Python's [Exception].  Each carries its [str(e)]. *)
Inductive exn :=
| RequestException (msg : string)   (* requests.exceptions.* : timeouts,
                                       connection errors *)
| ParseError (msg : string)         (* xml.etree.ElementTree.ParseError *)
| ValueError (msg : string)         (* int(), response.json() *)
| AttributeError (msg : string)
| TypeError (msg : string)          (* subscript or len() of a value that
                                       has none *)
| KeyError (msg : string)           (* d[k] for a key that is not in d *)
| OtherException (msg : string).

Definition str_exn (e : exn) : string :=
  match e with
  | RequestException m | ParseError m | ValueError m
  | AttributeError m | TypeError m | KeyError m | OtherException m => m
  end.

Inductive outcome (A : Type) :=
| Ret (a : A)
| Raise (e : exn).

Arguments Ret {A} a.
Arguments Raise {A} e.

Definition bind {A B} (m : outcome A) (k : A -> outcome B) : outcome B :=
  match m with
  | Ret a => k a
  | Raise e => Raise e
  end.

(** [try: body except Exception as e: handler(e)] *)
Definition try_except {A} (body : outcome A) (handler : exn -> A) : A :=
  match body with
  | Ret a => a
  | Raise e => handler e
  end.

End Py.

(* ------------------------------------------------------------------ *)
(** ** Python dictionaries with string keys *)

Module PyDict.

Section Dict.
Variable V : Type.

Definition dict := list (string * V).

Definition empty : dict := [].

(** [d.get(k)] / [d[k]] *)
Fixpoint get (k : string) (d : dict) : option V :=
  match d with
  | [] => None
  | (k', v) :: d' => if String.eqb k k' then Some v else get k d'
  end.

(** [k in d] *)
Definition mem (k : string) (d : dict) : bool :=
  match get k d with Some _ => true | None => false end.

(** [d[k] = v] *)
Fixpoint set (k : string) (v : V) (d : dict) : dict :=
  match d with
  | [] => [(k, v)]
  | (k', v') :: d' =>
      if String.eqb k k' then (k', v) :: d' else (k', v') :: set k v d'
  end.

(** [del d[k]] (the callers test [k in d] first) *)
Fixpoint del (k : string) (d : dict) : dict :=
  match d with
  | [] => []
  | (k', v') :: d' =>
      if String.eqb k k' then d' else (k', v') :: del k d'
  end.

Definition keys (d : dict) : list string := map fst d.

(** [len(d)] *)
Definition len (d : dict) : Z := Z.of_nat (List.length d).

(** A dictionary never holds a key twice. *)
Definition wf (d : dict) : Prop := NoDup (keys d).

End Dict.

Arguments empty {V}.

End PyDict.

(* ------------------------------------------------------------------ *)
(** ** [utils.py]: [CacheEntry] and [TTLCache] *)

Module Cache.

Section WithData.

(** The cached payloads other than [None]. *)
Variable Data : Type.

(** A Python value as the cache sees it: [None] or a payload. *)
Definition PyVal := option Data.

(** The readings of [time.time()], in call order. *)
Variable clock : nat -> Q.

(** A computation that reads the clock: it receives the number of reads
    made so far and returns the new count. *)
Definition Timed (A : Type) := nat -> A * nat.

Definition time_time : Timed Q := fun n => (clock n, S n).

Record CacheEntry := mkEntry {
  data : PyVal;
  created_at : Q;
  ttl_seconds : Z
}.

(** [CacheEntry.__init__] *)
Definition CacheEntry_init (d : PyVal) (ttl : Z) : Timed CacheEntry :=
  fun n => let (now, n') := time_time n in (mkEntry d now ttl, n').

Definition Qltb (a b : Q) : bool :=
  match Qcompare a b with Lt => true | _ => false end.

(** [CacheEntry.is_expired]:
    [time.time() - self.created_at > self.ttl_seconds] *)
Definition is_expired (e : CacheEntry) : Timed bool :=
  fun n => let (now, n') := time_time n in
           (Qltb (inject_Z (ttl_seconds e)) (now - created_at e), n').

Record TTLCache := mkCache {
  cache : PyDict.dict CacheEntry;
  default_ttl_seconds : Z;
  max_size : Z;
  access_times : PyDict.dict Q
}.

(** [TTLCache.__init__] *)
Definition TTLCache_init (default_ttl max : Z) : TTLCache :=
  mkCache PyDict.empty default_ttl max PyDict.empty.

Definition with_cache (c : TTLCache) (m : PyDict.dict CacheEntry) :=
  mkCache m (default_ttl_seconds c) (max_size c) (access_times c).

Definition with_access (c : TTLCache) (a : PyDict.dict Q) :=
  mkCache (cache c) (default_ttl_seconds c) (max_size c) a.

(** [TTLCache._remove_entry] *)
Definition _remove_entry (key : string) (c : TTLCache) : bool * TTLCache :=
  if PyDict.mem key (cache c) then
    let c1 := with_cache c (PyDict.del key (cache c)) in
    let c2 := if PyDict.mem key (access_times c1)
              then with_access c1 (PyDict.del key (access_times c1))
              else c1 in
    (true, c2)
  else (false, c).

(** Python's [min(iterable, key=f)]: the first element, in iteration
    order, whose key is smallest.  The key function of [_evict_lru] is
    [lambda k: self.access_times[k]], so the fold runs over the items. *)
Fixpoint min_from (best : string * Q) (l : list (string * Q)) : string * Q :=
  match l with
  | [] => best
  | x :: l' => if Qltb (snd x) (snd best) then min_from x l'
               else min_from best l'
  end.

Definition py_min_key (a : PyDict.dict Q) : option string :=
  match a with
  | [] => None
  | x :: l => Some (fst (min_from x l))
  end.

(** [TTLCache._evict_lru] *)
Definition _evict_lru (c : TTLCache) : TTLCache :=
  match py_min_key (access_times c) with
  | None => c
  | Some lru_key => snd (_remove_entry lru_key c)
  end.

(** [TTLCache.get] *)
Definition get (key : string) (default : PyVal) (c : TTLCache)
  : Timed (PyVal * TTLCache) :=
  fun n =>
    match PyDict.get key (cache c) with
    | Some entry =>
        let (expired, n1) := is_expired entry n in
        if negb expired then
          let (now, n2) := time_time n1 in
          ((data entry,
            with_access c (PyDict.set key now (access_times c))), n2)
        else
          ((default, snd (_remove_entry key c)), n1)
    | None => ((default, c), n)
    end.

(** [TTLCache.set] *)
Definition set (key : string) (value : PyVal) (ttl : option Z)
           (c : TTLCache) : Timed TTLCache :=
  fun n =>
    let ttl_seconds :=
      match ttl with None => default_ttl_seconds c | Some t => t end in
    let c1 := if (PyDict.len (cache c) >=? max_size c)%Z
              then _evict_lru c else c in
    let (entry, n1) := CacheEntry_init value ttl_seconds n in
    let c2 := with_cache c1 (PyDict.set key entry (cache c1)) in
    let (now, n2) := time_time n1 in
    (with_access c2 (PyDict.set key now (access_times c2)), n2).

(** [TTLCache.delete] *)
Definition delete (key : string) (c : TTLCache) : bool * TTLCache :=
  _remove_entry key c.

(** [TTLCache.clear] *)
Definition clear (c : TTLCache) : TTLCache :=
  mkCache PyDict.empty (default_ttl_seconds c) (max_size c) PyDict.empty.

(** The list comprehension of [clear_expired]: one clock read per item. *)
Fixpoint expired_keys (items : list (string * CacheEntry))
  : Timed (list string) :=
  fun n =>
    match items with
    | [] => ([], n)
    | (key, entry) :: rest =>
        let (e, n1) := is_expired entry n in
        let (ks, n2) := expired_keys rest n1 in
        (if e then key :: ks else ks, n2)
    end.

Fixpoint remove_all (ks : list string) (c : TTLCache) : TTLCache :=
  match ks with
  | [] => c
  | k :: ks' => remove_all ks' (snd (_remove_entry k c))
  end.

(** [TTLCache.clear_expired] *)
Definition clear_expired (c : TTLCache) : Timed (Z * TTLCache) :=
  fun n =>
    let (ks, n1) := expired_keys (cache c) n in
    ((Z.of_nat (List.length ks), remove_all ks c), n1).

(** *** The cache helper of the UI layer *)

(** What the helper shows through [st.error] and [st.sidebar.info]; the
    records keep the values interpolated into the messages. *)
Inductive ui_message :=
| SidebarInfoCleared (expired_count : Z)
| ErrorFetching (cache_type : string) (message : string).

(** [st.session_state] ([ttl_cache] is [None] while the key is not in it)
    together with what was written to the page. *)
Record Session := mkSession {
  ttl_cache : option TTLCache;
  page : list ui_message
}.

(** [CACHE_TTL_CONFIG] as the module defines it.  The table is a
    module-level dictionary whose entries [render_cache_controls]
    overwrites, so the code that reads it takes the table of the moment as
    an argument. *)
Definition CACHE_TTL_CONFIG : PyDict.dict Z :=
  [ ("metadata", 3600); ("resources", 1800); ("resource_details", 900);
    ("lookup_fields", 7200); ("lookup_values", 3600);
    ("query_results", 300) ]%Z%string.

(** [initialize_ttl_cache] *)
Definition initialize_ttl_cache (s : Session) : Timed Session :=
  fun n =>
    let c := match ttl_cache s with
             | None => TTLCache_init 3600 1000
             | Some c => c
             end in
    let '((expired_count, c'), n1) := clear_expired c n in
    (mkSession (Some c')
               (if (expired_count >? 0)%Z
                then page s ++ [SidebarInfoCleared expired_count]
                else page s), n1).

(** [get_cached_data].  [ttl_config] is [CACHE_TTL_CONFIG] as it is when
    the call is made.  [fetch_func] is what calling the fetch function
    yields: the callers pass closures over the protocol client, which do
    not touch the cache. *)
Definition get_cached_data (ttl_config : PyDict.dict Z)
           (cache_type key : string)
           (fetch_func : Py.outcome PyVal) (ttl : option Z) (s : Session)
  : Timed (PyVal * Session) :=
  fun n =>
    let (s1, n1) := match ttl_cache s with
                    | None => initialize_ttl_cache s n
                    | Some _ => (s, n)
                    end in
    match ttl_cache s1 with
    | None => ((None, s1), n1)   (* not reached: the key was just set *)
    | Some c =>
        let cache_key := (cache_type ++ ":" ++ key)%string in
        let '((cached_data, c1), n2) := get cache_key None c n1 in
        match cached_data with
        | Some d => ((Some d, mkSession (Some c1) (page s1)), n2)
        | None =>
            Py.try_except
              (Py.bind fetch_func (fun fresh_data =>
                 match fresh_data with
                 | Some d =>
                     let ttl_seconds :=
                       match ttl with
                       | Some t => t
                       | None =>
                           match PyDict.get cache_type ttl_config with
                           | Some t => t
                           | None => 3600%Z
                           end
                       end in
                     let (c2, n3) :=
                       set cache_key (Some d) (Some ttl_seconds) c1 n2 in
                     Py.Ret ((Some d, mkSession (Some c2) (page s1)), n3)
                 | None =>
                     Py.Ret ((None, mkSession (Some c1) (page s1)), n2)
                 end))
              (fun e =>
                 ((None,
                   mkSession (Some c1)
                     (page s1 ++ [ErrorFetching cache_type (Py.str_exn e)])),
                  n2))
        end
    end.

(** *** Operation sequences *)

Inductive op :=
| OpGet (key : string) (default : PyVal)
| OpSet (key : string) (value : PyVal) (ttl : option Z)
| OpDelete (key : string)
| OpClear
| OpClearExpired.

Definition run_op (o : op) (c : TTLCache) : Timed TTLCache :=
  fun n =>
    match o with
    | OpGet k d => let '((_, c'), n') := get k d c n in (c', n')
    | OpSet k v t => set k v t c n
    | OpDelete k => (snd (delete k c), n)
    | OpClear => (clear c, n)
    | OpClearExpired => let '((_, c'), n') := clear_expired c n in (c', n')
    end.

Fixpoint run_ops (os : list op) (c : TTLCache) : Timed TTLCache :=
  fun n =>
    match os with
    | [] => (c, n)
    | o :: os' => let (c', n') := run_op o c n in run_ops os' c' n'
    end.

(** The two invariants of a cache: the capacity bound, and the access
    times keyed exactly like the entries. *)
Definition same_keys (c : TTLCache) : Prop :=
  forall k, PyDict.mem k (access_times c) = PyDict.mem k (cache c).

Definition within_capacity (c : TTLCache) : Prop :=
  (PyDict.len (cache c) <= max_size c)%Z.

(** The representation invariant of the two dictionaries. *)
Definition well_formed (c : TTLCache) : Prop :=
  PyDict.wf (cache c) /\ PyDict.wf (access_times c).

(** What every operation preserves, for a cache of capacity at least one. *)
Definition Inv (c : TTLCache) : Prop :=
  well_formed c /\ same_keys c /\ within_capacity c /\ (1 <= max_size c)%Z.

(** The cache [get_cached_data] works on: the one of the session, or the
    one [initialize_ttl_cache] creates when the session has none. *)
Definition session_cache (s : Session) : TTLCache :=
  match ttl_cache s with
  | Some c => c
  | None => TTLCache_init 3600 1000
  end.

(** The TTL an entry is stored with by [set]. *)
Definition effective_ttl (ttl : option Z) (c : TTLCache) : Z :=
  match ttl with None => default_ttl_seconds c | Some t => t end.

End WithData.

Arguments OpGet {Data} key default.
Arguments OpSet {Data} key value ttl.
Arguments OpDelete {Data} key.
Arguments OpClear {Data}.
Arguments OpClearExpired {Data}.
Arguments mkSession {Data} ttl_cache page.

End Cache.

(** Concrete caches used to exercise the statements below. *)
Module CacheExamples.
Import Cache.

(** A clock that advances by one second per read. *)
Definition clock_ticking (n : nat) : Q := inject_Z (Z.of_nat n).

(** A clock that stands still. *)
Definition clock_frozen (n : nat) : Q := 0.

Definition fresh : TTLCache nat := TTLCache_init nat 3600 1000.

(** One entry, stored at time 0 with a TTL of one second. *)
Definition one_short_lived : TTLCache nat :=
  mkCache [("k", mkEntry (Some 7%nat) 0 1)]%string 3600 1000
          [("k", 0)]%string.

End CacheExamples.

(* ------------------------------------------------------------------ *)
(** ** Python strings *)

Module PyStr.

Local Open Scope string_scope.

(** [str.isspace] on one character (also what [str.strip()] removes and
    what [\s] matches in [re]). *)
Definition is_space (a : ascii) : bool :=
  let n := nat_of_ascii a in
  ((9 <=? n) && (n <=? 13) || (28 <=? n) && (n <=? 32)
   || (n =? 133) || (n =? 160))%nat.

(** [s.lstrip()] *)
Fixpoint lstrip (s : string) : string :=
  match s with
  | String a s' => if is_space a then lstrip s' else s
  | EmptyString => EmptyString
  end.

(** [s.rstrip()] *)
Fixpoint rstrip (s : string) : string :=
  match s with
  | String a s' =>
      match rstrip s' with
      | EmptyString => if is_space a then EmptyString else String a EmptyString
      | r => String a r
      end
  | EmptyString => EmptyString
  end.

(** [s.strip()] *)
Definition strip (s : string) : string := rstrip (lstrip s).

(** The string is empty or made of white space only. *)
Fixpoint all_space (s : string) : bool :=
  match s with
  | String a s' => is_space a && all_space s'
  | EmptyString => true
  end.

(** The truth value of a string: [if s:] *)
Definition truthy (s : string) : bool :=
  match s with EmptyString => false | _ => true end.

(** [s.lower()] *)
Definition lower_char (a : ascii) : ascii :=
  let n := nat_of_ascii a in
  if ((65 <=? n) && (n <=? 90)
      || (192 <=? n) && (n <=? 222) && negb (n =? 215))%nat
  then ascii_of_nat (n + 32) else a.

Fixpoint lower (s : string) : string :=
  match s with
  | String a s' => String (lower_char a) (lower s')
  | EmptyString => EmptyString
  end.

(** [s.startswith(p)] *)
Definition startswith (p s : string) : bool := String.prefix p s.

(** [needle in hay] *)
Fixpoint contains (needle hay : string) : bool :=
  String.prefix needle hay ||
  match hay with
  | String _ hay' => contains needle hay'
  | EmptyString => false
  end.

(** [s.endswith(suffix)] *)
Definition endswith (suffix s : string) : bool :=
  (String.length suffix <=? String.length s)%nat &&
  String.eqb
    (substring (String.length s - String.length suffix)
               (String.length suffix) s)
    suffix.

(** [s.split(sep)] for a separator of one character: the fields between
    the separators, at least one. *)
Fixpoint split (sep : ascii) (s : string) : list string :=
  match s with
  | EmptyString => [EmptyString]
  | String a s' =>
      if Ascii.eqb a sep then EmptyString :: split sep s'
      else match split sep s' with
           | w :: ws => String a w :: ws
           | [] => [String a EmptyString]
           end
  end.

(** [s.count(sep)] for a separator of one character *)
Fixpoint count (sep : ascii) (s : string) : nat :=
  match s with
  | EmptyString => 0
  | String a s' => (if Ascii.eqb a sep then 1 else 0) + count sep s'
  end.

(** [s[:n]] *)
Definition take (n : nat) (s : string) : string := substring 0 n s.

Definition tab : ascii := ascii_of_nat 9.
Definition newline : ascii := ascii_of_nat 10.
Definition comma : ascii := ascii_of_nat 44.

(** [s.rstrip(c)] and [s.lstrip(c)] for one character [c] *)
Fixpoint rstrip_char (c : ascii) (s : string) : string :=
  match s with
  | String a s' =>
      match rstrip_char c s' with
      | EmptyString =>
          if Ascii.eqb a c then EmptyString else String a EmptyString
      | r => String a r
      end
  | EmptyString => EmptyString
  end.

Fixpoint lstrip_char (c : ascii) (s : string) : string :=
  match s with
  | String a s' => if Ascii.eqb a c then lstrip_char c s' else s
  | EmptyString => EmptyString
  end.

(** [s.replace(old, new)] for a non-empty [old]; [skip] counts the
    characters of the occurrence being replaced that are still to pass. *)
Fixpoint replace_from (old new : string) (skip : nat) (s : string) : string :=
  match s with
  | EmptyString => EmptyString
  | String a s' =>
      match skip with
      | S k => replace_from old new k s'
      | O =>
          if String.prefix old s
          then new ++ replace_from old new (String.length old - 1) s'
          else String a (replace_from old new 0 s')
      end
  end.

Definition replace (old new s : string) : string := replace_from old new 0 s.

(** The longest prefix of characters satisfying [p]. *)
Fixpoint take_while (p : ascii -> bool) (s : string) : string :=
  match s with
  | String a s' => if p a then String a (take_while p s') else EmptyString
  | EmptyString => EmptyString
  end.

(** [s[n:]] *)
Fixpoint drop (n : nat) (s : string) : string :=
  match n, s with
  | S k, String _ s' => drop k s'
  | _, _ => s
  end.

(** The class of the URL pattern: anything but white space, [<], [>] and
    the two quote characters (codes 34 and 39). *)
Definition url_char (a : ascii) : bool :=
  negb (is_space a) &&
  negb (existsb (Ascii.eqb a)
          [ascii_of_nat 60; ascii_of_nat 62; ascii_of_nat 34; ascii_of_nat 39]).

(** A match of [https?://] followed by one or more characters of that
    class, at the start of [s]. *)
Definition match_http_url (s : string) : option string :=
  let after scheme :=
    let run := take_while url_char (drop (String.length scheme) s) in
    if truthy run then Some (scheme ++ run) else None in
  if String.prefix "https://" s then after "https://"
  else if String.prefix "http://" s then after "http://"
  else None.

(** [re.search] with that pattern: the leftmost match. *)
Fixpoint search_http_url (s : string) : option string :=
  match match_http_url s with
  | Some u => Some u
  | None =>
      match s with
      | String _ s' => search_http_url s'
      | EmptyString => None
      end
  end.

End PyStr.

(* ------------------------------------------------------------------ *)
(** ** The fragment of Python's [re] used by the repair pass *)

Module Re.

Local Open Scope string_scope.

(** A set of characters: a literal [c], a negated class [[^c]], or [\s]. *)
Inductive cls :=
| Chr (c : ascii)
| NotChr (c : ascii)
| Space.

Definition cls_match (k : cls) (a : ascii) : bool :=
  match k with
  | Chr c => Ascii.eqb a c
  | NotChr c => negb (Ascii.eqb a c)
  | Space => PyStr.is_space a
  end.

(** One element of a pattern: [x], [x+] or the capturing [(x+)]. *)
Inductive item :=
| One (k : cls)
| Plus (k : cls)
| GroupPlus (k : cls).

Definition regex := list item.

(** The result of a match: the captured groups, in order, and what is left
    of the subject. *)
Definition match_result := (list string * string)%type.

(** The greedy [x+] followed by the continuation [cont]: at least one
    character, as many as possible first, giving back one at a time. *)
Fixpoint greedy (k : cls) (cont : string -> option match_result)
         (s : string) : option (string * match_result) :=
  match s with
  | String a s' =>
      if cls_match k a then
        match greedy k cont s' with
        | Some (run, res) => Some (String a run, res)
        | None =>
            match cont s' with
            | Some res => Some (String a EmptyString, res)
            | None => None
            end
        end
      else None
  | EmptyString => None
  end.

(** [pattern.match(s)]: the backtracking match of [r] at the start of
    [s]. *)
Fixpoint match_here (r : regex) (s : string) : option match_result :=
  match r with
  | [] => Some ([], s)
  | One k :: r' =>
      match s with
      | String a s' => if cls_match k a then match_here r' s' else None
      | EmptyString => None
      end
  | Plus k :: r' =>
      match greedy k (match_here r') s with
      | Some (_, res) => Some res
      | None => None
      end
  | GroupPlus k :: r' =>
      match greedy k (match_here r') s with
      | Some (run, (groups, rest)) => Some (run :: groups, rest)
      | None => None
      end
  end.

(** A replacement template: literal text and group references [\n]. *)
Inductive piece :=
| Lit (s : string)
| Group (n : nat).

Definition template := list piece.

Fixpoint expand (t : template) (groups : list string) : string :=
  match t with
  | [] => EmptyString
  | Lit s :: t' => s ++ expand t' groups
  | Group n :: t' => nth (n - 1) groups EmptyString ++ expand t' groups
  end.

(** [re.sub(r, t, s)]: the matches are found from left to right and do not
    overlap; [skip] counts the characters of the current match still to be
    passed over.  Every pattern of the repair pass matches at least one
    character, so empty matches do not arise. *)
Fixpoint sub_from (r : regex) (t : template) (skip : nat) (s : string)
  : string :=
  match s with
  | EmptyString => EmptyString
  | String a s' =>
      match skip with
      | S k => sub_from r t k s'
      | O =>
          match match_here r s with
          | Some (groups, rest) =>
              expand t groups ++
              sub_from r t (String.length s - String.length rest - 1) s'
          | None => String a (sub_from r t 0 s')
          end
      end
  end.

Definition sub (r : regex) (t : template) (s : string) : string :=
  sub_from r t 0 s.

(** Every character of [s] is in the class [k]. *)
Fixpoint all_match (k : cls) (s : string) : bool :=
  match s with
  | EmptyString => true
  | String a s' => cls_match k a && all_match k s'
  end.

(** [matches r m groups]: the text [m] is an instance of the pattern [r]
    with the given captures (what a match means, apart from the order in
    which the matcher tries the instances). *)
Inductive matches : regex -> string -> list string -> Prop :=
| matches_nil : matches [] EmptyString []
| matches_one k r a m groups :
    cls_match k a = true -> matches r m groups ->
    matches (One k :: r) (String a m) groups
| matches_plus k r run m groups :
    run <> EmptyString -> all_match k run = true -> matches r m groups ->
    matches (Plus k :: r) (run ++ m) groups
| matches_group k r run m groups :
    run <> EmptyString -> all_match k run = true -> matches r m groups ->
    matches (GroupPlus k :: r) (run ++ m) (run :: groups).

End Re.

(* ------------------------------------------------------------------ *)
(** ** [smart_suggestions.py]: the repair pass *)

Module Suggestions.
Import Re.

Local Open Scope string_scope.
Local Open Scope char_scope.

(** [\(([^=]+)OP([^)]+)\)] for the operator text [op] *)
Definition predicate_pattern (op : list ascii) : regex :=
  ([One (Chr "("); GroupPlus (NotChr "=")] ++ map (fun a => One (Chr a)) op ++
   [GroupPlus (NotChr ")"); One (Chr ")")])%list.

(** [\)\s+WORD\s+\(] *)
Definition connective_pattern (word : list ascii) : regex :=
  ([One (Chr ")"); Plus Space] ++ map (fun a => One (Chr a)) word ++
   [Plus Space; One (Chr "(")])%list.

Definition pat_gt : regex := predicate_pattern [">"].
Definition pat_ge : regex := predicate_pattern [">"; "="].
Definition pat_lt : regex := predicate_pattern ["<"].
Definition pat_le : regex := predicate_pattern ["<"; "="].
Definition pat_ne : regex := predicate_pattern ["!"; "="].
Definition pat_and : regex := connective_pattern ["A"; "N"; "D"].
Definition pat_or : regex := connective_pattern ["O"; "R"].

(** [(\1=\2+)], [(\1=-\2)], [(\1!\2)] *)
Definition tpl_plus : template :=
  [Lit "("; Group 1; Lit "="; Group 2; Lit "+)"]%string.
Definition tpl_minus : template :=
  [Lit "("; Group 1; Lit "=-"; Group 2; Lit ")"]%string.
Definition tpl_not : template :=
  [Lit "("; Group 1; Lit "!"; Group 2; Lit ")"]%string.

(** [_fix_rets_operators] *)
Definition _fix_rets_operators (query : string) : string :=
  let query := sub pat_gt tpl_plus query in
  let query := sub pat_ge tpl_plus query in
  let query := sub pat_lt tpl_minus query in
  let query := sub pat_le tpl_minus query in
  let query := sub pat_ne tpl_not query in
  let query := sub pat_and [Lit "),("%string] query in
  let query := sub pat_or [Lit ")|("%string] query in
  query.

(** *** Filters in native syntax *)

(** [s] starts with [)], white space, [word], white space, [(]. *)
Definition connective_at (word s : string) : bool :=
  match s with
  | String ")" s1 =>
      let s2 := PyStr.lstrip s1 in
      (String.length s2 <? String.length s1)%nat &&
      String.prefix word s2 &&
      let s3 := substring (String.length word)
                          (String.length s2 - String.length word) s2 in
      let s4 := PyStr.lstrip s3 in
      (String.length s4 <? String.length s3)%nat && String.prefix "(" s4
  | _ => false
  end.

(** [word] stands between two predicate groups somewhere in [s]. *)
Fixpoint has_connective (word s : string) : bool :=
  connective_at word s ||
  match s with
  | String _ s' => has_connective word s'
  | EmptyString => false
  end.

(** None of the conventional operators occurs: no [>] (hence no [>=]), no
    [<] (hence no [<=]), no [!=], and neither [AND] nor [OR] between
    predicate groups. *)
Definition native (s : string) : bool :=
  negb (PyStr.contains ">" s) && negb (PyStr.contains "<" s) &&
  negb (PyStr.contains "!=" s) &&
  negb (has_connective "AND" s) && negb (has_connective "OR" s).

End Suggestions.

(* ------------------------------------------------------------------ *)
(** ** XML elements, as [xml.etree.ElementTree] presents them *)

Module Xml.

Local Open Scope string_scope.

Inductive Element :=
| Elem (tag : string) (attrib : PyDict.dict string) (text : option string)
       (children : list Element).

Definition tag (e : Element) : string :=
  match e with Elem t _ _ _ => t end.
Definition attrib (e : Element) : PyDict.dict string :=
  match e with Elem _ a _ _ => a end.
Definition text (e : Element) : option string :=
  match e with Elem _ _ x _ => x end.
Definition children (e : Element) : list Element :=
  match e with Elem _ _ _ cs => cs end.

(** [if elem.text:] *)
Definition has_text (e : Element) : bool :=
  match text e with Some s => PyStr.truthy s | None => false end.

(** [if elem.attrib:] *)
Definition has_attrib (e : Element) : bool :=
  match attrib e with [] => false | _ => true end.

(** [root.iter()]: the element and all its descendants, in document
    order. *)
Fixpoint iter (e : Element) : list Element :=
  match e with
  | Elem _ _ _ cs =>
      e :: (fix iter_all (l : list Element) : list Element :=
              match l with
              | [] => []
              | c :: l' => (iter c ++ iter_all l')%list
              end) cs
  end.

(** [root.findall('.//TAG')]: the descendants with that tag. *)
Definition findall (name : string) (root : Element) : list Element :=
  filter (fun e => String.eqb (tag e) name) (tl (iter root)).

(** [root.find('.//TAG')]: the first of them, or [None]. *)
Definition find (name : string) (root : Element) : option Element :=
  hd_error (findall name root).

End Xml.

(* ------------------------------------------------------------------ *)
(** ** HTTP through [requests], and effects *)

Module Http.

Inductive auth :=
| BasicAuth (username password : string)
| DigestAuth (username password : string).

Inductive verb := GET | POST.

(** What goes on the wire.  A [url] of [None] stands for a call made with
    an attribute that was never set. *)
Record request := mkRequest {
  method : verb;
  url : option string;
  params : PyDict.dict string;   (* query parameters, or the form of a POST *)
  headers : PyDict.dict string;
  req_auth : option auth;
  timeout : option Z
}.

(** The values of the JSON keys the clients read: a string or [null].
    An answer that holds another value under such a key is not among the
    answers of this model; what [_make_api_request] does with a token of
    another kind is in [Reso.token_value]. *)
Inductive json_value :=
| JNull
| JString (s : string).

(** A JSON document as [response.json()] returns it: an object, [None]
    for [null], or another value (a string, a number, [True] or [False],
    a list); only an object has [.get]. *)
Inductive json_doc :=
| JObject (fields : PyDict.dict json_value)
| JNullDoc
| JOther.

Record response := mkResponse {
  status_code : Z;
  text : string;
  resp_headers : PyDict.dict string;   (* keys in lower case *)
  json : Py.outcome json_doc           (* [response.json()] *)
}.

(** The servers: the answer to the [n]-th request made, or the exception
    [requests] raises for it (time-out, connection error, ...). *)
Definition network := nat -> request -> Py.outcome response.

(** [requests.Session]: the headers and credentials sent with every
    request of the session (the defaults of the library are left out). *)
Record Session := mkSession {
  session_headers : PyDict.dict string;
  session_auth : option auth
}.

(** [d.update(other)] *)
Definition update {V} (d other : PyDict.dict V) : PyDict.dict V :=
  fold_left (fun acc kv => PyDict.set (fst kv) (snd kv) acc) other d.

(** No request is answered with status 200: each one is refused with
    another status or ends in an exception. *)
Definition rejecting (net : network) : Prop :=
  forall n r resp, net n r = Py.Ret resp -> status_code resp <> 200%Z.

(** No request ends in an exception. *)
Definition answering (net : network) : Prop :=
  forall n r, exists resp, net n r = Py.Ret resp.

End Http.

(** Computations with a state that may raise: the state is kept when an
    exception passes, as for the attributes of a Python object. *)
Module Eff.

Section WithState.
Variable S : Type.

Definition M (A : Type) := S -> Py.outcome A * S.

Definition ret {A} (a : A) : M A := fun s => (Py.Ret a, s).

Definition raise {A} (e : Py.exn) : M A := fun s => (Py.Raise e, s).

Definition bind {A B} (m : M A) (k : A -> M B) : M B :=
  fun s => match m s with
           | (Py.Ret a, s') => k a s'
           | (Py.Raise e, s') => (Py.Raise e, s')
           end.

(** [try: m except Exception as e: handler e] *)
Definition try_except {A} (m : M A) (handler : Py.exn -> M A) : M A :=
  fun s => match m s with
           | (Py.Ret a, s') => (Py.Ret a, s')
           | (Py.Raise e, s') => handler e s'
           end.

(** [try: m except requests.exceptions.RequestException: handler]; any
    other exception passes. *)
Definition except_request {A} (m : M A) (handler : M A) : M A :=
  fun s => match m s with
           | (Py.Raise (Py.RequestException _), s') => handler s'
           | r => r
           end.

Definition read : M S := fun s => (Py.Ret s, s).

Definition write (s : S) : M unit := fun _ => (Py.Ret tt, s).

Definition lift {A} (o : Py.outcome A) : M A := fun s => (o, s).

End WithState.

Arguments ret {S A} a.
Arguments raise {S A} e.
Arguments read {S}.

End Eff.

Declare Scope eff_scope.
Delimit Scope eff_scope with eff.
Notation "x <- m ;; k" := (Eff.bind m (fun x => k))
  (at level 61, m at next level, right associativity) : eff_scope.
Notation "m ;;; k" := (Eff.bind m (fun _ => k))
  (at level 61, right associativity) : eff_scope.

(* ------------------------------------------------------------------ *)
(** ** [clients/rets_client.py]: [RETSClient] *)

Module Rets.
Import Http.

Local Open Scope string_scope.
Local Open Scope eff_scope.

(** [str(n)] for an [int] *)
Definition str_int (n : Z) : string := NilZero.string_of_int (Z.to_int n).

(** The truth value of an attribute that holds [None] or a string. *)
Definition truthy_opt (o : option string) : bool :=
  match o with Some s => PyStr.truthy s | None => false end.

Record RETSClient := mkClient {
  url : string;
  username : string;
  password : string;
  user_agent : string;
  user_agent_password : string;
  rets_version : string;
  session : option Session;
  login_url : option string;
  metadata_url : option string;
  search_url : option string;
  connected : bool
}.

(** [RETSClient.__init__] *)
Definition RETSClient_init (url username password user_agent
                            user_agent_password rets_version : string)
  : RETSClient :=
  mkClient (PyStr.rstrip_char "/" url) username password user_agent
           user_agent_password rets_version None None None None false.

Definition set_session (c : RETSClient) (s : option Session) : RETSClient :=
  mkClient (url c) (username c) (password c) (user_agent c)
           (user_agent_password c) (rets_version c) s (login_url c)
           (metadata_url c) (search_url c) (connected c).

Definition set_metadata_url (c : RETSClient) (u : option string) :=
  mkClient (url c) (username c) (password c) (user_agent c)
           (user_agent_password c) (rets_version c) (session c) (login_url c)
           u (search_url c) (connected c).

Definition set_search_url (c : RETSClient) (u : option string) :=
  mkClient (url c) (username c) (password c) (user_agent c)
           (user_agent_password c) (rets_version c) (session c) (login_url c)
           (metadata_url c) u (connected c).

Definition set_connected (c : RETSClient) (b : bool) :=
  mkClient (url c) (username c) (password c) (user_agent c)
           (user_agent_password c) (rets_version c) (session c) (login_url c)
           (metadata_url c) (search_url c) b.

(** [c'] is [c] with possibly another HTTP session. *)
Definition same_account (c c' : RETSClient) : Prop :=
  c' = set_session c (session c').

(** The state the methods run in: the client object and the requests sent
    so far, oldest first. *)
Record World := mkWorld {
  self : RETSClient;
  wire : list request
}.

(** The request a session sends for a [get] with a time-out of 30 s. *)
Definition session_request (s : Session) (u : option string)
           (params : PyDict.dict string) : request :=
  mkRequest GET u params (session_headers s) (session_auth s) (Some 30%Z).

(** The metadata request of a client for one level of the cascade. *)
Definition metadata_query (c : RETSClient) (s : Session) (type id : string)
  : request :=
  session_request s (metadata_url c) [("Type", type); ("ID", id)].

Definition M := Eff.M World.

Definition get_self : M RETSClient :=
  w <- Eff.read ;; Eff.ret (self w).

Definition put_self (c : RETSClient) : M unit :=
  w <- Eff.read ;; Eff.write (mkWorld c (wire w)).

(** *** Parsed metadata *)

(** An entry of [metadata['system']]: an attribute dictionary or a text. *)
Inductive system_value :=
| SysAttrib (a : PyDict.dict string)
| SysText (s : string).

(** The dictionary [_parse_metadata_response] returns; its four keys are
    always present. *)
Record Metadata := mkMetadata {
  system : PyDict.dict system_value;
  resources : list (PyDict.dict string);
  classes : list (PyDict.dict string);
  fields : list (PyDict.dict string)
}.

(** A record of a search result: column name to value or [None]. *)
Definition Row := PyDict.dict (option string).

(** *** The levels of the metadata cascade *)

Inductive level :=
| System
| Resource
| Class (resource_name : string)
| Table (resource_name class_name : string).

(** The [Type] and [ID] parameters [get_metadata] sends for a level. *)
Definition level_type (l : level) : string :=
  match l with
  | System => "METADATA-SYSTEM"
  | Resource => "METADATA-RESOURCE"
  | Class _ => "METADATA-CLASS"
  | Table _ _ => "METADATA-TABLE"
  end.

Definition level_id (l : level) : string :=
  match l with
  | System => "*"
  | Resource => "0"
  | Class resource_name => resource_name
  | Table resource_name class_name => resource_name ++ ":" ++ class_name
  end.

(** The key of [metadata_result] under which [get_metadata] stores the
    answer for a level. *)
Definition level_key (l : level) : string :=
  match l with
  | System => "SYSTEM"
  | Resource => "RESOURCE"
  | Class resource_name => "CLASS_" ++ resource_name
  | Table resource_name class_name =>
      "TABLE_" ++ resource_name ++ "_" ++ class_name
  end.

(** The request of client [c] with session [s] for a level. *)
Definition level_query (c : RETSClient) (s : Session) (l : level) : request :=
  metadata_query c s (level_type l) (level_id l).

(** An answer, as opposed to an exception of the transport. *)
Definition answered (la : level * Py.outcome response) : bool :=
  match snd la with
  | Py.Ret _ => true
  | Py.Raise _ => false
  end.

Section WithLibraries.

(** [ET.fromstring]: the root element, or [None] where it raises
    [ParseError]. *)
Variable ET_fromstring : string -> option Xml.Element.

(** [chr(int(s))], which raises [ValueError] on text that is not a number
    of a character. *)
Variable chr_int : string -> Py.outcome ascii.

(** The servers behind [requests]. *)
Variable net : network.

(** [self.session.get(url, params=params, timeout=30)] *)
Definition session_get (u : option string) (params : PyDict.dict string)
  : M response :=
  w <- Eff.read ;;
  match session (self w) with
  | None => Eff.raise (Py.AttributeError "'NoneType' object has no attribute 'get'")
  | Some s =>
      let r := session_request s u params in
      Eff.write (mkWorld (self w) (wire w ++ [r])) ;;;
      Eff.lift (net (List.length (wire w)) r)
  end.

(** *** [_parse_login_response] *)

(** One turn of the loop over [root.iter()]. *)
Definition login_element (c : RETSClient) (elem : Xml.Element) : RETSClient :=
  let tag_lower := PyStr.lower (Xml.tag elem) in
  let action := PyDict.get "Action" (Xml.attrib elem) in
  let is_action a :=
    match action with Some v => String.eqb v a | None => false end in
  if PyStr.contains "metadata" tag_lower || is_action "GetMetadata" then
    if Xml.has_text elem then set_metadata_url c (Xml.text elem) else c
  else if PyStr.contains "search" tag_lower || is_action "Search" then
    if Xml.has_text elem then set_search_url c (Xml.text elem) else c
  else if PyStr.contains "getmetadata" tag_lower then
    if Xml.has_text elem then set_metadata_url c (Xml.text elem) else c
  else c.

(** One turn of the loop over the lines of a response that is not XML. *)
Definition login_line (c : RETSClient) (line : string) : RETSClient :=
  let line_stripped := PyStr.strip line in
  if PyStr.startswith "GetMetadata=" line_stripped then
    set_metadata_url c (Some (PyStr.replace "GetMetadata=" "" line_stripped))
  else if PyStr.startswith "Search=" line_stripped then
    set_search_url c (Some (PyStr.replace "Search=" "" line_stripped))
  else if PyStr.contains "getmetadata" (PyStr.lower line) then
    match PyStr.search_http_url line with
    | Some u => set_metadata_url c (Some u)
    | None => c
    end
  else if PyStr.contains "search=" (PyStr.lower line) then
    match PyStr.search_http_url line with
    | Some u => set_search_url c (Some u)
    | None => c
    end
  else c.

Definition _parse_login_response (response_text : string) (c : RETSClient)
  : RETSClient :=
  let c1 :=
    match ET_fromstring response_text with
    | Some root => fold_left login_element (Xml.iter root) c
    | None =>
        fold_left login_line (PyStr.split PyStr.newline response_text) c
    end in
  let base_url :=
    PyStr.replace "/rets/login.ashx" ""
                  (PyStr.replace "/login.ashx" "" (url c1)) in
  let c2 :=
    if negb (truthy_opt (metadata_url c1))
    then set_metadata_url c1 (Some (base_url ++ "/rets/GetMetadata.ashx"))
    else c1 in
  if negb (truthy_opt (search_url c2))
  then set_search_url c2 (Some (base_url ++ "/rets/Search.ashx"))
  else c2.

(** *** [connect] *)

Definition login_endpoints : list string :=
  ["/login"; "/Login"; "/RETS/Login"; "/rets/login"; "/Login.ashx";
   "/login.ashx"].

(** How a turn of a loop ends: the method returns, the loop breaks, or
    the next turn starts. *)
Inductive flow :=
| Return (b : bool)
| Break
| Continue.

(** The end of a successful login: parse the response, set the flag,
    [return True]. *)
Definition login_succeeded (r : response) : M flow :=
  c <- get_self ;;
  put_self (set_connected (_parse_login_response (text r) c) true) ;;;
  Eff.ret (Return true).

(** The attempt on the base URL for Matrix servers; [Continue] stands for
    going on with the endpoints. *)
Definition matrix_attempt : M flow :=
  c <- get_self ;;
  if PyStr.contains "matrix" (PyStr.lower (url c)) then
    Eff.except_request
      (login_response <- session_get (Some (url c)) [] ;;
       if (status_code login_response =? 200)%Z
       then login_succeeded login_response
       else Eff.ret Continue)
      (Eff.ret Continue)
  else Eff.ret Continue.

(** One turn of the loop over [login_endpoints]. *)
Definition endpoint_attempt (endpoint : string) : M flow :=
  c <- get_self ;;
  let ashx := PyStr.endswith ".ashx" (url c) in
  Eff.except_request
    (if ashx && negb (String.eqb endpoint (hd "" login_endpoints))
     then Eff.ret Break
     else
       let login_url := if ashx then url c else url c ++ endpoint in
       login_response <- session_get (Some login_url) [] ;;
       if (status_code login_response =? 200)%Z
       then login_succeeded login_response
       else if (status_code login_response =? 401)%Z
       then Eff.ret (if ashx then Break else Continue)
       else Eff.ret (if ashx then Break else Continue))
    (Eff.ret (if ashx then Break else Continue)).

(** The loop over [login_endpoints]; [None] when it ends or breaks without
    a [return]. *)
Fixpoint endpoint_loop (endpoints : list string) : M (option bool) :=
  match endpoints with
  | [] => Eff.ret None
  | endpoint :: rest =>
      f <- endpoint_attempt endpoint ;;
      match f with
      | Return b => Eff.ret (Some b)
      | Break => Eff.ret None
      | Continue => endpoint_loop rest
      end
  end.

(** The loop over the authentication methods. *)
Fixpoint auth_loop (auth_methods : list auth) : M bool :=
  match auth_methods with
  | [] => Eff.ret false
  | auth_method :: rest =>
      c <- get_self ;;
      match session c with
      | None => Eff.raise (Py.AttributeError "'NoneType' object has no attribute 'auth'")
      | Some s =>
          put_self (set_session c
                      (Some (mkSession (session_headers s) (Some auth_method)))) ;;;
          m <- matrix_attempt ;;
          match m with
          | Return b => Eff.ret b
          | Break | Continue =>
              e <- endpoint_loop login_endpoints ;;
              match e with
              | Some b => Eff.ret b
              | None => auth_loop rest
              end
          end
      end
  end.

(** [RETSClient.connect] *)
Definition connect : M bool :=
  Eff.try_except
    (c <- get_self ;;
     let headers :=
       [("User-Agent", user_agent c); ("RETS-Version", rets_version c);
        ("Accept", "text/xml, application/xml, text/plain, */*")] in
     let headers :=
       if PyStr.truthy (user_agent_password c)
       then PyDict.set "RETS-UA-Authorization" (user_agent_password c) headers
       else headers in
     put_self (set_session c (Some (mkSession (update [] headers) None))) ;;;
     auth_loop [BasicAuth (username c) (password c);
                DigestAuth (username c) (password c)])
    (fun _ => Eff.ret false).

(** *** [_parse_metadata_response] *)

(** The dictionary built from the children of an element:
    [info.update(child.attrib)] or [info[child.tag] = child.text]. *)
Definition children_info (elem : Xml.Element) : PyDict.dict string :=
  fold_left
    (fun info child =>
       if Xml.has_attrib child then update info (Xml.attrib child)
       else match Xml.text child with
            | Some t => if PyStr.truthy t then PyDict.set (Xml.tag child) t info
                        else info
            | None => info
            end)
    (Xml.children elem) [].

(** What an element contributes to a list of descriptors: its attributes,
    or else what its children give when that is not empty. *)
Definition element_info (elem : Xml.Element) : option (PyDict.dict string) :=
  if Xml.has_attrib elem then Some (Xml.attrib elem)
  else match children_info elem with
       | [] => None
       | info => Some info
       end.

Definition append_info (l : list (PyDict.dict string)) (elem : Xml.Element) :=
  match element_info elem with
  | Some info => (l ++ [info])%list
  | None => l
  end.

(** One turn of the loop over [root.iter()]. *)
Definition metadata_element (m : Metadata) (elem : Xml.Element) : Metadata :=
  let tag_lower := PyStr.lower (Xml.tag elem) in
  if PyStr.contains "system" tag_lower then
    let sys :=
      if Xml.has_attrib elem
      then update (system m)
                  (map (fun kv => (fst kv, SysText (snd kv))) (Xml.attrib elem))
      else system m in
    let sys :=
      fold_left
        (fun sys child =>
           if Xml.has_attrib child
           then PyDict.set (Xml.tag child) (SysAttrib (Xml.attrib child)) sys
           else match Xml.text child with
                | Some t =>
                    if PyStr.truthy t
                    then PyDict.set (Xml.tag child) (SysText t) sys else sys
                | None => sys
                end)
        (Xml.children elem) sys in
    mkMetadata sys (resources m) (classes m) (fields m)
  else if PyStr.contains "resource" tag_lower then
    mkMetadata (system m) (append_info (resources m) elem) (classes m)
               (fields m)
  else if PyStr.contains "class" tag_lower then
    mkMetadata (system m) (resources m) (append_info (classes m) elem)
               (fields m)
  else if existsb (fun field_tag => PyStr.contains field_tag tag_lower)
                  ["field"; "table"; "column"] then
    mkMetadata (system m) (resources m) (classes m)
               (append_info (fields m) elem)
  else m.

Definition _parse_metadata_response (response_text : string) : Metadata :=
  match ET_fromstring response_text with
  | Some root =>
      fold_left metadata_element (Xml.iter root) (mkMetadata [] [] [] [])
  | None =>
      mkMetadata [("raw_response", SysText (PyStr.take 500 response_text))]
                 [] [] []
  end.

(** *** [get_metadata] *)

(** [for x in xs: acc = f acc x], where a turn may raise. *)
Fixpoint for_each {A B} (f : B -> A -> M B) (xs : list A) (acc : B) : M B :=
  match xs with
  | [] => Eff.ret acc
  | x :: xs' => acc' <- f acc x ;; for_each f xs' acc'
  end.

(** [self.session.get(self.metadata_url, params=..., timeout=30)] *)
Definition metadata_request (type id : string) : M response :=
  c <- get_self ;;
  session_get (metadata_url c) [("Type", type); ("ID", id)].

(** Level 4: the table metadata of one class. *)
Definition table_level (resource_name : string)
           (metadata_result : PyDict.dict Metadata)
           (class_info : PyDict.dict string) : M (PyDict.dict Metadata) :=
  let class_name :=
    match PyDict.get "ClassName" class_info with Some n => n | None => "" end in
  if PyStr.truthy class_name then
    table_response <-
      metadata_request "METADATA-TABLE" (resource_name ++ ":" ++ class_name) ;;
    if (status_code table_response =? 200)%Z then
      Eff.ret (PyDict.set ("TABLE_" ++ resource_name ++ "_" ++ class_name)
                          (_parse_metadata_response (text table_response))
                          metadata_result)
    else Eff.ret metadata_result
  else Eff.ret metadata_result.

(** Level 3: the class metadata of one resource, then its tables. *)
Definition class_level (metadata_result : PyDict.dict Metadata)
           (resource : PyDict.dict string) : M (PyDict.dict Metadata) :=
  let resource_name :=
    match PyDict.get "ResourceID" resource with Some n => n | None => "" end in
  if PyStr.truthy resource_name then
    class_response <- metadata_request "METADATA-CLASS" resource_name ;;
    if (status_code class_response =? 200)%Z then
      let class_metadata := _parse_metadata_response (text class_response) in
      for_each (table_level resource_name) (classes class_metadata)
               (PyDict.set ("CLASS_" ++ resource_name) class_metadata
                           metadata_result)
    else Eff.ret metadata_result
  else Eff.ret metadata_result.

(** The body of the [try] of [get_metadata]. *)
Definition get_metadata_body : M (option (PyDict.dict Metadata)) :=
  response <- metadata_request "METADATA-SYSTEM" "*" ;;
  if (status_code response =? 200)%Z then
    let metadata_result :=
      PyDict.set "SYSTEM" (_parse_metadata_response (text response)) [] in
    resource_response <- metadata_request "METADATA-RESOURCE" "0" ;;
    metadata_result <-
      (if (status_code resource_response =? 200)%Z then
         let resource_metadata :=
           _parse_metadata_response (text resource_response) in
         for_each class_level (resources resource_metadata)
                  (PyDict.set "RESOURCE" resource_metadata metadata_result)
       else Eff.ret metadata_result) ;;
    Eff.ret (Some metadata_result)
  else Eff.ret None.

Definition usable (c : RETSClient) : bool :=
  connected c && match session c with Some _ => true | None => false end.

(** [RETSClient.get_metadata] *)
Definition get_metadata : M (option (PyDict.dict Metadata)) :=
  c <- get_self ;;
  if negb (usable c) then Eff.ret None
  else Eff.try_except get_metadata_body (fun _ => Eff.ret None).

(** *** The cascade, request by request *)

(** What the servers do when the requests for the levels [ls] follow one
    another, the first of them being request number [n]. *)
Fixpoint answers (c : RETSClient) (s : Session) (n : nat) (ls : list level)
  : list (level * Py.outcome response) :=
  match ls with
  | [] => []
  | l :: ls' => (l, net n (level_query c s l)) :: answers c s (S n) ls'
  end.

(** What one answer leaves in [metadata_result]: an answer with status 200
    is parsed and stored under the key of its level, any other changes
    nothing. *)
Definition store (md : PyDict.dict Metadata)
           (la : level * Py.outcome response) : PyDict.dict Metadata :=
  match snd la with
  | Py.Ret r =>
      if (status_code r =? 200)%Z
      then PyDict.set (level_key (fst la))
                      (_parse_metadata_response (text r)) md
      else md
  | Py.Raise _ => md
  end.

(** A part of the cascade, started in [w] with [md] accumulated, has asked
    for the levels [ls] and ended as [res]: either every request was
    answered and the part returns [md] with the answers stored in turn,
    or the last request raised and the part raises with it. *)
Definition ran (s : Session) (w : World) (md : PyDict.dict Metadata)
           (ls : list level)
           (res : Py.outcome (PyDict.dict Metadata) * World) : Prop :=
  let c := self w in
  let n := List.length (wire w) in
  snd res = mkWorld c (wire w ++ map (level_query c s) ls) /\
  match fst res with
  | Py.Ret md' =>
      forallb answered (answers c s n ls) = true /\
      md' = fold_left store (answers c s n ls) md
  | Py.Raise e =>
      exists ls0 l,
        ls = (ls0 ++ [l])%list /\
        forallb answered (answers c s n ls0) = true /\
        net (n + List.length ls0)%nat (level_query c s l) = Py.Raise e
  end.

(** Every level asked for was found in an answer of the level above it:
    a class level among the resources of a RESOURCE answer with status
    200, a table level among the classes of such an answer for its
    resource. *)
Definition discovered (tr : list (level * Py.outcome response)) : Prop :=
  (forall name,
      In (Class name) (map fst tr) ->
      exists r resource,
        In (Resource, Py.Ret r) tr /\ status_code r = 200%Z /\
        In resource (resources (_parse_metadata_response (text r))) /\
        PyDict.get "ResourceID" resource = Some name /\
        PyStr.truthy name = true) /\
  (forall name class_name,
      In (Table name class_name) (map fst tr) ->
      exists r class_info,
        In (Class name, Py.Ret r) tr /\ status_code r = 200%Z /\
        In class_info (classes (_parse_metadata_response (text r))) /\
        PyDict.get "ClassName" class_info = Some class_name /\
        PyStr.truthy class_name = true).

(** Every level that an answer with status 200 names was asked for. *)
Definition exhaustive (tr : list (level * Py.outcome response)) : Prop :=
  (forall r resource name,
      In (Resource, Py.Ret r) tr -> status_code r = 200%Z ->
      In resource (resources (_parse_metadata_response (text r))) ->
      PyDict.get "ResourceID" resource = Some name ->
      PyStr.truthy name = true ->
      In (Class name) (map fst tr)) /\
  (forall name r class_info class_name,
      In (Class name, Py.Ret r) tr -> status_code r = 200%Z ->
      In class_info (classes (_parse_metadata_response (text r))) ->
      PyDict.get "ClassName" class_info = Some class_name ->
      PyStr.truthy class_name = true ->
      In (Table name class_name) (map fst tr)).

(** *** [_parse_search_response] *)

Definition row_of_attrib (a : PyDict.dict string) : Row :=
  map (fun kv => (fst kv, Some (snd kv))) a.

(** The repair of a row with more values than headers: drop a leading
    empty field, then cut to the number of headers. *)
Definition align_values (headers values : list string) : list string :=
  if (List.length headers <? List.length values)%nat then
    let values :=
      match values with
      | v0 :: rest =>
          if String.eqb v0 "" || String.eqb (PyStr.strip v0) ""
          then rest else values
      | [] => values
      end in
    if (List.length headers <? List.length values)%nat
    then firstn (List.length headers) values
    else values
  else values.

(** [for j, header in enumerate(headers)] of the Matrix rows: the stripped
    value, [None] when it is empty or there is none. *)
Fixpoint matrix_row (headers values : list string) (row_data : Row) : Row :=
  match headers with
  | [] => row_data
  | header :: headers' =>
      match values with
      | v :: values' =>
          let value := if PyStr.truthy v then PyStr.strip v else "" in
          matrix_row headers' values'
            (PyDict.set header
                        (if PyStr.truthy value then Some value else None)
                        row_data)
      | [] => matrix_row headers' [] (PyDict.set header None row_data)
      end
  end.

(** The loop over the [DATA] elements of a Matrix response. *)
Fixpoint matrix_data (headers : list string) (delimiter : ascii)
         (data_elements : list Xml.Element) (results : list Row) : list Row :=
  match data_elements with
  | [] => results
  | data_elem :: rest =>
      match Xml.text data_elem with
      | Some data_text =>
          if PyStr.truthy data_text then
            let values :=
              align_values headers (PyStr.split delimiter data_text) in
            matrix_data headers delimiter rest
                        (results ++ [matrix_row headers values []])%list
          else if Xml.has_attrib data_elem then
            let results :=
              (results ++ [row_of_attrib (Xml.attrib data_elem)])%list in
            if (50 <=? List.length results)%nat then results
            else matrix_data headers delimiter rest results
          else matrix_data headers delimiter rest results
      | None =>
          if Xml.has_attrib data_elem then
            let results :=
              (results ++ [row_of_attrib (Xml.attrib data_elem)])%list in
            if (50 <=? List.length results)%nat then results
            else matrix_data headers delimiter rest results
          else matrix_data headers delimiter rest results
      end
  end.

(** The row of a raw line that has exactly one value per header. *)
Fixpoint line_row (headers values : list string) (row_data : Row) : Row :=
  match headers, values with
  | header :: headers', v :: values' =>
      let value := PyStr.strip v in
      line_row headers' values'
        (PyDict.set header (if PyStr.truthy value then Some value else None)
                    row_data)
  | _, _ => row_data
  end.

(** The loop over the raw lines, when no [DATA] element gave a row. *)
Fixpoint matrix_lines (headers : list string) (delimiter : ascii)
         (lines : list string) (results : list Row) : list Row :=
  match lines with
  | [] => results
  | line :: rest =>
      let line := PyStr.strip line in
      if negb (PyStr.truthy line) then
        matrix_lines headers delimiter rest results
      else if PyStr.contains (String delimiter "") line then
        if (Z.of_nat (PyStr.count delimiter line)
            =? Z.of_nat (List.length headers) - 1)%Z then
          let values := PyStr.split delimiter line in
          if (List.length values =? List.length headers)%nat then
            let results := (results ++ [line_row headers values []])%list in
            if (50 <=? List.length results)%nat then results
            else matrix_lines headers delimiter rest results
          else matrix_lines headers delimiter rest results
        else matrix_lines headers delimiter rest results
      else matrix_lines headers delimiter rest results
  end.

(** The delimiter of a Matrix response: tab unless the [DELIMITER] element
    says otherwise. *)
Definition matrix_delimiter (delimiter_elem : option Xml.Element)
  : Py.outcome ascii :=
  match delimiter_elem with
  | Some e =>
      match PyDict.get "value" (Xml.attrib e) with
      | Some delim_value =>
          if String.eqb delim_value "09" then Py.Ret PyStr.tab
          else if String.eqb delim_value "2C" then Py.Ret PyStr.comma
          else chr_int delim_value
      | None => Py.Ret PyStr.tab
      end
  | None => Py.Ret PyStr.tab
  end.

(** The Matrix branch: the rows found, possibly none. *)
Definition matrix_results (root : Xml.Element) (columns_text : string)
           (response_text : string) : Py.outcome (list Row) :=
  Py.bind (matrix_delimiter (Xml.find "DELIMITER" root)) (fun delimiter =>
    let headers := PyStr.split delimiter (PyStr.strip columns_text) in
    let results :=
      matrix_data headers delimiter (Xml.findall "DATA" root) [] in
    Py.Ret
      match results with
      | [] => matrix_lines headers delimiter
                           (PyStr.split PyStr.newline response_text) []
      | _ => results
      end).

(** The row of a [DATA] element of a standard response. *)
Definition standard_row (data_elem : Xml.Element) : Row :=
  fold_left
    (fun row_data child =>
       let stripped :=
         match Xml.text child with
         | Some t => if PyStr.truthy t then PyStr.strip t else ""
         | None => ""
         end in
       if PyStr.truthy stripped
       then PyDict.set (Xml.tag child) (Some stripped) row_data
       else if Xml.has_attrib child
            then update row_data (row_of_attrib (Xml.attrib child))
            else row_data)
    (Xml.children data_elem)
    (if Xml.has_attrib data_elem
     then update [] (row_of_attrib (Xml.attrib data_elem)) else []).

Definition non_empty_rows (rows : list Row) : list Row :=
  filter (fun r => match r with [] => false | _ => true end) rows.

(** [a or b] on lists *)
Definition list_or {A} (a b : list A) : list A :=
  match a with [] => b | _ => a end.

Definition listing_keys : list string :=
  ["listingid"; "mlsnumber"; "status"; "listprice"].

(** The rows of a response without [DATA] elements: the elements with
    more than two attributes, one of them a listing key. *)
Definition attribute_rows (root : Xml.Element) : list Row :=
  flat_map
    (fun elem =>
       let a := Xml.attrib elem in
       if Xml.has_attrib elem && (2 <? List.length a)%nat &&
          existsb (fun key =>
                     existsb (String.eqb (PyStr.lower key)) listing_keys)
                  (PyDict.keys a)
       then [row_of_attrib a] else [])
    (Xml.iter root).

(** [dict(zip(headers, values))] *)
Fixpoint dict_zip (headers values : list string) (row_data : Row) : Row :=
  match headers, values with
  | h :: headers', v :: values' =>
      dict_zip headers' values' (PyDict.set h (Some v) row_data)
  | _, _ => row_data
  end.

(** The fallback for a response that is not XML: delimited text with a
    header line. *)
Definition delimited_text_rows (response_text : string) : list Row :=
  let lines := PyStr.split PyStr.newline (PyStr.strip response_text) in
  match lines with
  | first :: ((_ :: _) as others) =>
      let headers := PyStr.split PyStr.tab first in
      let headers :=
        if (List.length headers =? 1)%nat
        then PyStr.split PyStr.comma first else headers in
      flat_map
        (fun line =>
           if PyStr.truthy (PyStr.strip line) then
             let values :=
               if PyStr.contains (String PyStr.tab "") line
               then PyStr.split PyStr.tab line
               else PyStr.split PyStr.comma line in
             if (List.length values =? List.length headers)%nat
             then [dict_zip headers values []] else []
           else [])
        others
  | _ => []
  end.

(** [RETSClient._parse_search_response] *)
Definition _parse_search_response (response_text : string)
  : Py.outcome (list Row) :=
  match ET_fromstring response_text with
  | Some root =>
      Py.bind
        (match Xml.find "COLUMNS" root with
         | Some columns_elem =>
             match Xml.text columns_elem with
             | Some columns_text =>
                 if PyStr.truthy columns_text
                 then matrix_results root columns_text response_text
                 else Py.Ret []
             | None => Py.Ret []
             end
         | None => Py.Ret []
         end)
        (fun results =>
           match results with
           | _ :: _ => Py.Ret results
           | [] =>
               let data_elements :=
                 list_or (Xml.findall "DATA" root)
                         (list_or (Xml.findall "RETS-DATA" root)
                                  (Xml.findall "data" root)) in
               match data_elements with
               | _ :: _ =>
                   Py.Ret (non_empty_rows (map standard_row data_elements))
               | [] => Py.Ret (attribute_rows root)
               end
           end)
  | None => Py.Ret (delimited_text_rows response_text)
  end.

(** *** [execute_query] *)

Definition default_query : string := "(ListingId=*)".

(** The parameters of the search request. *)
Definition search_params (resource class_name query : string) (limit : Z)
           (select : string) : PyDict.dict string :=
  let params :=
    [("SearchType", resource);
     ("Class", class_name);
     ("Query", if PyStr.truthy query && PyStr.truthy (PyStr.strip query)
               then PyStr.strip query else default_query);
     ("QueryType", "DMQL2");
     ("Count", "1");
     ("Format", "COMPACT-DECODED");
     ("Limit", str_int limit)] in
  if PyStr.truthy select then PyDict.set "Select" select params else params.

(** [RETSClient.execute_query] *)
Definition execute_query (resource class_name query : string) (limit : Z)
           (select : string) : M (option (list Row)) :=
  c <- get_self ;;
  if negb (usable c) then Eff.ret None
  else
    Eff.try_except
      (response <-
         session_get (search_url c)
                     (search_params resource class_name query limit select) ;;
       if (status_code response =? 200)%Z then
         results <- Eff.lift (_parse_search_response (text response)) ;;
         Eff.ret (Some results)
       else Eff.ret None)
      (fun _ => Eff.ret None).

End WithLibraries.

End Rets.

(* ------------------------------------------------------------------ *)
(** ** [clients/rets_client.py]: [RESOWebAPIClient] *)

Module Reso.
Import Http.

Local Open Scope string_scope.
Local Open Scope eff_scope.

Record RESOWebAPIClient := mkClient {
  base_url : string;
  token_url : string;
  client_id : string;
  client_secret : string;
  username : string;
  password : string;
  scope : string;
  access_token : option string;
  connected : bool;
  auth_method : string
}.

(** [RESOWebAPIClient.__init__] *)
Definition RESOWebAPIClient_init
           (base_url token_url client_id client_secret username password
            scope access_token : string) : RESOWebAPIClient :=
  mkClient (PyStr.rstrip_char "/" base_url) token_url client_id client_secret
           username password scope (Some access_token) false
           (if PyStr.truthy access_token then "token" else "oauth2").

Definition set_access_token (c : RESOWebAPIClient) (t : option string) :=
  mkClient (base_url c) (token_url c) (client_id c) (client_secret c)
           (username c) (password c) (scope c) t (connected c)
           (auth_method c).

Definition set_connected (c : RESOWebAPIClient) (b : bool) :=
  mkClient (base_url c) (token_url c) (client_id c) (client_secret c)
           (username c) (password c) (scope c) (access_token c) b
           (auth_method c).

Record World := mkWorld {
  self : RESOWebAPIClient;
  wire : list request
}.

Definition M := Eff.M World.

Definition get_self : M RESOWebAPIClient :=
  w <- Eff.read ;; Eff.ret (self w).

Definition put_self (c : RESOWebAPIClient) : M unit :=
  w <- Eff.read ;; Eff.write (mkWorld c (wire w)).

(** What [_make_api_request] returns apart from [None]: the decoded JSON,
    or [{'content': response.text}]. *)
Inductive api_result :=
| ApiJson (j : json_doc)
| ApiContent (text : string).

(** What [self.access_token] can hold.  The record above gives the
    attribute its declared type, [Optional[str]].  [connect] stores
    whatever the token answer carries under [access_token], which for a
    JSON answer can also be a number, [True] or [False], a list or a
    dict.  Of such a value [_make_api_request] asks three things: its
    truth value, its [str()], and whether it can be sliced and measured,
    as among these values only a list can. *)
Inductive token_value :=
| TokenNone
| TokenStr (s : string)
| TokenOther (truthy is_list : bool) (str : string).

(** The value the attribute of a client holds. *)
Definition held_token (c : RESOWebAPIClient) : token_value :=
  match access_token c with
  | None => TokenNone
  | Some s => TokenStr s
  end.

(** The request by which [connect] tests a token: [_make_api_request('')]
    asks for the base URL. *)
Definition token_probe (c : RESOWebAPIClient) (token : string) : request :=
  mkRequest GET (Some (PyStr.rstrip_char "/" (base_url c))) []
            [("Authorization", "Bearer " ++ token);
             ("Accept", "application/json");
             ("OData-Version", "4.0")]
            None (Some 30%Z).

Section WithNetwork.

Variable net : network.

(** [requests.get] and [requests.post] *)
Definition requests_send (r : request) : M response :=
  w <- Eff.read ;;
  Eff.write (mkWorld (self w) (wire w ++ [r])) ;;;
  Eff.lift (net (List.length (wire w)) r).

Definition truthy_token (t : option string) : bool :=
  match t with Some s => PyStr.truthy s | None => false end.

(** The truth value of what [self.access_token] holds. *)
Definition truthy_value (t : token_value) : bool :=
  match t with
  | TokenNone => false
  | TokenStr s => PyStr.truthy s
  | TokenOther truthy _ _ => truthy
  end.

(** [str(self.access_token)], as the f-strings take it. *)
Definition str_value (t : token_value) : string :=
  match t with
  | TokenNone => "None"
  | TokenStr s => s
  | TokenOther _ _ str => str
  end.

(** [self.access_token[:10]], [len(self.access_token)] and
    [self.access_token[-10:]], evaluated for the print that precedes the
    request: defined on a [str] and on a list.  A number, [True] and
    [False] raise [TypeError]; so does a dict, before Python 3.12, which
    raises [KeyError] from then on. *)
Definition sliced (t : token_value) : Py.outcome unit :=
  match t with
  | TokenStr _ => Py.Ret tt
  | TokenOther _ true _ => Py.Ret tt
  | TokenOther _ false _ =>
      Py.Raise (Py.TypeError "object is not subscriptable")
  | TokenNone =>
      Py.Raise (Py.TypeError "'NoneType' object is not subscriptable")
  end.

(** What [_make_api_request] returns for the decoded JSON: the document,
    which is [None] for [null]. *)
Definition json_result (j : json_doc) : option api_result :=
  match j with
  | JNullDoc => None
  | _ => Some (ApiJson j)
  end.

(** The body of [_make_api_request] on a client whose [access_token]
    holds [token]. *)
Definition make_api_request_holding (token : token_value)
           (endpoint : string) (params : PyDict.dict string)
  : M (option api_result) :=
  c <- get_self ;;
  if negb (truthy_value token) then Eff.ret None
  else
    let headers :=
      [("Authorization", "Bearer " ++ str_value token);
       ("Accept", "application/json");
       ("OData-Version", "4.0")] in
    let base_clean := PyStr.rstrip_char "/" (base_url c) in
    let endpoint_clean := PyStr.lstrip_char "/" endpoint in
    let url :=
      if PyStr.truthy endpoint_clean
      then base_clean ++ "/" ++ endpoint_clean else base_clean in
    Eff.lift (sliced token) ;;;
    Eff.try_except
      (response <-
         requests_send
           (mkRequest GET (Some url) params headers None (Some 30%Z)) ;;
       if (status_code response =? 200)%Z then
         let content_type :=
           match PyDict.get "content-type" (resp_headers response) with
           | Some t => t
           | None => ""
           end in
         if PyStr.contains "application/json" content_type then
           j <- Eff.lift (json response) ;;
           Eff.ret (json_result j)
         else Eff.ret (Some (ApiContent (text response)))
       else if (status_code response =? 401)%Z then Eff.ret None
       else if (status_code response =? 403)%Z then Eff.ret None
       else if (status_code response =? 404)%Z then Eff.ret None
       else Eff.ret None)
      (fun _ => Eff.ret None).

(** [RESOWebAPIClient._make_api_request], on the clients of the record
    above. *)
Definition _make_api_request (endpoint : string)
           (params : PyDict.dict string) : M (option api_result) :=
  c <- get_self ;;
  make_api_request_holding (held_token c) endpoint params.

(** [token_data.get('access_token')], which raises on a document that is
    not an object. *)
Definition get_access_token (token_data : json_doc)
  : Py.outcome (option string) :=
  match token_data with
  | JObject fields =>
      match PyDict.get "access_token" fields with
      | Some (JString s) => Py.Ret (Some s)
      | Some JNull => Py.Ret None
      | None => Py.Ret None
      end
  | JNullDoc =>
      Py.Raise (Py.AttributeError "'NoneType' object has no attribute 'get'")
  | JOther => Py.Raise (Py.AttributeError "object has no attribute 'get'")
  end.

(** [RESOWebAPIClient.connect] *)
Definition connect : M bool :=
  Eff.try_except
    (c <- get_self ;;
     if String.eqb (auth_method c) "token" && truthy_token (access_token c)
     then
       test_response <- _make_api_request "" [] ;;
       match test_response with
       | Some _ =>
           c <- get_self ;;
           put_self (set_connected c true) ;;;
           Eff.ret true
       | None => Eff.ret false
       end
     else
       if negb (PyStr.truthy (token_url c)) || negb (PyStr.truthy (client_id c))
       then Eff.ret false
       else
         let data :=
           [("grant_type", "password");
            ("client_id", client_id c);
            ("client_secret", client_secret c);
            ("username", username c);
            ("password", password c);
            ("scope", scope c)] in
         let headers :=
           [("Content-Type", "application/x-www-form-urlencoded");
            ("Accept", "application/json")] in
         response <-
           requests_send
             (mkRequest POST (Some (token_url c)) data headers None None) ;;
         if (status_code response =? 200)%Z then
           token_data <- Eff.lift (json response) ;;
           token <- Eff.lift (get_access_token token_data) ;;
           c <- get_self ;;
           put_self (set_access_token c token) ;;;
           if truthy_token token then
             c <- get_self ;;
             put_self (set_connected c true) ;;;
             Eff.ret true
           else Eff.ret false
         else Eff.ret false)
    (fun _ => Eff.ret false).

(** [RESOWebAPIClient.disconnect] *)
Definition disconnect : M unit :=
  c <- get_self ;;
  put_self (set_connected (set_access_token c None) false).

End WithNetwork.

End Reso.

(** Concrete servers, clients and documents used to exercise the
    statements below. *)
Module ClientExamples.
Import Http.

Local Open Scope string_scope.

Definition tabbed (fields : list string) : string :=
  String.concat (String PyStr.tab "") fields.

(** ["A\tB\tC"] and ["\tv1\tv2\tv3"] *)
Definition columns_text : string := tabbed ["A"; "B"; "C"].
Definition data_text : string := tabbed [""; "v1"; "v2"; "v3"].

(** A Matrix search response with one [DATA] row. *)
Definition matrix_document : Xml.Element :=
  Xml.Elem "RETS" [("ReplyCode", "0"); ("ReplyText", "Operation Successful")]
    None
    [Xml.Elem "DELIMITER" [("value", "09")] None [];
     Xml.Elem "COLUMNS" [] (Some columns_text) [];
     Xml.Elem "DATA" [] (Some data_text) []].

(** The record the row stands for. *)
Definition abc_row : Rets.Row :=
  [("A", Some "v1"); ("B", Some "v2"); ("C", Some "v3")].

Definition matrix_body : string := "<RETS>...</RETS>".

(** A parser that knows [matrix_body] and rejects every other text. *)
Definition parse_matrix_only (s : string) : option Xml.Element :=
  if String.eqb s matrix_body then Some matrix_document else None.

(** A parser for which no text is XML. *)
Definition parse_nothing (s : string) : option Xml.Element := None.

Definition no_chr (s : string) : Py.outcome ascii :=
  Py.Raise (Py.ValueError "invalid literal for int()").

Definition plain (status : Z) (body : string) : response :=
  mkResponse status body [] (Py.Raise (Py.ValueError "not JSON")).

(** A server that answers every request with [401]. *)
Definition net_unauthorized : network :=
  fun _ _ => Py.Ret (plain 401 "Unauthorized").

(** A server that answers the first request and lets the next ones time
    out. *)
Definition net_timeout_after_first : network :=
  fun n _ =>
    match n with
    | O => Py.Ret (plain 200 "SYSTEM")
    | _ => Py.Raise (Py.RequestException "Read timed out. (read timeout=30)")
    end.

(** A server that answers the first request and refuses the next ones. *)
Definition net_unavailable_after_first : network :=
  fun n _ =>
    match n with
    | O => Py.Ret (plain 200 "SYSTEM")
    | _ => Py.Ret (plain 503 "Service Unavailable")
    end.

(** A server whose search endpoint returns [matrix_body]. *)
Definition net_matrix : network :=
  fun _ _ => Py.Ret (plain 200 matrix_body).

Definition rets_fresh : Rets.RETSClient :=
  Rets.RETSClient_init "https://rets.example.com/" "agent" "secret"
                       "RETS-Dashboard/1.0" "" "1.7.2".

(** A client after a successful login. *)
Definition rets_connected : Rets.RETSClient :=
  Rets.mkClient "https://rets.example.com" "agent" "secret"
                "RETS-Dashboard/1.0" "" "1.7.2"
                (Some (mkSession [("User-Agent", "RETS-Dashboard/1.0")]
                                 (Some (BasicAuth "agent" "secret"))))
                None
                (Some "https://rets.example.com/rets/GetMetadata.ashx")
                (Some "https://rets.example.com/rets/Search.ashx")
                true.

(** A RESO client built with a token that has expired since. *)
Definition reso_expired : Reso.RESOWebAPIClient :=
  Reso.RESOWebAPIClient_init "https://api.example.com/reso/odata/" "" "" ""
                             "" "" "odata_api" "expired-token".

End ClientExamples.

(* ------------------------------------------------------------------ *)
(** ** [utils.py]: the rest of [CacheEntry] and the cache helpers *)

Module CacheTools.
Import Cache.

Section WithData.
Variable Data : Type.
Variable clock : nat -> Q.

(** [CacheEntry.get_age_seconds] *)
Definition get_age_seconds (e : CacheEntry Data) : Timed Q :=
  fun n => let (now, n') := time_time clock n in (now - created_at e, n').

(** [max(0, x)] *)
Definition max0 (x : Q) : Q := if Qltb 0 x then x else 0.

(** [CacheEntry.get_remaining_ttl_seconds] *)
Definition get_remaining_ttl_seconds (e : CacheEntry Data) : Timed Q :=
  fun n => let (age, n') := get_age_seconds e n in
           (max0 (inject_Z (ttl_seconds e) - age), n').

(** A dictionary as [to_dict] builds and [from_dict] reads them: what it
    holds under each of the three keys ([None] when the key is not in
    it), with the types [to_dict] gives the values, and the further keys
    it may have. *)
Record EntryDict := mkEntryDict {
  dict_data : option (PyVal Data);
  dict_created_at : option Q;
  dict_ttl_seconds : option Z;
  dict_others : list string
}.

(** [d[k]] *)
Definition subscript {V} (k : string) (v : option V) : Py.outcome V :=
  match v with
  | Some x => Py.Ret x
  | None => Py.Raise (Py.KeyError ("'" ++ k ++ "'"))
  end.

(** [CacheEntry.to_dict] *)
Definition to_dict (e : CacheEntry Data) : EntryDict :=
  mkEntryDict (Some (data e)) (Some (created_at e)) (Some (ttl_seconds e)) [].

(** [CacheEntry.from_dict]: the constructor, called once [data['data']]
    and [data['ttl_seconds']] are at hand, reads the clock; then
    [created_at] is overwritten with [data['created_at']]. *)
Definition from_dict (d : EntryDict) : Timed (Py.outcome (CacheEntry Data)) :=
  fun n =>
    match subscript "data" (dict_data d) with
    | Py.Raise e => (Py.Raise e, n)
    | Py.Ret dat =>
        match subscript "ttl_seconds" (dict_ttl_seconds d) with
        | Py.Raise e => (Py.Raise e, n)
        | Py.Ret ttl =>
            let (entry, n') := CacheEntry_init clock dat ttl n in
            match subscript "created_at" (dict_created_at d) with
            | Py.Raise e => (Py.Raise e, n')
            | Py.Ret created =>
                (Py.Ret (mkEntry (data entry) created (ttl_seconds entry)),
                 n')
            end
        end
    end.

(** Every key [from_dict] reads is in the dictionary. *)
Definition complete (d : EntryDict) : bool :=
  match dict_data d, dict_created_at d, dict_ttl_seconds d with
  | Some _, Some _, Some _ => true
  | _, _, _ => false
  end.

(** [clear_cache_by_type] *)
Definition clear_cache_by_type (cache_type : string) (s : Session Data)
  : Z * Session Data :=
  match ttl_cache s with
  | None => (0%Z, s)
  | Some c =>
      let keys_to_remove :=
        filter (fun key => PyStr.startswith (cache_type ++ ":") key)
               (PyDict.keys (cache c)) in
      (Z.of_nat (List.length keys_to_remove),
       mkSession
         (Some (fold_left (fun c key => snd (delete key c)) keys_to_remove c))
         (page s))
  end.

(** [k in ks] for a list of keys *)
Definition among (k : string) (ks : list string) : bool :=
  existsb (String.eqb k) ks.

(** The entry at position [i] of the cache is expired at clock read
    [n + i]: what the list comprehension of [clear_expired] finds. *)
Definition expired_at (now : Q) (e : CacheEntry Data) : bool :=
  Qltb (inject_Z (ttl_seconds e)) (now - created_at e).

End WithData.

End CacheTools.

(* ------------------------------------------------------------------ *)
(** ** [utils.py]: cache statistics *)

Module CacheStats.
Import Cache CacheTools.

Section WithData.
Variable Data : Type.
Variable clock : nat -> Q.

(** The dictionary [get_stats] returns.  The three ratios are floats in
    the source and exact rationals here. *)
Record Stats := mkStats {
  total_entries : Z;
  valid_entries : Z;
  expired_entries : Z;
  cache_size : Z;
  stats_max_size : Z;
  utilization_percent : Q;
  avg_age_seconds : Q;
  avg_ttl_seconds : Q
}.

(** [sum(1 for entry in self.cache.values() if entry.is_expired())] *)
Fixpoint count_expired (items : list (string * CacheEntry Data)) : Timed Z :=
  fun n =>
    match items with
    | [] => (0%Z, n)
    | (_, entry) :: rest =>
        let (e, n1) := is_expired clock entry n in
        let (k, n2) := count_expired rest n1 in
        (if e then (1 + k)%Z else k, n2)
    end.

(** [[entry.get_age_seconds() for entry in self.cache.values()]] *)
Fixpoint entry_ages (items : list (string * CacheEntry Data))
  : Timed (list Q) :=
  fun n =>
    match items with
    | [] => ([], n)
    | (_, entry) :: rest =>
        let (age, n1) := get_age_seconds clock entry n in
        let (ages, n2) := entry_ages rest n1 in
        (age :: ages, n2)
    end.

(** [sum] of numbers *)
Definition Qsum (l : list Q) : Q := fold_left Qplus l 0.
Definition Zsum (l : list Z) : Z := fold_left Z.add l 0%Z.

(** [TTLCache.get_stats] *)
Definition get_stats (c : TTLCache Data) : Timed Stats :=
  fun n =>
    let total_entries := PyDict.len (cache c) in
    let (expired_entries, n1) := count_expired (cache c) n in
    let valid_entries := (total_entries - expired_entries)%Z in
    let (ages, n2) := entry_ages (cache c) n1 in
    let ttls := map (fun kv => ttl_seconds (snd kv)) (cache c) in
    (mkStats total_entries valid_entries expired_entries
             (PyDict.len (cache c)) (max_size c)
             (if (max_size c >? 0)%Z
              then (inject_Z (PyDict.len (cache c)) / inject_Z (max_size c))
                   * 100
              else 0)
             (match ages with
              | [] => 0
              | _ => Qsum ages / inject_Z (Z.of_nat (List.length ages))
              end)
             (match ttls with
              | [] => 0
              | _ => inject_Z (Zsum ttls)
                     / inject_Z (Z.of_nat (List.length ttls))
              end),
     n2).

(** [get_cache_stats]: [None] stands for the dictionary that only holds
    the error text [Cache not initialized]. *)
Definition get_cache_stats (s : Session Data) : Timed (option Stats) :=
  fun n =>
    match ttl_cache s with
    | None => (None, n)
    | Some c => let (stats, n') := get_stats c n in (Some stats, n')
    end.

End WithData.

End CacheStats.

(* ------------------------------------------------------------------ *)
(** ** [clients/rets_client.py]: browsing and leaving *)

Module RetsBrowse.
Import Http Rets.

Local Open Scope string_scope.
Local Open Scope eff_scope.

(** The keys of a parsed-metadata dictionary, which is what iterating over
    one yields. *)
Definition metadata_keys : list string :=
  ["system"; "resources"; "classes"; "fields"].

Definition default_resources : list string :=
  ["Property"; "Agent"; "Office"; "Media"; "Tour"].

(** What [get_resource_details] returns: the empty dictionary, or the
    classes and the fields. *)
Inductive resource_details :=
| NoDetails
| Details (classes fields : list (PyDict.dict string)).

(** The structure returned when nothing specific was found. *)
Definition basic_details (resource_name : string) : resource_details :=
  Details
    [[("name", resource_name); ("description", resource_name ++ " class")]]
    [[("name", "ID"); ("type", "Character");
      ("description", "Unique identifier")];
     [("name", "Status"); ("type", "Character");
      ("description", "Status field")];
     [("name", "ModificationTimestamp"); ("type", "DateTime");
      ("description", "Last modified")]].

(** [if not metadata] for what [get_metadata] returns *)
Definition no_metadata (m : option (PyDict.dict Metadata)) : bool :=
  match m with
  | None => true
  | Some [] => true
  | Some _ => false
  end.

(** [c'] is [c] after a login: the flag is set, both URLs hold a
    non-empty text, and nothing else has changed. *)
Definition logged_in (c c' : RETSClient) : Prop :=
  c' = set_connected
         (set_search_url (set_metadata_url c (metadata_url c'))
                         (search_url c')) true /\
  truthy_opt (metadata_url c') = true /\
  truthy_opt (search_url c') = true.

(** The last request on the wire was answered with status 200. *)
Definition answered_200 (net : network) (w : World) : Prop :=
  exists init r resp,
    wire w = (init ++ [r])%list /\
    net (List.length init) r = Py.Ret resp /\
    status_code resp = 200%Z.

(** [w'] has the requests of [w] and at most [k] more. *)
Definition grown (k : nat) (w w' : World) : Prop :=
  exists reqs, wire w' = (wire w ++ reqs)%list /\ (List.length reqs <= k)%nat.

Section WithLibraries.

Variable ET_fromstring : string -> option Xml.Element.
Variable net : network.

(** [RETSClient.get_resources].  The value under the key ['resources'],
    were there one, is a parsed-metadata dictionary: the loop runs over
    its keys, which are strings and are appended as they are. *)
Definition get_resources : M (list string) :=
  metadata <- get_metadata ET_fromstring net ;;
  if no_metadata metadata then Eff.ret []
  else
    let md := match metadata with Some md => md | None => [] end in
    let resources :=
      match PyDict.get "resources" md with
      | Some _ => metadata_keys
      | None => []
      end in
    Eff.ret (match resources with
             | [] => default_resources
             | _ => resources
             end).

(** [RETSClient.get_resource_details].  The items the two loops run over
    are keys of a parsed-metadata dictionary, hence strings: no item is a
    dictionary, and neither loop appends anything. *)
Definition get_resource_details (resource_name : string)
  : M resource_details :=
  metadata <- get_metadata ET_fromstring net ;;
  if no_metadata metadata then Eff.ret NoDetails
  else
    let md := match metadata with Some md => md | None => [] end in
    let items key :=
      match PyDict.get key md with
      | Some _ => metadata_keys
      | None => []
      end in
    let classes :=
      flat_map (fun _ : string => @nil (PyDict.dict string)) (items "classes") in
    let fields :=
      flat_map (fun _ : string => @nil (PyDict.dict string)) (items "fields") in
    Eff.ret (match classes, fields with
             | [], [] => basic_details resource_name
             | _, _ => Details classes fields
             end).

(** [self.session.get(url)] with no parameters and no time-out *)
Definition session_get_plain (s : Session) (u : string) : M response :=
  w <- Eff.read ;;
  let r := mkRequest GET (Some u) [] (session_headers s) (session_auth s)
                     None in
  Eff.write (mkWorld (self w) (wire w ++ [r])) ;;;
  Eff.lift (net (List.length (wire w)) r).

(** [RETSClient.disconnect] *)
Definition disconnect : M unit :=
  c <- get_self ;;
  match session c with
  | None => Eff.ret tt
  | Some s =>
      Eff.try_except
        (session_get_plain s (url c ++ "/logout") ;;; Eff.ret tt)
        (fun _ => Eff.ret tt) ;;;
      c' <- get_self ;;
      put_self (set_connected (set_session c' None) false)
  end.

End WithLibraries.

End RetsBrowse.

(* ------------------------------------------------------------------ *)
(** ** [clients/rets_client.py]: lookup values *)

Module RetsLookup.
Import Http Rets.

Local Open Scope string_scope.
Local Open Scope eff_scope.

(** The dictionary [_parse_lookup_response] returns; [error] is [None]
    when the key is absent. *)
Record LookupResult := mkLookupResult {
  field_name : string;
  values : PyDict.dict string;
  count : Z;
  error : option string
}.

(** [d.get(k, default)] *)
Definition get_or (k : string) (default : string) (d : PyDict.dict string)
  : string :=
  match PyDict.get k d with Some v => v | None => default end.

(** The first [Some] a function gives along a list: a loop left by
    [return] at the first hit. *)
Fixpoint find_map {A B} (f : A -> option B) (l : list A) : option B :=
  match l with
  | [] => None
  | x :: l' => match f x with
               | Some b => Some b
               | None => find_map f l'
               end
  end.

(** *** [_parse_lookup_response] *)

(** The loop over the children of a [LookupType] element, and what it
    adds to the values. *)
Definition lookup_type_entry (lookup_elem : Xml.Element)
  : option (string * string) :=
  let step (acc : option string * option string * option string)
           (child : Xml.Element) :=
    let '(value, long_value, short_value) := acc in
    if String.eqb (Xml.tag child) "Value"
    then (Xml.text child, long_value, short_value)
    else if String.eqb (Xml.tag child) "LongValue"
    then (value, Xml.text child, short_value)
    else if String.eqb (Xml.tag child) "ShortValue"
    then (value, long_value, Xml.text child)
    else acc in
  let '(value, long_value, short_value) :=
    fold_left step (Xml.children lookup_elem) (None, None, None) in
  match value with
  | Some v =>
      if PyStr.truthy v then
        let display_name :=
          if truthy_opt long_value
          then match long_value with Some l => l | None => v end
          else if truthy_opt short_value
          then match short_value with Some s => s | None => v end
          else v in
        Some (v, display_name)
      else None
  | None => None
  end.

Definition add_entry (entry : Xml.Element -> option (string * string))
           (lookup_values : PyDict.dict string) (elem : Xml.Element)
  : PyDict.dict string :=
  match entry elem with
  | Some (value, name) => PyDict.set value name lookup_values
  | None => lookup_values
  end.

(** The paths of the attribute patterns: a tag, or any element with a
    given attribute. *)
Inductive xpath :=
| ByTag (name : string)
| WithAttribute (name : string).

Definition findall_path (path : xpath) (root : Xml.Element)
  : list Xml.Element :=
  match path with
  | ByTag name => Xml.findall name root
  | WithAttribute name =>
      filter (fun e => PyDict.mem name (Xml.attrib e)) (tl (Xml.iter root))
  end.

Definition patterns_to_try : list (xpath * list string * list string) :=
  [(ByTag "LOOKUP_TYPE", ["Value"; "LookupValue"],
    ["LongValue"; "ShortValue"; "LookupName"]);
   (ByTag "LOOKUP", ["Value"; "LookupValue"],
    ["LongValue"; "ShortValue"; "LookupName"]);
   (ByTag "DATA", ["Value"; "LookupValue"],
    ["LongValue"; "ShortValue"; "LookupName"]);
   (WithAttribute "Value", ["Value"],
    ["LongValue"; "ShortValue"; "LookupName"]);
   (WithAttribute "LookupValue", ["LookupValue"],
    ["LongValue"; "ShortValue"; "LookupName"])].

(** The value of the first of [attrs] that is an attribute. *)
Fixpoint first_present (attrs : list string) (a : PyDict.dict string)
  : option string :=
  match attrs with
  | [] => None
  | attr :: rest =>
      match PyDict.get attr a with
      | Some v => Some v
      | None => first_present rest a
      end
  end.

(** The value of the first of [attrs] that is an attribute with a
    non-empty value, or else [default]. *)
Fixpoint first_truthy (attrs : list string) (a : PyDict.dict string)
         (default : string) : string :=
  match attrs with
  | [] => default
  | attr :: rest =>
      match PyDict.get attr a with
      | Some v => if PyStr.truthy v then v else first_truthy rest a default
      | None => first_truthy rest a default
      end
  end.

Definition attribute_entry (value_attrs name_attrs : list string)
           (elem : Xml.Element) : option (string * string) :=
  match first_present value_attrs (Xml.attrib elem) with
  | Some value =>
      if PyStr.truthy value
      then Some (value, first_truthy name_attrs (Xml.attrib elem) value)
      else None
  | None => None
  end.

(** The loop over [patterns_to_try], left as soon as a pattern gave a
    value. *)
Fixpoint try_patterns (patterns : list (xpath * list string * list string))
         (root : Xml.Element) (lookup_values : PyDict.dict string)
  : PyDict.dict string :=
  match patterns with
  | [] => lookup_values
  | (path, value_attrs, name_attrs) :: rest =>
      let lookup_values :=
        fold_left (add_entry (attribute_entry value_attrs name_attrs))
                  (findall_path path root) lookup_values in
      match lookup_values with
      | [] => try_patterns rest root lookup_values
      | _ => lookup_values
      end
  end.

Definition keyword_in (keywords : list string) (key : string) : bool :=
  existsb (fun keyword => PyStr.contains keyword (PyStr.lower key)) keywords.

(** The last resort: any element with attributes whose names look like
    values. *)
Definition any_attribute_entry (elem : Xml.Element)
  : option (string * string) :=
  if Xml.has_attrib elem then
    let possible_values :=
      flat_map (fun kv : string * string =>
                  if keyword_in ["value"; "code"; "id"] (fst kv)
                  then [snd kv] else [])
               (Xml.attrib elem) in
    let possible_names :=
      flat_map (fun kv : string * string =>
                  if keyword_in ["value"; "code"; "id"] (fst kv) then []
                  else if keyword_in ["name"; "long"; "short"; "desc"] (fst kv)
                  then [snd kv] else [])
               (Xml.attrib elem) in
    match possible_values with
    | value :: _ =>
        Some (value, match possible_names with
                     | name :: _ => name
                     | [] => value
                     end)
    | [] => None
    end
  else None.

Section WithLibraries.

Variable ET_fromstring : string -> option Xml.Element.
Variable net : network.

(** [RETSClient._parse_lookup_response] *)
Definition _parse_lookup_response (response_text field_name : string)
  : LookupResult :=
  match ET_fromstring response_text with
  | Some root =>
      let reply_code := get_or "ReplyCode" "0" (Xml.attrib root) in
      if negb (String.eqb reply_code "0") then
        mkLookupResult field_name [] 0
          (Some (get_or "ReplyText" "Unknown error" (Xml.attrib root)))
      else
        let lookup_values :=
          fold_left (add_entry lookup_type_entry)
                    (Xml.findall "LookupType" root) [] in
        let lookup_values :=
          match lookup_values with
          | [] => try_patterns patterns_to_try root lookup_values
          | _ => lookup_values
          end in
        let lookup_values :=
          match lookup_values with
          | [] => fold_left (add_entry any_attribute_entry) (Xml.iter root)
                            lookup_values
          | _ => lookup_values
          end in
        mkLookupResult field_name lookup_values (PyDict.len lookup_values)
                       None
  | None => mkLookupResult field_name [] 0 None
  end.

(** The search of [_get_lookup_name_for_field] in the metadata. *)
Definition lookup_name_in (metadata : PyDict.dict Metadata)
           (resource field_name : string) : option string :=
  find_map
    (fun item : string * Metadata =>
       let (metadata_type, metadata_content) := item in
       if PyStr.startswith "TABLE_" metadata_type &&
          PyStr.contains resource metadata_type
       then
         find_map
           (fun field =>
              let field_system_name := get_or "SystemName" "" field in
              let field_standard_name := get_or "StandardName" "" field in
              if String.eqb field_system_name field_name ||
                 String.eqb field_standard_name field_name
              then
                let lookup_name := get_or "LookupName" "" field in
                if PyStr.truthy lookup_name then Some lookup_name else None
              else None)
           (fields metadata_content)
       else None)
    metadata.

(** [RETSClient._get_lookup_name_for_field] *)
Definition _get_lookup_name_for_field (resource field_name : string)
  : M (option string) :=
  metadata <- get_metadata ET_fromstring net ;;
  match metadata with
  | None => Eff.ret None
  | Some [] => Eff.ret None
  | Some md => Eff.ret (lookup_name_in md resource field_name)
  end.

Definition lookup_attempts (resource lookup_name field_name : string)
  : list (PyDict.dict string) :=
  [[("Type", "METADATA-LOOKUP_TYPE"); ("ID", resource ++ ":" ++ lookup_name)];
   [("Type", "METADATA-LOOKUP_TYPE"); ("ID", lookup_name)];
   [("Type", "METADATA-LOOKUP"); ("ID", resource ++ ":" ++ lookup_name)];
   [("Type", "METADATA-LOOKUP"); ("ID", lookup_name)];
   [("Type", "METADATA-LOOKUP_TYPE"); ("ID", resource ++ ":" ++ field_name)];
   [("Type", "METADATA-LOOKUP"); ("ID", resource ++ ":" ++ field_name)]].

(** One turn of the loop over the attempts: the result to return, or
    [None] to go on. *)
Definition lookup_attempt (field_name : string)
           (attempt_params : PyDict.dict string) : M (option LookupResult) :=
  Eff.try_except
    (c <- get_self ;;
     response <- session_get net (metadata_url c) attempt_params ;;
     if (status_code response =? 200)%Z then
       let result := _parse_lookup_response (text response) field_name in
       match values result with
       | [] => Eff.ret None
       | _ => Eff.ret (Some result)
       end
     else Eff.ret None)
    (fun _ => Eff.ret None).

Fixpoint lookup_loop (field_name : string)
         (attempts : list (PyDict.dict string)) : M (option LookupResult) :=
  match attempts with
  | [] => Eff.ret None
  | attempt_params :: rest =>
      r <- lookup_attempt field_name attempt_params ;;
      match r with
      | Some result => Eff.ret (Some result)
      | None => lookup_loop field_name rest
      end
  end.

(** [RETSClient.get_lookup_values] *)
Definition get_lookup_values (resource field_name : string)
  : M (option LookupResult) :=
  c <- get_self ;;
  if negb (usable c) then Eff.ret None
  else
    Eff.try_except
      (lookup_name <- _get_lookup_name_for_field resource field_name ;;
       let lookup_name :=
         match lookup_name with
         | Some name => if PyStr.truthy name then name else field_name
         | None => field_name
         end in
       lookup_loop field_name
                   (lookup_attempts resource lookup_name field_name))
      (fun _ => Eff.ret None).

(** The fields [get_all_lookup_fields] lists from the metadata. *)
Definition lookup_fields_in (metadata : PyDict.dict Metadata)
           (resource class_name : string) : list string :=
  match PyDict.get ("TABLE_" ++ resource ++ "_" ++ class_name) metadata with
  | Some table_metadata =>
      flat_map
        (fun field =>
           let lookup_name := get_or "LookupName" "" field in
           let interpretation := get_or "Interpretation" "" field in
           let data_type := get_or "DataType" "" field in
           if PyStr.truthy lookup_name ||
              PyStr.contains "lookup" (PyStr.lower interpretation) ||
              String.eqb data_type "Character"
           then
             let field_name :=
               get_or "SystemName" (get_or "StandardName" "" field) field in
             if PyStr.truthy field_name then [field_name] else []
           else [])
        (fields table_metadata)
  | None => []
  end.

(** [RETSClient.get_all_lookup_fields] *)
Definition get_all_lookup_fields (resource class_name : string)
  : M (list string) :=
  metadata <- get_metadata ET_fromstring net ;;
  match metadata with
  | None => Eff.ret []
  | Some [] => Eff.ret []
  | Some md => Eff.ret (lookup_fields_in md resource class_name)
  end.

End WithLibraries.

End RetsLookup.

(* ------------------------------------------------------------------ *)
(** ** Plain field names and values of a filter *)

Module Predicates.

Local Open Scope char_scope.

(** The characters with a meaning in a predicate group. *)
Definition reserved : list ascii := ["("; ")"; "="; ">"; "<"; "!"].

Definition plain_char (a : ascii) : bool :=
  negb (existsb (Ascii.eqb a) reserved).

Fixpoint every (p : ascii -> bool) (s : string) : bool :=
  match s with
  | EmptyString => true
  | String a s' => p a && every p s'
  end.

(** A non-empty text without reserved characters, such as a field name
    or a number. *)
Definition plain (s : string) : bool := PyStr.truthy s && every plain_char s.

(** The inside of a predicate group in native syntax: no closing
    parenthesis and none of [>], [<], [!]. *)
Definition native_body (s : string) : bool :=
  every (fun a => negb (existsb (Ascii.eqb a) [")"; ">"; "<"; "!"])) s.

End Predicates.

(* ------------------------------------------------------------------ *)
(** ** [smart_suggestions.py]: the query found in a text answer *)

Module Extract.

Local Open Scope string_scope.

Definition not_closing (a : ascii) : bool := negb (Ascii.eqb a ")"%char).

(** The pattern of one predicate group, an opening parenthesis, one or
    more characters other than the closing one, and the closing one, at
    the start of [s]: the text matched and what follows it.  The run is
    the longest one; a shorter run is followed by a character of the run,
    so that giving back never helps. *)
Definition match_group (s : string) : option (string * string) :=
  match s with
  | String a s1 =>
      if Ascii.eqb a "("%char then
        let body := PyStr.take_while not_closing s1 in
        if PyStr.truthy body then
          match PyStr.drop (String.length body) s1 with
          | String b rest =>
              if Ascii.eqb b ")"%char
              then Some ("(" ++ body ++ ")", rest) else None
          | EmptyString => None
          end
        else None
      else None
  | EmptyString => None
  end.

(** The repetition of a comma and a group: as many as follow.  [fuel]
    bounds their number; the length of the text is enough. *)
Fixpoint match_more (fuel : nat) (s : string) : string * string :=
  match fuel with
  | O => ("", s)
  | S fuel' =>
      match s with
      | String a s1 =>
          if Ascii.eqb a ","%char then
            match match_group s1 with
            | Some (group, rest) =>
                let (more, rest') := match_more fuel' rest in
                ("," ++ group ++ more, rest')
            | None => ("", s)
            end
          else ("", s)
      | EmptyString => ("", s)
      end
  end.

(** The DMQL pattern at the start of [s]: [group(0)] of the match. *)
Definition match_dmql (s : string) : option string :=
  match match_group s with
  | Some (group, rest) =>
      Some (group ++ fst (match_more (String.length rest) rest))
  | None => None
  end.

(** [re.search] with the DMQL pattern: the leftmost match. *)
Fixpoint search_dmql (s : string) : option string :=
  match match_dmql s with
  | Some q => Some q
  | None =>
      match s with
      | String _ s' => search_dmql s'
      | EmptyString => None
      end
  end.

(** The dictionary [_extract_query_from_text] returns. *)
Record Extracted := mkExtracted {
  query : string;
  explanation : string;
  field_mapping : PyDict.dict string;
  reasoning : string          (* [ai_analysis['reasoning']] *)
}.

Section WithPattern.

(** [re.search] with the OData pattern of the other branch: [group(0)] of
    the match, if any. *)
Variable odata_search : string -> option string.

(** [_extract_query_from_text] *)
Definition _extract_query_from_text (text request protocol : string)
  : option Extracted :=
  let query_match :=
    if String.eqb protocol "RETS" then search_dmql text
    else odata_search text in
  match query_match with
  | Some query =>
      let query :=
        if String.eqb protocol "RETS"
        then Suggestions._fix_rets_operators query else query in
      Some (mkExtracted query ("AI-generated query based on: " ++ request)
                        [] "Query extracted from AI response")
  | None => None
  end.

End WithPattern.

End Extract.

(* ------------------------------------------------------------------ *)
(** ** [utils.py]: field recommendations *)

Module Recommendations.
Import Rets.

Local Open Scope string_scope.

(** [s.split()]: the maximal runs of characters that are not white
    space. *)
Fixpoint words_from (s : string) (word : string) : list string :=
  match s with
  | EmptyString => if PyStr.truthy word then [word] else []
  | String a s' =>
      if PyStr.is_space a
      then if PyStr.truthy word then word :: words_from s' "" else words_from s' ""
      else words_from s' (word ++ String a "")
  end.

Definition split_ws (s : string) : list string := words_from s "".

Definition common_patterns : list (string * list string) :=
  [("price", ["price"; "listprice"; "saleprice"; "value"]);
   ("status", ["status"; "listingstatus"]);
   ("location", ["city"; "state"; "zip"; "county"; "address"]);
   ("property", ["propertytype"; "type"; "category"]);
   ("date", ["date"; "timestamp"; "modified"; "created"]);
   ("bedroom", ["bedroom"; "beds"; "bed"]);
   ("bathroom", ["bathroom"; "baths"; "bath"])].

(** One turn of the loop over [common_patterns]. *)
Definition boost (search_lower field_lower : string) (relevance : Z)
           (entry : string * list string) : Z :=
  let (pattern, keywords) := entry in
  if PyStr.contains pattern search_lower then
    if existsb (fun keyword => PyStr.contains keyword field_lower) keywords
    then (relevance + 25)%Z else relevance
  else relevance.

(** [_calculate_field_relevance] *)
Definition _calculate_field_relevance
           (field_name field_type description search_term : string) : Z :=
  if negb (PyStr.truthy search_term) then 0%Z
  else
    let search_lower := PyStr.lower search_term in
    let field_lower := PyStr.lower field_name in
    let type_lower := PyStr.lower field_type in
    let desc_lower := PyStr.lower description in
    let relevance := 0%Z in
    let relevance :=
      if String.eqb search_lower field_lower then (relevance + 100)%Z
      else if PyStr.contains search_lower field_lower then (relevance + 50)%Z
      else if PyStr.contains field_lower search_lower then (relevance + 30)%Z
      else relevance in
    let relevance :=
      if existsb (fun word => PyStr.contains word field_lower)
                 (split_ws search_lower)
      then (relevance + 20)%Z else relevance in
    let relevance :=
      if PyStr.contains search_lower type_lower
      then (relevance + 15)%Z else relevance in
    let relevance :=
      if PyStr.contains search_lower desc_lower
      then (relevance + 10)%Z else relevance in
    fold_left (boost search_lower field_lower) common_patterns relevance.


(** [d.get(k, default)] *)
Definition get_or (k : string) (default : string) (d : PyDict.dict string)
  : string :=
  match PyDict.get k d with Some v => v | None => default end.






End Recommendations.

(** Further caches, servers and clients used to exercise the statements
    below. *)
Module MoreExamples.
Import Http Cache.

Local Open Scope string_scope.

(** Two entries stored by [get_cached_data] for different types. *)
Definition two_types : TTLCache nat :=
  mkCache [("metadata:main", mkEntry (Some 1%nat) 0 3600);
           ("resources:main", mkEntry (Some 2%nat) 0 1800)]
          3600 1000
          [("metadata:main", 0); ("resources:main", 0)].

(** The table after [render_cache_controls] has set the TTL of the
    metadata to one minute. *)
Definition shortened_ttl_config : PyDict.dict Z :=
  PyDict.set "metadata" 60%Z CACHE_TTL_CONFIG.

(** A RESO client set up for the password grant. *)
Definition reso_oauth : Reso.RESOWebAPIClient :=
  Reso.RESOWebAPIClient_init "https://api.example.com/reso/odata"
                             "https://auth.example.com/token" "portal"
                             "secret" "agent" "password" "odata_api" "".

(** A token endpoint that grants the token [abc]. *)
Definition net_token : network :=
  fun _ _ =>
    Py.Ret (mkResponse 200 "" [("content-type", "application/json")]
                       (Py.Ret (JObject [("access_token", JString "abc")]))).


(** A server with one resource, one class and a table of two fields,
    one of them with lookup values; the bodies are named rather than
    written out, and [catalog_parser] gives the tree of each. *)
Definition catalog_parser (body : string) : option Xml.Element :=
  if String.eqb body "system" then
    Some (Xml.Elem "RETS" [] None
            [Xml.Elem "SYSTEM" [("SystemID", "demo")] None []])
  else if String.eqb body "resource" then
    Some (Xml.Elem "RETS" [] None
            [Xml.Elem "Resource" [("ResourceID", "Property")] None []])
  else if String.eqb body "class" then
    Some (Xml.Elem "RETS" [] None
            [Xml.Elem "Class" [("ClassName", "RES")] None []])
  else if String.eqb body "table" then
    Some (Xml.Elem "RETS" [] None
            [Xml.Elem "Field"
                      [("SystemName", "Status");
                       ("LookupName", "StatusLookup");
                       ("DataType", "Character")] None [];
             Xml.Elem "Field"
                      [("SystemName", "ListPrice"); ("DataType", "Decimal")]
                      None []])
  else if String.eqb body "lookup" then
    Some (Xml.Elem "RETS" [("ReplyCode", "0")] None
            [Xml.Elem "LookupType" [] None
                      [Xml.Elem "Value" [] (Some "A") [];
                       Xml.Elem "LongValue" [] (Some "Active") []]])
  else None.

Definition net_catalog : network :=
  fun _ r =>
    let type :=
      match PyDict.get "Type" (params r) with Some t => t | None => "" end in
    Py.Ret
      (if String.eqb type "METADATA-SYSTEM"
       then ClientExamples.plain 200 "system"
       else if String.eqb type "METADATA-RESOURCE"
       then ClientExamples.plain 200 "resource"
       else if String.eqb type "METADATA-CLASS"
       then ClientExamples.plain 200 "class"
       else if String.eqb type "METADATA-TABLE"
       then ClientExamples.plain 200 "table"
       else if String.eqb type "METADATA-LOOKUP_TYPE"
       then ClientExamples.plain 200 "lookup"
       else ClientExamples.plain 404 "").

Definition catalog_world : Rets.World :=
  Rets.mkWorld ClientExamples.rets_connected [].

End MoreExamples.

(* ================================================================== *)
(** * Properties *)

(** ** Dictionaries *)

Module PyDictFacts.
Import PyDict.

Section Facts.
Variable V : Type.
Implicit Types (d : dict V) (k : string) (v : V).

Lemma mem_In k d : mem k d = true <-> In k (keys d).
Proof.
  unfold mem, keys. induction d as [|[k' v'] d IH]; simpl.
  - split; [discriminate | tauto].
  - destruct (String.eqb_spec k k') as [->|Hne].
    + split; auto.
    + rewrite IH. split; [auto | intros [H|H]; [congruence | exact H]].
Qed.

Lemma mem_false_not_In k d : mem k d = false <-> ~ In k (keys d).
Proof.
  rewrite <- mem_In. destruct (mem k d); split; congruence.
Qed.

Lemma get_set_same k v d : get k (set k v d) = Some v.
Proof.
  induction d as [|[k' v'] d IH]; simpl.
  - now rewrite String.eqb_refl.
  - destruct (String.eqb_spec k k') as [->|Hne]; simpl.
    + now rewrite String.eqb_refl.
    + destruct (String.eqb_spec k k'); [contradiction | exact IH].
Qed.

Lemma get_set_other k k' v d : k <> k' -> get k' (set k v d) = get k' d.
Proof.
  intros Hne. induction d as [|[k0 v0] d IH]; simpl.
  - destruct (String.eqb_spec k' k); [congruence | reflexivity].
  - destruct (String.eqb_spec k k0) as [->|Hk]; simpl.
    + destruct (String.eqb_spec k' k0); [congruence | reflexivity].
    + destruct (String.eqb_spec k' k0); [reflexivity | exact IH].
Qed.

Lemma get_del_other k k' d : k <> k' -> get k' (del k d) = get k' d.
Proof.
  intros Hne. induction d as [|[k0 v0] d IH]; simpl; [reflexivity|].
  destruct (String.eqb_spec k k0) as [->|Hk]; simpl.
  - destruct (String.eqb_spec k' k0); [congruence | reflexivity].
  - destruct (String.eqb_spec k' k0); [reflexivity | exact IH].
Qed.

Lemma get_del_same k d : wf d -> get k (del k d) = None.
Proof.
  unfold wf, keys. induction d as [|[k0 v0] d IH]; simpl; intros Hnd;
    [reflexivity|].
  inversion Hnd as [|? ? Hnotin Hnd']; subst.
  destruct (String.eqb_spec k k0) as [->|Hk]; simpl.
  - apply mem_false_not_In in Hnotin. unfold mem in Hnotin.
    destruct (get k0 d); [discriminate | reflexivity].
  - destruct (String.eqb_spec k k0); [contradiction | auto].
Qed.

Lemma mem_set_same k v d : mem k (set k v d) = true.
Proof. unfold mem. now rewrite get_set_same. Qed.

Lemma mem_set_other k k' v d : k <> k' -> mem k' (set k v d) = mem k' d.
Proof. intros H. unfold mem. now rewrite get_set_other. Qed.

Lemma mem_del_other k k' d : k <> k' -> mem k' (del k d) = mem k' d.
Proof. intros H. unfold mem. now rewrite get_del_other. Qed.

Lemma mem_del_same k d : wf d -> mem k (del k d) = false.
Proof. intros H. unfold mem. now rewrite get_del_same. Qed.

Lemma keys_del_incl k d x : In x (keys (del k d)) -> In x (keys d).
Proof.
  unfold keys. induction d as [|[k0 v0] d IH]; simpl; [tauto|].
  destruct (String.eqb k k0); simpl; tauto.
Qed.

Lemma wf_del k d : wf d -> wf (del k d).
Proof.
  unfold wf. induction d as [|[k0 v0] d IH]; simpl; intros Hnd; [exact Hnd|].
  inversion Hnd as [|? ? Hnotin Hnd']; subst.
  destruct (String.eqb k k0); simpl; [exact Hnd'|].
  constructor; [|auto].
  intros Hin. apply Hnotin. eapply keys_del_incl. exact Hin.
Qed.

Lemma keys_set_incl k v d x : In x (keys (set k v d)) -> x = k \/ In x (keys d).
Proof.
  unfold keys. induction d as [|[k0 v0] d IH]; simpl.
  - intros [H|[]]; auto.
  - destruct (String.eqb k k0); simpl; tauto.
Qed.

Lemma wf_set k v d : wf d -> wf (set k v d).
Proof.
  unfold wf. induction d as [|[k0 v0] d IH]; simpl; intros Hnd.
  - constructor; [simpl; tauto | constructor].
  - inversion Hnd as [|? ? Hnotin Hnd']; subst.
    destruct (String.eqb_spec k k0) as [->|Hk]; simpl.
    + constructor; assumption.
    + constructor; [|auto].
      intros Hin. apply keys_set_incl in Hin. destruct Hin; [congruence | auto].
Qed.

Lemma length_set_present k v d :
  mem k d = true -> List.length (set k v d) = List.length d.
Proof.
  unfold mem. induction d as [|[k0 v0] d IH]; simpl; [discriminate|].
  destruct (String.eqb k k0); simpl; [reflexivity|].
  intros H. now rewrite IH.
Qed.

Lemma length_set_absent k v d :
  mem k d = false -> List.length (set k v d) = S (List.length d).
Proof.
  unfold mem. induction d as [|[k0 v0] d IH]; simpl; [reflexivity|].
  destruct (String.eqb k k0); simpl; [discriminate|].
  intros H. now rewrite IH.
Qed.

Lemma length_del_present k d :
  mem k d = true -> S (List.length (del k d)) = List.length d.
Proof.
  unfold mem. induction d as [|[k0 v0] d IH]; simpl; [discriminate|].
  destruct (String.eqb k k0); simpl; [reflexivity|].
  intros H. now rewrite IH.
Qed.

Lemma len_set_present k v d : mem k d = true -> len (set k v d) = len d.
Proof. intros H. unfold len. now rewrite length_set_present. Qed.

Lemma len_set_absent k v d : mem k d = false -> len (set k v d) = (len d + 1)%Z.
Proof. intros H. unfold len. rewrite length_set_absent by exact H. lia. Qed.

Lemma len_set_le k v d : (len (set k v d) <= len d + 1)%Z.
Proof.
  destruct (mem k d) eqn:E.
  - rewrite len_set_present by exact E. lia.
  - rewrite len_set_absent by exact E. lia.
Qed.

Lemma len_del_present k d : mem k d = true -> len (del k d) = (len d - 1)%Z.
Proof. intros H. unfold len. rewrite <- (length_del_present k d H). lia. Qed.

Lemma len_nonneg d : (0 <= len d)%Z.
Proof. unfold len. lia. Qed.

Lemma mem_first k v d : mem k ((k, v) :: d) = true.
Proof. unfold mem. simpl. now rewrite String.eqb_refl. Qed.

End Facts.
End PyDictFacts.

(** ** The TTL cache *)

Module CacheFacts.
Import Cache.

Section Facts.
Variable Data : Type.
Variable clock : nat -> Q.
Implicit Types (c : TTLCache Data) (k key : string).

Lemma Qltb_true a b : Qltb a b = true <-> a < b.
Proof.
  unfold Qltb. rewrite Qlt_alt. destruct (a ?= b); split; congruence.
Qed.

Lemma Qltb_false a b : Qltb a b = false <-> b <= a.
Proof.
  split.
  - intros H. apply Qnot_lt_le. intros Hlt. apply Qltb_true in Hlt. congruence.
  - intros H. destruct (Qltb a b) eqn:E; [|reflexivity].
    apply Qltb_true in E. apply Qle_not_lt in H. contradiction.
Qed.

(** *** [_remove_entry] *)

Lemma remove_entry_cache k c :
  cache (snd (_remove_entry k c)) =
  if PyDict.mem k (cache c) then PyDict.del k (cache c) else cache c.
Proof.
  unfold _remove_entry. destruct (PyDict.mem k (cache c)); simpl; [|reflexivity].
  destruct (PyDict.mem k (access_times c)); reflexivity.
Qed.

Lemma remove_entry_access k c :
  access_times (snd (_remove_entry k c)) =
  if PyDict.mem k (cache c) && PyDict.mem k (access_times c)
  then PyDict.del k (access_times c) else access_times c.
Proof.
  unfold _remove_entry. destruct (PyDict.mem k (cache c)); simpl; [|reflexivity].
  destruct (PyDict.mem k (access_times c)); reflexivity.
Qed.

Lemma remove_entry_max_size k c :
  max_size (snd (_remove_entry k c)) = max_size c.
Proof.
  unfold _remove_entry. destruct (PyDict.mem k (cache c)); simpl; [|reflexivity].
  destruct (PyDict.mem k (access_times c)); reflexivity.
Qed.

Lemma remove_entry_well_formed k c :
  well_formed c -> well_formed (snd (_remove_entry k c)).
Proof.
  intros [Hc Ha]. unfold well_formed.
  rewrite remove_entry_cache, remove_entry_access.
  destruct (PyDict.mem k (cache c)); simpl.
  - destruct (PyDict.mem k (access_times c)); split;
      auto using PyDictFacts.wf_del.
  - split; assumption.
Qed.

Lemma remove_entry_same_keys k c :
  well_formed c -> same_keys c -> same_keys (snd (_remove_entry k c)).
Proof.
  intros [Hc Ha] Hs k'. rewrite remove_entry_cache, remove_entry_access.
  rewrite (Hs k). destruct (PyDict.mem k (cache c)) eqn:E; simpl; [|apply Hs].
  destruct (String.eqb_spec k k') as [<-|Hne].
  - now rewrite !PyDictFacts.mem_del_same.
  - rewrite !PyDictFacts.mem_del_other by exact Hne. apply Hs.
Qed.

Lemma remove_entry_len_le k c :
  (PyDict.len (cache (snd (_remove_entry k c))) <= PyDict.len (cache c))%Z.
Proof.
  rewrite remove_entry_cache. destruct (PyDict.mem k (cache c)) eqn:E; [|lia].
  rewrite PyDictFacts.len_del_present by exact E. lia.
Qed.

(** *** [min] *)

Lemma min_from_spec (l : list (string * Q)) : forall best,
  In (min_from best l) (best :: l) /\
  forall x, In x (best :: l) -> snd (min_from best l) <= snd x.
Proof.
  induction l as [|y l IH]; intros best; simpl.
  - split; [auto|]. intros x [<-|[]]. apply Qle_refl.
  - destruct (Qltb (snd y) (snd best)) eqn:E.
    + destruct (IH y) as [Hin Hmin]. split.
      * simpl in Hin. tauto.
      * intros x [<-|Hx].
        -- apply Qltb_true in E. apply Qle_trans with (snd y).
           ++ apply Hmin. now left.
           ++ apply Qlt_le_weak. exact E.
        -- apply Hmin. exact Hx.
    + destruct (IH best) as [Hin Hmin]. split.
      * simpl in Hin. tauto.
      * intros x [<-|[<-|Hx]].
        -- apply Hmin. now left.
        -- apply Qltb_false in E. apply Qle_trans with (snd best).
           ++ apply Hmin. now left.
           ++ exact E.
        -- apply Hmin. now right.
Qed.

Lemma get_In (V : Type) k (v : V) (d : PyDict.dict V) :
  PyDict.get k d = Some v -> In (k, v) d.
Proof.
  induction d as [|[k0 v0] d IH]; simpl; [discriminate|].
  destruct (String.eqb_spec k k0) as [->|Hne].
  - intros [= ->]. now left.
  - intros H. right. auto.
Qed.

Lemma In_get (V : Type) k (v : V) (d : PyDict.dict V) :
  PyDict.wf d -> In (k, v) d -> PyDict.get k d = Some v.
Proof.
  unfold PyDict.wf, PyDict.keys.
  induction d as [|[k0 v0] d IH]; simpl; intros Hnd Hin; [contradiction|].
  inversion Hnd as [|? ? Hnotin Hnd']; subst.
  destruct Hin as [[= -> ->]|Hin].
  - now rewrite String.eqb_refl.
  - destruct (String.eqb_spec k k0) as [->|Hne]; [|auto].
    exfalso. apply Hnotin. change k0 with (fst (k0, v)). now apply in_map.
Qed.

Lemma py_min_key_spec (a : PyDict.dict Q) :
  a <> [] -> PyDict.wf a ->
  exists lru t, py_min_key a = Some lru /\ PyDict.get lru a = Some t /\
                forall k' t', PyDict.get k' a = Some t' -> t <= t'.
Proof.
  destruct a as [|x l]; [congruence|]. intros _ Hwf.
  destruct (min_from_spec l x) as [Hin Hmin].
  exists (fst (min_from x l)), (snd (min_from x l)). split; [reflexivity|].
  split.
  - apply In_get; [exact Hwf|]. now rewrite <- surjective_pairing.
  - intros k' t' Hget. apply get_In in Hget. exact (Hmin _ Hget).
Qed.

(** *** [_evict_lru] *)

Lemma mem_get (V : Type) k (d : PyDict.dict V) :
  PyDict.mem k d = true <-> exists v, PyDict.get k d = Some v.
Proof.
  unfold PyDict.mem. destruct (PyDict.get k d) as [v|].
  - split; [eauto | reflexivity].
  - split; [discriminate | intros [v H]; discriminate].
Qed.

Lemma same_keys_access_nonempty c :
  same_keys c -> (1 <= PyDict.len (cache c))%Z -> access_times c <> [].
Proof.
  intros Hs Hlen Hnil. destruct (cache c) as [|[k v] d] eqn:E.
  - unfold PyDict.len in Hlen. simpl in Hlen. lia.
  - specialize (Hs k). rewrite E, PyDictFacts.mem_first, Hnil in Hs.
    discriminate.
Qed.

(** On a non-empty cache whose two dictionaries agree, [_evict_lru] removes
    one key, and no other key has an earlier access time. *)
Lemma evict_lru_spec c :
  well_formed c -> same_keys c -> (1 <= PyDict.len (cache c))%Z ->
  exists lru t,
    _evict_lru c = snd (_remove_entry lru c) /\
    PyDict.get lru (access_times c) = Some t /\
    (forall k' t', PyDict.get k' (access_times c) = Some t' -> t <= t') /\
    PyDict.mem lru (cache c) = true /\
    PyDict.mem lru (access_times c) = true.
Proof.
  intros [Hc Ha] Hs Hlen.
  destruct (py_min_key_spec (same_keys_access_nonempty Hs Hlen) Ha)
    as (lru & t & Hmin & Hget & Hle).
  exists lru, t. unfold _evict_lru. rewrite Hmin.
  assert (Hm : PyDict.mem lru (access_times c) = true)
    by (apply mem_get; eauto).
  repeat split; auto. now rewrite <- (Hs lru).
Qed.

Lemma evict_lru_well_formed c : well_formed c -> well_formed (_evict_lru c).
Proof.
  intros H. unfold _evict_lru. destruct (py_min_key (access_times c));
    [now apply remove_entry_well_formed | exact H].
Qed.

Lemma evict_lru_same_keys c :
  well_formed c -> same_keys c -> same_keys (_evict_lru c).
Proof.
  intros Hw H. unfold _evict_lru. destruct (py_min_key (access_times c));
    [now apply remove_entry_same_keys | exact H].
Qed.

Lemma evict_lru_max_size c : max_size (_evict_lru c) = max_size c.
Proof.
  unfold _evict_lru. destruct (py_min_key (access_times c));
    [apply remove_entry_max_size | reflexivity].
Qed.

Lemma evict_lru_len c :
  well_formed c -> same_keys c -> (1 <= PyDict.len (cache c))%Z ->
  PyDict.len (cache (_evict_lru c)) = (PyDict.len (cache c) - 1)%Z.
Proof.
  intros Hw Hs Hlen.
  destruct (evict_lru_spec Hw Hs Hlen) as (lru & t & -> & _ & _ & Hm & _).
  rewrite remove_entry_cache, Hm. now apply PyDictFacts.len_del_present.
Qed.

(** *** The invariant *)

Lemma set_fields key value ttl c n :
  let c1 := if (PyDict.len (cache c) >=? max_size c)%Z
            then _evict_lru c else c in
  set clock key value ttl c n =
  (mkCache
     (PyDict.set key (mkEntry value (clock n) (effective_ttl ttl c))
                 (cache c1))
     (default_ttl_seconds c1) (max_size c1)
     (PyDict.set key (clock (S n)) (access_times c1)),
   S (S n)).
Proof. reflexivity. Qed.

Lemma same_keys_set key (e : CacheEntry Data) (t : Q) c1 :
  same_keys c1 ->
  same_keys (mkCache (PyDict.set key e (cache c1)) (default_ttl_seconds c1)
                     (max_size c1) (PyDict.set key t (access_times c1))).
Proof.
  intros Hs k'. simpl. destruct (String.eqb_spec key k') as [<-|Hne].
  - now rewrite !PyDictFacts.mem_set_same.
  - rewrite !PyDictFacts.mem_set_other by exact Hne. apply Hs.
Qed.

Lemma set_inv key value ttl c n : Inv c -> Inv (fst (set clock key value ttl c n)).
Proof.
  intros (Hw & Hs & Hcap & Hmax). rewrite set_fields. cbv zeta. simpl fst.
  set (c1 := if (PyDict.len (cache c) >=? max_size c)%Z
             then _evict_lru c else c).
  assert (Hw1 : well_formed c1)
    by (subst c1; destruct (_ >=? _)%Z; auto using evict_lru_well_formed).
  assert (Hs1 : same_keys c1)
    by (subst c1; destruct (_ >=? _)%Z; auto using evict_lru_same_keys).
  assert (Hm1 : max_size c1 = max_size c)
    by (subst c1; destruct (_ >=? _)%Z; auto using evict_lru_max_size).
  assert (Hl1 : (PyDict.len (cache c1) + 1 <= max_size c)%Z).
  { subst c1. unfold within_capacity in Hcap.
    destruct (Z.geb_spec (PyDict.len (cache c)) (max_size c)) as [Hge|Hlt].
    - rewrite evict_lru_len; auto; lia.
    - lia. }
  destruct Hw1 as [Hwc Hwa].
  split; [|split; [|split]].
  - split; simpl; auto using PyDictFacts.wf_set.
  - now apply same_keys_set.
  - unfold within_capacity. simpl. rewrite Hm1.
    pose proof (PyDictFacts.len_set_le key
      (mkEntry value (clock n) (effective_ttl ttl c)) (cache c1)). lia.
  - simpl. now rewrite Hm1.
Qed.

Lemma remove_entry_inv k c : Inv c -> Inv (snd (_remove_entry k c)).
Proof.
  intros (Hw & Hs & Hcap & Hmax).
  split; [|split; [|split]].
  - now apply remove_entry_well_formed.
  - now apply remove_entry_same_keys.
  - unfold within_capacity in *. rewrite remove_entry_max_size.
    pose proof (remove_entry_len_le k c). lia.
  - now rewrite remove_entry_max_size.
Qed.

Lemma get_inv key default c n :
  Inv c -> Inv (snd (fst (get clock key default c n))).
Proof.
  intros HI. unfold get.
  destruct (PyDict.get key (cache c)) as [entry|] eqn:E; [|exact HI].
  unfold is_expired, time_time.
  destruct (Qltb _ _); simpl; [now apply remove_entry_inv|].
  destruct HI as ((Hwc & Hwa) & Hs & Hcap & Hmax).
  split; [|split; [|split]]; simpl; auto.
  - split; simpl; auto using PyDictFacts.wf_set.
  - intros k'. simpl. destruct (String.eqb_spec key k') as [<-|Hne].
    + rewrite PyDictFacts.mem_set_same. symmetry. apply mem_get. eauto.
    + rewrite PyDictFacts.mem_set_other by exact Hne. apply Hs.
Qed.

Lemma clear_inv c : Inv c -> Inv (clear c).
Proof.
  intros (Hw & Hs & Hcap & Hmax). unfold clear.
  split; [|split; [|split]]; simpl; auto.
  - split; constructor.
  - intros k. reflexivity.
  - unfold within_capacity, PyDict.len. simpl. lia.
Qed.

Lemma remove_all_inv ks : forall c, Inv c -> Inv (remove_all ks c).
Proof.
  induction ks as [|k ks IH]; intros c HI; simpl; [exact HI|].
  apply IH. now apply remove_entry_inv.
Qed.

Lemma clear_expired_inv c n :
  Inv c -> Inv (snd (fst (clear_expired clock c n))).
Proof.
  intros HI. unfold clear_expired.
  destruct (expired_keys clock (cache c) n) as [ks n1]. simpl.
  now apply remove_all_inv.
Qed.

Lemma run_op_inv o c n : Inv c -> Inv (fst (run_op clock o c n)).
Proof.
  intros HI. destruct o as [k d|k v t|k| |]; simpl.
  - pose proof (get_inv k d n HI) as H.
    destruct (get clock k d c n) as [[r c'] n']. exact H.
  - now apply set_inv.
  - now apply remove_entry_inv.
  - now apply clear_inv.
  - pose proof (clear_expired_inv n HI) as H.
    destruct (clear_expired clock c n) as [[r c'] n']. exact H.
Qed.

Lemma run_ops_inv os : forall c n, Inv c -> Inv (fst (run_ops clock os c n)).
Proof.
  induction os as [|o os IH]; intros c n HI; simpl; [exact HI|].
  pose proof (run_op_inv o n HI) as H.
  destruct (run_op clock o c n) as [c' n']. now apply IH.
Qed.

Lemma init_inv default_ttl max :
  (1 <= max)%Z -> Inv (TTLCache_init Data default_ttl max).
Proof.
  intros H. split; [|split; [|split]]; simpl; auto.
  - split; constructor.
  - intros k. reflexivity.
  - unfold within_capacity, PyDict.len. simpl. lia.
Qed.

Lemma remove_all_max_size ks : forall c, max_size (remove_all ks c) = max_size c.
Proof.
  induction ks as [|k ks IH]; intros c; simpl; [reflexivity|].
  now rewrite IH, remove_entry_max_size.
Qed.

Lemma run_op_max_size o c n : max_size (fst (run_op clock o c n)) = max_size c.
Proof.
  destruct o as [k d|k v t|k| |]; unfold run_op.
  - unfold get. destruct (PyDict.get k (cache c)); [|reflexivity].
    unfold is_expired, time_time. destruct (Qltb _ _); simpl;
      [apply remove_entry_max_size | reflexivity].
  - rewrite set_fields. cbv zeta. simpl.
    destruct (_ >=? _)%Z; [apply evict_lru_max_size | reflexivity].
  - apply remove_entry_max_size.
  - reflexivity.
  - unfold clear_expired. destruct (expired_keys clock (cache c) n). simpl.
    apply remove_all_max_size.
Qed.

Lemma run_ops_max_size os :
  forall c n, max_size (fst (run_ops clock os c n)) = max_size c.
Proof.
  induction os as [|o os IH]; intros c n; simpl; [reflexivity|].
  pose proof (run_op_max_size o c n) as H.
  destruct (run_op clock o c n) as [c' n']. now rewrite IH.
Qed.

(** *** Claims on the cache *)

(** C1, as amended.  (a) [get(key)] after [set(key, value, ttl)] returns
    [value] whenever the time elapsed between the creation of the entry and
    the expiry check of [get] does not exceed the TTL the entry was stored
    with (in particular for every non-negative TTL when no time passes).
    (b) [get] of an entry whose age exceeds its TTL returns the default,
    removes the entry from both dictionaries, and the entry count
    decreases by one. *)
Theorem get_after_set_and_expiry :
  forall key value ttl default c n,
    (let r := set clock key value ttl c n in
     clock (snd r) - clock n <= inject_Z (effective_ttl ttl c) ->
     fst (fst (get clock key default (fst r) (snd r))) = value)
    /\
    (forall entry,
        well_formed c ->
        PyDict.get key (cache c) = Some entry ->
        inject_Z (ttl_seconds entry) < clock n - created_at entry ->
        let r := fst (get clock key default c n) in
        fst r = default /\
        PyDict.mem key (cache (snd r)) = false /\
        PyDict.mem key (access_times (snd r)) = false /\
        PyDict.len (cache (snd r)) = (PyDict.len (cache c) - 1)%Z).
Proof.
  intros key value ttl default c n. split.
  - rewrite set_fields. cbv zeta. simpl fst. simpl snd. intros Hage.
    unfold get. simpl cache. rewrite PyDictFacts.get_set_same.
    unfold is_expired, time_time. simpl created_at. simpl ttl_seconds.
    apply Qltb_false in Hage. rewrite Hage. reflexivity.
  - intros entry [Hwc Hwa] Hget Hage. unfold get. rewrite Hget.
    unfold is_expired, time_time. apply Qltb_true in Hage. rewrite Hage.
    simpl. assert (Hm : PyDict.mem key (cache c) = true)
      by (apply mem_get; eauto).
    rewrite remove_entry_cache, remove_entry_access, Hm. simpl.
    repeat split.
    + now apply PyDictFacts.mem_del_same.
    + destruct (PyDict.mem key (access_times c)) eqn:E;
        [now apply PyDictFacts.mem_del_same | exact E].
    + now apply PyDictFacts.len_del_present.
Qed.

(** [set] on a full cache that satisfies the invariant. *)
Lemma set_at_capacity_spec :
  forall key value ttl c n,
    well_formed c -> same_keys c ->
    (1 <= max_size c)%Z ->
    PyDict.len (cache c) = max_size c ->
    PyDict.mem key (cache c) = false ->
    let c' := fst (set clock key value ttl c n) in
    (exists lru t,
        PyDict.get lru (access_times c) = Some t /\
        (forall k' t', PyDict.get k' (access_times c) = Some t' -> t <= t') /\
        PyDict.mem lru (cache c) = true /\
        PyDict.mem lru (cache c') = false /\
        PyDict.mem lru (access_times c') = false /\
        (forall k', k' <> lru -> k' <> key ->
                    PyDict.get k' (cache c') = PyDict.get k' (cache c) /\
                    PyDict.get k' (access_times c') =
                    PyDict.get k' (access_times c))) /\
    PyDict.get key (cache c') =
      Some (mkEntry value (clock n) (effective_ttl ttl c)) /\
    PyDict.get key (access_times c') = Some (clock (S n)) /\
    PyDict.len (cache c') = max_size c /\
    (forall k entry default m,
        PyDict.get k (cache c) = Some entry ->
        clock m - created_at entry <= inject_Z (ttl_seconds entry) ->
        let r := fst (get clock k default c m) in
        fst r = data entry /\
        PyDict.get k (access_times (snd r)) = Some (clock (S m))).
Proof.
  intros key value ttl c n Hw Hs Hmax Hfull Hnew c'. subst c'.
  rewrite set_fields. cbv zeta. simpl fst.
  assert (Hge : (PyDict.len (cache c) >=? max_size c)%Z = true)
    by (apply Z.geb_le; lia).
  rewrite Hge.
  assert (Hlen : (1 <= PyDict.len (cache c))%Z) by lia.
  destruct (evict_lru_spec Hw Hs Hlen) as (lru & t & Hev & Hget & Hle & Hmc & Hma).
  destruct Hw as [Hwc Hwa].
  assert (Hne : key <> lru) by (intros ->; congruence).
  assert (Hcache : cache (_evict_lru c) = PyDict.del lru (cache c))
    by (rewrite Hev, remove_entry_cache, Hmc; reflexivity).
  assert (Hacc : access_times (_evict_lru c) = PyDict.del lru (access_times c))
    by (rewrite Hev, remove_entry_access, Hmc, Hma; reflexivity).
  simpl. rewrite Hcache, Hacc.
  split; [|split; [|split; [|split]]].
  - exists lru, t. split; [exact Hget|]. split; [exact Hle|].
    split; [exact Hmc|].
    rewrite !PyDictFacts.mem_set_other by exact Hne.
    rewrite !PyDictFacts.mem_del_same by assumption.
    split; [reflexivity|]. split; [reflexivity|].
    intros k' Hk1 Hk2.
    rewrite !PyDictFacts.get_set_other by congruence.
    rewrite !PyDictFacts.get_del_other by congruence. split; reflexivity.
  - apply PyDictFacts.get_set_same.
  - apply PyDictFacts.get_set_same.
  - rewrite PyDictFacts.len_set_absent.
    + rewrite PyDictFacts.len_del_present by exact Hmc. lia.
    + rewrite PyDictFacts.mem_del_other by congruence. exact Hnew.
  - intros k entry default m Hk Hfresh. unfold get. rewrite Hk.
    unfold is_expired, time_time. apply Qltb_false in Hfresh.
    rewrite Hfresh. simpl. split; [reflexivity|].
    apply PyDictFacts.get_set_same.
Qed.

(** C2.  Take a cache reached from a fresh one of capacity [max >= 1] by
    any sequence of operations and holding [max] entries.  [set] with a key
    not yet present evicts one key [lru]: no key has an earlier access
    time, [lru] leaves both dictionaries, every other old entry stays as it
    was, and the new key is stored with its insertion counted as an access.
    A successful [get] stamps the key with the time of the access. *)
Theorem set_at_capacity_evicts_lru :
  forall ops default_ttl max n0 key value ttl n,
    (1 <= max)%Z ->
    let c := fst (run_ops clock ops (TTLCache_init Data default_ttl max) n0) in
    PyDict.len (cache c) = max ->
    PyDict.mem key (cache c) = false ->
    let c' := fst (set clock key value ttl c n) in
    (exists lru t,
        PyDict.get lru (access_times c) = Some t /\
        (forall k' t', PyDict.get k' (access_times c) = Some t' -> t <= t') /\
        PyDict.mem lru (cache c) = true /\
        PyDict.mem lru (cache c') = false /\
        PyDict.mem lru (access_times c') = false /\
        (forall k', k' <> lru -> k' <> key ->
                    PyDict.get k' (cache c') = PyDict.get k' (cache c) /\
                    PyDict.get k' (access_times c') =
                    PyDict.get k' (access_times c))) /\
    PyDict.get key (cache c') =
      Some (mkEntry value (clock n) (effective_ttl ttl c)) /\
    PyDict.get key (access_times c') = Some (clock (S n)) /\
    PyDict.len (cache c') = max /\
    (forall k entry default m,
        PyDict.get k (cache c) = Some entry ->
        clock m - created_at entry <= inject_Z (ttl_seconds entry) ->
        let r := fst (get clock k default c m) in
        fst r = data entry /\
        PyDict.get k (access_times (snd r)) = Some (clock (S m))).
Proof.
  intros ops default_ttl max n0 key value ttl n Hmax c Hfull Hnew.
  assert (HI : Inv c) by (apply run_ops_inv, init_inv; exact Hmax).
  destruct HI as (Hw & Hs & _ & _).
  assert (Hm : max_size c = max) by (subst c; apply run_ops_max_size).
  rewrite <- Hm in Hfull, Hmax. rewrite <- Hm.
  exact (set_at_capacity_spec key value ttl n Hw Hs Hmax Hfull Hnew).
Qed.

(** C10.  After every sequence of [get], [set], [delete], [clear] and
    [clear_expired] on a fresh cache with [max_size >= 1], the number of
    entries is at most [max_size], a key has an access time exactly when it
    has an entry, and neither dictionary holds a key twice. *)
Theorem cache_invariants :
  forall ops default_ttl max n,
    (1 <= max)%Z ->
    let c := fst (run_ops clock ops (TTLCache_init Data default_ttl max) n) in
    (PyDict.len (cache c) <= max)%Z /\
    (forall k, PyDict.mem k (access_times c) = PyDict.mem k (cache c)) /\
    NoDup (PyDict.keys (cache c)) /\
    NoDup (PyDict.keys (access_times c)).
Proof.
  intros ops default_ttl max n Hmax c.
  assert (HI : Inv c) by (apply run_ops_inv, init_inv; exact Hmax).
  destruct HI as ((Hwc & Hwa) & Hs & Hcap & _).
  unfold within_capacity in Hcap. subst c.
  rewrite run_ops_max_size in Hcap. simpl in Hcap. auto.
Qed.

(** *** The cache helper *)

Lemma get_no_new_entry key default c n k e :
  well_formed c ->
  PyDict.get k (cache (snd (fst (get clock key default c n)))) = Some e ->
  PyDict.get k (cache c) = Some e.
Proof.
  intros [Hwc Hwa]. unfold get.
  destruct (PyDict.get key (cache c)) as [entry|] eqn:E; [|auto].
  unfold is_expired, time_time. destruct (Qltb _ _); simpl; [|auto].
  rewrite remove_entry_cache.
  assert (Hm : PyDict.mem key (cache c) = true) by (apply mem_get; eauto).
  rewrite Hm. destruct (String.eqb_spec key k) as [<-|Hne].
  - now rewrite PyDictFacts.get_del_same.
  - now rewrite PyDictFacts.get_del_other.
Qed.

Lemma get_miss_stays_missed key c n m :
  well_formed c ->
  fst (fst (get clock key None c n)) = None ->
  fst (fst (get clock key None (snd (fst (get clock key None c n))) m)) = None.
Proof.
  intros [Hwc Hwa] Hmiss.
  assert (Hcases :
            PyDict.get key (cache (snd (fst (get clock key None c n)))) = None \/
            exists entry,
              PyDict.get key (cache (snd (fst (get clock key None c n))))
              = Some entry /\ data entry = None).
  { revert Hmiss. unfold get.
    destruct (PyDict.get key (cache c)) as [entry|] eqn:E.
    - unfold is_expired, time_time. destruct (Qltb _ _); simpl.
      + intros _. left. rewrite remove_entry_cache.
        assert (Hm : PyDict.mem key (cache c) = true) by (apply mem_get; eauto).
        rewrite Hm. now apply PyDictFacts.get_del_same.
      + intros Hd. right. exists entry. auto.
    - simpl. intros _. left. exact E. }
  set (c1 := snd (fst (get clock key None c n))) in *. clearbody c1.
  unfold get. destruct Hcases as [Hn | (entry & He & Hd)].
  - now rewrite Hn.
  - rewrite He. unfold is_expired, time_time.
    destruct (Qltb _ _); simpl; auto.
Qed.

(** C9, as amended.  When the lookup of [get_cached_data] misses and the
    fetch function raises, the helper returns [None], reports the error on
    the page, and stores nothing: the cache is left as the lookup left it.
    That is the cache before the call when the key had no entry.  When the
    key had an entry that has expired, the lookup has removed it, with its
    access time, and the cache is one entry shorter; when it had a live
    entry that holds [None], only the access time of the key has changed.
    In every case no entry is there that was not there before, and a later
    [get] of the key misses again. *)
Theorem fetch_failure_leaves_cache :
  forall ttl_config cache_type key e ttl (s : Session Data) n,
    let cache_key := (cache_type ++ ":" ++ key)%string in
    let c := session_cache s in
    let lookup := fst (get clock cache_key None c n) in
    well_formed c ->
    fst lookup = None ->
    let r := fst (get_cached_data clock ttl_config cache_type key
                                  (Py.Raise e) ttl s n) in
    fst r = None /\
    page (snd r) = page s ++ [ErrorFetching cache_type (Py.str_exn e)] /\
    ttl_cache (snd r) = Some (snd lookup) /\
    (PyDict.mem cache_key (cache c) = false -> ttl_cache (snd r) = Some c) /\
    (forall entry,
        PyDict.get cache_key (cache c) = Some entry ->
        (inject_Z (ttl_seconds entry) < clock n - created_at entry ->
         ttl_cache (snd r) = Some (snd (_remove_entry cache_key c)) /\
         PyDict.mem cache_key (cache (snd lookup)) = false /\
         PyDict.mem cache_key (access_times (snd lookup)) = false /\
         PyDict.len (cache (snd lookup)) = (PyDict.len (cache c) - 1)%Z) /\
        (clock n - created_at entry <= inject_Z (ttl_seconds entry) ->
         data entry = None /\
         ttl_cache (snd r)
         = Some (with_access c (PyDict.set cache_key (clock (S n))
                                           (access_times c))))) /\
    (forall k entry,
        PyDict.get k (cache (snd lookup)) = Some entry ->
        PyDict.get k (cache c) = Some entry) /\
    (forall m, fst (fst (get clock cache_key None (snd lookup) m)) = None).
Proof.
  intros ttl_config cache_type key e ttl s n cache_key c lookup Hw Hmiss r.
  assert (Hr : r = (None, mkSession (Some (snd lookup))
                      (page s ++ [ErrorFetching cache_type (Py.str_exn e)]))).
  { subst r lookup c cache_key. unfold get_cached_data, session_cache in *.
    destruct (ttl_cache s) as [c0|] eqn:Hs.
    - rewrite Hs.
      destruct (get clock (cache_type ++ ":" ++ key) None c0 n)
        as [[d c1] n2] eqn:Hg.
      simpl in Hmiss. subst d. reflexivity.
    - unfold initialize_ttl_cache. rewrite Hs. simpl. reflexivity. }
  rewrite Hr. cbn [fst snd page ttl_cache].
  split; [reflexivity|]. split; [reflexivity|]. split; [reflexivity|].
  split; [|split; [|split]].
  - intros Habsent. subst lookup. unfold get. unfold PyDict.mem in Habsent.
    destruct (PyDict.get cache_key (cache c)); [discriminate | reflexivity].
  - intros entry Hget. split.
    + intros Hage. apply Qltb_true in Hage.
      assert (E : snd lookup = snd (_remove_entry cache_key c)).
      { subst lookup. unfold get. rewrite Hget.
        unfold is_expired, time_time. rewrite Hage. reflexivity. }
      rewrite E. split; [reflexivity|].
      assert (Hm : PyDict.mem cache_key (cache c) = true)
        by (apply mem_get; eauto).
      destruct Hw as [Hwc Hwa].
      rewrite remove_entry_cache, remove_entry_access, Hm. cbn [andb].
      split; [now apply PyDictFacts.mem_del_same|]. split.
      * destruct (PyDict.mem cache_key (access_times c)) eqn:Ea;
          [now apply PyDictFacts.mem_del_same | exact Ea].
      * now apply PyDictFacts.len_del_present.
    + intros Hage. apply Qltb_false in Hage.
      revert Hmiss. subst lookup. unfold get. rewrite Hget.
      unfold is_expired, time_time. rewrite Hage. cbn [negb fst snd].
      intros Hd. split; [exact Hd | reflexivity].
  - intros k entry. subst lookup. now apply get_no_new_entry.
  - intros m. subst lookup. now apply get_miss_stays_missed.
Qed.

End Facts.
End CacheFacts.

(** ** The cache claims on concrete caches *)

Module CacheChecks.
Import Cache CacheExamples.

Lemma one_short_lived_well_formed : well_formed one_short_lived.
Proof.
  split; (constructor; [simpl; tauto | constructor]).
Qed.

Lemma two_types_well_formed : well_formed MoreExamples.two_types.
Proof.
  split; (constructor; [simpl; intuition discriminate|]);
    (constructor; [simpl; tauto | constructor]).
Qed.

(** C1 as stated fails for a negative TTL: with no time passing at all,
    [get] right after [set("k", 7, ttl=-1)] finds the entry expired and
    returns the default. *)
Lemma get_after_set_negative_ttl :
  let r := set clock_frozen "k" (Some 7%nat) (Some (-1)%Z) fresh 0%nat in
  fst (fst (get clock_frozen "k" None (fst r) (snd r))) = None /\
  fst (fst (get clock_frozen "k" None (fst r) (snd r))) <> Some 7%nat.
Proof. vm_compute. split; [reflexivity | discriminate]. Qed.

Lemma get_after_set_and_expiry_witness :
  fst (fst (get clock_ticking "k" None
              (fst (set clock_ticking "k" (Some 1%nat) (Some 5%Z)
                        one_short_lived 5%nat)) 7%nat)) = Some 1%nat /\
  let r := fst (get clock_ticking "k" None one_short_lived 5%nat) in
  fst r = None /\
  PyDict.mem "k" (cache (snd r)) = false /\
  PyDict.mem "k" (access_times (snd r)) = false /\
  PyDict.len (cache (snd r)) = (PyDict.len (cache one_short_lived) - 1)%Z.
Proof.
  destruct (@CacheFacts.get_after_set_and_expiry nat clock_ticking "k"
              (Some 1%nat) (Some 5%Z) None one_short_lived 5%nat) as [HA HB].
  split.
  - apply HA. vm_compute. discriminate.
  - apply (HB (mkEntry (Some 7%nat) 0 1)).
    + exact one_short_lived_well_formed.
    + reflexivity.
    + vm_compute. reflexivity.
Defined.

Lemma set_at_capacity_evicts_lru_witness :
  let c := fst (run_ops clock_ticking
                  [OpSet "a" (Some 1%nat) None; OpSet "b" (Some 2%nat) None;
                   OpGet "a" None]%string
                  (TTLCache_init nat 3600 2) 0%nat) in
  let c' := fst (set clock_ticking "c" (Some 3%nat) None c 6%nat) in
  PyDict.keys (cache c) = ["a"; "b"]%string /\
  PyDict.keys (cache c') = ["a"; "c"]%string /\
  PyDict.get "c" (access_times c') = Some (clock_ticking 7%nat) /\
  PyDict.len (cache c') = 2%Z.
Proof.
  pose proof (@CacheFacts.set_at_capacity_evicts_lru nat clock_ticking
                [OpSet "a" (Some 1%nat) None; OpSet "b" (Some 2%nat) None;
                 OpGet "a" None]%string
                3600%Z 2%Z 0%nat "c"%string (Some 3%nat) None 6%nat) as H.
  assert (H1 : (1 <= 2)%Z) by lia.
  specialize (H H1 eq_refl eq_refl).
  destruct H as (_ & _ & Hacc & Hlen & _).
  split; [reflexivity | split; [reflexivity | split; [exact Hacc | exact Hlen]]].
Defined.

Lemma cache_invariants_witness :
  let c := fst (run_ops clock_ticking
                  [OpSet "a" (Some 1%nat) None; OpSet "b" (Some 2%nat) (Some 0%Z);
                   OpGet "b" None; OpSet "c" None None; OpClearExpired;
                   OpDelete "a"; OpSet "d" (Some 4%nat) None]%string
                  (TTLCache_init nat 3600 2) 0%nat) in
  (PyDict.len (cache c) <= 2)%Z /\
  (forall k, PyDict.mem k (access_times c) = PyDict.mem k (cache c)) /\
  NoDup (PyDict.keys (cache c)) /\
  NoDup (PyDict.keys (access_times c)).
Proof.
  apply (@CacheFacts.cache_invariants nat clock_ticking). lia.
Defined.

(** C9 as stated fails when the key holds an expired entry: the lookup of
    [get_cached_data] removes that entry before the fetch function is
    called, so that after the failed fetch the cache is not what it was
    before the call. *)
Lemma fetch_failure_after_expiry :
  let s := mkSession (Some MoreExamples.two_types) [] in
  let r := fst (get_cached_data clock_ticking CACHE_TTL_CONFIG
                  "metadata" "main"
                  (Py.Raise (Py.RequestException "timed out")) None s
                  5000%nat) in
  fst r = None /\
  ttl_cache (snd r)
  = Some (mkCache [("resources:main", mkEntry (Some 2%nat) 0 1800)]%string
                  3600 1000 [("resources:main", 0)]%string) /\
  ttl_cache (snd r) <> ttl_cache s.
Proof.
  vm_compute. split; [reflexivity|]. split; [reflexivity | discriminate].
Qed.

Lemma fetch_failure_leaves_cache_witness :
  (let s := mkSession (Some one_short_lived) [] in
   let r := fst (get_cached_data clock_ticking CACHE_TTL_CONFIG
                   "metadata" "main"
                   (Py.Raise (Py.RequestException "timed out")) None s
                   5%nat) in
   fst r = None /\
   page (snd r) = [ErrorFetching "metadata" "timed out"] /\
   ttl_cache (snd r) = Some one_short_lived) /\
  (let s := mkSession (Some MoreExamples.two_types) [] in
   let r := fst (get_cached_data clock_ticking CACHE_TTL_CONFIG
                   "metadata" "main"
                   (Py.Raise (Py.RequestException "timed out")) None s
                   5000%nat) in
   ttl_cache (snd r)
   = Some (snd (_remove_entry "metadata:main" MoreExamples.two_types))).
Proof.
  split.
  - pose proof (@CacheFacts.fetch_failure_leaves_cache nat clock_ticking
                  CACHE_TTL_CONFIG
                  "metadata" "main" (Py.RequestException "timed out") None
                  (mkSession (Some one_short_lived) []) 5%nat
                  one_short_lived_well_formed eq_refl) as H.
    destruct H as (Hr & Hp & _ & Hc & _).
    split; [exact Hr | split; [exact Hp | apply Hc; reflexivity]].
  - pose proof (@CacheFacts.fetch_failure_leaves_cache nat clock_ticking
                  CACHE_TTL_CONFIG
                  "metadata" "main" (Py.RequestException "timed out") None
                  (mkSession (Some MoreExamples.two_types) []) 5000%nat
                  two_types_well_formed eq_refl) as H.
    destruct H as (_ & _ & _ & _ & He & _).
    destruct (He (mkEntry (Some 1%nat) 0 3600) eq_refl) as [Hexp _].
    apply Hexp. vm_compute. reflexivity.
Defined.

End CacheChecks.

(** ** Strings *)

Module PyStrFacts.
Import PyStr.

Local Open Scope string_scope.

Lemma append_nil_r (s : string) : s ++ "" = s.
Proof. induction s as [|a s IH]; simpl; [reflexivity | now rewrite IH]. Qed.

Lemma append_assoc (a b c : string) : (a ++ b) ++ c = a ++ (b ++ c).
Proof. induction a as [|x a IH]; simpl; [reflexivity | now rewrite IH]. Qed.

Lemma length_append (a b : string) :
  String.length (a ++ b) = (String.length a + String.length b)%nat.
Proof. induction a as [|x a IH]; simpl; [reflexivity | now rewrite IH]. Qed.

Lemma prefix_append (p s : string) : String.prefix p (p ++ s) = true.
Proof.
  induction p as [|a p IH]; simpl.
  - now destruct s.
  - destruct (ascii_dec a a); [exact IH | congruence].
Qed.

Lemma contains_unfold (needle hay : string) :
  contains needle hay =
  String.prefix needle hay ||
  match hay with
  | String _ hay' => contains needle hay'
  | EmptyString => false
  end.
Proof. destruct hay; reflexivity. Qed.

Lemma contains_prefix (needle hay : string) :
  String.prefix needle hay = true -> contains needle hay = true.
Proof. intros H. rewrite contains_unfold, H. reflexivity. Qed.

Lemma contains_append (needle pre post : string) :
  contains needle (pre ++ needle ++ post) = true.
Proof.
  induction pre as [|a pre IH].
  - change ("" ++ needle ++ post) with (needle ++ post).
    apply contains_prefix, prefix_append.
  - change (String a pre ++ needle ++ post)
      with (String a (pre ++ needle ++ post)).
    rewrite contains_unfold, IH. apply orb_true_r.
Qed.

Lemma contains_append_r (needle pre hay : string) :
  contains needle hay = true -> contains needle (pre ++ hay) = true.
Proof.
  intros H. induction pre as [|a pre IH]; [exact H|].
  change (String a pre ++ hay) with (String a (pre ++ hay)).
  rewrite contains_unfold, IH. apply orb_true_r.
Qed.

Lemma prefix_append_l (p h post : string) :
  String.prefix p h = true -> String.prefix p (h ++ post) = true.
Proof.
  revert h. induction p as [|x p IH]; intros h.
  - intros _. now destruct (h ++ post).
  - destruct h as [|y h]; [discriminate|]. simpl.
    destruct (ascii_dec x y); [apply IH | discriminate].
Qed.

Lemma contains_append_l (needle hay post : string) :
  contains needle hay = true -> contains needle (hay ++ post) = true.
Proof.
  induction hay as [|a hay IH]; rewrite contains_unfold.
  - rewrite orb_false_r. intros H. apply contains_prefix.
    now apply (prefix_append_l _ "").
  - intros H. apply orb_true_iff in H.
    change (String a hay ++ post) with (String a (hay ++ post)).
    rewrite contains_unfold. apply orb_true_iff. destruct H as [H|H].
    + left. now apply (prefix_append_l _ (String a hay)).
    + right. auto.
Qed.

Lemma substring_drop (a b : string) :
  substring (String.length a) (String.length (a ++ b) - String.length a)
            (a ++ b) = b.
Proof.
  rewrite length_append.
  replace (String.length a + String.length b - String.length a)%nat
    with (String.length b) by lia.
  induction a as [|x a IH]; simpl; [|exact IH].
  clear. induction b as [|y b IH]; simpl; [reflexivity | now rewrite IH].
Qed.

End PyStrFacts.

(** ** The matcher *)

Module ReFacts.
Import Re.

Local Open Scope string_scope.

Lemma greedy_sound k cont : forall s run res,
  greedy k cont s = Some (run, res) ->
  run <> "" /\ all_match k run = true /\
  exists s1, s = run ++ s1 /\ cont s1 = Some res.
Proof.
  induction s as [|a s IH]; intros run res; simpl; [discriminate|].
  destruct (cls_match k a) eqn:Ha; [|discriminate].
  destruct (greedy k cont s) as [[run' res']|] eqn:Hg.
  - intros [= <- <-]. destruct (IH _ _ eq_refl) as (_ & Hall & s1 & -> & Hc).
    split; [discriminate|]. split; [simpl; now rewrite Ha|].
    exists s1. split; [reflexivity | exact Hc].
  - destruct (cont s) as [res'|] eqn:Hc; [|discriminate].
    intros [= <- <-]. split; [discriminate|].
    split; [simpl; now rewrite Ha|]. exists s. split; [reflexivity | exact Hc].
Qed.

(** Whatever the matcher returns is an instance of the pattern. *)
Lemma match_here_sound : forall r s groups rest,
  match_here r s = Some (groups, rest) ->
  exists m, s = m ++ rest /\ matches r m groups.
Proof.
  induction r as [|[k|k|k] r IH]; intros s groups rest; simpl.
  - intros [= <- <-]. exists "". split; [reflexivity | constructor].
  - destruct s as [|a s]; [discriminate|].
    destruct (cls_match k a) eqn:Ha; [|discriminate].
    intros H. destruct (IH _ _ _ H) as (m & -> & Hm).
    exists (String a m). split; [reflexivity | now constructor].
  - destruct (greedy k (match_here r) s) as [[run res]|] eqn:Hg; [|discriminate].
    intros [= ->].
    destruct (greedy_sound _ _ _ Hg) as (Hne & Hall & s1 & -> & Hc).
    destruct (IH _ _ _ Hc) as (m & -> & Hm).
    exists (run ++ m). split; [now rewrite PyStrFacts.append_assoc|].
    now constructor.
  - destruct (greedy k (match_here r) s) as [[run [g rest']]|] eqn:Hg;
      [|discriminate].
    intros [= <- <-].
    destruct (greedy_sound _ _ _ Hg) as (Hne & Hall & s1 & -> & Hc).
    destruct (IH _ _ _ Hc) as (m & -> & Hm).
    exists (run ++ m). split; [now rewrite PyStrFacts.append_assoc|].
    now constructor.
Qed.

(** Where the pattern matches at no position, [re.sub] returns its
    subject. *)
Lemma sub_no_match r t : forall s,
  (forall pre suf, s = pre ++ suf -> match_here r suf = None) ->
  sub r t s = s.
Proof.
  unfold sub. induction s as [|a s IH]; intros H; simpl; [reflexivity|].
  rewrite (H "" (String a s) eq_refl). f_equal. apply IH.
  intros pre suf ->. apply (H (String a pre)). reflexivity.
Qed.

(** A literal of the pattern occurs in every instance. *)
Lemma matches_literal r m groups c :
  matches r m groups -> In (One (Chr c)) r ->
  PyStr.contains (String c "") m = true.
Proof.
  induction 1 as [|k r a m groups Ha Hm IH|k r run m groups Hne Hall Hm IH
                  |k r run m groups Hne Hall Hm IH]; intros Hin.
  - destruct Hin.
  - destruct Hin as [[= ->]|Hin].
    + simpl in Ha. apply Ascii.eqb_eq in Ha. subst a. simpl.
      destruct (ascii_dec c c); [|congruence]. now destruct m.
    + simpl. rewrite (IH Hin). apply orb_true_r.
  - destruct Hin as [Hin|Hin]; [discriminate|].
    apply PyStrFacts.contains_append_r. auto.
  - destruct Hin as [Hin|Hin]; [discriminate|].
    apply PyStrFacts.contains_append_r. auto.
Qed.

Lemma no_literal_no_match r t c s :
  In (One (Chr c)) r ->
  PyStr.contains (String c "") s = false ->
  sub r t s = s.
Proof.
  intros Hin Hc. apply sub_no_match. intros pre suf ->.
  destruct (match_here r suf) as [[groups rest]|] eqn:E; [|reflexivity].
  destruct (match_here_sound _ _ E) as (m & -> & Hm).
  pose proof (matches_literal c Hm Hin) as H.
  apply (PyStrFacts.contains_append_l _ _ rest) in H.
  apply (PyStrFacts.contains_append_r _ pre) in H. congruence.
Qed.

End ReFacts.

(** ** The repair pass *)

Module SuggestionsFacts.
Import Re Suggestions.

Local Open Scope string_scope.

Ltac invert_matches :=
  repeat match goal with
         | H : matches (_ :: _) _ _ |- _ => inversion H; clear H; subst
         | H : matches [] _ _ |- _ => inversion H; clear H; subst
         | H : cls_match (Chr _) _ = true |- _ =>
             simpl in H; apply Ascii.eqb_eq in H; subst
         end.

Lemma lstrip_spaces (w : string) (a : ascii) (t : string) :
  all_match Space w = true -> PyStr.is_space a = false ->
  PyStr.lstrip (w ++ String a t) = String a t.
Proof.
  intros Hw Ha. induction w as [|x w IH]; simpl.
  - now rewrite Ha.
  - simpl in Hw. apply andb_true_iff in Hw. destruct Hw as [Hx Hw].
    rewrite Hx. auto.
Qed.

Lemma length_lt_append (w t : string) :
  w <> "" -> (String.length t <? String.length (w ++ t))%nat = true.
Proof.
  intros Hw. apply Nat.ltb_lt. rewrite PyStrFacts.length_append.
  destruct w; [congruence | simpl; lia].
Qed.

(** The shape the connective patterns match is the one [connective_at]
    recognises. *)
Lemma connective_at_intro (a : ascii) (word' w1 w2 rest : string) :
  PyStr.is_space a = false ->
  w1 <> "" -> all_match Space w1 = true ->
  w2 <> "" -> all_match Space w2 = true ->
  connective_at (String a word')
                (String ")" (w1 ++ String a word' ++ w2 ++ String "(" rest))
  = true.
Proof.
  intros Ha Hn1 Hs1 Hn2 Hs2. unfold connective_at.
  change (w1 ++ String a word' ++ w2 ++ String "(" rest)
    with (w1 ++ String a (word' ++ w2 ++ String "(" rest)).
  rewrite lstrip_spaces by assumption.
  rewrite length_lt_append by assumption.
  change (String a (word' ++ w2 ++ String "(" rest))
    with (String a word' ++ (w2 ++ String "(" rest)).
  rewrite PyStrFacts.prefix_append, PyStrFacts.substring_drop.
  rewrite lstrip_spaces by (assumption || reflexivity).
  rewrite length_lt_append by assumption. simpl.
  now destruct rest.
Qed.

Lemma has_connective_unfold (word s : string) :
  has_connective word s =
  connective_at word s ||
  match s with
  | String _ s' => has_connective word s'
  | EmptyString => false
  end.
Proof. destruct s; reflexivity. Qed.

Lemma has_connective_intro (word pre suf : string) :
  connective_at word suf = true -> has_connective word (pre ++ suf) = true.
Proof.
  intros H. induction pre as [|x pre IH].
  - simpl append. rewrite has_connective_unfold, H. reflexivity.
  - change (String x pre ++ suf) with (String x (pre ++ suf)).
    rewrite has_connective_unfold, IH. apply orb_true_r.
Qed.

Lemma and_instance m groups rest :
  matches pat_and m groups -> connective_at "AND" (m ++ rest) = true.
Proof.
  unfold pat_and, connective_pattern. simpl. intros H. invert_matches.
  cbn [append]. rewrite PyStrFacts.append_assoc. cbn [append].
  rewrite PyStrFacts.append_assoc. cbn [append].
  match goal with
  | |- connective_at _ (String _ (?w1 ++ _ (_ (_ (?w2 ++ _))))) = _ =>
      apply (@connective_at_intro "A"%char "ND" w1 w2 rest)
  end; auto.
Qed.

Lemma or_instance m groups rest :
  matches pat_or m groups -> connective_at "OR" (m ++ rest) = true.
Proof.
  unfold pat_or, connective_pattern. simpl. intros H. invert_matches.
  cbn [append]. rewrite PyStrFacts.append_assoc. cbn [append].
  rewrite PyStrFacts.append_assoc. cbn [append].
  match goal with
  | |- connective_at _ (String _ (?w1 ++ _ (_ (?w2 ++ _)))) = _ =>
      apply (@connective_at_intro "O"%char "R" w1 w2 rest)
  end; auto.
Qed.

Lemma ne_instance m groups :
  matches pat_ne m groups -> PyStr.contains "!=" m = true.
Proof.
  unfold pat_ne, predicate_pattern. simpl. intros H. invert_matches.
  rewrite PyStrFacts.contains_unfold. apply orb_true_iff. right.
  match goal with
  | |- PyStr.contains _ (?run ++ String "!" (String "=" ?t)) = true =>
      change (run ++ String "!" (String "=" t)) with (run ++ "!=" ++ t)
  end.
  apply PyStrFacts.contains_append.
Qed.

Lemma sub_without_instance r t s :
  (forall pre m groups rest,
      s = pre ++ m ++ rest -> matches r m groups -> False) ->
  sub r t s = s.
Proof.
  intros H. apply ReFacts.sub_no_match. intros pre suf ->.
  destruct (match_here r suf) as [[groups rest]|] eqn:E; [|reflexivity].
  destruct (ReFacts.match_here_sound _ _ E) as (m & -> & Hm).
  exfalso. exact (H pre m groups rest eq_refl Hm).
Qed.

(** A filter without conventional operators passes through unchanged. *)
Lemma native_unchanged s : native s = true -> _fix_rets_operators s = s.
Proof.
  unfold native. rewrite !andb_true_iff, !negb_true_iff.
  intros ((((Hgt & Hlt) & Hne) & Hand) & Hor).
  unfold _fix_rets_operators.
  rewrite (@ReFacts.no_literal_no_match pat_gt tpl_plus ">"%char s)
    by (simpl; auto).
  rewrite (@ReFacts.no_literal_no_match pat_ge tpl_plus ">"%char s)
    by (simpl; auto).
  rewrite (@ReFacts.no_literal_no_match pat_lt tpl_minus "<"%char s)
    by (simpl; auto).
  rewrite (@ReFacts.no_literal_no_match pat_le tpl_minus "<"%char s)
    by (simpl; auto).
  rewrite (@sub_without_instance pat_ne tpl_not s).
  2:{ intros pre m groups rest -> Hm. apply ne_instance in Hm.
      apply (PyStrFacts.contains_append_l _ _ rest) in Hm.
      apply (PyStrFacts.contains_append_r _ pre) in Hm. congruence. }
  rewrite (@sub_without_instance pat_and _ s).
  2:{ intros pre m groups rest -> Hm.
      apply (and_instance rest) in Hm.
      apply (has_connective_intro _ pre) in Hm. congruence. }
  apply sub_without_instance.
  intros pre m groups rest -> Hm.
  apply (or_instance rest) in Hm.
  apply (has_connective_intro _ pre) in Hm. congruence.
Qed.

(** C5, on the inputs where the pass departs from the mapping.  The first
    substitution already matches [(F>=V)] and takes [=V] for the value, and
    likewise for [<=]; and since [[^=]+] runs across predicate groups, only
    the last of several [>] predicates is rewritten.  The single predicate
    [(Price>100000)] is rewritten as the mapping says. *)
Theorem repair_pass_on_samples :
  _fix_rets_operators "(Price>100000)" = "(Price=100000+)" /\
  _fix_rets_operators "(Price>=100000)" = "(Price==100000+)" /\
  _fix_rets_operators "(Price<=100000)" = "(Price=-=100000)" /\
  _fix_rets_operators "(A>1),(B>2)" = "(A>1),(B=2+)" /\
  _fix_rets_operators "(A>1) AND (B>2)" = "(A>1),(B=2+)".
Proof. repeat split; vm_compute; reflexivity. Qed.

(** C6 as stated fails: applying the pass twice differs from applying it
    once on [(A>1),(B>2)], and on the predicate [(A!=B>C)], which the
    [!=] substitution turns into one the [>] substitution matches. *)
Lemma repair_pass_not_idempotent :
  _fix_rets_operators "(A>1),(B>2)" = "(A>1),(B=2+)" /\
  _fix_rets_operators (_fix_rets_operators "(A>1),(B>2)") = "(A=1+),(B=2+)" /\
  _fix_rets_operators (_fix_rets_operators "(A>1),(B>2)")
  <> _fix_rets_operators "(A>1),(B>2)" /\
  _fix_rets_operators "(A!=B>C)" = "(A!B>C)" /\
  _fix_rets_operators (_fix_rets_operators "(A!=B>C)") = "(A!B=C+)".
Proof. vm_compute. repeat split; discriminate. Qed.

(** C6, as amended.  A filter already in native syntax (no [>], [<], [!=],
    and no [AND]/[OR] between predicate groups) is returned unchanged, so
    on such a filter applying the pass twice equals applying it once. *)
Theorem repair_pass_native_noop :
  forall s, native s = true ->
            _fix_rets_operators s = s /\
            _fix_rets_operators (_fix_rets_operators s)
            = _fix_rets_operators s.
Proof.
  intros s H. pose proof (native_unchanged s H) as E.
  split; [exact E | now rewrite !E].
Qed.

Lemma repair_pass_native_noop_witness :
  native "(Status=Active),(ListPrice=300000-800000)|(City=ORLANDO AND)" = true /\
  _fix_rets_operators
    "(Status=Active),(ListPrice=300000-800000)|(City=ORLANDO AND)"
  = "(Status=Active),(ListPrice=300000-800000)|(City=ORLANDO AND)".
Proof.
  split; [reflexivity|].
  apply (repair_pass_native_noop
           "(Status=Active),(ListPrice=300000-800000)|(City=ORLANDO AND)").
  reflexivity.
Defined.

End SuggestionsFacts.

(** ** White space *)

Module StripFacts.
Import PyStr.

Local Open Scope string_scope.

Lemma lstrip_all_space s : all_space s = true -> lstrip s = "".
Proof.
  induction s as [|a s IH]; simpl; [reflexivity|].
  intros H. apply andb_true_iff in H. destruct H as [Ha Hs].
  rewrite Ha. auto.
Qed.

Lemma lstrip_empty s : lstrip s = "" -> all_space s = true.
Proof.
  induction s as [|a s IH]; simpl; [reflexivity|].
  destruct (is_space a); [auto | discriminate].
Qed.

Lemma lstrip_head s :
  lstrip s = "" \/ exists a t, lstrip s = String a t /\ is_space a = false.
Proof.
  induction s as [|a s IH]; simpl; [now left|].
  destruct (is_space a) eqn:E; [exact IH|]. right. eauto.
Qed.

Lemma rstrip_empty s : rstrip s = "" -> all_space s = true.
Proof.
  induction s as [|a s IH]; simpl; [reflexivity|].
  destruct (rstrip s) eqn:E; [|discriminate].
  destruct (is_space a); [auto | discriminate].
Qed.

(** [s.strip()] is empty exactly when [s] is empty or white space only. *)
Lemma strip_empty_iff s : strip s = "" <-> all_space s = true.
Proof.
  unfold strip. split.
  - intros H. apply rstrip_empty in H.
    destruct (lstrip_head s) as [E|(a & t & E & Ha)].
    + now apply lstrip_empty.
    + rewrite E in H. simpl in H. rewrite Ha in H. discriminate.
  - intros H. now rewrite lstrip_all_space.
Qed.

Lemma truthy_false s : truthy s = false <-> s = "".
Proof. destruct s; simpl; split; congruence. Qed.

Lemma truthy_strip s : truthy s && truthy (strip s) = negb (all_space s).
Proof.
  destruct (all_space s) eqn:E.
  - apply strip_empty_iff in E. rewrite E. simpl. apply andb_false_r.
  - assert (Hs : strip s <> "") by (rewrite strip_empty_iff; congruence).
    destruct s as [|a s]; [discriminate|]. simpl truthy at 1.
    destruct (strip (String a s)); [congruence | reflexivity].
Qed.

End StripFacts.

(** ** Running effectful code *)

Module EffFacts.

Lemma bind_run S A B (m : Eff.M S A) (k : A -> Eff.M S B) (s : S) :
  Eff.bind m k s =
  match m s with
  | (Py.Ret a, s') => k a s'
  | (Py.Raise e, s') => (Py.Raise e, s')
  end.
Proof. reflexivity. Qed.

Lemma try_except_run S A (m : Eff.M S A) (h : Py.exn -> Eff.M S A) (s : S) :
  Eff.try_except m h s =
  match m s with
  | (Py.Ret a, s') => (Py.Ret a, s')
  | (Py.Raise e, s') => h e s'
  end.
Proof. reflexivity. Qed.

Lemma except_request_run S A (m h : Eff.M S A) (s : S) :
  Eff.except_request m h s =
  match m s with
  | (Py.Raise (Py.RequestException _), s') => h s'
  | r => r
  end.
Proof. reflexivity. Qed.

(** A handler that returns makes the whole [try] return. *)
Lemma try_except_returns S A (m : Eff.M S A) (a0 : A) (s : S) :
  exists a s', Eff.try_except m (fun _ => Eff.ret a0) s = (Py.Ret a, s').
Proof.
  rewrite try_except_run. destruct (m s) as [[a|e] s'].
  - exists a, s'. reflexivity.
  - exists a0, s'. reflexivity.
Qed.

End EffFacts.

(** ** The RETS client *)

Module RetsFacts.
Import Http Rets.

Local Open Scope string_scope.

Section Facts.
Variable ET_fromstring : string -> option Xml.Element.
Variable chr_int : string -> Py.outcome ascii.
Variable net : network.

Lemma get_self_run w : get_self w = (Py.Ret (self w), w).
Proof. reflexivity. Qed.

Lemma put_self_run c w : put_self c w = (Py.Ret tt, mkWorld c (wire w)).
Proof. reflexivity. Qed.

Lemma usable_session c :
  usable c = true -> connected c = true /\ exists s, session c = Some s.
Proof.
  unfold usable. intros H. apply andb_true_iff in H. destruct H as [Hc Hs].
  split; [exact Hc|]. destruct (session c); [eauto | discriminate].
Qed.

(** What [session_get] does to the state: one request more on the wire,
    the client untouched. *)
Lemma session_get_run u params w s :
  session (self w) = Some s ->
  session_get net u params w =
  (net (List.length (wire w)) (session_request s u params),
   mkWorld (self w) (wire w ++ [session_request s u params])).
Proof.
  intros Hs. unfold session_get, Eff.bind, Eff.read, Eff.write, Eff.lift.
  now rewrite Hs.
Qed.

Lemma query_param resource class_name query limit select :
  PyDict.get "Query" (search_params resource class_name query limit select)
  = Some (if PyStr.all_space query then default_query else PyStr.strip query).
Proof.
  unfold search_params. rewrite StripFacts.truthy_strip.
  destruct (PyStr.truthy select).
  - rewrite PyDictFacts.get_set_other by discriminate.
    simpl. now destruct (PyStr.all_space query).
  - simpl. now destruct (PyStr.all_space query).
Qed.

Lemma query_type_param resource class_name query limit select :
  PyDict.get "QueryType" (search_params resource class_name query limit select)
  = Some "DMQL2".
Proof.
  unfold search_params. destruct (PyStr.truthy select).
  - rewrite PyDictFacts.get_set_other by discriminate. reflexivity.
  - reflexivity.
Qed.

(** C8.  On a connected client, [execute_query] sends exactly one request,
    to the search URL, as a DMQL2 search whose [Query] parameter is
    [default_query] when the caller's query is empty or white space only,
    and the stripped caller query otherwise. *)
Theorem execute_query_default_query :
  forall resource class_name query limit select w,
    usable (self w) = true ->
    exists r,
      wire (snd (execute_query ET_fromstring chr_int net resource class_name
                               query limit select w))
      = (wire w ++ [r])%list /\
      method r = GET /\
      Http.url r = search_url (self w) /\
      PyDict.get "QueryType" (params r) = Some "DMQL2" /\
      (PyStr.all_space query = true ->
       PyDict.get "Query" (params r) = Some "(ListingId=*)") /\
      (PyStr.all_space query = false ->
       PyDict.get "Query" (params r) = Some (PyStr.strip query)).
Proof.
  intros resource class_name query limit select w Hu.
  destruct (usable_session _ Hu) as (_ & s & Hs).
  exists (mkRequest GET (search_url (self w))
                    (search_params resource class_name query limit select)
                    (session_headers s) (session_auth s) (Some 30%Z)).
  split.
  - unfold execute_query.
    rewrite EffFacts.bind_run, get_self_run, Hu. cbn [negb].
    rewrite EffFacts.try_except_run, EffFacts.bind_run.
    rewrite (session_get_run _ _ _ Hs).
    destruct (net _ _) as [resp|e]; [|reflexivity].
    destruct (status_code resp =? 200)%Z; [|reflexivity].
    rewrite EffFacts.bind_run. unfold Eff.lift, Eff.ret.
    destruct (_parse_search_response _ _ _); reflexivity.
  - simpl. split; [reflexivity|]. split; [reflexivity|].
    split; [apply query_type_param|].
    rewrite query_param.
    split; intros ->; reflexivity.
Qed.

(** *** The Matrix format *)

Lemma abc_headers :
  PyStr.split PyStr.tab (PyStr.strip ClientExamples.columns_text)
  = ["A"; "B"; "C"].
Proof. reflexivity. Qed.

Lemma abc_values :
  PyStr.split PyStr.tab ClientExamples.data_text = [""; "v1"; "v2"; "v3"].
Proof. reflexivity. Qed.

Lemma abc_aligned :
  align_values ["A"; "B"; "C"] [""; "v1"; "v2"; "v3"] = ["v1"; "v2"; "v3"].
Proof. reflexivity. Qed.

Lemma abc_matrix_row : matrix_row ["A"; "B"; "C"] ["v1"; "v2"; "v3"] [] = ClientExamples.abc_row.
Proof. reflexivity. Qed.

Lemma matrix_data_abc (ds : list Xml.Element) : forall acc,
  Forall (fun d => Xml.text d = Some ClientExamples.data_text) ds ->
  matrix_data ["A"; "B"; "C"] PyStr.tab ds acc
  = (acc ++ map (fun _ => ClientExamples.abc_row) ds)%list.
Proof.
  induction ds as [|d ds IH]; intros acc Hall.
  - simpl. now rewrite app_nil_r.
  - inversion Hall as [|? ? Hd Hds]; subst. cbn [matrix_data].
    rewrite Hd. change (PyStr.truthy ClientExamples.data_text) with true.
    cbv iota. rewrite abc_values, abc_aligned, abc_matrix_row.
    rewrite IH by exact Hds. now rewrite <- app_assoc.
Qed.

(** C7.  For a response whose [COLUMNS] text is [A], [B], [C] separated by
    tabs, whose [DELIMITER] has the value [09], and whose [DATA] rows hold
    an empty field followed by [v1], [v2], [v3], the leading empty field is
    dropped and every row is returned as the record A: v1, B: v2, C: v3. *)
Theorem matrix_rows_realigned :
  forall response_text root columns_elem delimiter_elem data_elements,
    ET_fromstring response_text = Some root ->
    Xml.find "COLUMNS" root = Some columns_elem ->
    Xml.text columns_elem = Some ClientExamples.columns_text ->
    Xml.find "DELIMITER" root = Some delimiter_elem ->
    PyDict.get "value" (Xml.attrib delimiter_elem) = Some "09" ->
    Xml.findall "DATA" root = data_elements ->
    data_elements <> [] ->
    Forall (fun d => Xml.text d = Some ClientExamples.data_text)
           data_elements ->
    align_values ["A"; "B"; "C"]
                 (PyStr.split PyStr.tab ClientExamples.data_text)
    = ["v1"; "v2"; "v3"] /\
    _parse_search_response ET_fromstring chr_int response_text
    = Py.Ret (map (fun _ => [("A", Some "v1"); ("B", Some "v2");
                             ("C", Some "v3")])
                  data_elements).
Proof.
  intros response_text root ce de ds Hparse Hc Hct Hd Hdv Hds Hne Hall.
  split; [reflexivity|].
  unfold _parse_search_response. rewrite Hparse, Hc, Hct.
  change (PyStr.truthy ClientExamples.columns_text) with true. cbv iota.
  unfold matrix_results, matrix_delimiter. rewrite Hd, Hdv.
  change (String.eqb "09" "09") with true. cbv iota.
  unfold Py.bind at 2. rewrite abc_headers, Hds, matrix_data_abc by exact Hall.
  destruct ds as [|d ds]; [congruence|]. reflexivity.
Qed.

(** *** The metadata cascade *)

Lemma metadata_request_run type id w s :
  session (self w) = Some s ->
  metadata_request net type id w =
  (net (List.length (wire w)) (metadata_query (self w) s type id),
   mkWorld (self w) (wire w ++ [metadata_query (self w) s type id])).
Proof.
  intros Hs. unfold metadata_request.
  rewrite EffFacts.bind_run, get_self_run. now apply session_get_run.
Qed.

(** A loop whose turns return, leave the client alone and keep the entry
    under [k] does so as a whole. *)
Lemma for_each_keeps A (f : PyDict.dict Metadata -> A -> M (PyDict.dict Metadata))
      (k : string) :
  (forall acc x w s, session (self w) = Some s ->
     exists acc' w', f acc x w = (Py.Ret acc', w') /\ self w' = self w /\
                     PyDict.get k acc' = PyDict.get k acc) ->
  forall xs acc w s, session (self w) = Some s ->
    exists acc' w', for_each f xs acc w = (Py.Ret acc', w') /\
                    self w' = self w /\ PyDict.get k acc' = PyDict.get k acc.
Proof.
  intros Hf. induction xs as [|x xs IH]; intros acc w s Hs.
  - exists acc, w. repeat split.
  - destruct (Hf acc x w s Hs) as (acc1 & w1 & E1 & Hw1 & Hk1).
    assert (Hs1 : session (self w1) = Some s) by (now rewrite Hw1).
    destruct (IH acc1 w1 s Hs1) as (acc2 & w2 & E2 & Hw2 & Hk2).
    exists acc2, w2. cbn [for_each]. rewrite EffFacts.bind_run, E1.
    repeat split; [exact E2 | congruence | congruence].
Qed.

Lemma table_level_keeps k rn :
  answering net -> (forall x, k <> "TABLE_" ++ x) ->
  forall md ci w s, session (self w) = Some s ->
    exists md' w', table_level ET_fromstring net rn md ci w = (Py.Ret md', w') /\
                   self w' = self w /\ PyDict.get k md' = PyDict.get k md.
Proof.
  intros Hans Hk md ci w s Hs. unfold table_level.
  destruct (PyStr.truthy _); [|exists md, w; repeat split].
  rewrite EffFacts.bind_run, (metadata_request_run _ _ _ Hs).
  destruct (Hans (List.length (wire w))
                 (metadata_query (self w) s "METADATA-TABLE"
                    (rn ++ ":" ++
                     match PyDict.get "ClassName" ci with
                     | Some n => n
                     | None => ""
                     end))) as [resp ->].
  destruct (status_code resp =? 200)%Z; eexists; eexists;
    (split; [reflexivity|]); split; try reflexivity.
  apply PyDictFacts.get_set_other. intros E. symmetry in E. revert E. apply Hk.
Qed.

Lemma class_level_keeps k :
  answering net ->
  (forall x, k <> "TABLE_" ++ x) -> (forall x, k <> "CLASS_" ++ x) ->
  forall md resource w s, session (self w) = Some s ->
    exists md' w', class_level ET_fromstring net md resource w = (Py.Ret md', w') /\
                   self w' = self w /\ PyDict.get k md' = PyDict.get k md.
Proof.
  intros Hans Hkt Hkc md resource w s Hs. unfold class_level.
  destruct (PyStr.truthy _); [|exists md, w; repeat split].
  rewrite EffFacts.bind_run, (metadata_request_run _ _ _ Hs).
  destruct (Hans (List.length (wire w))
                 (metadata_query (self w) s "METADATA-CLASS"
                    match PyDict.get "ResourceID" resource with
                    | Some n => n
                    | None => ""
                    end)) as [resp ->].
  destruct (status_code resp =? 200)%Z;
    [|eexists; eexists; repeat split; reflexivity].
  match goal with
  | |- context [for_each ?f ?xs ?acc ?w1] =>
      destruct (@for_each_keeps _ f k (table_level_keeps _ Hans Hkt)
                                xs acc w1 s Hs) as (md' & w' & E & Hw & Hg)
  end.
  exists md', w'. split; [exact E|]. split; [exact Hw|].
  rewrite Hg. apply PyDictFacts.get_set_other.
  intros E'. symmetry in E'. revert E'. apply Hkc.
Qed.

Lemma get_metadata_run w :
  usable (self w) = true ->
  get_metadata ET_fromstring net w =
  match get_metadata_body ET_fromstring net w with
  | (Py.Ret a, w') => (Py.Ret a, w')
  | (Py.Raise _, w') => (Py.Ret None, w')
  end.
Proof.
  intros Hu. unfold get_metadata.
  rewrite EffFacts.bind_run, get_self_run, Hu. cbn [negb].
  now rewrite EffFacts.try_except_run.
Qed.

(** The first two levels of the cascade, request by request. *)
Lemma get_metadata_body_run w s :
  session (self w) = Some s ->
  let q0 := metadata_query (self w) s "METADATA-SYSTEM" "*" in
  let q1 := metadata_query (self w) s "METADATA-RESOURCE" "0" in
  let w1 := mkWorld (self w) (wire w ++ [q0]) in
  let w2 := mkWorld (self w) ((wire w ++ [q0]) ++ [q1]) in
  get_metadata_body ET_fromstring net w =
  match net (List.length (wire w)) q0 with
  | Py.Raise e => (Py.Raise e, w1)
  | Py.Ret r0 =>
      if (status_code r0 =? 200)%Z then
        let system_only :=
          [("SYSTEM", _parse_metadata_response ET_fromstring (text r0))] in
        match net (S (List.length (wire w))) q1 with
        | Py.Raise e => (Py.Raise e, w2)
        | Py.Ret r1 =>
            if (status_code r1 =? 200)%Z then
              let resource_metadata :=
                _parse_metadata_response ET_fromstring (text r1) in
              match for_each (class_level ET_fromstring net)
                             (resources resource_metadata)
                             (PyDict.set "RESOURCE" resource_metadata
                                         system_only) w2 with
              | (Py.Ret md, w') => (Py.Ret (Some md), w')
              | (Py.Raise e, w') => (Py.Raise e, w')
              end
            else (Py.Ret (Some system_only), w2)
        end
      else (Py.Ret None, w1)
  end.
Proof.
  intros Hs q0 q1 w1 w2. unfold get_metadata_body.
  rewrite EffFacts.bind_run, (metadata_request_run _ _ _ Hs).
  fold q0. fold w1. destruct (net (List.length (wire w)) q0) as [r0|e];
    [|reflexivity].
  destruct (status_code r0 =? 200)%Z; [|reflexivity].
  assert (Hs1 : session (self w1) = Some s) by exact Hs.
  rewrite EffFacts.bind_run, (metadata_request_run _ _ _ Hs1).
  replace (List.length (wire w1)) with (S (List.length (wire w)))
    by (subst w1; simpl; rewrite length_app; simpl; lia).
  change (metadata_query (self w1) s "METADATA-RESOURCE" "0") with q1.
  change (mkWorld (self w1) (wire w1 ++ [q1])) with w2.
  destruct (net (S (List.length (wire w))) q1) as [r1|e]; [|reflexivity].
  rewrite EffFacts.bind_run.
  destruct (status_code r1 =? 200)%Z; [|reflexivity].
  cbv zeta. destruct (for_each _ _ _ w2) as [[md|e] w']; reflexivity.
Qed.

(** *** The cascade as a sequence of requests *)

Lemma answers_app c s ls1 : forall n ls2,
  answers net c s n (ls1 ++ ls2) =
  (answers net c s n ls1 ++ answers net c s (n + List.length ls1)%nat ls2)%list.
Proof.
  induction ls1 as [|l ls1 IH]; intros n ls2; cbn [app answers List.length].
  - now rewrite Nat.add_0_r.
  - rewrite IH. now rewrite Nat.add_succ_r.
Qed.

Lemma answers_levels c s ls : forall n,
  map fst (answers net c s n ls) = ls.
Proof.
  induction ls as [|l ls IH]; intros n; cbn [answers map fst];
    [reflexivity | now rewrite IH].
Qed.

Lemma answers_In c s l a ls : forall n,
  In (l, a) (answers net c s n ls) -> In l ls.
Proof.
  intros n H. rewrite <- (answers_levels c s ls n).
  change l with (fst (l, a)). now apply in_map.
Qed.

Lemma world_eta w : mkWorld (self w) (wire w) = w.
Proof. now destruct w. Qed.

Lemma ran_nil s w md : ran ET_fromstring net s w md [] (Py.Ret md, w).
Proof.
  unfold ran. cbn [fst snd map answers forallb fold_left].
  rewrite app_nil_r, world_eta. repeat split.
Qed.

Lemma ran_app s w md ls1 md1 w1 ls2 res :
  ran ET_fromstring net s w md ls1 (Py.Ret md1, w1) ->
  ran ET_fromstring net s w1 md1 ls2 res ->
  ran ET_fromstring net s w md (ls1 ++ ls2) res.
Proof.
  unfold ran. cbn [fst snd]. intros (Hw1 & Ha1 & Hm1) (Hw2 & H2).
  subst w1. cbn [self wire] in *.
  rewrite length_app, length_map in *. split.
  - now rewrite Hw2, map_app, app_assoc.
  - destruct (fst res) as [md'|e].
    + destruct H2 as [Ha2 Hm2].
      rewrite answers_app, forallb_app, fold_left_app, Ha1, Ha2, <- Hm1.
      split; [reflexivity | exact Hm2].
    + destruct H2 as (ls0 & l & -> & Ha & Hr).
      exists (ls1 ++ ls0)%list, l. rewrite app_assoc.
      split; [reflexivity|].
      rewrite answers_app, forallb_app, Ha1, Ha, length_app, Nat.add_assoc.
      split; [reflexivity | exact Hr].
Qed.

Lemma ran_self s w md ls res :
  ran ET_fromstring net s w md ls res ->
  self (snd res) = self w /\
  List.length (wire (snd res)) = (List.length (wire w) + List.length ls)%nat.
Proof.
  intros [Hw _]. rewrite Hw. cbn [self wire].
  now rewrite length_app, length_map.
Qed.

(** One request of the cascade and what is done with its answer. *)
Lemma ran_request s w md l :
  session (self w) = Some s ->
  ran ET_fromstring net s w md [l]
      (match net (List.length (wire w)) (level_query (self w) s l) with
       | Py.Ret r => Py.Ret (store ET_fromstring md (l, Py.Ret r))
       | Py.Raise e => Py.Raise e
       end,
       mkWorld (self w) (wire w ++ [level_query (self w) s l])).
Proof.
  intros Hs. unfold ran. cbn [fst snd map answers forallb fold_left].
  split; [reflexivity|].
  destruct (net _ _) as [r|e] eqn:E.
  - split; reflexivity.
  - exists [], l. split; [reflexivity|]. split; [reflexivity|].
    cbn [List.length]. now rewrite Nat.add_0_r.
Qed.

Lemma table_level_ran s rn md ci w :
  session (self w) = Some s ->
  let cn := match PyDict.get "ClassName" ci with Some n => n | None => "" end in
  ran ET_fromstring net s w md
      (if PyStr.truthy cn then [Table rn cn] else [])
      (table_level ET_fromstring net rn md ci w).
Proof.
  intros Hs cn. unfold table_level. fold cn.
  destruct (PyStr.truthy cn); [|apply ran_nil].
  rewrite EffFacts.bind_run, (metadata_request_run _ _ _ Hs).
  pose proof (@ran_request s w md (Table rn cn) Hs) as H.
  unfold level_query in H. cbn [level_type level_id] in H.
  destruct (net _ _) as [r|e]; [|exact H].
  unfold store in H. cbn [fst snd level_key] in H.
  destruct (status_code r =? 200)%Z; exact H.
Qed.

(** The loop over the classes of one resource. *)
Lemma tables_ran s rn : forall cis md w,
  session (self w) = Some s ->
  exists ls,
    ran ET_fromstring net s w md ls
        (for_each (table_level ET_fromstring net rn) cis md w) /\
    (forall l, In l ls ->
       exists ci cn, In ci cis /\ PyDict.get "ClassName" ci = Some cn /\
                     PyStr.truthy cn = true /\ l = Table rn cn) /\
    (forall md',
        fst (for_each (table_level ET_fromstring net rn) cis md w)
        = Py.Ret md' ->
        forall ci cn, In ci cis -> PyDict.get "ClassName" ci = Some cn ->
                      PyStr.truthy cn = true -> In (Table rn cn) ls).
Proof.
  induction cis as [|ci cis IH]; intros md w Hs.
  - exists []. split; [apply ran_nil|]. split.
    + intros l [].
    + intros md' _ ci cn [].
  - cbn [for_each]. rewrite EffFacts.bind_run.
    pose proof (@table_level_ran s rn md ci w Hs) as H1. cbv zeta in H1.
    set (cn0 := match PyDict.get "ClassName" ci with
                | Some n => n
                | None => ""
                end) in *.
    set (ls1 := if PyStr.truthy cn0 then [Table rn cn0] else []) in *.
    assert (Hsound1 : forall l, In l ls1 ->
              PyDict.get "ClassName" ci = Some cn0 /\
              PyStr.truthy cn0 = true /\ l = Table rn cn0).
    { intros l Hl. subst ls1. destruct (PyStr.truthy cn0) eqn:Ht; [|destruct Hl].
      destruct Hl as [<-|[]]. split; [|split; reflexivity].
      subst cn0. destruct (PyDict.get "ClassName" ci); [reflexivity|].
      discriminate Ht. }
    destruct (table_level ET_fromstring net rn md ci w) as [[md1|e] w1] eqn:E.
    + destruct (@ran_self s w md ls1 _ H1) as [Hself1 _]. cbn [snd] in Hself1.
      assert (Hs1 : session (self w1) = Some s) by (now rewrite Hself1).
      destruct (IH md1 w1 Hs1) as (ls2 & H2 & Hsound2 & Hcompl2).
      exists (ls1 ++ ls2)%list.
      split; [exact (@ran_app s w md ls1 md1 w1 ls2 _ H1 H2)|]. split.
      * intros l Hl. apply in_app_or in Hl. destruct Hl as [Hl|Hl].
        -- destruct (Hsound1 l Hl) as (Hg & Ht & ->).
           exists ci, cn0. split; [now left|]. repeat split; assumption.
        -- destruct (Hsound2 l Hl) as (ci' & cn & Hin & Hg & Ht & ->).
           exists ci', cn. split; [now right|]. repeat split; assumption.
      * intros md' Hret ci' cn [<-|Hin] Hg Ht; apply in_or_app.
        -- left. subst ls1 cn0. rewrite Hg, Ht. now left.
        -- right. exact (Hcompl2 md' Hret ci' cn Hin Hg Ht).
    + exists ls1. split; [exact H1|]. split.
      * intros l Hl. destruct (Hsound1 l Hl) as (Hg & Ht & ->).
        exists ci, cn0. split; [now left|]. repeat split; assumption.
      * intros md' Hret. discriminate Hret.
Qed.

Lemma truthy_get_or k (d : PyDict.dict string) :
  PyStr.truthy match PyDict.get k d with Some n => n | None => "" end = true ->
  PyDict.get k d = Some match PyDict.get k d with Some n => n | None => "" end.
Proof. destruct (PyDict.get k d); [reflexivity | discriminate]. Qed.

(** The class level of one resource, with the loop over its classes. *)
Lemma class_level_ran s md resource w :
  session (self w) = Some s ->
  exists ls,
    ran ET_fromstring net s w md ls
        (class_level ET_fromstring net md resource w) /\
    (forall name, In (Class name) ls ->
       PyDict.get "ResourceID" resource = Some name /\
       PyStr.truthy name = true) /\
    (forall name cn, In (Table name cn) ls ->
       exists r ci,
         In (Class name, Py.Ret r)
            (answers net (self w) s (List.length (wire w)) ls) /\
         status_code r = 200%Z /\
         In ci (classes (_parse_metadata_response ET_fromstring (text r))) /\
         PyDict.get "ClassName" ci = Some cn /\ PyStr.truthy cn = true) /\
    (~ In System ls /\ ~ In Resource ls) /\
    (forall md',
        fst (class_level ET_fromstring net md resource w) = Py.Ret md' ->
        (forall name, PyDict.get "ResourceID" resource = Some name ->
                      PyStr.truthy name = true -> In (Class name) ls) /\
        (forall name r ci cn,
            In (Class name, Py.Ret r)
               (answers net (self w) s (List.length (wire w)) ls) ->
            status_code r = 200%Z ->
            In ci (classes (_parse_metadata_response ET_fromstring (text r))) ->
            PyDict.get "ClassName" ci = Some cn -> PyStr.truthy cn = true ->
            In (Table name cn) ls)).
Proof.
  intros Hs. unfold class_level.
  set (rn := match PyDict.get "ResourceID" resource with
             | Some n => n
             | None => ""
             end).
  destruct (PyStr.truthy rn) eqn:Ht.
  2:{ exists []. split; [apply ran_nil|].
      split; [intros name []|]. split; [intros name cn []|].
      split; [split; intros []|].
      intros md' _. split.
      - intros name Hg Hn. subst rn. rewrite Hg in Ht. congruence.
      - intros name r ci cn []. }
  pose proof (truthy_get_or "ResourceID" resource Ht) as Hg. fold rn in Hg.
  rewrite EffFacts.bind_run, (metadata_request_run _ _ _ Hs).
  pose proof (@ran_request s w md (Class rn) Hs) as H1.
  unfold level_query in H1. cbn [level_type level_id] in H1.
  destruct (net (List.length (wire w))
                (metadata_query (self w) s "METADATA-CLASS" rn))
    as [r|e] eqn:En.
  - unfold store in H1. cbn [fst snd level_key] in H1.
    destruct (status_code r =? 200)%Z eqn:E200.
    + set (md1 := PyDict.set ("CLASS_" ++ rn)
                    (_parse_metadata_response ET_fromstring (text r)) md) in *.
      set (w1 := mkWorld (self w)
                   (wire w ++ [metadata_query (self w) s "METADATA-CLASS" rn]))
        in *.
      assert (Hs1 : session (self w1) = Some s) by exact Hs.
      destruct (@tables_ran s rn
                  (classes (_parse_metadata_response ET_fromstring (text r)))
                  md1 w1 Hs1) as (ls2 & H2 & Hsound2 & Hcompl2).
      exists ([Class rn] ++ ls2)%list.
      split; [exact (@ran_app s w md [Class rn] md1 w1 ls2 _ H1 H2)|].
      cbn [app answers]. unfold level_query. cbn [level_type level_id].
      rewrite En. apply Z.eqb_eq in E200.
      split; [|split; [|split; [|intros md' Hret; split]]].
      * intros name [[= <-]|Hl]; [split; assumption|].
        destruct (Hsound2 _ Hl) as (ci & cn & _ & _ & _ & Habs).
        discriminate Habs.
      * intros name cn [Habs|Hl]; [discriminate Habs|].
        destruct (Hsound2 _ Hl) as (ci & cn' & Hin & Hgc & Htc & [= -> ->]).
        exists r, ci. split; [now left|]. repeat split; assumption.
      * split; (intros [Habs|Hl]; [discriminate Habs|]);
          destruct (Hsound2 _ Hl) as (ci & cn & _ & _ & _ & Habs);
          discriminate Habs.
      * intros name Hgn _. left. congruence.
      * intros name r' ci cn [Hhd|Hl] _ Hin Hgc Htc.
        -- inversion Hhd; subst name r'. right.
           exact (Hcompl2 md' Hret ci cn Hin Hgc Htc).
        -- apply answers_In in Hl.
           destruct (Hsound2 _ Hl) as (ci' & cn' & _ & _ & _ & Habs).
           discriminate Habs.
    + exists [Class rn]. split; [exact H1|].
      cbn [answers]. unfold level_query. cbn [level_type level_id].
      rewrite En.
      split; [|split; [|split; [|intros md' Hret; split]]].
      * intros name [[= <-]|[]]. split; assumption.
      * intros name cn [Habs|[]]. discriminate Habs.
      * split; intros [Habs|[]]; discriminate Habs.
      * intros name Hgn _. left. congruence.
      * intros name r' ci cn [Hhd|[]] H200. inversion Hhd; subst name r'.
        apply Z.eqb_neq in E200. contradiction.
  - exists [Class rn]. split; [exact H1|].
    split; [|split; [|split; [|intros md' Hret; discriminate Hret]]].
    + intros name [[= <-]|[]]. split; assumption.
    + intros name cn [Habs|[]]. discriminate Habs.
    + split; intros [Habs|[]]; discriminate Habs.
Qed.

(** The loop over the resources. *)
Lemma classes_ran s : forall xs md w,
  session (self w) = Some s ->
  exists ls,
    ran ET_fromstring net s w md ls
        (for_each (class_level ET_fromstring net) xs md w) /\
    (forall name, In (Class name) ls ->
       exists resource,
         In resource xs /\ PyDict.get "ResourceID" resource = Some name /\
         PyStr.truthy name = true) /\
    (forall name cn, In (Table name cn) ls ->
       exists r ci,
         In (Class name, Py.Ret r)
            (answers net (self w) s (List.length (wire w)) ls) /\
         status_code r = 200%Z /\
         In ci (classes (_parse_metadata_response ET_fromstring (text r))) /\
         PyDict.get "ClassName" ci = Some cn /\ PyStr.truthy cn = true) /\
    (~ In System ls /\ ~ In Resource ls) /\
    (forall md',
        fst (for_each (class_level ET_fromstring net) xs md w) = Py.Ret md' ->
        (forall resource name,
            In resource xs -> PyDict.get "ResourceID" resource = Some name ->
            PyStr.truthy name = true -> In (Class name) ls) /\
        (forall name r ci cn,
            In (Class name, Py.Ret r)
               (answers net (self w) s (List.length (wire w)) ls) ->
            status_code r = 200%Z ->
            In ci (classes (_parse_metadata_response ET_fromstring (text r))) ->
            PyDict.get "ClassName" ci = Some cn -> PyStr.truthy cn = true ->
            In (Table name cn) ls)).
Proof.
  induction xs as [|x xs IH]; intros md w Hs.
  - exists []. split; [apply ran_nil|].
    split; [intros name []|]. split; [intros name cn []|].
    split; [split; intros []|].
    intros md' _. split; [intros resource name []|intros name r ci cn []].
  - cbn [for_each]. rewrite EffFacts.bind_run.
    destruct (@class_level_ran s md x w Hs)
      as (ls1 & H1 & Hc1 & Ht1 & [Hns1 Hnr1] & Hcompl1).
    destruct (class_level ET_fromstring net md x w) as [[md1|e] w1] eqn:E.
    + destruct (@ran_self s w md ls1 _ H1) as [Hself1 Hlen1].
      cbn [snd] in Hself1, Hlen1.
      assert (Hs1 : session (self w1) = Some s) by (now rewrite Hself1).
      destruct (IH md1 w1 Hs1)
        as (ls2 & H2 & Hc2 & Ht2 & [Hns2 Hnr2] & Hcompl2).
      rewrite Hself1, Hlen1 in Ht2, Hcompl2.
      destruct (Hcompl1 md1 eq_refl) as [Hca1 Hta1].
      exists (ls1 ++ ls2)%list.
      split; [exact (@ran_app s w md ls1 md1 w1 ls2 _ H1 H2)|].
      rewrite answers_app.
      split; [|split; [|split; [|intros md' Hret; split]]].
      * intros name Hl. apply in_app_or in Hl. destruct Hl as [Hl|Hl].
        -- destruct (Hc1 name Hl) as [Hg Ht]. exists x.
           split; [now left|]. split; assumption.
        -- destruct (Hc2 name Hl) as (resource & Hin & Hg & Ht).
           exists resource. split; [now right|]. split; assumption.
      * intros name cn Hl. apply in_app_or in Hl. destruct Hl as [Hl|Hl].
        -- destruct (Ht1 name cn Hl) as (r & ci & Hin & Hrest).
           exists r, ci. split; [apply in_or_app; now left | exact Hrest].
        -- destruct (Ht2 name cn Hl) as (r & ci & Hin & Hrest).
           exists r, ci. split; [apply in_or_app; now right | exact Hrest].
      * split; intros Hl; apply in_app_or in Hl; tauto.
      * destruct (Hcompl2 md' Hret) as [Hca2 _].
        intros resource name [<-|Hin] Hg Ht; apply in_or_app.
        -- left. now apply Hca1.
        -- right. exact (Hca2 resource name Hin Hg Ht).
      * destruct (Hcompl2 md' Hret) as [_ Hta2].
        intros name r ci cn Hl H200 Hin Hg Ht. apply in_or_app.
        apply in_app_or in Hl. destruct Hl as [Hl|Hl].
        -- left. exact (Hta1 name r ci cn Hl H200 Hin Hg Ht).
        -- right. exact (Hta2 name r ci cn Hl H200 Hin Hg Ht).
    + exists ls1. split; [exact H1|].
      split; [|split; [exact Ht1|split; [split; assumption|]]].
      * intros name Hl. destruct (Hc1 name Hl) as [Hg Ht]. exists x.
        split; [now left|]. split; assumption.
      * intros md' Hret. discriminate Hret.
Qed.

(** What is stored stays, and nothing else comes in. *)
Lemma store_keeps k md la :
  PyDict.mem k md = true -> PyDict.mem k (store ET_fromstring md la) = true.
Proof.
  intros H. unfold store. destruct (snd la) as [r|e]; [|exact H].
  destruct (status_code r =? 200)%Z; [|exact H].
  destruct (String.eqb_spec (level_key (fst la)) k) as [<-|Hne].
  - apply PyDictFacts.mem_set_same.
  - now rewrite PyDictFacts.mem_set_other.
Qed.

Lemma fold_store_keeps k tr : forall md,
  PyDict.mem k md = true ->
  PyDict.mem k (fold_left (store ET_fromstring) tr md) = true.
Proof.
  induction tr as [|la tr IH]; intros md H; cbn [fold_left]; [exact H|].
  apply IH. now apply store_keeps.
Qed.

Lemma fold_store_mem tr : forall md l r,
  In (l, Py.Ret r) tr -> status_code r = 200%Z ->
  PyDict.mem (level_key l) (fold_left (store ET_fromstring) tr md) = true.
Proof.
  induction tr as [|la tr IH]; intros md l r Hin H200; [destruct Hin|].
  cbn [fold_left]. destruct Hin as [->|Hin].
  - apply fold_store_keeps. unfold store. cbn [fst snd].
    apply Z.eqb_eq in H200. rewrite H200. apply PyDictFacts.mem_set_same.
  - now apply (IH _ l r).
Qed.

Lemma fold_store_get tr : forall md k m,
  PyDict.get k (fold_left (store ET_fromstring) tr md) = Some m ->
  PyDict.get k md = Some m \/
  exists l r,
    In (l, Py.Ret r) tr /\ status_code r = 200%Z /\ level_key l = k /\
    m = _parse_metadata_response ET_fromstring (text r).
Proof.
  induction tr as [|[l a] tr IH]; intros md k m H; cbn [fold_left] in H;
    [now left|].
  destruct (IH _ _ _ H) as [H0|(l' & r & Hin & Hrest)].
  - unfold store in H0. cbn [fst snd] in H0.
    destruct a as [r|e]; [|now left].
    destruct (status_code r =? 200)%Z eqn:E200; [|now left].
    destruct (String.eqb_spec (level_key l) k) as [<-|Hne].
    + rewrite PyDictFacts.get_set_same in H0. injection H0 as <-.
      right. exists l, r. apply Z.eqb_eq in E200.
      split; [now left|]. repeat split. exact E200.
    + rewrite PyDictFacts.get_set_other in H0 by exact Hne. now left.
  - right. exists l', r. split; [now right | exact Hrest].
Qed.

Lemma answered_no_raise tr l e :
  forallb answered tr = true -> In (l, Py.Raise e) tr -> False.
Proof.
  intros Ha Hin. rewrite forallb_forall in Ha. specialize (Ha _ Hin).
  discriminate Ha.
Qed.

Lemma answers_answer c s l a ls : forall n,
  In (l, a) (answers net c s n ls) ->
  exists i, a = net i (level_query c s l).
Proof.
  induction ls as [|l' ls IH]; intros n; cbn [answers]; [intros []|].
  intros [[= <- <-]|H]; [now exists n | exact (IH _ H)].
Qed.

Lemma answering_answered c s ls : forall n,
  answering net -> forallb answered (answers net c s n ls) = true.
Proof.
  intros n Hans. apply forallb_forall. intros [l a] Hin.
  destruct (@answers_answer c s l a ls n Hin) as [i ->].
  unfold answered. cbn [snd].
  now destruct (Hans i (level_query c s l)) as [r ->].
Qed.

(** The whole cascade as the requests it made and the answers it got. *)
Lemma get_metadata_trace w s :
  usable (self w) = true ->
  session (self w) = Some s ->
  exists ls,
    let tr := answers net (self w) s (List.length (wire w)) ls in
    snd (get_metadata ET_fromstring net w)
    = mkWorld (self w) (wire w ++ map (level_query (self w) s) ls) /\
    (exists rest, ls = System :: rest) /\
    discovered ET_fromstring tr /\
    ((exists l e, In (l, Py.Raise e) tr) ->
     fst (get_metadata ET_fromstring net w) = Py.Ret None) /\
    (forallb answered tr = true ->
     forall r0,
       net (List.length (wire w))
           (metadata_query (self w) s "METADATA-SYSTEM" "*") = Py.Ret r0 ->
       status_code r0 = 200%Z ->
       exists md rest,
         fst (get_metadata ET_fromstring net w) = Py.Ret (Some md) /\
         md = fold_left (store ET_fromstring) tr [] /\
         ls = System :: Resource :: rest /\
         exhaustive ET_fromstring tr /\
         (forall l r, In (l, Py.Ret r) tr -> status_code r = 200%Z ->
                      PyDict.mem (level_key l) md = true) /\
         (forall k m,
             PyDict.get k md = Some m ->
             exists l r,
               In (l, Py.Ret r) tr /\ status_code r = 200%Z /\
               level_key l = k /\
               m = _parse_metadata_response ET_fromstring (text r))).
Proof.
  intros Hu Hs.
  assert (Hfold : forall tr md,
             md = fold_left (store ET_fromstring) tr [] ->
             (forall l r, In (l, Py.Ret r) tr -> status_code r = 200%Z ->
                          PyDict.mem (level_key l) md = true) /\
             (forall k m,
                 PyDict.get k md = Some m ->
                 exists l r,
                   In (l, Py.Ret r) tr /\ status_code r = 200%Z /\
                   level_key l = k /\
                   m = _parse_metadata_response ET_fromstring (text r))).
  { intros tr md ->. split.
    - intros l r. apply fold_store_mem.
    - intros k m H. destruct (fold_store_get _ _ _ H) as [H0|H0];
        [discriminate H0 | exact H0]. }
  rewrite (get_metadata_run _ Hu), (get_metadata_body_run _ Hs). cbv zeta.
  set (n0 := List.length (wire w)).
  set (q0 := metadata_query (self w) s "METADATA-SYSTEM" "*").
  set (q1 := metadata_query (self w) s "METADATA-RESOURCE" "0").
  destruct (net n0 q0) as [r0|e0] eqn:E0.
  2:{ exists [System]. cbn [answers map]. fold n0.
      change (level_query (self w) s System) with q0. rewrite E0.
      split; [reflexivity|]. split; [now exists []|]. split.
      { split; [intros name [H|[]] | intros name cn [H|[]]]; discriminate H. }
      split; [reflexivity|]. intros Ha. discriminate Ha. }
  destruct (status_code r0 =? 200)%Z eqn:E200.
  2:{ exists [System]. cbn [answers map]. fold n0.
      change (level_query (self w) s System) with q0. rewrite E0.
      split; [reflexivity|]. split; [now exists []|]. split.
      { split; [intros name [H|[]] | intros name cn [H|[]]]; discriminate H. }
      split; [reflexivity|]. intros _ r0' [= <-] H200.
      apply Z.eqb_neq in E200. contradiction. }
  destruct (net (S n0) q1) as [r1|e1] eqn:E1.
  2:{ exists [System; Resource]. cbn [answers map]. fold n0.
      change (level_query (self w) s System) with q0.
      change (level_query (self w) s Resource) with q1. rewrite E0, E1.
      split; [now rewrite <- app_assoc|]. split; [now eexists|]. split.
      { split; [intros name [H|[H|[]]] | intros name cn [H|[H|[]]]];
          discriminate H. }
      split; [reflexivity|]. intros Ha. discriminate Ha. }
  destruct (status_code r1 =? 200)%Z eqn:E201.
  2:{ exists [System; Resource]. cbn [answers map]. fold n0.
      change (level_query (self w) s System) with q0.
      change (level_query (self w) s Resource) with q1. rewrite E0, E1.
      split; [now rewrite <- app_assoc|]. split; [now eexists|]. split.
      { split; [intros name [H|[H|[]]] | intros name cn [H|[H|[]]]];
          discriminate H. }
      split.
      { intros (l & e & [H|[H|[]]]); discriminate H. }
      intros _ r0' [= <-] _. eexists. exists []. split; [reflexivity|].
      assert (Hmd : [("SYSTEM",
                      _parse_metadata_response ET_fromstring (text r0))]
                    = fold_left (store ET_fromstring)
                        [(System, Py.Ret r0); (Resource, Py.Ret r1)] []).
      { cbn [fold_left]. unfold store. cbn [fst snd level_key].
        now rewrite E200, E201. }
      split; [exact Hmd|]. split; [reflexivity|]. split.
      { split.
        - intros r resource name [H|[H|[]]]; [discriminate H|].
          injection H as <-. intros H200. apply Z.eqb_neq in E201.
          contradiction.
        - intros name r ci cn [H|[H|[]]]; discriminate H. }
      exact (Hfold _ _ Hmd). }
  set (md2 := PyDict.set "RESOURCE"
                (_parse_metadata_response ET_fromstring (text r1))
                [("SYSTEM", _parse_metadata_response ET_fromstring (text r0))]).
  set (w2 := mkWorld (self w) ((wire w ++ [q0]) ++ [q1])).
  assert (Hs2 : session (self w2) = Some s) by exact Hs.
  assert (Hlen2 : List.length (wire w2) = S (S n0)).
  { subst w2 n0. cbn [wire]. rewrite !length_app. cbn [List.length]. lia. }
  destruct (@classes_ran s
              (resources (_parse_metadata_response ET_fromstring (text r1)))
              md2 w2 Hs2) as (ls' & Hran & Hc & Ht & [Hns Hnr] & Hcompl).
  rewrite Hlen2 in Ht, Hcompl. change (self w2) with (self w) in Ht, Hcompl.
  unfold ran in Hran. rewrite Hlen2 in Hran.
  change (self w2) with (self w) in Hran. cbn [wire w2] in Hran.
  destruct Hran as [Hsnd Hfst].
  exists (System :: Resource :: ls'). cbn [answers map]. fold n0.
  change (level_query (self w) s System) with q0.
  change (level_query (self w) s Resource) with q1. rewrite E0, E1.
  set (tl := answers net (self w) s (S (S n0)) ls') in *.
  assert (Hdisc : discovered ET_fromstring
                    ((System, Py.Ret r0) :: (Resource, Py.Ret r1) :: tl)).
  { apply Z.eqb_eq in E201. split.
    - intros name [H|[H|Hl]]; try discriminate H. cbn [map fst] in Hl.
      subst tl. rewrite answers_levels in Hl.
      destruct (Hc name Hl) as (resource & Hin & Hg & Htr).
      exists r1, resource. split; [right; now left|]. repeat split; assumption.
    - intros name cn [H|[H|Hl]]; try discriminate H. cbn [map fst] in Hl.
      subst tl. rewrite answers_levels in Hl.
      destruct (Ht name cn Hl) as (r & ci & Hin & Hrest).
      exists r, ci. split; [right; right; exact Hin | exact Hrest]. }
  destruct (for_each (class_level ET_fromstring net)
              (resources (_parse_metadata_response ET_fromstring (text r1)))
              md2 w2) as [[md|e] w'] eqn:Ef; cbn [fst snd] in *.
  - destruct Hfst as [Hans Hmd].
    split; [now rewrite Hsnd, <- !app_assoc|]. split; [now eexists|].
    split; [exact Hdisc|]. split.
    { intros (l & e & [H|[H|Hl]]); try discriminate H.
      exfalso. exact (@answered_no_raise tl l e Hans Hl). }
    intros _ r0' [= <-] _. exists md, ls'. split; [reflexivity|].
    assert (Hmd' : md = fold_left (store ET_fromstring)
                          ((System, Py.Ret r0) :: (Resource, Py.Ret r1) :: tl)
                          []).
    { rewrite Hmd. cbn [fold_left].
      replace (store ET_fromstring
                 (store ET_fromstring [] (System, Py.Ret r0))
                 (Resource, Py.Ret r1)) with md2; [reflexivity|].
      unfold store. cbn [fst snd level_key]. now rewrite E200, E201. }
    split; [exact Hmd'|]. split; [reflexivity|]. split.
    { destruct (Hcompl md eq_refl) as [Hca Hta]. split.
      - intros r resource name [H|[H|Hl]]; [discriminate H| |].
        + injection H as <-. intros _ Hin Hg Htr. right. right.
          cbn [map fst]. subst tl. rewrite answers_levels.
          exact (Hca resource name Hin Hg Htr).
        + subst tl. apply answers_In in Hl. contradiction.
      - intros name r ci cn [H|[H|Hl]]; try discriminate H.
        intros H200 Hin Hg Htr. right. right. cbn [map fst]. subst tl.
        rewrite answers_levels. exact (Hta name r ci cn Hl H200 Hin Hg Htr). }
    exact (Hfold _ _ Hmd').
  - destruct Hfst as (ls0 & l & -> & Hans & Hraise).
    split; [now rewrite Hsnd, <- !app_assoc|]. split; [now eexists|].
    split; [exact Hdisc|]. split; [reflexivity|].
    intros Ha. exfalso. cbn [forallb] in Ha.
    apply andb_true_iff in Ha. destruct Ha as [_ Ha].
    apply andb_true_iff in Ha. destruct Ha as [_ Ha].
    subst tl. rewrite answers_app, forallb_app in Ha.
    apply andb_true_iff in Ha. destruct Ha as [_ Ha].
    cbn [answers forallb] in Ha. unfold answered in Ha. cbn [snd] in Ha.
    rewrite Hraise in Ha. discriminate Ha.
Qed.

(** C4, as amended.  On a connected client:
    - when the SYSTEM request is refused or raises, the call returns
      [None];
    - once SYSTEM has answered 200, a RESOURCE request that raises (a
      time-out) makes the call return [None], while one that is refused
      makes it return the SYSTEM entry alone;
    - when no request raises, the result holds the SYSTEM entry, and the
      RESOURCE entry if that request answered 200, whatever the status of
      the class and table requests;
    - at the class and table levels a refused request leaves the
      accumulated dictionary as it is and the loop goes on, while a request
      that raises ends the cascade, and the call then returns [None];
    - as a whole: the call asks for a sequence of levels that starts with
      SYSTEM, each class or table level after an answer with status 200
      that names it.  When any of these requests raises, at whatever
      level, the call returns [None].  When all are answered and SYSTEM
      with status 200, the call asked for RESOURCE and for every level
      the answers with status 200 name, and it returns the dictionary
      that holds, for each request answered with status 200, the parsed
      answer under the key of its level (SYSTEM, RESOURCE, CLASS_ and the
      resource, TABLE_ and the resource and class), stored in the order
      of the requests, and nothing else; a request answered with another
      status leaves no entry and takes none away. *)
Theorem get_metadata_partial_failure :
  forall w s,
    usable (self w) = true ->
    session (self w) = Some s ->
    let n0 := List.length (wire w) in
    let system_query := metadata_query (self w) s "METADATA-SYSTEM" "*" in
    let resource_query := metadata_query (self w) s "METADATA-RESOURCE" "0" in
    let result := fst (get_metadata ET_fromstring net w) in
    ((forall r, net n0 system_query = Py.Ret r -> status_code r <> 200%Z) ->
     result = Py.Ret None) /\
    (forall r0,
        net n0 system_query = Py.Ret r0 -> status_code r0 = 200%Z ->
        let system_metadata :=
          _parse_metadata_response ET_fromstring (text r0) in
        (forall e, net (S n0) resource_query = Py.Raise e ->
                   result = Py.Ret None) /\
        (forall r1, net (S n0) resource_query = Py.Ret r1 ->
                    status_code r1 <> 200%Z ->
                    result = Py.Ret (Some [("SYSTEM", system_metadata)])) /\
        (answering net ->
         exists md,
           result = Py.Ret (Some md) /\
           PyDict.get "SYSTEM" md = Some system_metadata /\
           forall r1, net (S n0) resource_query = Py.Ret r1 ->
                      status_code r1 = 200%Z ->
                      PyDict.get "RESOURCE" md =
                      Some (_parse_metadata_response ET_fromstring (text r1)))) /\
    (forall e, fst (get_metadata_body ET_fromstring net w) = Py.Raise e ->
               result = Py.Ret None) /\
    (forall md resource name w1 s1,
        session (self w1) = Some s1 ->
        PyDict.get "ResourceID" resource = Some name ->
        PyStr.truthy name = true ->
        let q := metadata_query (self w1) s1 "METADATA-CLASS" name in
        (forall e, net (List.length (wire w1)) q = Py.Raise e ->
                   fst (class_level ET_fromstring net md resource w1)
                   = Py.Raise e) /\
        (forall r, net (List.length (wire w1)) q = Py.Ret r ->
                   status_code r <> 200%Z ->
                   fst (class_level ET_fromstring net md resource w1)
                   = Py.Ret md)) /\
    (forall md resource_name class_info name w1 s1,
        session (self w1) = Some s1 ->
        PyDict.get "ClassName" class_info = Some name ->
        PyStr.truthy name = true ->
        let q := metadata_query (self w1) s1 "METADATA-TABLE"
                                (resource_name ++ ":" ++ name) in
        (forall e, net (List.length (wire w1)) q = Py.Raise e ->
                   fst (table_level ET_fromstring net resource_name md
                                    class_info w1)
                   = Py.Raise e) /\
        (forall r, net (List.length (wire w1)) q = Py.Ret r ->
                   status_code r <> 200%Z ->
                   fst (table_level ET_fromstring net resource_name md
                                    class_info w1)
                   = Py.Ret md)) /\
    (exists ls,
        let tr := answers net (self w) s n0 ls in
        snd (get_metadata ET_fromstring net w)
        = mkWorld (self w) (wire w ++ map (level_query (self w) s) ls) /\
        (exists rest, ls = System :: rest) /\
        discovered ET_fromstring tr /\
        ((exists l e, In (l, Py.Raise e) tr) -> result = Py.Ret None) /\
        (forallb answered tr = true ->
         forall r0,
           net n0 system_query = Py.Ret r0 -> status_code r0 = 200%Z ->
           exists md rest,
             result = Py.Ret (Some md) /\
             md = fold_left (store ET_fromstring) tr [] /\
             ls = System :: Resource :: rest /\
             exhaustive ET_fromstring tr /\
             (forall l r, In (l, Py.Ret r) tr -> status_code r = 200%Z ->
                          PyDict.mem (level_key l) md = true) /\
             (forall k m,
                 PyDict.get k md = Some m ->
                 exists l r,
                   In (l, Py.Ret r) tr /\ status_code r = 200%Z /\
                   level_key l = k /\
                   m = _parse_metadata_response ET_fromstring (text r)))).
Proof.
  intros w s Hu Hs n0 system_query resource_query result.
  subst result. split; [|split; [|split; [|split; [|split]]]];
    [| | | | |exact (@get_metadata_trace w s Hu Hs)];
    try (rewrite (get_metadata_run _ Hu);
         rewrite (get_metadata_body_run _ Hs); cbv zeta;
         fold n0; fold system_query; fold resource_query).
  - intros Hsys. destruct (net n0 system_query) as [r|e]; [|reflexivity].
    destruct (Z.eqb_spec (status_code r) 200) as [E|E]; [|reflexivity].
    exfalso. exact (Hsys r eq_refl E).
  - intros r0 -> H200. apply Z.eqb_eq in H200. rewrite H200.
    split; [|split].
    + intros e ->. reflexivity.
    + intros r1 -> Hne. apply Z.eqb_neq in Hne. rewrite Hne. reflexivity.
    + intros Hans.
      destruct (Hans (S n0) resource_query) as [r1 E1]. rewrite E1.
      destruct (Z.eqb_spec (status_code r1) 200) as [E|E].
      * match goal with
        | |- context [for_each ?f ?xs ?acc ?w1] =>
            destruct (@for_each_keeps _ f "SYSTEM"
                        (@class_level_keeps "SYSTEM" Hans
                           ltac:(intros x H; discriminate H)
                           ltac:(intros x H; discriminate H))
                        xs acc w1 s Hs) as (md & w' & Ef & _ & Hg);
            destruct (@for_each_keeps _ f "RESOURCE"
                        (@class_level_keeps "RESOURCE" Hans
                           ltac:(intros x H; discriminate H)
                           ltac:(intros x H; discriminate H))
                        xs acc w1 s Hs) as (md2 & w2' & Ef2 & _ & Hg2)
        end.
        rewrite Ef in Ef2. injection Ef2 as <- <-. rewrite Ef.
        exists md. split; [reflexivity|]. split; [exact Hg|].
        intros r1' [= <-] _. exact Hg2.
      * eexists. split; [reflexivity|]. split; [reflexivity|].
        intros r1' [= <-] H. contradiction.
  - intros e He.
    destruct (net n0 system_query) as [r0|e0]; [|reflexivity].
    destruct (status_code r0 =? 200)%Z; [|discriminate].
    destruct (net (S n0) resource_query) as [r1|e1]; [|reflexivity].
    destruct (status_code r1 =? 200)%Z; [|discriminate].
    destruct (for_each _ _ _ _) as [[md|e2] w']; [discriminate | reflexivity].
  - intros md resource name w1 s1 Hs1 Hname Htruthy.
    unfold class_level. rewrite Hname, Htruthy.
    rewrite EffFacts.bind_run, (metadata_request_run _ _ _ Hs1).
    split.
    + intros e ->. reflexivity.
    + intros r -> Hne. apply Z.eqb_neq in Hne. rewrite Hne. reflexivity.
  - intros md rn ci name w1 s1 Hs1 Hname Htruthy.
    unfold table_level. rewrite Hname, Htruthy.
    rewrite EffFacts.bind_run, (metadata_request_run _ _ _ Hs1).
    split.
    + intros e ->. reflexivity.
    + intros r -> Hne. apply Z.eqb_neq in Hne. rewrite Hne. reflexivity.
Qed.

(** *** [connect] against servers that refuse *)

Lemma same_account_refl c : same_account c c.
Proof. unfold same_account. now destruct c. Qed.

Lemma same_account_session c x : same_account c (set_session c x).
Proof. reflexivity. Qed.

Lemma same_account_trans c1 c2 c3 :
  same_account c1 c2 -> same_account c2 c3 -> same_account c1 c3.
Proof.
  unfold same_account. intros H12 H23. rewrite H23, H12. reflexivity.
Qed.

Lemma endpoint_attempt_rejected endpoint w s :
  rejecting net -> session (self w) = Some s ->
  exists o w',
    endpoint_attempt ET_fromstring net endpoint w = (o, w') /\
    self w' = self w /\ forall b, o <> Py.Ret (Return b).
Proof.
  intros Hrej Hs. unfold endpoint_attempt.
  rewrite EffFacts.bind_run, get_self_run, EffFacts.except_request_run.
  destruct (PyStr.endswith ".ashx" (url (self w)) &&
            negb (String.eqb endpoint (hd "" login_endpoints))).
  - exists (Py.Ret Break), w. repeat split. discriminate.
  - rewrite EffFacts.bind_run, (session_get_run _ _ _ Hs).
    destruct (net _ _) as [resp|e] eqn:E.
    + apply Hrej in E. apply Z.eqb_neq in E. rewrite E.
      destruct (status_code resp =? 401)%Z;
        destruct (PyStr.endswith ".ashx" (url (self w)));
        eexists; eexists; (split; [reflexivity|]); split;
          try reflexivity; discriminate.
    + destruct e; try (eexists; eexists; (split; [reflexivity|]); split;
                       [reflexivity | discriminate]).
      destruct (PyStr.endswith ".ashx" (url (self w)));
        eexists; eexists; (split; [reflexivity|]); split;
          try reflexivity; discriminate.
Qed.

Lemma endpoint_loop_rejected endpoints : forall w s,
  rejecting net -> session (self w) = Some s ->
  exists o w',
    endpoint_loop ET_fromstring net endpoints w = (o, w') /\
    self w' = self w /\ forall b, o <> Py.Ret (Some b).
Proof.
  induction endpoints as [|endpoint rest IH]; intros w s Hrej Hs.
  - exists (Py.Ret None), w. repeat split. discriminate.
  - cbn [endpoint_loop]. rewrite EffFacts.bind_run.
    destruct (endpoint_attempt_rejected endpoint _ Hrej Hs)
      as (o & w1 & -> & Hw1 & Ho).
    destruct o as [[b| |]|e].
    + exfalso. exact (Ho b eq_refl).
    + exists (Py.Ret None), w1. repeat split; [exact Hw1 | discriminate].
    + assert (Hs1 : session (self w1) = Some s) by (now rewrite Hw1).
      destruct (IH w1 s Hrej Hs1) as (o & w2 & E & Hw2 & Ho2).
      exists o, w2. repeat split; [exact E | congruence | exact Ho2].
    + exists (Py.Raise e), w1. repeat split; [exact Hw1 | discriminate].
Qed.

Lemma matrix_attempt_rejected w s :
  rejecting net -> session (self w) = Some s ->
  exists o w',
    matrix_attempt ET_fromstring net w = (o, w') /\
    self w' = self w /\ forall b, o <> Py.Ret (Return b).
Proof.
  intros Hrej Hs. unfold matrix_attempt.
  rewrite EffFacts.bind_run, get_self_run.
  destruct (PyStr.contains "matrix" (PyStr.lower (url (self w)))).
  - rewrite EffFacts.except_request_run, EffFacts.bind_run,
      (session_get_run _ _ _ Hs).
    destruct (net _ _) as [resp|e] eqn:E.
    + apply Hrej in E. apply Z.eqb_neq in E. rewrite E.
      eexists; eexists; (split; [reflexivity|]); split;
        [reflexivity | discriminate].
    + destruct e; eexists; eexists; (split; [reflexivity|]); split;
        try reflexivity; discriminate.
  - exists (Py.Ret Continue), w. repeat split. discriminate.
Qed.

Lemma auth_loop_rejected auth_methods : forall w s,
  rejecting net -> session (self w) = Some s ->
  exists o w',
    auth_loop ET_fromstring net auth_methods w = (o, w') /\
    same_account (self w) (self w') /\
    (exists s', session (self w') = Some s') /\
    o <> Py.Ret true.
Proof.
  induction auth_methods as [|a rest IH]; intros w s Hrej Hs.
  - exists (Py.Ret false), w. repeat split;
      [apply same_account_refl | eauto | discriminate].
  - cbn [auth_loop]. rewrite EffFacts.bind_run, get_self_run, Hs.
    rewrite EffFacts.bind_run, put_self_run.
    set (w0 := mkWorld _ (wire w)).
    assert (Hs0 : session (self w0)
                  = Some (mkSession (session_headers s) (Some a)))
      by reflexivity.
    assert (H0 : same_account (self w) (self w0)) by reflexivity.
    rewrite EffFacts.bind_run.
    destruct (matrix_attempt_rejected _ Hrej Hs0) as (o & w1 & -> & Hw1 & Ho).
    assert (Hs1 : session (self w1)
                  = Some (mkSession (session_headers s) (Some a)))
      by (now rewrite Hw1).
    assert (Hloop :
              exists o' w',
                (e <- endpoint_loop ET_fromstring net login_endpoints ;;
                 match e with
                 | Some b => Eff.ret b
                 | None => auth_loop ET_fromstring net rest
                 end)%eff w1 = (o', w') /\
                same_account (self w) (self w') /\
                (exists s', session (self w') = Some s') /\
                o' <> Py.Ret true).
    { rewrite EffFacts.bind_run.
      destruct (endpoint_loop_rejected login_endpoints _ Hrej Hs1)
        as (o2 & w2 & -> & Hw2 & Ho2).
      assert (Hs2 : session (self w2)
                    = Some (mkSession (session_headers s) (Some a)))
        by (now rewrite Hw2).
      destruct o2 as [[b|]|e].
      - exfalso. exact (Ho2 b eq_refl).
      - destruct (IH w2 _ Hrej Hs2) as (o3 & w3 & E3 & H3 & Hs3 & Ho3).
        exists o3, w3. repeat split; try assumption.
        apply same_account_trans with (self w2); [|exact H3].
        now rewrite Hw2, Hw1.
      - exists (Py.Raise e), w2. repeat split;
          [now rewrite Hw2, Hw1 | eauto | discriminate]. }
    destruct o as [[b| |]|e].
    + exfalso. exact (Ho b eq_refl).
    + exact Hloop.
    + exact Hloop.
    + exists (Py.Raise e), w1. repeat split;
        [now rewrite Hw1 | eauto | discriminate].
Qed.

(** Against servers that never answer 200, [connect] returns [False] and
    only the HTTP session of the client is new. *)
Lemma connect_rejected w :
  rejecting net ->
  exists w',
    connect ET_fromstring net w = (Py.Ret false, w') /\
    same_account (self w) (self w') /\
    connected (self w') = connected (self w).
Proof.
  intros Hrej. unfold connect.
  rewrite EffFacts.try_except_run, EffFacts.bind_run, get_self_run.
  rewrite EffFacts.bind_run, put_self_run.
  set (w0 := mkWorld _ (wire w)).
  assert (H0 : same_account (self w) (self w0)) by reflexivity.
  match goal with
  | |- context [auth_loop _ _ ?auths w0] =>
      destruct (@auth_loop_rejected auths w0 _ Hrej eq_refl)
        as (o & w1 & -> & H1 & _ & Ho)
  end.
  assert (H : same_account (self w) (self w1))
    by (apply same_account_trans with (self w0); assumption).
  destruct o as [[|]|e].
  - congruence.
  - exists w1. repeat split; [exact H | now rewrite H].
  - exists w1. repeat split; [exact H | now rewrite H].
Qed.

End Facts.
End RetsFacts.

(** ** The RESO client *)

Module ResoFacts.
Import Http Reso.

Local Open Scope string_scope.

Section Facts.
Variable net : network.

Lemma reso_get_self_run w : get_self w = (Py.Ret (self w), w).
Proof. reflexivity. Qed.

Lemma requests_send_run r w :
  requests_send net r w =
  (net (List.length (wire w)) r, mkWorld (self w) (wire w ++ [r])).
Proof. reflexivity. Qed.

(** With a [str] for a token the print before the request cannot fail,
    and the request is made. *)
Lemma holding_str endpoint params w token :
  access_token (self w) = Some token -> PyStr.truthy token = true ->
  _make_api_request net endpoint params w =
  Eff.try_except
    (response <-
       requests_send net
         (mkRequest GET
            (Some (if PyStr.truthy (PyStr.lstrip_char "/" endpoint)
                   then PyStr.rstrip_char "/" (base_url (self w)) ++ "/" ++
                        PyStr.lstrip_char "/" endpoint
                   else PyStr.rstrip_char "/" (base_url (self w))))
            params
            [("Authorization", "Bearer " ++ token);
             ("Accept", "application/json");
             ("OData-Version", "4.0")] None (Some 30%Z)) ;;
     if (status_code response =? 200)%Z then
       if PyStr.contains "application/json"
            match PyDict.get "content-type" (resp_headers response) with
            | Some t => t
            | None => ""
            end
       then j <- Eff.lift (json response) ;; Eff.ret (json_result j)
       else Eff.ret (Some (ApiContent (text response)))
     else if (status_code response =? 401)%Z then Eff.ret None
     else if (status_code response =? 403)%Z then Eff.ret None
     else if (status_code response =? 404)%Z then Eff.ret None
     else Eff.ret None)%eff
    (fun _ => Eff.ret None) w.
Proof.
  intros Ht Htruthy. unfold _make_api_request, make_api_request_holding.
  rewrite !EffFacts.bind_run, !reso_get_self_run.
  unfold held_token. rewrite Ht. cbn [truthy_value str_value sliced].
  rewrite Htruthy. cbn [negb]. rewrite EffFacts.bind_run. reflexivity.
Qed.

(** With a token at hand, [_make_api_request('')] sends one probe and
    returns [None] unless it is answered with 200. *)
Lemma make_api_request_refused w token :
  access_token (self w) = Some token -> PyStr.truthy token = true ->
  (forall resp, net (List.length (wire w)) (token_probe (self w) token)
                = Py.Ret resp -> status_code resp <> 200%Z) ->
  _make_api_request net "" [] w =
  (Py.Ret None, mkWorld (self w) (wire w ++ [token_probe (self w) token])).
Proof.
  intros Ht Htruthy Hrej. rewrite (holding_str _ _ _ Ht Htruthy).
  rewrite EffFacts.try_except_run, EffFacts.bind_run.
  change (PyStr.lstrip_char "/" "") with "". cbn [PyStr.truthy].
  rewrite requests_send_run. fold (token_probe (self w) token).
  destruct (net _ _) as [resp|e] eqn:E; [|reflexivity].
  specialize (Hrej resp eq_refl). apply Z.eqb_neq in Hrej. rewrite Hrej.
  destruct (status_code resp =? 401)%Z; [reflexivity|].
  destruct (status_code resp =? 403)%Z; [reflexivity|].
  destruct (status_code resp =? 404)%Z; reflexivity.
Qed.

(** A client built around a token, whose token is refused: [connect]
    returns [False] after one probe and changes nothing in the client. *)
Lemma connect_token_refused w token :
  auth_method (self w) = "token" ->
  access_token (self w) = Some token -> PyStr.truthy token = true ->
  (forall resp, net (List.length (wire w)) (token_probe (self w) token)
                = Py.Ret resp -> status_code resp <> 200%Z) ->
  connect net w =
  (Py.Ret false, mkWorld (self w) (wire w ++ [token_probe (self w) token])).
Proof.
  intros Hm Ht Htruthy Hrej. unfold connect.
  rewrite EffFacts.try_except_run, EffFacts.bind_run, reso_get_self_run.
  rewrite Hm, Ht. cbn [truthy_token]. rewrite Htruthy.
  change (String.eqb "token" "token" && true) with true. cbv iota.
  rewrite EffFacts.bind_run.
  rewrite (make_api_request_refused _ Ht Htruthy Hrej). reflexivity.
Qed.

(** Against servers that never answer 200, [connect] returns [False] and
    leaves the client as it was. *)
Lemma reso_connect_rejected w :
  rejecting net ->
  exists w', connect net w = (Py.Ret false, w') /\ self w' = self w.
Proof.
  intros Hrej.
  destruct (String.eqb (auth_method (self w)) "token" &&
            truthy_token (access_token (self w))) eqn:Hcond.
  - apply andb_true_iff in Hcond. destruct Hcond as [Hm Ht].
    apply String.eqb_eq in Hm. unfold truthy_token in Ht.
    destruct (access_token (self w)) as [token|] eqn:Htok; [|discriminate].
    eexists. split.
    + apply (connect_token_refused _ Hm Htok Ht). intros resp E.
      exact (Hrej _ _ _ E).
    + reflexivity.
  - unfold connect.
    rewrite EffFacts.try_except_run, EffFacts.bind_run, reso_get_self_run, Hcond.
    destruct (negb (PyStr.truthy (token_url (self w))) ||
              negb (PyStr.truthy (client_id (self w)))).
    + exists w. split; reflexivity.
    + rewrite EffFacts.bind_run, requests_send_run.
      destruct (net _ _) as [resp|e] eqn:E.
      * apply Hrej in E. apply Z.eqb_neq in E. rewrite E.
        eexists. split; reflexivity.
      * eexists. split; reflexivity.
Qed.

End Facts.
End ResoFacts.

(** ** Both clients *)

Module ConnectFacts.
Import Http.

(** C3.  [connect] of either client returns a boolean whatever the servers
    do, exceptions of the transport included.  When no request is answered
    with 200 (bad credentials, an invalid or expired token, every endpoint
    and scheme refused or unreachable) it returns [False]; the RETS client
    then differs from before only by its HTTP session, and the RESO client
    not at all, so either can be used again.  In particular a RESO client
    built around a token has [connect] return [False] after the one request
    that finds the token refused. *)
Theorem connect_never_raises :
  (forall ET_fromstring net w,
      exists b w', Rets.connect ET_fromstring net w = (Py.Ret b, w')) /\
  (forall net w, exists b w', Reso.connect net w = (Py.Ret b, w')) /\
  (forall ET_fromstring net w,
      rejecting net ->
      exists w',
        Rets.connect ET_fromstring net w = (Py.Ret false, w') /\
        Rets.same_account (Rets.self w) (Rets.self w') /\
        Rets.connected (Rets.self w') = Rets.connected (Rets.self w)) /\
  (forall net w,
      rejecting net ->
      exists w', Reso.connect net w = (Py.Ret false, w') /\
                 Reso.self w' = Reso.self w) /\
  (forall net w token,
      Reso.auth_method (Reso.self w) = "token"%string ->
      Reso.access_token (Reso.self w) = Some token ->
      PyStr.truthy token = true ->
      (forall r resp, net (List.length (Reso.wire w)) r = Py.Ret resp ->
                      status_code resp = 401%Z) ->
      Reso.connect net w
      = (Py.Ret false,
         Reso.mkWorld (Reso.self w)
                      (Reso.wire w ++ [Reso.token_probe (Reso.self w) token]))).
Proof.
  split; [|split; [|split; [|split]]].
  - intros ET net w. apply EffFacts.try_except_returns.
  - intros net w. apply EffFacts.try_except_returns.
  - intros ET net w H. now apply RetsFacts.connect_rejected.
  - intros net w H. now apply ResoFacts.reso_connect_rejected.
  - intros net w token Hm Ht Htruthy H401.
    apply ResoFacts.connect_token_refused; try assumption.
    intros resp E. rewrite (H401 _ _ E). discriminate.
Qed.

End ConnectFacts.

(** ** The client claims on concrete servers *)

Module ClientChecks.
Import Http ClientExamples.

Local Open Scope string_scope.

Lemma net_unauthorized_rejecting : rejecting net_unauthorized.
Proof. intros n r resp [= <-]. discriminate. Qed.

Lemma connect_never_raises_witness :
  fst (Rets.connect parse_nothing net_unauthorized (Rets.mkWorld rets_fresh []))
  = Py.Ret false /\
  Reso.connect net_unauthorized (Reso.mkWorld reso_expired [])
  = (Py.Ret false,
     Reso.mkWorld reso_expired
                  [Reso.token_probe reso_expired "expired-token"]).
Proof.
  destruct ConnectFacts.connect_never_raises as (_ & _ & Hrets & _ & Htoken).
  split.
  - destruct (Hrets parse_nothing net_unauthorized
                    (Rets.mkWorld rets_fresh []) net_unauthorized_rejecting)
      as (w' & E & _).
    rewrite E. reflexivity.
  - apply (Htoken net_unauthorized (Reso.mkWorld reso_expired [])
                  "expired-token" eq_refl eq_refl eq_refl).
    intros r resp [= <-]. reflexivity.
Defined.

(** C4 as stated fails on a time-out: the SYSTEM level answers, the
    RESOURCE request times out, and the call returns [None] instead of the
    SYSTEM entry (which it does return when the RESOURCE request is refused
    with a status). *)
Lemma get_metadata_timeout_returns_none :
  fst (Rets.get_metadata parse_nothing net_timeout_after_first
                         (Rets.mkWorld rets_connected []))
  = Py.Ret None /\
  fst (Rets.get_metadata parse_nothing net_unavailable_after_first
                         (Rets.mkWorld rets_connected []))
  = Py.Ret (Some [("SYSTEM",
                   Rets.mkMetadata [("raw_response", Rets.SysText "SYSTEM")]
                                   [] [] [])]).
Proof. split; reflexivity. Qed.

Lemma net_catalog_answering : answering MoreExamples.net_catalog.
Proof. intros n r. eexists. reflexivity. Qed.

(** A time-out at the lowest level loses what the levels above it had
    given: the catalogue server with a table request that times out. *)
Lemma get_metadata_table_timeout :
  fst (Rets.get_metadata MoreExamples.catalog_parser
         (fun n r =>
            match PyDict.get "Type" (params r) with
            | Some "METADATA-TABLE" =>
                Py.Raise (Py.RequestException "Read timed out.")
            | _ => MoreExamples.net_catalog n r
            end)
         MoreExamples.catalog_world)
  = Py.Ret None.
Proof. reflexivity. Qed.

Lemma get_metadata_partial_failure_witness :
  fst (Rets.get_metadata parse_nothing net_unavailable_after_first
                         (Rets.mkWorld rets_connected []))
  = Py.Ret (Some [("SYSTEM",
                   Rets._parse_metadata_response parse_nothing "SYSTEM")]) /\
  exists md,
    fst (Rets.get_metadata MoreExamples.catalog_parser
                           MoreExamples.net_catalog
                           MoreExamples.catalog_world)
    = Py.Ret (Some md) /\
    PyDict.mem "RESOURCE" md = true /\
    PyDict.mem "CLASS_Property" md = true /\
    PyDict.mem "TABLE_Property_RES" md = true.
Proof.
  split.
  - pose proof (@RetsFacts.get_metadata_partial_failure
                  parse_nothing net_unavailable_after_first
                  (Rets.mkWorld rets_connected [])
                  (mkSession [("User-Agent", "RETS-Dashboard/1.0")]
                             (Some (BasicAuth "agent" "secret")))
                  eq_refl eq_refl) as H.
    cbv zeta in H. destruct H as (_ & H & _).
    specialize (H (plain 200 "SYSTEM") eq_refl eq_refl).
    destruct H as (_ & H & _).
    apply (H (plain 503 "Service Unavailable") eq_refl). discriminate.
  - pose proof (@RetsFacts.get_metadata_partial_failure
                  MoreExamples.catalog_parser MoreExamples.net_catalog
                  MoreExamples.catalog_world
                  (mkSession [("User-Agent", "RETS-Dashboard/1.0")]
                             (Some (BasicAuth "agent" "secret")))
                  eq_refl eq_refl) as H.
    cbv zeta in H. destruct H as (_ & _ & _ & _ & _ & ls & _ & _ & _ & _ & H).
    specialize (H (@RetsFacts.answering_answered _ _ _ _ _ net_catalog_answering)
                  (plain 200 "system") eq_refl eq_refl).
    destruct H as (md & rest & Hres & _ & -> & [Hclasses Htables] & Hmem & _).
    exists md. split; [exact Hres|].
    assert (Hresource :
              In (Rets.Resource, Py.Ret (plain 200 "resource"))
                 (Rets.answers MoreExamples.net_catalog
                    (Rets.self MoreExamples.catalog_world)
                    (mkSession [("User-Agent", "RETS-Dashboard/1.0")]
                               (Some (BasicAuth "agent" "secret")))
                    (List.length (Rets.wire MoreExamples.catalog_world))
                    (Rets.System :: Rets.Resource :: rest)))
      by (right; left; reflexivity).
    split; [exact (Hmem _ _ Hresource eq_refl)|].
    pose proof (Hclasses _ [("ResourceID", "Property")] "Property"
                         Hresource eq_refl (or_introl eq_refl) eq_refl
                         eq_refl) as Hclass.
    apply in_map_iff in Hclass. destruct Hclass as ([l a] & Hl & Hclass).
    cbn [fst] in Hl. subst l.
    destruct (@RetsFacts.answers_answer _ _ _ _ _ _ _ Hclass) as [i Ha].
    assert (Ea : a = Py.Ret (plain 200 "class")) by exact Ha.
    subst a.
    split; [exact (Hmem _ _ Hclass eq_refl)|].
    pose proof (Htables "Property" _ [("ClassName", "RES")] "RES"
                        Hclass eq_refl (or_introl eq_refl) eq_refl eq_refl)
      as Htable.
    apply in_map_iff in Htable. destruct Htable as ([l a] & Hl & Htable).
    cbn [fst] in Hl. subst l.
    destruct (@RetsFacts.answers_answer _ _ _ _ _ _ _ Htable) as [j Hb].
    assert (Eb : a = Py.Ret (plain 200 "table")) by exact Hb.
    subst a. exact (Hmem _ _ Htable eq_refl).
Defined.

Lemma matrix_rows_realigned_witness :
  Rets._parse_search_response parse_matrix_only no_chr matrix_body
  = Py.Ret [[("A", Some "v1"); ("B", Some "v2"); ("C", Some "v3")]].
Proof.
  apply (@RetsFacts.matrix_rows_realigned
           parse_matrix_only no_chr matrix_body matrix_document
           (Xml.Elem "COLUMNS" [] (Some columns_text) [])
           (Xml.Elem "DELIMITER" [("value", "09")] None [])
           [Xml.Elem "DATA" [] (Some data_text) []]);
    try reflexivity.
  - discriminate.
  - repeat constructor.
Defined.

Lemma execute_query_default_query_witness :
  exists r,
    Rets.wire (snd (Rets.execute_query parse_matrix_only no_chr net_matrix
                                       "Property" "RES" "   " 100 ""
                                       (Rets.mkWorld rets_connected [])))
    = [r] /\
    PyDict.get "Query" (params r) = Some "(ListingId=*)".
Proof.
  destruct (@RetsFacts.execute_query_default_query
              parse_matrix_only no_chr net_matrix
              "Property" "RES" "   " 100%Z ""
              (Rets.mkWorld rets_connected []) eq_refl)
    as (r & Hw & _ & _ & _ & Hq & _).
  exists r. split; [exact Hw | apply Hq; reflexivity].
Defined.

End ClientChecks.

(** ** More on the cache *)

Module CacheToolsFacts.
Import Cache CacheTools CacheFacts.

Section Facts.
Variable Data : Type.
Variable clock : nat -> Q.
Implicit Types (c : TTLCache Data) (k key : string).

Lemma among_In k ks : among k ks = true <-> In k ks.
Proof.
  unfold among. rewrite existsb_exists. split.
  - intros (x & Hin & E). apply String.eqb_eq in E. now subst.
  - intros H. exists k. split; [exact H | apply String.eqb_refl].
Qed.

Lemma among_false k ks : among k ks = false <-> ~ In k ks.
Proof. rewrite <- among_In. destruct (among k ks); split; congruence. Qed.

(** *** [delete] *)

Lemma remove_entry_fst key c : fst (_remove_entry key c) = PyDict.mem key (cache c).
Proof. unfold _remove_entry. now destruct (PyDict.mem key (cache c)). Qed.

(** X1.  [delete] reports whether the key had an entry, removes that entry
    and its access time, and touches nothing else. *)
Theorem delete_removes_one :
  forall key c,
    well_formed c ->
    let r := delete key c in
    fst r = PyDict.mem key (cache c) /\
    PyDict.mem key (cache (snd r)) = false /\
    (fst r = true -> PyDict.mem key (access_times (snd r)) = false) /\
    PyDict.len (cache (snd r))
    = (PyDict.len (cache c) - (if fst r then 1 else 0))%Z /\
    (forall k', k' <> key ->
                PyDict.get k' (cache (snd r)) = PyDict.get k' (cache c) /\
                PyDict.get k' (access_times (snd r))
                = PyDict.get k' (access_times c)) /\
    (fst r = false -> snd r = c).
Proof.
  intros key c [Hwc Hwa] r. subst r. unfold delete.
  rewrite remove_entry_fst, remove_entry_cache, remove_entry_access.
  destruct (PyDict.mem key (cache c)) eqn:Hm; simpl.
  - split; [reflexivity|]. split; [now apply PyDictFacts.mem_del_same|].
    split.
    { intros _. destruct (PyDict.mem key (access_times c)) eqn:Ha;
        [now apply PyDictFacts.mem_del_same | exact Ha]. }
    split; [now apply PyDictFacts.len_del_present|].
    split; [|discriminate].
    intros k' Hne. rewrite PyDictFacts.get_del_other by congruence.
    split; [reflexivity|].
    destruct (PyDict.mem key (access_times c));
      [apply PyDictFacts.get_del_other; congruence | reflexivity].
  - split; [reflexivity|]. split; [exact Hm|]. split; [discriminate|].
    split; [lia|]. split; [now intros|].
    intros _. unfold _remove_entry. now rewrite Hm.
Qed.

(** *** Removing several keys *)

Lemma remove_all_well_formed ks : forall c,
  well_formed c -> well_formed (remove_all ks c).
Proof.
  induction ks as [|k ks IH]; intros c H; simpl; [exact H|].
  apply IH. now apply remove_entry_well_formed.
Qed.

Lemma remove_all_same_keys ks : forall c,
  well_formed c -> same_keys c -> same_keys (remove_all ks c).
Proof.
  induction ks as [|k ks IH]; intros c Hw Hs; simpl; [exact Hs|].
  apply IH; [now apply remove_entry_well_formed
            | now apply remove_entry_same_keys].
Qed.

Lemma remove_all_get ks : forall c k,
  well_formed c ->
  PyDict.get k (cache (remove_all ks c))
  = if among k ks then None else PyDict.get k (cache c).
Proof.
  induction ks as [|k0 ks IH]; intros c k Hw; simpl; [reflexivity|].
  rewrite IH by now apply remove_entry_well_formed.
  rewrite remove_entry_cache.
  destruct (among k ks) eqn:Ha; [now rewrite orb_true_r|].
  rewrite orb_false_r.
  destruct (String.eqb_spec k k0) as [->|Hne].
  - destruct (PyDict.mem k0 (cache c)) eqn:Hm.
    + apply PyDictFacts.get_del_same. apply Hw.
    + unfold PyDict.mem in Hm. now destruct (PyDict.get k0 (cache c)).
  - destruct (PyDict.mem k0 (cache c)); [|reflexivity].
    apply PyDictFacts.get_del_other. congruence.
Qed.

Lemma remove_all_len ks : forall c,
  well_formed c -> NoDup ks ->
  (forall k, In k ks -> PyDict.mem k (cache c) = true) ->
  PyDict.len (cache (remove_all ks c))
  = (PyDict.len (cache c) - Z.of_nat (List.length ks))%Z.
Proof.
  induction ks as [|k0 ks IH]; intros c Hw Hnd Hin; simpl remove_all.
  - simpl. lia.
  - inversion Hnd as [|? ? Hnot Hnd']; subst.
    assert (Hm : PyDict.mem k0 (cache c) = true) by (apply Hin; now left).
    rewrite IH.
    + rewrite remove_entry_cache, Hm.
      rewrite PyDictFacts.len_del_present by exact Hm.
      change (List.length (k0 :: ks)) with (S (List.length ks)). lia.
    + now apply remove_entry_well_formed.
    + exact Hnd'.
    + intros k Hk. rewrite remove_entry_cache, Hm.
      rewrite PyDictFacts.mem_del_other; [apply Hin; now right|].
      intros ->. contradiction.
Qed.

(** *** [clear_expired] *)

Lemma expired_keys_count (items : list (string * CacheEntry Data)) : forall n,
  snd (expired_keys clock items n) = (n + List.length items)%nat.
Proof.
  induction items as [|[k e] items IH]; intros n; simpl; [lia|].
  specialize (IH (S n)).
  destruct (expired_keys clock items (S n)) as [ks n2]. simpl in *. lia.
Qed.

Lemma expired_keys_incl (items : list (string * CacheEntry Data)) : forall n k,
  In k (fst (expired_keys clock items n)) -> In k (PyDict.keys items).
Proof.
  induction items as [|[k0 e] items IH]; intros n k; simpl; [tauto|].
  specialize (IH (S n) k).
  destruct (expired_keys clock items (S n)) as [ks n2]. simpl in *.
  destruct (Qltb _ _); simpl; tauto.
Qed.

Lemma expired_keys_NoDup (items : list (string * CacheEntry Data)) : forall n,
  NoDup (PyDict.keys items) -> NoDup (fst (expired_keys clock items n)).
Proof.
  induction items as [|[k0 e] items IH]; intros n Hnd; simpl; [constructor|].
  inversion Hnd as [|? ? Hnot Hnd']; subst.
  specialize (IH (S n) Hnd').
  pose proof (expired_keys_incl items (S n) k0) as Hincl.
  destruct (expired_keys clock items (S n)) as [ks n2]. simpl in *.
  destruct (Qltb _ _); simpl; [|exact IH].
  constructor; [tauto | exact IH].
Qed.

(** The key at position [i] is listed exactly when its entry is found
    expired at the [i]-th clock read. *)
Lemma expired_keys_at (items : list (string * CacheEntry Data)) : forall n i k e,
  NoDup (PyDict.keys items) ->
  nth_error items i = Some (k, e) ->
  among k (fst (expired_keys clock items n))
  = expired_at (clock (n + i)) e.
Proof.
  induction items as [|[k0 e0] items IH]; intros n i k e Hnd Hnth.
  - destruct i; discriminate.
  - inversion Hnd as [|? ? Hnot Hnd']; subst.
    pose proof (expired_keys_incl items (S n) k) as Hincl.
    cbn [expired_keys]. unfold is_expired, time_time.
    specialize (IH (S n)).
    destruct (expired_keys clock items (S n)) as [ks n2]. simpl in Hincl, IH.
    destruct i as [|i]; simpl in Hnth.
    + injection Hnth as -> ->. rewrite Nat.add_0_r. unfold expired_at.
      destruct (Qltb _ _); simpl.
      * unfold among. simpl. now rewrite String.eqb_refl.
      * apply among_false. intros H. apply Hnot. auto.
    + replace (n + S i)%nat with (S (n + i))%nat by lia.
      rewrite <- (IH i k e Hnd' Hnth).
      assert (Hne : String.eqb k k0 = false).
      { apply String.eqb_neq. intros ->. apply Hnot.
        apply nth_error_In in Hnth.
        change k0 with (fst (k0, e)). now apply in_map. }
      simpl. destruct (Qltb _ _); simpl; [|reflexivity].
      unfold among. simpl. now rewrite Hne.
Qed.

(** X2.  [clear_expired] reads the clock once per entry, removes exactly the
    entries it finds expired at their own read, and returns how many it
    removed. *)
Theorem clear_expired_removes_expired :
  forall c n,
    well_formed c ->
    let r := clear_expired clock c n in
    let c' := snd (fst r) in
    snd r = (n + List.length (cache c))%nat /\
    fst (fst r) = (PyDict.len (cache c) - PyDict.len (cache c'))%Z /\
    (forall i k e,
        nth_error (cache c) i = Some (k, e) ->
        PyDict.get k (cache c')
        = if expired_at (clock (n + i)) e then None else Some e) /\
    (forall k, PyDict.mem k (cache c) = false ->
               PyDict.mem k (cache c') = false) /\
    well_formed c' /\
    (same_keys c -> same_keys c').
Proof.
  intros c n Hw r c'. subst c' r. unfold clear_expired.
  pose proof (expired_keys_count (cache c) n) as Hn.
  pose proof (expired_keys_NoDup (cache c) n (proj1 Hw)) as Hnd.
  pose proof (expired_keys_incl (cache c) n) as Hincl.
  pose proof (fun i k e => @expired_keys_at (cache c) n i k e (proj1 Hw))
    as Hat.
  destruct (expired_keys clock (cache c) n) as [ks n1]. simpl in *.
  split; [exact Hn|]. split.
  { rewrite remove_all_len; [lia | exact Hw | exact Hnd |].
    intros k Hk. apply PyDictFacts.mem_In. auto. }
  split.
  { intros i k e Hnth. rewrite remove_all_get by exact Hw.
    rewrite (Hat i k e Hnth).
    destruct (expired_at _ _); [reflexivity|].
    apply In_get; [apply Hw|]. eapply nth_error_In. exact Hnth. }
  split.
  { intros k Hm. unfold PyDict.mem in *. rewrite remove_all_get by exact Hw.
    destruct (among k ks); [reflexivity | exact Hm]. }
  split; [now apply remove_all_well_formed|].
  intros Hs. now apply remove_all_same_keys.
Qed.

(** *** [to_dict] and [from_dict] *)

(** X3.  [from_dict] restores the entry [to_dict] was taken from, creation time
    included, whatever the clock reads meanwhile.  On any dictionary
    [from_dict] returns an entry exactly when the three keys are in it,
    and raises [KeyError] otherwise: for [data] or [ttl_seconds] before
    the clock is read, for [created_at] after.  [to_dict] of the entry
    returned holds the three values of the dictionary and none of its
    further keys, so it gives the dictionary back exactly when it had no
    further key. *)
Theorem entry_dict_round_trip :
  forall (e : CacheEntry Data) (d : EntryDict Data) n,
    from_dict clock (to_dict e) n = (Py.Ret e, S n) /\
    (complete d = true <-> exists e', fst (from_dict clock d n) = Py.Ret e') /\
    (complete d = false ->
     exists k, fst (from_dict clock d n) = Py.Raise (Py.KeyError k) /\
               snd (from_dict clock d n)
               = match dict_data d, dict_ttl_seconds d with
                 | Some _, Some _ => S n
                 | _, _ => n
                 end) /\
    (forall e',
        fst (from_dict clock d n) = Py.Ret e' ->
        snd (from_dict clock d n) = S n /\
        to_dict e'
        = mkEntryDict (dict_data d) (dict_created_at d) (dict_ttl_seconds d)
                      [] /\
        (to_dict e' = d <-> dict_others d = [])).
Proof.
  intros [dat cr ttl] [dd dc dt others] n.
  split; [reflexivity|]. unfold from_dict, complete, to_dict.
  cbn [dict_data dict_created_at dict_ttl_seconds dict_others
       data created_at ttl_seconds].
  destruct dd as [dat'|], dc as [cr'|], dt as [ttl'|];
    cbn [subscript CacheEntry_init time_time fst snd
         data created_at ttl_seconds];
    (split; [split; [intros H; try discriminate H; eexists; reflexivity
                    | intros [e' H]; try discriminate H; reflexivity]|]);
    (split; [intros H; try discriminate H; eexists; split; reflexivity|]);
    intros e' H; try discriminate H.
  injection H as <-. cbn [data created_at ttl_seconds].
  split; [reflexivity|]. split; [reflexivity|].
  split; [intros [= ->]; reflexivity | intros ->; reflexivity].
Qed.

(** *** [set] away from the eviction of C2 *)

(** X4.  Below capacity [set] evicts nothing: the key gets its new entry and
    access time, every other key keeps both, and the count grows by one
    exactly when the key is new. *)
Theorem set_below_capacity :
  forall key value ttl c n,
    (PyDict.len (cache c) < max_size c)%Z ->
    let c' := fst (set clock key value ttl c n) in
    PyDict.get key (cache c')
    = Some (mkEntry value (clock n) (effective_ttl ttl c)) /\
    PyDict.get key (access_times c') = Some (clock (S n)) /\
    (forall k', k' <> key ->
                PyDict.get k' (cache c') = PyDict.get k' (cache c) /\
                PyDict.get k' (access_times c')
                = PyDict.get k' (access_times c)) /\
    PyDict.len (cache c')
    = (PyDict.len (cache c)
       + (if PyDict.mem key (cache c) then 0 else 1))%Z.
Proof.
  intros key value ttl c n Hlt c'. subst c'. rewrite set_fields. cbv zeta.
  assert (Hge : (PyDict.len (cache c) >=? max_size c)%Z = false)
    by (rewrite Z.geb_leb; apply Z.leb_gt; lia).
  rewrite Hge. simpl.
  split; [apply PyDictFacts.get_set_same|].
  split; [apply PyDictFacts.get_set_same|].
  split.
  - intros k' Hne. rewrite !PyDictFacts.get_set_other by congruence.
    split; reflexivity.
  - destruct (PyDict.mem key (cache c)) eqn:Hm.
    + rewrite PyDictFacts.len_set_present by exact Hm. lia.
    + now rewrite PyDictFacts.len_set_absent by exact Hm.
Qed.

(** X5.  Overwriting a key of a full cache still evicts: the key with the
    earliest access time leaves, so the cache ends one entry short of its
    capacity, unless that key is the one being written. *)
Theorem set_overwrite_at_capacity :
  forall ops default_ttl max n0 key value ttl n,
    (1 <= max)%Z ->
    let c := fst (run_ops clock ops (TTLCache_init Data default_ttl max) n0) in
    PyDict.len (cache c) = max ->
    PyDict.mem key (cache c) = true ->
    let c' := fst (set clock key value ttl c n) in
    PyDict.get key (cache c')
    = Some (mkEntry value (clock n) (effective_ttl ttl c)) /\
    exists lru t,
      PyDict.get lru (access_times c) = Some t /\
      (forall k' t', PyDict.get k' (access_times c) = Some t' -> t <= t') /\
      (lru <> key ->
       PyDict.mem lru (cache c') = false /\
       PyDict.len (cache c') = (max - 1)%Z) /\
      (lru = key -> PyDict.len (cache c') = max) /\
      (forall k', k' <> lru -> k' <> key ->
                  PyDict.get k' (cache c') = PyDict.get k' (cache c)).
Proof.
  intros ops default_ttl max n0 key value ttl n Hmax c Hfull Hmem c'.
  assert (HI : Inv c) by (apply run_ops_inv, init_inv; exact Hmax).
  destruct HI as (Hw & Hs & _ & _).
  assert (Hm : max_size c = max) by (subst c; apply run_ops_max_size).
  subst c'. rewrite set_fields. cbv zeta.
  assert (Hge : (PyDict.len (cache c) >=? max_size c)%Z = true)
    by (apply Z.geb_le; lia).
  rewrite Hge. simpl fst.
  assert (Hlen : (1 <= PyDict.len (cache c))%Z) by lia.
  destruct (evict_lru_spec Hw Hs Hlen) as (lru & t & Hev & Hget & Hle & Hmc & Hma).
  destruct Hw as [Hwc Hwa].
  assert (Hcache : cache (_evict_lru c) = PyDict.del lru (cache c))
    by (rewrite Hev, remove_entry_cache, Hmc; reflexivity).
  simpl. rewrite Hcache.
  split; [apply PyDictFacts.get_set_same|].
  exists lru, t. split; [exact Hget|]. split; [exact Hle|].
  split; [|split].
  - intros Hne. split.
    + rewrite PyDictFacts.mem_set_other by congruence.
      now apply PyDictFacts.mem_del_same.
    + rewrite PyDictFacts.len_set_present.
      * rewrite PyDictFacts.len_del_present by exact Hmc. lia.
      * rewrite PyDictFacts.mem_del_other by congruence. exact Hmem.
  - intros ->. rewrite PyDictFacts.len_set_absent.
    + rewrite PyDictFacts.len_del_present by exact Hmc. lia.
    + now apply PyDictFacts.mem_del_same.
  - intros k' H1 H2. rewrite PyDictFacts.get_set_other by congruence.
    apply PyDictFacts.get_del_other. congruence.
Qed.

(** *** [clear_cache_by_type] *)

Lemma fold_delete_remove_all ks : forall c,
  fold_left (fun c key => snd (delete key c)) ks c = remove_all ks c.
Proof. induction ks as [|k ks IH]; intros c; simpl; [reflexivity | apply IH]. Qed.

Lemma among_filter (p : string -> bool) k ks :
  among k (filter p ks) = p k && among k ks.
Proof.
  unfold among. induction ks as [|x ks IH]; simpl; [now rewrite andb_false_r|].
  destruct (p x) eqn:Hp; simpl; rewrite IH.
  - destruct (String.eqb_spec k x) as [->|Hne]; simpl.
    + rewrite Hp. reflexivity.
    + reflexivity.
  - destruct (String.eqb_spec k x) as [->|Hne]; simpl.
    + rewrite Hp. reflexivity.
    + reflexivity.
Qed.

Lemma among_keys (V : Type) k (d : PyDict.dict V) :
  among k (PyDict.keys d) = PyDict.mem k d.
Proof.
  destruct (PyDict.mem k d) eqn:E.
  - apply among_In, PyDictFacts.mem_In. exact E.
  - apply among_false, PyDictFacts.mem_false_not_In. exact E.
Qed.

(** X6.  [clear_cache_by_type] removes exactly the keys that start with the
    type and a colon, which are the keys [get_cached_data] stores under
    for that type, keeps every other entry, and returns the number of
    entries removed; without a cache in the session it returns 0. *)
Theorem clear_cache_by_type_removes_type :
  forall cache_type (s : Session Data),
    (ttl_cache s = None -> clear_cache_by_type cache_type s = (0%Z, s)) /\
    (forall c,
        ttl_cache s = Some c -> well_formed c ->
        let r := clear_cache_by_type cache_type s in
        exists c',
          ttl_cache (snd r) = Some c' /\
          page (snd r) = page s /\
          (forall k, PyDict.get k (cache c')
                     = if PyStr.startswith (cache_type ++ ":") k
                       then None else PyDict.get k (cache c)) /\
          (forall key,
              PyDict.mem (cache_type ++ ":" ++ key) (cache c') = false) /\
          fst r = (PyDict.len (cache c) - PyDict.len (cache c'))%Z).
Proof.
  intros cache_type s. split.
  - intros H. unfold clear_cache_by_type. now rewrite H.
  - intros c Hc Hw r. subst r. unfold clear_cache_by_type. rewrite Hc.
    rewrite fold_delete_remove_all. eexists. cbn [snd fst ttl_cache page].
    split; [reflexivity|]. split; [reflexivity|].
    assert (Hget : forall k,
               PyDict.get k
                 (cache (remove_all
                           (filter (fun key =>
                                      PyStr.startswith (cache_type ++ ":") key)
                                   (PyDict.keys (cache c))) c))
               = if PyStr.startswith (cache_type ++ ":") k
                 then None else PyDict.get k (cache c)).
    { intros k. rewrite remove_all_get by exact Hw.
      rewrite among_filter, among_keys.
      destruct (PyStr.startswith (cache_type ++ ":") k); simpl; [|reflexivity].
      unfold PyDict.mem. now destruct (PyDict.get k (cache c)). }
    split; [exact Hget|]. split.
    + intros key. unfold PyDict.mem. rewrite Hget.
      unfold PyStr.startswith.
      replace (cache_type ++ ":" ++ key)%string
        with ((cache_type ++ ":") ++ key)%string
        by apply PyStrFacts.append_assoc.
      now rewrite PyStrFacts.prefix_append.
    + rewrite remove_all_len.
      * lia.
      * exact Hw.
      * apply NoDup_filter. apply Hw.
      * intros k Hk. apply filter_In in Hk.
        apply PyDictFacts.mem_In. tauto.
Qed.

(** *** [get_cached_data]: fetch once, then serve from the cache *)

(** A fresh entry with data is served without calling the fetch
    function. *)
Lemma get_cached_data_hit ttl_config cache_type key fetch ttl
      (s : Session Data) n c e d :
  ttl_cache s = Some c ->
  PyDict.get (cache_type ++ ":" ++ key)%string (cache c) = Some e ->
  data e = Some d ->
  clock n - created_at e <= inject_Z (ttl_seconds e) ->
  let r := fst (get_cached_data clock ttl_config cache_type key fetch ttl
                                s n) in
  fst r = Some d /\ page (snd r) = page s.
Proof.
  intros Hc He Hd Hfresh r. subst r. unfold get_cached_data. rewrite Hc.
  cbv zeta. rewrite Hc. unfold get. rewrite He. unfold is_expired, time_time.
  apply Qltb_false in Hfresh. rewrite Hfresh. simpl. rewrite Hd.
  split; reflexivity.
Qed.

(** X7.  When the lookup misses and the fetch function returns data, the data is
    returned and stored under the TTL given, or else the TTL the table
    [CACHE_TTL_CONFIG] holds for the type when the call is made (3600 s
    for a type it does not hold); a later call made within that TTL
    returns the same data without using its fetch function, whatever that
    function would do and whatever the table has become meanwhile, and
    writes nothing on the page. *)
Theorem get_cached_data_fetches_once :
  forall ttl_config cache_type key d ttl (s : Session Data) n
         ttl_config2 fetch2 ttl2 n2,
    let cache_key := (cache_type ++ ":" ++ key)%string in
    let lookup := get clock cache_key None (session_cache s) n in
    let stored_ttl :=
      match ttl with
      | Some t => t
      | None => match PyDict.get cache_type ttl_config with
                | Some t => t
                | None => 3600%Z
                end
      end in
    fst (fst lookup) = None ->
    clock n2 - clock (snd lookup) <= inject_Z stored_ttl ->
    let r1 := fst (get_cached_data clock ttl_config cache_type key
                                   (Py.Ret (Some d)) ttl s n) in
    fst r1 = Some d /\
    page (snd r1) = page s /\
    (exists c1, ttl_cache (snd r1) = Some c1 /\
                PyDict.get cache_key (cache c1)
                = Some (mkEntry (Some d) (clock (snd lookup)) stored_ttl)) /\
    let r2 := fst (get_cached_data clock ttl_config2 cache_type key fetch2
                                   ttl2 (snd r1) n2) in
    fst r2 = Some d /\ page (snd r2) = page s.
Proof.
  intros ttl_config cache_type key d ttl s n ttl_config2 fetch2 ttl2 n2
         cache_key lookup stored_ttl Hmiss Hfresh r1.
  assert (Hr1 : r1 =
                (Some d,
                 mkSession
                   (Some (fst (set clock cache_key (Some d) (Some stored_ttl)
                                   (snd (fst lookup)) (snd lookup))))
                   (page s))).
  { subst r1 lookup. unfold get_cached_data, session_cache in *.
    destruct (ttl_cache s) as [c0|] eqn:Hs.
    - rewrite Hs. fold cache_key.
      destruct (get clock cache_key None c0 n) as [[x c1] m] eqn:Hg.
      simpl in Hmiss. subst x. reflexivity.
    - unfold initialize_ttl_cache. rewrite Hs. simpl. reflexivity. }
  rewrite Hr1. cbn [fst snd page ttl_cache].
  split; [reflexivity|]. split; [reflexivity|].
  rewrite set_fields. cbv zeta. cbn [fst snd].
  split.
  { eexists. split; [reflexivity|]. simpl. apply PyDictFacts.get_set_same. }
  cbv zeta.
  match goal with
  | |- context [mkSession (Some ?c2) (page s)] =>
      exact (@get_cached_data_hit
               ttl_config2 cache_type key fetch2 ttl2
               (mkSession (Some c2) (page s)) n2 c2
               (mkEntry (Some d) (clock (snd lookup)) stored_ttl) d
               eq_refl (PyDictFacts.get_set_same _ _ _) eq_refl Hfresh)
  end.
Qed.

End Facts.
End CacheToolsFacts.

(** ** Browsing the metadata and leaving *)

Module RetsBrowseFacts.
Import Http Rets RetsBrowse RetsFacts.

Local Open Scope string_scope.

Section Facts.
Variable ET_fromstring : string -> option Xml.Element.
Variable chr_int : string -> Py.outcome ascii.
Variable net : network.

(** What holds of the accumulator before a loop and is kept by every turn
    that returns holds of what the loop returns. *)
Lemma for_each_result A B (P : B -> Prop) (f : B -> A -> M B) :
  (forall acc x w acc' w', P acc -> f acc x w = (Py.Ret acc', w') -> P acc') ->
  forall xs acc w acc' w',
    P acc -> for_each f xs acc w = (Py.Ret acc', w') -> P acc'.
Proof.
  intros Hf. induction xs as [|x xs IH]; intros acc w acc' w' HP E.
  - injection E as <- _. exact HP.
  - cbn [for_each] in E. rewrite EffFacts.bind_run in E.
    destruct (f acc x w) as [[acc1|e] w1] eqn:E1; [|discriminate].
    exact (IH _ _ _ _ (Hf _ _ _ _ _ HP E1) E).
Qed.

Lemma table_level_get k v rn md ci w md' w' :
  (forall x, k <> "TABLE_" ++ x) ->
  PyDict.get k md = v ->
  table_level ET_fromstring net rn md ci w = (Py.Ret md', w') ->
  PyDict.get k md' = v.
Proof.
  intros Hk Hv. unfold table_level.
  destruct (PyStr.truthy _); [|intros [= <- _]; exact Hv].
  rewrite EffFacts.bind_run.
  destruct (metadata_request _ _ _ _) as [[resp|e] w1]; [|discriminate].
  destruct (status_code resp =? 200)%Z; intros [= <- _]; [|exact Hv].
  rewrite PyDictFacts.get_set_other; [exact Hv|].
  intros E. symmetry in E. revert E. apply Hk.
Qed.

Lemma class_level_get k v md resource w md' w' :
  (forall x, k <> "TABLE_" ++ x) -> (forall x, k <> "CLASS_" ++ x) ->
  PyDict.get k md = v ->
  class_level ET_fromstring net md resource w = (Py.Ret md', w') ->
  PyDict.get k md' = v.
Proof.
  intros Hkt Hkc Hv. unfold class_level.
  destruct (PyStr.truthy _); [|intros [= <- _]; exact Hv].
  rewrite EffFacts.bind_run.
  destruct (metadata_request _ _ _ _) as [[resp|e] w1]; [|discriminate].
  destruct (status_code resp =? 200)%Z; [|intros [= <- _]; exact Hv].
  apply (@for_each_result _ _ (fun md => PyDict.get k md = v)).
  - intros acc x w0 acc' w0' HP. now apply table_level_get.
  - rewrite PyDictFacts.get_set_other; [exact Hv|].
    intros E. symmetry in E. revert E. apply Hkc.
Qed.

(** The keys of what [get_metadata] returns: [SYSTEM] always, and beside
    it only [RESOURCE] and keys that start with [CLASS_] or [TABLE_]. *)
Lemma get_metadata_keys w md w' :
  get_metadata ET_fromstring net w = (Py.Ret (Some md), w') ->
  PyDict.get "SYSTEM" md <> None /\
  forall k, k <> "SYSTEM" -> k <> "RESOURCE" ->
            (forall x, k <> "TABLE_" ++ x) -> (forall x, k <> "CLASS_" ++ x) ->
            PyDict.get k md = None.
Proof.
  unfold get_metadata. rewrite EffFacts.bind_run, get_self_run.
  destruct (negb (usable (self w))); [discriminate|].
  rewrite EffFacts.try_except_run.
  destruct (get_metadata_body _ _ w) as [[o|e] w1] eqn:E; [|discriminate].
  intros [= -> ->]. revert E. unfold get_metadata_body.
  rewrite EffFacts.bind_run.
  destruct (metadata_request _ _ _ w) as [[r0|e] w1]; [|discriminate].
  destruct (status_code r0 =? 200)%Z; [|discriminate].
  rewrite EffFacts.bind_run.
  destruct (metadata_request _ _ _ w1) as [[r1|e] w2]; [|discriminate].
  rewrite EffFacts.bind_run.
  destruct (status_code r1 =? 200)%Z.
  - destruct (for_each _ _ _ w2) as [[md1|e] w3] eqn:F; [|discriminate].
    intros [= -> ->]. split.
    + revert F.
      apply (@for_each_result _ _ (fun md => PyDict.get "SYSTEM" md <> None)).
      * intros acc x w0 acc' w0' HP Hc.
        rewrite (@class_level_get "SYSTEM" (PyDict.get "SYSTEM" acc)
                   acc x w0 acc' w0'); try assumption; try reflexivity;
          discriminate.
      * discriminate.
    + intros k Hs Hr Ht Hc. revert F.
      apply (@for_each_result _ _ (fun md => PyDict.get k md = None)).
      * intros acc x w0 acc' w0' HP. now apply class_level_get.
      * rewrite PyDictFacts.get_set_other by congruence.
        rewrite PyDictFacts.get_set_other by congruence. reflexivity.
  - intros [= <- _]. split; [discriminate|].
    intros k Hs _ _ _. cbn [PyDict.get].
    destruct (String.eqb_spec k "SYSTEM"); [contradiction | reflexivity].
Qed.

Lemma get_metadata_returns w :
  exists o w', get_metadata ET_fromstring net w = (Py.Ret o, w').
Proof.
  unfold get_metadata. rewrite EffFacts.bind_run, get_self_run.
  destruct (negb (usable (self w))); [now exists None, w|].
  apply EffFacts.try_except_returns.
Qed.

(** X10.  Whatever the server publishes, [get_resources] returns the empty
    list when [get_metadata] returns [None], and the five stock names
    otherwise; [get_resource_details] returns the empty dictionary, or the
    stock descriptor of the resource asked for.  Neither raises, and
    neither sends more than the metadata requests. *)
Theorem browse_results_are_stock :
  forall w resource_name,
    let metadata := get_metadata ET_fromstring net w in
    (exists o, fst metadata = Py.Ret o) /\
    get_resources ET_fromstring net w
    = (Py.Ret (match fst metadata with
               | Py.Ret (Some _) => default_resources
               | _ => []
               end), snd metadata) /\
    get_resource_details ET_fromstring net resource_name w
    = (Py.Ret (match fst metadata with
               | Py.Ret (Some _) => basic_details resource_name
               | _ => NoDetails
               end), snd metadata).
Proof.
  intros w resource_name metadata. subst metadata.
  destruct (get_metadata_returns w) as (o & w' & E).
  unfold get_resources, get_resource_details.
  rewrite !EffFacts.bind_run, E. cbn [fst snd].
  split; [now exists o|].
  destruct o as [md|]; [|split; reflexivity].
  destruct (get_metadata_keys _ E) as (Hsys & Hother).
  destruct md as [|kv md]; [now elim Hsys|].
  cbn [no_metadata].
  rewrite !Hother; try discriminate. split; reflexivity.
Qed.

Lemma not_usable_without_session c : session c = None -> usable c = false.
Proof. unfold usable. intros ->. apply andb_false_r. Qed.

Lemma get_metadata_not_usable w :
  usable (self w) = false ->
  get_metadata ET_fromstring net w = (Py.Ret None, w).
Proof.
  intros Hu. unfold get_metadata.
  now rewrite EffFacts.bind_run, get_self_run, Hu.
Qed.

Lemma execute_query_not_usable resource class_name query limit select w :
  usable (self w) = false ->
  execute_query ET_fromstring chr_int net resource class_name query limit
                select w = (Py.Ret None, w).
Proof.
  intros Hu. unfold execute_query.
  now rewrite EffFacts.bind_run, get_self_run, Hu.
Qed.

(** X11.  [disconnect] never raises, whatever becomes of the logout
    request.  On a client with a session it sends one request, to the
    client's URL followed by [/logout], with the session's headers and
    credentials and without a time-out, then drops the session and clears
    the flag; on a client without a session it does nothing, so that a
    second [disconnect] does nothing.  Afterwards [get_metadata] and
    [execute_query] return [None] without sending anything. *)
Theorem disconnect_closes_session :
  forall w,
    let w' := snd (disconnect net w) in
    fst (disconnect net w) = Py.Ret tt /\
    session (self w') = None /\
    match session (self w) with
    | Some s =>
        self w' = set_connected (set_session (self w) None) false /\
        wire w' = (wire w ++
                   [mkRequest GET (Some (url (self w) ++ "/logout")%string) []
                              (session_headers s) (session_auth s) None])%list
    | None => w' = w
    end /\
    disconnect net w' = (Py.Ret tt, w') /\
    get_metadata ET_fromstring net w' = (Py.Ret None, w') /\
    forall resource class_name query limit select,
      execute_query ET_fromstring chr_int net resource class_name query limit
                    select w' = (Py.Ret None, w').
Proof.
  intros w w'.
  assert (H : fst (disconnect net w) = Py.Ret tt /\
              session (self w') = None /\
              match session (self w) with
              | Some s =>
                  self w' = set_connected (set_session (self w) None) false /\
                  wire w' = (wire w ++
                             [mkRequest GET (Some (url (self w) ++ "/logout")%string)
                                        [] (session_headers s)
                                        (session_auth s) None])%list
              | None => w' = w
              end).
  { subst w'. unfold disconnect.
    rewrite EffFacts.bind_run, get_self_run.
    destruct (session (self w)) as [s|] eqn:Hs.
    - rewrite EffFacts.bind_run, EffFacts.try_except_run, EffFacts.bind_run.
      unfold session_get_plain.
      rewrite !EffFacts.bind_run. unfold Eff.read, Eff.write, Eff.lift.
      destruct (net _ _) as [resp|e]; repeat split.
    - cbn [fst snd]. repeat split. exact Hs. }
  destruct H as (Hret & Hnone & Hmatch).
  repeat split; try assumption.
  - unfold disconnect. now rewrite EffFacts.bind_run, get_self_run, Hnone.
  - now apply get_metadata_not_usable, not_usable_without_session.
  - intros. now apply execute_query_not_usable, not_usable_without_session.
Qed.

(** X12.  [execute_query] never raises and never changes the client.  It
    returns [None] without a request when the client is not connected or
    has no session; otherwise it returns [None] when the search request
    raises, when it is answered with a status other than 200, and when the
    parsing of a 200 answer raises, and the parsed rows in the remaining
    case. *)
Theorem execute_query_failure_modes :
  forall resource class_name query limit select w,
    let r := execute_query ET_fromstring chr_int net resource class_name
                           query limit select w in
    (exists o, fst r = Py.Ret o) /\
    self (snd r) = self w /\
    (usable (self w) = false -> r = (Py.Ret None, w)) /\
    forall s,
      usable (self w) = true -> session (self w) = Some s ->
      let q := session_request s (search_url (self w))
                 (search_params resource class_name query limit select) in
      (forall e, net (List.length (wire w)) q = Py.Raise e ->
                 fst r = Py.Ret None) /\
      (forall resp, net (List.length (wire w)) q = Py.Ret resp ->
                    status_code resp <> 200%Z -> fst r = Py.Ret None) /\
      (forall resp, net (List.length (wire w)) q = Py.Ret resp ->
                    status_code resp = 200%Z ->
                    fst r = match _parse_search_response ET_fromstring chr_int
                                                         (text resp) with
                            | Py.Ret rows => Py.Ret (Some rows)
                            | Py.Raise _ => Py.Ret None
                            end).
Proof.
  intros resource class_name query limit select w r.
  destruct (usable (self w)) eqn:Hu.
  - destruct (usable_session _ Hu) as (_ & s & Hs).
    assert (E : r =
      match net (List.length (wire w))
                (session_request s (search_url (self w))
                   (search_params resource class_name query limit select)) with
      | Py.Ret resp =>
          (if (status_code resp =? 200)%Z
           then match _parse_search_response ET_fromstring chr_int
                                             (text resp) with
                | Py.Ret rows => Py.Ret (Some rows)
                | Py.Raise _ => Py.Ret None
                end
           else Py.Ret None,
           mkWorld (self w)
             (wire w ++ [session_request s (search_url (self w))
                (search_params resource class_name query limit select)]))
      | Py.Raise _ =>
          (Py.Ret None,
           mkWorld (self w)
             (wire w ++ [session_request s (search_url (self w))
                (search_params resource class_name query limit select)]))
      end).
    { subst r. unfold execute_query.
      rewrite EffFacts.bind_run, get_self_run, Hu. cbn [negb].
      rewrite EffFacts.try_except_run, EffFacts.bind_run.
      rewrite (session_get_run _ _ _ _ Hs).
      destruct (net _ _) as [resp|e]; [|reflexivity].
      destruct (status_code resp =? 200)%Z; [|reflexivity].
      rewrite EffFacts.bind_run. unfold Eff.lift, Eff.ret.
      destruct (_parse_search_response _ _ _); reflexivity. }
    rewrite E. split; [|split; [|split]].
    + destruct (net _ _) as [resp|e]; [|now eexists].
      destruct (status_code resp =? 200)%Z; [|now eexists].
      destruct (_parse_search_response _ _ _); now eexists.
    + now destruct (net _ _).
    + discriminate.
    + intros s' _ Hs'. assert (s' = s) by congruence. subst s'. cbv zeta.
      split; [|split].
      * intros e ->. reflexivity.
      * intros resp -> Hne. apply Z.eqb_neq in Hne. now rewrite Hne.
      * intros resp -> He. apply Z.eqb_eq in He. now rewrite He.
  - subst r. rewrite execute_query_not_usable by exact Hu.
    split; [now eexists|]. split; [reflexivity|]. split; [reflexivity|].
    discriminate.
Qed.

(** *** [connect] in general *)

Lemma grown_refl k w : grown k w w.
Proof. exists []. split; [now rewrite app_nil_r | simpl; lia]. Qed.

Lemma grown_trans a b k w w1 w2 :
  grown a w w1 -> grown b w1 w2 -> (a + b <= k)%nat -> grown k w w2.
Proof.
  intros (r1 & E1 & L1) (r2 & E2 & L2) Hk. exists (r1 ++ r2)%list. split.
  - now rewrite E2, E1, app_assoc.
  - rewrite length_app. lia.
Qed.

Lemma grown_length k w w' :
  grown k w w' -> (List.length (wire w) <= List.length (wire w'))%nat.
Proof. intros (r & E & _). rewrite E, length_app. lia. Qed.

Lemma grown_one c w r : grown 1 w (mkWorld c (wire w ++ [r])).
Proof. exists [r]. split; [reflexivity | simpl; lia]. Qed.

(** Parsing a login response touches the two URLs only, and leaves both
    with a non-empty text. *)
Lemma parse_login_response_urls response_text c :
  let c' := _parse_login_response ET_fromstring response_text c in
  c' = set_search_url (set_metadata_url c (metadata_url c')) (search_url c') /\
  truthy_opt (metadata_url c') = true /\ truthy_opt (search_url c') = true.
Proof.
  set (R := fun c c' : RETSClient =>
              c' = set_search_url (set_metadata_url c (metadata_url c'))
                                  (search_url c')).
  assert (Rrefl : forall c, R c c) by (intros []; reflexivity).
  assert (Rtrans : forall c1 c2 c3, R c1 c2 -> R c2 c3 -> R c1 c3).
  { unfold R. intros c1 c2 c3 H12 H23. rewrite H23, H12.
    destruct c1; reflexivity. }
  assert (Rm : forall c u, R c (set_metadata_url c u))
    by (intros [] u; reflexivity).
  assert (Rs : forall c u, R c (set_search_url c u))
    by (intros [] u; reflexivity).
  assert (Rfold : forall A (f : RETSClient -> A -> RETSClient),
             (forall c x, R c (f c x)) ->
             forall xs c, R c (fold_left f xs c)).
  { intros A f Hf. induction xs as [|x xs IH]; intros c0; [apply Rrefl|].
    simpl. eapply Rtrans; [apply Hf | apply IH]. }
  assert (Relem : forall c e, R c (login_element c e)).
  { intros c0 e. unfold login_element.
    repeat match goal with
           | |- context [if ?b then _ else _] => destruct b
           end; auto. }
  assert (Rline : forall c l, R c (login_line c l)).
  { intros c0 l. unfold login_line.
    repeat match goal with
           | |- context [if ?b then _ else _] => destruct b
           | |- context [match ?o with Some _ => _ | None => _ end] =>
               destruct o
           end; auto. }
  intros c'. subst c'. unfold _parse_login_response.
  set (c1 := match ET_fromstring response_text with
             | Some root => fold_left login_element (Xml.iter root) c
             | None => fold_left login_line
                                 (PyStr.split PyStr.newline response_text) c
             end).
  assert (H1 : R c c1)
    by (subst c1; destruct (ET_fromstring response_text); now apply Rfold).
  cbv zeta.
  set (base_url := PyStr.replace "/rets/login.ashx" ""
                     (PyStr.replace "/login.ashx" "" (url c1))).
  assert (Ht : forall b suffix,
             PyStr.truthy (b ++ String "/" suffix) = true)
    by (intros [|a b] suffix; reflexivity).
  destruct (truthy_opt (metadata_url c1)) eqn:Hm;
    destruct (truthy_opt (search_url c1)) eqn:Hsu; cbn [negb].
  - rewrite Hsu. cbn [negb]. repeat split; assumption.
  - rewrite Hsu. cbn [negb]. split; [|split].
    + eapply Rtrans; [exact H1 | apply Rs].
    + destruct c1; exact Hm.
    + destruct c1; apply Ht.
  - assert (Hsu' : truthy_opt (search_url
                     (set_metadata_url c1
                        (Some (base_url ++ "/rets/GetMetadata.ashx")))) = true)
      by (destruct c1; exact Hsu).
    rewrite Hsu'. cbn [negb]. split; [|split].
    + eapply Rtrans; [exact H1 | apply Rm].
    + destruct c1; apply Ht.
    + exact Hsu'.
  - assert (Hsu' : truthy_opt (search_url
                     (set_metadata_url c1
                        (Some (base_url ++ "/rets/GetMetadata.ashx")))) = false)
      by (destruct c1; exact Hsu).
    rewrite Hsu'. cbn [negb]. split; [|split].
    + eapply Rtrans; [exact H1|]. eapply Rtrans; [apply Rm | apply Rs].
    + destruct c1; apply Ht.
    + destruct c1; apply Ht.
Qed.

Lemma login_succeeded_run r w :
  login_succeeded ET_fromstring r w =
  (Py.Ret (Return true),
   mkWorld (set_connected (_parse_login_response ET_fromstring (text r) (self w))
                          true) (wire w)).
Proof. reflexivity. Qed.

Lemma login_succeeded_logged_in r c :
  logged_in c (set_connected (_parse_login_response ET_fromstring (text r) c)
                             true).
Proof.
  destruct (parse_login_response_urls (text r) c) as (E & Hm & Hs).
  cbv zeta in E, Hm, Hs. unfold logged_in.
  destruct (_parse_login_response ET_fromstring (text r) c) eqn:P.
  cbn in *. split; [|split; assumption].
  destruct c. cbn in *. congruence.
Qed.

(** What a login attempt leaves behind: on [Return] the value is [True],
    the client is logged in and the request just sent was answered with
    200; otherwise the client is as before. *)
Lemma attempt_accepted w s u resp :
  session (self w) = Some s ->
  net (List.length (wire w)) (session_request s u []) = Py.Ret resp ->
  status_code resp = 200%Z ->
  let w' := mkWorld (set_connected
                       (_parse_login_response ET_fromstring (text resp) (self w))
                       true)
                    (wire w ++ [session_request s u []]) in
  logged_in (self w) (self w') /\ answered_200 net w' /\
  (List.length (wire w) < List.length (wire w'))%nat.
Proof.
  intros Hs E H200 w'. split; [apply login_succeeded_logged_in|]. split.
  - exists (wire w), (session_request s u []), resp. repeat split; assumption.
  - subst w'. cbn [wire]. rewrite length_app. simpl. lia.
Qed.

Lemma matrix_attempt_post w s :
  session (self w) = Some s ->
  exists o w',
    matrix_attempt ET_fromstring net w = (o, w') /\ grown 1 w w' /\
    match o with
    | Py.Ret (Return b) =>
        b = true /\ logged_in (self w) (self w') /\ answered_200 net w' /\
        (List.length (wire w) < List.length (wire w'))%nat
    | _ => self w' = self w
    end.
Proof.
  intros Hs. unfold matrix_attempt.
  rewrite EffFacts.bind_run, get_self_run.
  destruct (PyStr.contains "matrix" (PyStr.lower (url (self w)))).
  - rewrite EffFacts.except_request_run, EffFacts.bind_run,
      (session_get_run _ _ _ _ Hs).
    destruct (net _ _) as [resp|e] eqn:E.
    + destruct (status_code resp =? 200)%Z eqn:H200.
      * rewrite login_succeeded_run. apply Z.eqb_eq in H200.
        cbn [self wire].
        eexists; eexists. split; [reflexivity|]. split; [apply grown_one|].
        split; [reflexivity|]. now apply attempt_accepted.
      * eexists; eexists. split; [reflexivity|]. split; [apply grown_one|].
        reflexivity.
    + destruct e; eexists; eexists; (split; [reflexivity|]);
        (split; [apply grown_one | reflexivity]).
  - exists (Py.Ret Continue), w. split; [reflexivity|].
    split; [apply grown_refl | reflexivity].
Qed.

Lemma endpoint_attempt_post endpoint w s :
  session (self w) = Some s ->
  exists o w',
    endpoint_attempt ET_fromstring net endpoint w = (o, w') /\ grown 1 w w' /\
    match o with
    | Py.Ret (Return b) =>
        b = true /\ logged_in (self w) (self w') /\ answered_200 net w' /\
        (List.length (wire w) < List.length (wire w'))%nat
    | _ => self w' = self w
    end.
Proof.
  intros Hs. unfold endpoint_attempt.
  rewrite EffFacts.bind_run, get_self_run, EffFacts.except_request_run.
  destruct (PyStr.endswith ".ashx" (url (self w)) &&
            negb (String.eqb endpoint (hd "" login_endpoints))).
  - exists (Py.Ret Break), w. split; [reflexivity|].
    split; [apply grown_refl | reflexivity].
  - rewrite EffFacts.bind_run, (session_get_run _ _ _ _ Hs).
    destruct (net _ _) as [resp|e] eqn:E.
    + destruct (status_code resp =? 200)%Z eqn:H200.
      * rewrite login_succeeded_run. apply Z.eqb_eq in H200.
        cbn [self wire].
        eexists; eexists. split; [reflexivity|]. split; [apply grown_one|].
        split; [reflexivity|]. now apply attempt_accepted.
      * destruct (status_code resp =? 401)%Z;
          destruct (PyStr.endswith ".ashx" (url (self w)));
          eexists; eexists; (split; [reflexivity|]);
            (split; [apply grown_one | reflexivity]).
    + destruct e; try (eexists; eexists; (split; [reflexivity|]);
                       (split; [apply grown_one | reflexivity])).
      destruct (PyStr.endswith ".ashx" (url (self w)));
        eexists; eexists; (split; [reflexivity|]);
          (split; [apply grown_one | reflexivity]).
Qed.

Lemma endpoint_loop_post endpoints : forall w s,
  session (self w) = Some s ->
  exists o w',
    endpoint_loop ET_fromstring net endpoints w = (o, w') /\
    grown (List.length endpoints) w w' /\
    match o with
    | Py.Ret (Some b) =>
        b = true /\ logged_in (self w) (self w') /\ answered_200 net w' /\
        (List.length (wire w) < List.length (wire w'))%nat
    | _ => self w' = self w
    end.
Proof.
  induction endpoints as [|endpoint rest IH]; intros w s Hs.
  - exists (Py.Ret None), w. split; [reflexivity|].
    split; [apply grown_refl | reflexivity].
  - cbn [endpoint_loop]. rewrite EffFacts.bind_run.
    destruct (endpoint_attempt_post endpoint _ Hs)
      as (o & w1 & -> & Hg & Ho).
    assert (Hg' : grown (List.length (endpoint :: rest)) w w1)
      by (eapply grown_trans; [exact Hg | apply (grown_refl 0) | simpl; lia]).
    destruct o as [[b| |]|e].
    + exists (Py.Ret (Some b)), w1. split; [reflexivity|].
      split; assumption.
    + exists (Py.Ret None), w1. split; [reflexivity|]. split; assumption.
    + assert (Hs1 : session (self w1) = Some s) by (now rewrite Ho).
      destruct (IH w1 s Hs1) as (o & w2 & E & Hg2 & Ho2).
      exists o, w2. split; [exact E|]. split.
      * eapply grown_trans; [exact Hg | exact Hg2 | simpl; lia].
      * pose proof (grown_length Hg) as Hl.
        destruct o as [[b|]|e]; rewrite <- ?Ho; try assumption.
        destruct Ho2 as (Hb & Hli & Ha & Hlt).
        split; [exact Hb|]. split; [exact Hli|]. split; [exact Ha | lia].
    + exists (Py.Raise e), w1. split; [reflexivity|]. split; assumption.
Qed.

Lemma logged_in_session c c' : logged_in c c' -> session c' = session c.
Proof. intros (E & _). rewrite E. reflexivity. Qed.

Lemma auth_loop_post auth_methods : forall w s,
  session (self w) = Some s ->
  exists o w',
    auth_loop ET_fromstring net auth_methods w = (o, w') /\
    grown (7 * List.length auth_methods) w w' /\
    match o with
    | Py.Ret true =>
        exists a,
          In a auth_methods /\
          logged_in (set_session (self w)
                       (Some (mkSession (session_headers s) (Some a))))
                    (self w') /\
          answered_200 net w' /\
          (List.length (wire w) < List.length (wire w'))%nat
    | _ => same_account (self w) (self w')
    end.
Proof.
  induction auth_methods as [|a rest IH]; intros w s Hs.
  - exists (Py.Ret false), w. split; [reflexivity|].
    split; [apply grown_refl | apply same_account_refl].
  - cbn [auth_loop]. rewrite EffFacts.bind_run, get_self_run, Hs.
    rewrite EffFacts.bind_run, put_self_run.
    set (s0 := mkSession (session_headers s) (Some a)).
    set (w0 := mkWorld (set_session (self w) (Some s0)) (wire w)).
    assert (Hs0 : session (self w0) = Some s0) by reflexivity.
    assert (H0 : same_account (self w) (self w0)) by reflexivity.
    rewrite EffFacts.bind_run.
    destruct (matrix_attempt_post _ Hs0) as (o & w1 & -> & Hg1 & Ho).
    assert (Hg1' : grown 1 w w1) by exact Hg1.
    assert (Hloop :
              self w1 = self w0 ->
              exists o' w',
                (e <- endpoint_loop ET_fromstring net login_endpoints ;;
                 match e with
                 | Some b => Eff.ret b
                 | None => auth_loop ET_fromstring net rest
                 end)%eff w1 = (o', w') /\
                grown (7 * List.length (a :: rest)) w w' /\
                match o' with
                | Py.Ret true =>
                    exists a',
                      In a' (a :: rest) /\
                      logged_in (set_session (self w)
                                   (Some (mkSession (session_headers s)
                                                    (Some a'))))
                                (self w') /\
                      answered_200 net w' /\
                      (List.length (wire w) < List.length (wire w'))%nat
                | _ => same_account (self w) (self w')
                end).
    { intros Hw1.
      assert (Hs1 : session (self w1) = Some s0) by (now rewrite Hw1).
      rewrite EffFacts.bind_run.
      destruct (endpoint_loop_post login_endpoints _ Hs1)
        as (o2 & w2 & -> & Hg2 & Ho2).
      assert (Hg12 : grown 7 w w2)
        by (eapply grown_trans; [exact Hg1' | exact Hg2 | simpl; lia]).
      pose proof (grown_length Hg1') as Hl1.
      destruct o2 as [[b|]|e].
      - destruct Ho2 as (-> & Hli & Ha & Hlt).
        exists (Py.Ret true), w2. split; [reflexivity|]. split.
        + eapply grown_trans; [exact Hg12 | apply (grown_refl 0) | simpl; lia].
        + exists a. split; [now left|]. rewrite Hw1 in Hli.
          split; [exact Hli|]. split; [exact Ha | lia].
      - assert (Hs2 : session (self w2) = Some s0) by (now rewrite Ho2).
        destruct (IH w2 _ Hs2) as (o3 & w3 & E3 & Hg3 & Ho3).
        exists o3, w3. split; [exact E3|]. split.
        + eapply grown_trans; [exact Hg12 | exact Hg3 | simpl; lia].
        + assert (Hacc : same_account (self w) (self w2))
            by (now rewrite Ho2, Hw1).
          pose proof (grown_length Hg12) as Hl2.
          destruct o3 as [[|]|e3];
            try (eapply same_account_trans; [exact Hacc | exact Ho3]).
          destruct Ho3 as (a' & Hin & Hli & Ha & Hlt).
          exists a'. split; [now right|].
          rewrite Ho2, Hw1 in Hli. cbn [self session_headers s0 w0] in Hli.
          split; [|split; [exact Ha | lia]].
          destruct (self w); exact Hli.
      - exists (Py.Raise e), w2. split; [reflexivity|]. split.
        + eapply grown_trans; [exact Hg12 | apply (grown_refl 0) | simpl; lia].
        + now rewrite Ho2, Hw1. }
    destruct o as [[b| |]|e].
    + destruct Ho as (-> & Hli & Ha & Hlt).
      exists (Py.Ret true), w1. split; [reflexivity|]. split.
      * eapply grown_trans; [exact Hg1' | apply (grown_refl 0) | simpl; lia].
      * exists a. split; [now left|].
        split; [exact Hli|]. split; [exact Ha | exact Hlt].
    + exact (Hloop Ho).
    + exact (Hloop Ho).
    + exists (Py.Raise e), w1. split; [reflexivity|]. split.
      * eapply grown_trans; [exact Hg1' | apply (grown_refl 0) | simpl; lia].
      * now rewrite Ho.
Qed.

(** X13.  [connect] sends at most fourteen requests.  When it returns
    [True] the last of them was answered with 200, the client is
    connected with a session that carries the client's user name and
    password under the Basic or the Digest scheme, and both the metadata
    and the search URL hold a non-empty text; nothing else in the client
    has changed.  When it returns [False] only the session is new: the
    flag is what it was before the call. *)
Theorem connect_outcome :
  forall w,
    let r := connect ET_fromstring net w in
    let c := self w in
    let c' := self (snd r) in
    grown 14 w (snd r) /\
    (fst r = Py.Ret true ->
     usable c' = true /\
     (exists s', session c' = Some s' /\
                 (session_auth s' = Some (BasicAuth (username c) (password c)) \/
                  session_auth s' = Some (DigestAuth (username c) (password c)))) /\
     logged_in (set_session c (session c')) c' /\
     answered_200 net (snd r) /\
     (List.length (wire w) < List.length (wire (snd r)))%nat) /\
    (fst r = Py.Ret false ->
     same_account c c' /\ connected c' = connected c).
Proof.
  intros w r c c'. subst r c c'. unfold connect.
  rewrite EffFacts.try_except_run, EffFacts.bind_run, get_self_run.
  rewrite EffFacts.bind_run, put_self_run.
  set (w0 := mkWorld _ (wire w)).
  assert (H0 : same_account (self w) (self w0)) by reflexivity.
  match goal with
  | |- context [auth_loop _ _ ?auths w0] =>
      destruct (@auth_loop_post auths w0 _ eq_refl)
        as (o & w1 & -> & Hg & Ho)
  end.
  assert (Hg' : grown 14 w w1) by exact Hg.
  destruct o as [[|]|e]; unfold Eff.ret; cbn [fst snd].
  - split; [exact Hg'|]. split; [|discriminate]. intros _.
    destruct Ho as (a & Hin & Hli & Ha & Hlt).
    pose proof (logged_in_session Hli) as Hs'. cbn [session set_session] in Hs'.
    destruct Hli as (E & Hm & Hsu).
    split; [|split; [|split; [|split]]].
    + unfold usable. rewrite Hs', E. reflexivity.
    + eexists. split; [exact Hs'|]. cbn [session_auth].
      destruct Hin as [<-|[<-|[]]]; [left | right]; reflexivity.
    + split; [|split; assumption]. rewrite Hs'.
      etransitivity; [exact E|]. subst w0. cbn [self].
      destruct (self w); reflexivity.
    + exact Ha.
    + exact Hlt.
  - split; [exact Hg'|]. split; [discriminate|]. intros _.
    assert (H : same_account (self w) (self w1))
      by (eapply same_account_trans; [exact H0 | exact Ho]).
    split; [exact H | now rewrite H].
  - split; [exact Hg'|]. split; [discriminate|]. intros _.
    assert (H : same_account (self w) (self w1))
      by (eapply same_account_trans; [exact H0 | exact Ho]).
    split; [exact H | now rewrite H].
Qed.

End Facts.
End RetsBrowseFacts.

(** ** The rows of a Matrix response *)

Module SearchFacts.
Import Http Rets.

Local Open Scope string_scope.

Lemma keys_set_absent V k (v : V) (d : PyDict.dict V) :
  ~ In k (PyDict.keys d) -> PyDict.keys (PyDict.set k v d) = (PyDict.keys d ++ [k])%list.
Proof.
  induction d as [|[k' v'] d IH]; intros Hn; [reflexivity|].
  cbn [PyDict.set]. destruct (String.eqb_spec k k') as [->|Hne].
  - elim Hn. now left.
  - cbn [PyDict.keys map fst app]. f_equal. apply IH.
    intros Hin. apply Hn. now right.
Qed.

Lemma matrix_row_get_other headers : forall values row_data k,
  ~ In k headers ->
  PyDict.get k (matrix_row headers values row_data) = PyDict.get k row_data.
Proof.
  induction headers as [|h hs IH]; intros values row_data k Hn; [reflexivity|].
  assert (Hk : h <> k) by (intros ->; apply Hn; now left).
  assert (Hn' : ~ In k hs) by (intros Hin; apply Hn; now right).
  destruct values as [|v vs]; cbn [matrix_row]; rewrite IH by exact Hn';
    now apply PyDictFacts.get_set_other.
Qed.

Lemma matrix_row_keys headers : forall values row_data,
  NoDup headers ->
  (forall h, In h headers -> ~ In h (PyDict.keys row_data)) ->
  PyDict.keys (matrix_row headers values row_data)
  = (PyDict.keys row_data ++ headers)%list.
Proof.
  induction headers as [|h hs IH]; intros values row_data Hnd Hfresh.
  - cbn [matrix_row]. now rewrite app_nil_r.
  - inversion Hnd as [|? ? Hh Hnd']; subst.
    assert (Hstep : forall c,
               PyDict.keys (matrix_row hs (tl values) (PyDict.set h c row_data))
               = (PyDict.keys row_data ++ h :: hs)%list).
    { intros c. rewrite IH; [|exact Hnd'|].
      - rewrite keys_set_absent by (apply Hfresh; now left).
        now rewrite <- app_assoc.
      - intros h' Hin Hin'.
        apply PyDictFacts.keys_set_incl in Hin'. destruct Hin' as [->|Hin'].
        + contradiction.
        + apply (Hfresh h'); [now right | exact Hin']. }
    destruct values as [|v vs]; cbn [matrix_row]; apply Hstep.
Qed.

Lemma matrix_row_nth headers : forall values row_data i h,
  NoDup headers -> nth_error headers i = Some h ->
  PyDict.get h (matrix_row headers values row_data)
  = Some match nth_error values i with
         | Some v => if PyStr.truthy (PyStr.strip v)
                     then Some (PyStr.strip v) else None
         | None => None
         end.
Proof.
  induction headers as [|h0 hs IH]; intros values row_data i h Hnd Hn;
    [destruct i; discriminate|].
  inversion Hnd as [|? ? Hh Hnd']; subst.
  destruct i as [|i]; cbn [nth_error] in Hn.
  - injection Hn as ->.
    destruct values as [|v vs]; cbn [matrix_row nth_error];
      rewrite matrix_row_get_other by exact Hh;
      rewrite PyDictFacts.get_set_same; [reflexivity|].
    destruct v; reflexivity.
  - destruct values as [|v vs]; cbn [matrix_row nth_error].
    + rewrite (IH [] _ i h Hnd' Hn). now destruct i.
    + exact (IH vs _ i h Hnd' Hn).
Qed.

Lemma align_values_nth headers values i :
  (i < List.length headers)%nat ->
  nth_error (align_values headers values) i
  = nth_error values
      (if (List.length headers <? List.length values)%nat &&
          match values with
          | v0 :: _ => String.eqb v0 "" || String.eqb (PyStr.strip v0) ""
          | [] => false
          end
       then S i else i).
Proof.
  intros Hi. unfold align_values.
  destruct (List.length headers <? List.length values)%nat eqn:Hlong;
    [|reflexivity].
  cbn [andb]. destruct values as [|v0 rest].
  - apply Nat.ltb_lt in Hlong. simpl in Hlong. lia.
  - destruct (String.eqb v0 "" || String.eqb (PyStr.strip v0) "").
    + cbn [nth_error].
      destruct (List.length headers <? List.length rest)%nat; [|reflexivity].
      rewrite nth_error_firstn.
      apply Nat.ltb_lt in Hi. now rewrite Hi.
    + rewrite Hlong, nth_error_firstn.
      apply Nat.ltb_lt in Hi. now rewrite Hi.
Qed.

Lemma align_values_length headers values :
  List.length (align_values headers values)
  = Nat.min (List.length headers) (List.length values).
Proof.
  unfold align_values.
  destruct (List.length headers <? List.length values)%nat eqn:Hlong.
  - apply Nat.ltb_lt in Hlong.
    destruct values as [|v0 rest]; [simpl in Hlong; lia|].
    destruct (String.eqb v0 "" || String.eqb (PyStr.strip v0) "").
    + destruct (List.length headers <? List.length rest)%nat eqn:Hl.
      * apply Nat.ltb_lt in Hl. rewrite length_firstn. simpl in *. lia.
      * apply Nat.ltb_ge in Hl. simpl in *. lia.
    + assert (Hl : (List.length headers <? List.length (v0 :: rest))%nat = true)
        by now apply Nat.ltb_lt.
      rewrite Hl, length_firstn. lia.
  - apply Nat.ltb_ge in Hlong. lia.
Qed.

(** X14.  The record built for a Matrix [DATA] row, when no column name
    occurs twice: its keys are the column names, in order, whatever the
    number of values; the values kept after the realignment are as many as
    the shorter of the two lists; and the column at position [i] holds the
    stripped value at position [i], or at position [i + 1] when the row
    has more values than columns and starts with a blank one, and [None]
    when that value is blank or missing. *)
Theorem matrix_row_by_position :
  forall headers values,
    NoDup headers ->
    let aligned := align_values headers values in
    let row := matrix_row headers aligned [] in
    let shifted :=
      (List.length headers <? List.length values)%nat &&
      match values with
      | v0 :: _ => String.eqb v0 "" || String.eqb (PyStr.strip v0) ""
      | [] => false
      end in
    PyDict.keys row = headers /\
    List.length aligned = Nat.min (List.length headers) (List.length values) /\
    forall i h,
      nth_error headers i = Some h ->
      PyDict.get h row
      = Some match nth_error values (if shifted then S i else i) with
             | Some v => if PyStr.truthy (PyStr.strip v)
                         then Some (PyStr.strip v) else None
             | None => None
             end.
Proof.
  intros headers values Hnd aligned row shifted. split; [|split].
  - subst row. rewrite matrix_row_keys; [reflexivity | exact Hnd |].
    intros h _ [].
  - apply align_values_length.
  - intros i h Hn. subst row.
    rewrite (matrix_row_nth aligned [] i Hnd Hn).
    subst aligned shifted. rewrite align_values_nth; [reflexivity|].
    apply nth_error_Some. congruence.
Qed.

End SearchFacts.

(** ** More on the RESO client *)

Module ResoSessionFacts.
Import Http Reso ResoFacts.

Local Open Scope string_scope.

Section Facts.
Variable net : network.

(** The URL [_make_api_request] asks for. *)
Lemma make_api_request_run endpoint params w token :
  access_token (self w) = Some token -> PyStr.truthy token = true ->
  let url :=
    if PyStr.truthy (PyStr.lstrip_char "/" endpoint)
    then PyStr.rstrip_char "/" (base_url (self w)) ++ "/" ++
         PyStr.lstrip_char "/" endpoint
    else PyStr.rstrip_char "/" (base_url (self w)) in
  let q := mkRequest GET (Some url) params
                     [("Authorization", "Bearer " ++ token);
                      ("Accept", "application/json");
                      ("OData-Version", "4.0")] None (Some 30%Z) in
  _make_api_request net endpoint params w =
  (match net (List.length (wire w)) q with
   | Py.Ret response =>
       if (status_code response =? 200)%Z then
         if PyStr.contains "application/json"
              match PyDict.get "content-type" (resp_headers response) with
              | Some t => t
              | None => ""
              end
         then match json response with
              | Py.Ret j => Py.Ret (json_result j)
              | Py.Raise _ => Py.Ret None
              end
         else Py.Ret (Some (ApiContent (text response)))
       else Py.Ret None
   | Py.Raise _ => Py.Ret None
   end, mkWorld (self w) (wire w ++ [q])).
Proof.
  intros Ht Htruthy url q.
  rewrite (@holding_str net endpoint params w token Ht Htruthy).
  rewrite EffFacts.try_except_run, EffFacts.bind_run, requests_send_run.
  fold url. fold q.
  destruct (net _ q) as [resp|e]; [|reflexivity].
  destruct (status_code resp =? 200)%Z.
  - destruct (PyStr.contains _ _); [|reflexivity].
    rewrite EffFacts.bind_run. unfold Eff.lift.
    destruct (json resp); reflexivity.
  - destruct (status_code resp =? 401)%Z; [reflexivity|].
    destruct (status_code resp =? 403)%Z; [reflexivity|].
    destruct (status_code resp =? 404)%Z; reflexivity.
Qed.

Lemma make_api_request_no_token endpoint params w :
  truthy_token (access_token (self w)) = false ->
  _make_api_request net endpoint params w = (Py.Ret None, w).
Proof.
  intros Ht. unfold _make_api_request, make_api_request_holding.
  rewrite !EffFacts.bind_run, !reso_get_self_run. unfold held_token.
  destruct (access_token (self w)) as [token|]; [|reflexivity].
  cbn [truthy_token] in Ht. cbn [truthy_value]. now rewrite Ht.
Qed.

Lemma make_api_request_self endpoint params w :
  self (snd (_make_api_request net endpoint params w)) = self w.
Proof.
  destruct (truthy_token (access_token (self w))) eqn:Htt.
  - unfold truthy_token in Htt.
    destruct (access_token (self w)) as [token|] eqn:Ht; [|discriminate].
    pose proof (make_api_request_run endpoint params _ Ht Htt) as E.
    cbv zeta in E. rewrite E. reflexivity.
  - now rewrite make_api_request_no_token.
Qed.

Lemma make_api_request_sends endpoint params w token :
  access_token (self w) = Some token -> PyStr.truthy token = true ->
  exists q, wire (snd (_make_api_request net endpoint params w))
            = (wire w ++ [q])%list.
Proof.
  intros Ht Htt.
  pose proof (make_api_request_run endpoint params _ Ht Htt) as E.
  cbv zeta in E. rewrite E. eexists. reflexivity.
Qed.

(** The request made for a token that the print can slice. *)
Lemma holding_run token endpoint params w :
  truthy_value token = true -> sliced token = Py.Ret tt ->
  let url :=
    if PyStr.truthy (PyStr.lstrip_char "/" endpoint)
    then PyStr.rstrip_char "/" (base_url (self w)) ++ "/" ++
         PyStr.lstrip_char "/" endpoint
    else PyStr.rstrip_char "/" (base_url (self w)) in
  let q := mkRequest GET (Some url) params
                     [("Authorization", "Bearer " ++ str_value token);
                      ("Accept", "application/json");
                      ("OData-Version", "4.0")] None (Some 30%Z) in
  make_api_request_holding net token endpoint params w =
  (match net (List.length (wire w)) q with
   | Py.Ret response =>
       if (status_code response =? 200)%Z then
         if PyStr.contains "application/json"
              match PyDict.get "content-type" (resp_headers response) with
              | Some t => t
              | None => ""
              end
         then match json response with
              | Py.Ret j => Py.Ret (json_result j)
              | Py.Raise _ => Py.Ret None
              end
         else Py.Ret (Some (ApiContent (text response)))
       else Py.Ret None
   | Py.Raise _ => Py.Ret None
   end, mkWorld (self w) (wire w ++ [q])).
Proof.
  intros Htruthy Hsliced url q. unfold make_api_request_holding.
  rewrite EffFacts.bind_run, reso_get_self_run, Htruthy. cbn [negb].
  rewrite Hsliced, EffFacts.bind_run. unfold Eff.lift at 1.
  rewrite EffFacts.try_except_run, EffFacts.bind_run, requests_send_run.
  fold url. fold q.
  destruct (net _ q) as [resp|e]; [|reflexivity].
  destruct (status_code resp =? 200)%Z.
  - destruct (PyStr.contains _ _); [|reflexivity].
    rewrite EffFacts.bind_run. unfold Eff.lift.
    destruct (json resp); reflexivity.
  - destruct (status_code resp =? 401)%Z; [reflexivity|].
    destruct (status_code resp =? 403)%Z; [reflexivity|].
    destruct (status_code resp =? 404)%Z; reflexivity.
Qed.

(** X15.  [_make_api_request] never changes the client, and what it does
    depends on what [access_token] holds.  With a token that is false
    ([None], an empty string, zero, an empty list) it returns [None] and
    sends nothing.  With a true token that cannot be sliced (a number,
    [True], a dict) it raises before anything is sent: the print that
    precedes the [try] slices the token.  With a non-empty string or list
    it does not raise and sends exactly one GET request, which carries
    [str()] of the token as a bearer credential, waits 30 s at most and
    asks for the base URL and the end point joined by a single slash; it
    returns a result only if that request was answered with status 200,
    and [None] when the answer is the JSON [null].  On a client whose
    token is [None] or a string the method therefore never raises. *)
Theorem make_api_request_outcomes :
  forall endpoint params w,
    (forall token,
        let r := make_api_request_holding net token endpoint params w in
        self (snd r) = self w /\
        (truthy_value token = false -> r = (Py.Ret None, w)) /\
        (truthy_value token = true ->
         forall e, sliced token = Py.Raise e -> r = (Py.Raise e, w)) /\
        (truthy_value token = true -> sliced token = Py.Ret tt ->
         (exists o, fst r = Py.Ret o) /\
         exists q,
           wire (snd r) = (wire w ++ [q])%list /\
           method q = GET /\
           timeout q = Some 30%Z /\
           PyDict.get "Authorization" (headers q)
           = Some ("Bearer " ++ str_value token) /\
           url q = Some (if PyStr.truthy (PyStr.lstrip_char "/" endpoint)
                         then PyStr.rstrip_char "/" (base_url (self w)) ++
                              "/" ++ PyStr.lstrip_char "/" endpoint
                         else PyStr.rstrip_char "/" (base_url (self w))) /\
           (forall x, fst r = Py.Ret (Some x) ->
                      exists resp,
                        net (List.length (wire w)) q = Py.Ret resp /\
                        status_code resp = 200%Z) /\
           (forall resp,
               net (List.length (wire w)) q = Py.Ret resp ->
               json resp = Py.Ret JNullDoc ->
               PyStr.contains "application/json"
                 match PyDict.get "content-type" (resp_headers resp) with
                 | Some t => t
                 | None => ""
                 end = true ->
               fst r = Py.Ret None))) /\
    _make_api_request net endpoint params w
    = make_api_request_holding net (held_token (self w)) endpoint params w /\
    exists o, fst (_make_api_request net endpoint params w) = Py.Ret o.
Proof.
  intros endpoint params w. split; [|split; [reflexivity|]].
  - intros token r.
    destruct (truthy_value token) eqn:Htt.
    + destruct (sliced token) as [[]|e0] eqn:Hs.
      * pose proof (holding_run token endpoint params w Htt Hs) as E.
        cbv zeta in E. fold r in E. rewrite E. cbn [fst snd self wire].
        split; [reflexivity|]. split; [discriminate|].
        split; [discriminate|]. intros _ _. split.
        { destruct (net _ _) as [resp|e]; [|now eexists].
          destruct (status_code resp =? 200)%Z; [|now eexists].
          destruct (PyStr.contains _ _); [|now eexists].
          destruct (json resp); now eexists. }
        eexists. split; [reflexivity|]. split; [reflexivity|].
        split; [reflexivity|]. split; [reflexivity|].
        split; [reflexivity|]. split.
        { intros x. destruct (net _ _) as [resp|e]; [|discriminate].
          destruct (status_code resp =? 200)%Z eqn:H200; [|discriminate].
          intros _. exists resp. split; [reflexivity | now apply Z.eqb_eq]. }
        { intros resp -> Hj Hct. rewrite Hj, Hct.
          destruct (status_code resp =? 200)%Z; reflexivity. }
      * subst r. unfold make_api_request_holding.
        rewrite EffFacts.bind_run, reso_get_self_run, Htt. cbn [negb].
        rewrite Hs, EffFacts.bind_run. unfold Eff.lift at 1.
        split; [reflexivity|]. split; [discriminate|].
        split; [|discriminate]. intros _ e [= <-]. reflexivity.
    + subst r. unfold make_api_request_holding.
      rewrite EffFacts.bind_run, reso_get_self_run, Htt. cbn [negb].
      split; [reflexivity|]. split; [reflexivity|].
      split; discriminate.
  - destruct (truthy_token (access_token (self w))) eqn:Htt.
    + unfold truthy_token in Htt.
      destruct (access_token (self w)) as [token|] eqn:Ht; [|discriminate].
      pose proof (make_api_request_run endpoint params _ Ht Htt) as E.
      cbv zeta in E. rewrite E. cbn [fst].
      destruct (net _ _) as [resp|e]; [|now eexists].
      destruct (status_code resp =? 200)%Z; [|now eexists].
      destruct (PyStr.contains _ _); [|now eexists].
      destruct (json resp); now eexists.
    + rewrite make_api_request_no_token by exact Htt. now eexists.
Qed.

(** X16.  [disconnect] sends nothing; it forgets the token and clears the
    flag, and keeps the authentication method.  Afterwards every API
    request returns [None] without reaching the server, and [connect]
    can only take the OAuth2 road: on a client without a token URL or
    without a client id, such as one built around a token alone, it
    returns [False] and sends nothing. *)
Theorem disconnect_forgets_token :
  forall w,
    let w1 := snd (disconnect w) in
    disconnect w = (Py.Ret tt, w1) /\
    w1 = mkWorld (set_connected (set_access_token (self w) None) false)
                 (wire w) /\
    (forall endpoint params,
        _make_api_request net endpoint params w1 = (Py.Ret None, w1)) /\
    (PyStr.truthy (token_url (self w)) && PyStr.truthy (client_id (self w))
     = false ->
     connect net w1 = (Py.Ret false, w1)).
Proof.
  intros w w1. split; [reflexivity|]. split; [reflexivity|]. split.
  - intros endpoint params. now apply make_api_request_no_token.
  - intros H. unfold connect.
    rewrite EffFacts.try_except_run, EffFacts.bind_run, reso_get_self_run.
    subst w1. cbn [disconnect snd self access_token set_connected
                   set_access_token truthy_token token_url client_id
                   auth_method].
    rewrite andb_false_r.
    change (self (snd (disconnect w)))
      with (set_connected (set_access_token (self w) None) false).
    cbn [token_url client_id set_connected set_access_token].
    rewrite <- negb_andb, H. reflexivity.
Qed.

(** X17.  [connect] sends at most one request.  When it returns [True] the
    client is connected and holds a non-empty token; when it returns
    [False] the flag is what it was.  On the OAuth2 road (no usable token,
    a token URL and a client id at hand) the request is a POST of the
    password grant to the token URL, and a 200 answer whose JSON object
    holds a non-empty [access_token] makes the call return [True] with
    that token stored, while a 200 answer without one makes it return
    [False] with the token forgotten. *)
Theorem reso_connect_outcome :
  forall w,
    let r := connect net w in
    let c := self w in
    (exists reqs, wire (snd r) = (wire w ++ reqs)%list /\
                  (List.length reqs <= 1)%nat) /\
    (fst r = Py.Ret true ->
     connected (self (snd r)) = true /\
     truthy_token (access_token (self (snd r))) = true) /\
    (fst r = Py.Ret false -> connected (self (snd r)) = connected c) /\
    (String.eqb (auth_method c) "token" && truthy_token (access_token c)
     = false ->
     PyStr.truthy (token_url c) = true -> PyStr.truthy (client_id c) = true ->
     let q := mkRequest POST (Some (token_url c))
                [("grant_type", "password");
                 ("client_id", client_id c);
                 ("client_secret", client_secret c);
                 ("username", username c);
                 ("password", password c);
                 ("scope", scope c)]
                [("Content-Type", "application/x-www-form-urlencoded");
                 ("Accept", "application/json")] None None in
     wire (snd r) = (wire w ++ [q])%list /\
     forall resp fields,
       net (List.length (wire w)) q = Py.Ret resp ->
       status_code resp = 200%Z ->
       json resp = Py.Ret (JObject fields) ->
       (forall t, PyDict.get "access_token" fields = Some (JString t) ->
                  PyStr.truthy t = true ->
                  r = (Py.Ret true,
                       mkWorld (set_connected (set_access_token c (Some t)) true)
                               (wire w ++ [q]))) /\
       (PyDict.get "access_token" fields = None ->
        r = (Py.Ret false,
             mkWorld (set_access_token c None) (wire w ++ [q])))).
Proof.
  intros w r c.
  destruct (String.eqb (auth_method c) "token" &&
            truthy_token (access_token c)) eqn:Hcond.
  - (* the token road *)
    assert (Ht : truthy_token (access_token c) = true)
      by (apply andb_true_iff in Hcond; tauto).
    unfold truthy_token in Ht.
    destruct (access_token c) as [token|] eqn:Htok; [|discriminate].
    assert (E : r =
              match fst (_make_api_request net "" [] w) with
              | Py.Ret (Some _) =>
                  (Py.Ret true,
                   mkWorld (set_connected c true)
                           (wire (snd (_make_api_request net "" [] w))))
              | _ => (Py.Ret false, snd (_make_api_request net "" [] w))
              end).
    { subst r. unfold connect.
      rewrite EffFacts.try_except_run, EffFacts.bind_run, reso_get_self_run.
      fold c. rewrite Htok, Hcond. rewrite EffFacts.bind_run.
      pose proof (make_api_request_self "" [] w) as Hself.
      destruct (_make_api_request net "" [] w) as [[[x|]|e] w1];
        cbn [fst snd] in *; try reflexivity.
      rewrite EffFacts.bind_run, reso_get_self_run, Hself. reflexivity. }
    pose proof (make_api_request_self "" [] w) as Hself.
    destruct (make_api_request_sends "" [] w Htok Ht) as (q & Hwire).
    rewrite E. split; [|split; [|split; [|discriminate]]].
    + exists [q]. split; [|simpl; lia].
      destruct (fst (_make_api_request net "" [] w)) as [[x|]|e];
        cbn [snd wire]; exact Hwire.
    + destruct (fst (_make_api_request net "" [] w)) as [[x|]|e];
        try discriminate.
      intros _. cbn [fst snd self]. split; [reflexivity|].
      subst c. destruct (self w); cbn in *. now rewrite Htok.
    + destruct (fst (_make_api_request net "" [] w)) as [[x|]|e];
        try discriminate; intros _; cbn [snd]; now rewrite Hself.
  - (* the OAuth2 road *)
    destruct (negb (PyStr.truthy (token_url c)) ||
              negb (PyStr.truthy (client_id c))) eqn:Hmissing.
    + assert (E : r = (Py.Ret false, w)).
      { subst r. unfold connect.
        rewrite EffFacts.try_except_run, EffFacts.bind_run, reso_get_self_run.
        fold c. now rewrite Hcond, Hmissing. }
      rewrite E. split; [|split; [discriminate|split; [reflexivity|]]].
      * exists []. split; [now rewrite app_nil_r | simpl; lia].
      * intros _ Hu Hi. rewrite Hu, Hi in Hmissing. discriminate.
    + set (q := mkRequest POST (Some (token_url c))
                  [("grant_type", "password");
                   ("client_id", client_id c);
                   ("client_secret", client_secret c);
                   ("username", username c);
                   ("password", password c);
                   ("scope", scope c)]
                  [("Content-Type", "application/x-www-form-urlencoded");
                   ("Accept", "application/json")] None None).
      set (w1 := mkWorld c (wire w ++ [q])).
      assert (E : r =
                match net (List.length (wire w)) q with
                | Py.Ret resp =>
                    if (status_code resp =? 200)%Z then
                      match json resp with
                      | Py.Ret token_data =>
                          match get_access_token token_data with
                          | Py.Ret token =>
                              if truthy_token token
                              then (Py.Ret true,
                                    mkWorld (set_connected
                                               (set_access_token c token) true)
                                            (wire w ++ [q]))
                              else (Py.Ret false,
                                    mkWorld (set_access_token c token)
                                            (wire w ++ [q]))
                          | Py.Raise _ => (Py.Ret false, w1)
                          end
                      | Py.Raise _ => (Py.Ret false, w1)
                      end
                    else (Py.Ret false, w1)
                | Py.Raise _ => (Py.Ret false, w1)
                end).
      { subst r. unfold connect.
        rewrite EffFacts.try_except_run, EffFacts.bind_run, reso_get_self_run.
        fold c. rewrite Hcond, Hmissing.
        rewrite EffFacts.bind_run, requests_send_run. fold q. fold w1.
        destruct (net _ q) as [resp|e]; [|reflexivity].
        destruct (status_code resp =? 200)%Z; [|reflexivity].
        rewrite EffFacts.bind_run. unfold Eff.lift at 1.
        destruct (json resp) as [token_data|e]; [|reflexivity].
        rewrite EffFacts.bind_run. unfold Eff.lift at 1.
        destruct (get_access_token token_data) as [token|e]; [|reflexivity].
        rewrite EffFacts.bind_run, reso_get_self_run.
        rewrite EffFacts.bind_run. unfold put_self at 1.
        rewrite EffFacts.bind_run. unfold Eff.read, Eff.write.
        destruct (truthy_token token); reflexivity. }
      rewrite E. split; [|split; [|split]].
      * exists [q]. split; [|simpl; lia].
        destruct (net _ q) as [resp|e]; [|reflexivity].
        destruct (status_code resp =? 200)%Z; [|reflexivity].
        destruct (json resp) as [token_data|e]; [|reflexivity].
        destruct (get_access_token token_data) as [token|e]; [|reflexivity].
        destruct (truthy_token token); reflexivity.
      * destruct (net _ q) as [resp|e]; [|discriminate].
        destruct (status_code resp =? 200)%Z; [|discriminate].
        destruct (json resp) as [token_data|e]; [|discriminate].
        destruct (get_access_token token_data) as [token|e]; [|discriminate].
        destruct (truthy_token token) eqn:Htt; [|discriminate].
        intros _. split; [reflexivity | exact Htt].
      * destruct (net _ q) as [resp|e]; [|reflexivity].
        destruct (status_code resp =? 200)%Z; [|reflexivity].
        destruct (json resp) as [token_data|e]; [|reflexivity].
        destruct (get_access_token token_data) as [token|e]; [|reflexivity].
        destruct (truthy_token token); [discriminate | reflexivity].
      * intros _ _ _. cbv zeta. fold q. split.
        { destruct (net _ q) as [resp|e]; [|reflexivity].
          destruct (status_code resp =? 200)%Z; [|reflexivity].
          destruct (json resp) as [token_data|e]; [|reflexivity].
          destruct (get_access_token token_data) as [token|e]; [|reflexivity].
          destruct (truthy_token token); reflexivity. }
        intros resp fields -> H200 Hjson. apply Z.eqb_eq in H200.
        rewrite H200, Hjson. cbn [get_access_token]. split.
        { intros t -> Ht. cbn [truthy_token]. now rewrite Ht. }
        { intros ->. reflexivity. }
Qed.

End Facts.
End ResoSessionFacts.

(** ** The repair pass on single predicates *)

Module PredicateFacts.
Import Re Suggestions Predicates.

Local Open Scope string_scope.

Lemma all_match_app k (a b : string) :
  all_match k (a ++ b) = all_match k a && all_match k b.
Proof.
  induction a as [|x a IH]; [reflexivity|].
  cbn [append all_match]. now rewrite IH, andb_assoc.
Qed.

Lemma plain_not_empty s : plain s = true -> s <> "".
Proof. intros H ->. discriminate. Qed.

Lemma plain_all_match s c :
  plain s = true -> In c reserved -> all_match (NotChr c) s = true.
Proof.
  unfold plain. intros H Hc. apply andb_true_iff in H. destruct H as [_ H].
  induction s as [|a s IH]; [reflexivity|].
  cbn [every] in H. apply andb_true_iff in H. destruct H as [Ha Hs].
  cbn [all_match cls_match]. rewrite (IH Hs), andb_true_r.
  unfold plain_char in Ha. apply negb_true_iff in Ha.
  destruct (Ascii.eqb a c) eqn:E; [|reflexivity].
  apply Ascii.eqb_eq in E. subst a.
  assert (Hex : existsb (Ascii.eqb c) reserved = true)
    by (apply existsb_exists; exists c; split;
        [exact Hc | apply Ascii.eqb_refl]).
  congruence.
Qed.

Lemma contains_char_all_match c s :
  all_match (NotChr c) s = true -> PyStr.contains (String c "") s = false.
Proof.
  induction s as [|a s IH]; [reflexivity|].
  cbn [all_match cls_match]. intros H. apply andb_true_iff in H.
  destruct H as [Ha Hs]. apply negb_true_iff in Ha.
  rewrite PyStrFacts.contains_unfold, (IH Hs), orb_false_r.
  cbn [String.prefix]. destruct (ascii_dec c a) as [->|_]; [|reflexivity].
  now rewrite Ascii.eqb_refl in Ha.
Qed.

(** *** The matcher on an instance *)

Lemma match_here_one_eq a r s :
  match_here (One (Chr a) :: r) (String a s) = match_here r s.
Proof. cbn [match_here cls_match]. now rewrite Ascii.eqb_refl. Qed.

Lemma match_here_group k r s :
  match_here (GroupPlus k :: r) s =
  match greedy k (match_here r) s with
  | Some (run, (groups, rest)) => Some (run :: groups, rest)
  | None => None
  end.
Proof. reflexivity. Qed.

Lemma match_here_no_literal c r s :
  all_match (NotChr c) s = true -> match_here (One (Chr c) :: r) s = None.
Proof.
  destruct s as [|a s]; [reflexivity|].
  cbn [all_match cls_match match_here]. intros H.
  apply andb_true_iff in H. destruct H as [Ha _].
  apply negb_true_iff in Ha. now rewrite Ha.
Qed.

Lemma greedy_none_no_literal k c r : forall s,
  all_match (NotChr c) s = true ->
  greedy k (match_here (One (Chr c) :: r)) s = None.
Proof.
  induction s as [|a s IH]; [reflexivity|].
  intros H. cbn [greedy]. destruct (cls_match k a); [|reflexivity].
  cbn [all_match] in H. apply andb_true_iff in H. destruct H as [_ Hs].
  now rewrite (IH Hs), (@match_here_no_literal c r s Hs).
Qed.

(** A run cannot go past the literal the rest of the pattern starts with
    when that literal does not occur again. *)
Lemma greedy_stops k c r s :
  all_match (NotChr c) s = true ->
  greedy k (match_here (One (Chr c) :: r)) (String c s) = None.
Proof.
  intros H. cbn [greedy]. destruct (cls_match k c); [|reflexivity].
  now rewrite (@greedy_none_no_literal k c r s H), (@match_here_no_literal c r s H).
Qed.

(** The run the matcher settles on is the one after which the rest of the
    pattern matches and no longer run does. *)
Lemma greedy_backtrack k cont tail res : forall X,
  X <> "" -> all_match k X = true ->
  cont tail = Some res -> greedy k cont tail = None ->
  greedy k cont (X ++ tail) = Some (X, res).
Proof.
  induction X as [|a X IH]; intros Hne Hall Hcont Hnone; [congruence|].
  cbn [all_match] in Hall. apply andb_true_iff in Hall.
  destruct Hall as [Ha HX]. cbn [append greedy]. rewrite Ha.
  destruct X as [|b X'].
  - cbn [append]. now rewrite Hnone, Hcont.
  - rewrite IH; [reflexivity | discriminate | exact HX | exact Hcont
                 | exact Hnone].
Qed.

Lemma literals_match ops r s :
  match_here (map (fun a => One (Chr a)) ops ++ r)%list
             (string_of_list_ascii ops ++ s)
  = match_here r s.
Proof.
  induction ops as [|a ops IH]; [reflexivity|].
  cbn [map app string_of_list_ascii append]. now rewrite match_here_one_eq.
Qed.

Lemma value_match V :
  V <> "" -> all_match (NotChr ")") V = true ->
  match_here [GroupPlus (NotChr ")"); One (Chr ")")] (V ++ ")")
  = Some ([V], "").
Proof.
  intros Hne Hall. rewrite match_here_group.
  rewrite (@greedy_backtrack (NotChr ")") _ ")" ([], "") V Hne Hall);
    reflexivity.
Qed.

(** [(F c ops V)] is matched as a whole by the pattern for the operator
    [c ops], with [F] and [V] as its groups, when [F] holds neither [=]
    nor [c] and [ops V] holds neither [)] nor [c]. *)
Lemma predicate_match c ops F V :
  F <> "" -> all_match (NotChr "=") F = true ->
  all_match (NotChr c) F = true ->
  V <> "" -> all_match (NotChr ")") V = true ->
  all_match (NotChr c) (string_of_list_ascii ops ++ V ++ ")") = true ->
  match_here (predicate_pattern (c :: ops))
             (String "(" (F ++ String c (string_of_list_ascii ops ++ V ++ ")")))
  = Some ([F; V], "").
Proof.
  intros HF HFeq HFc HV HVp Hrest. unfold predicate_pattern.
  cbn [app map]. rewrite match_here_one_eq, match_here_group.
  rewrite (@greedy_backtrack (NotChr "=") _ _ ([V], "") F HF HFeq).
  - reflexivity.
  - rewrite match_here_one_eq, literals_match. now apply value_match.
  - now apply greedy_stops.
Qed.

(** *** [re.sub] on an instance *)

Lemma sub_from_skip r t : forall s n,
  (String.length s <= n)%nat -> sub_from r t n s = "".
Proof.
  induction s as [|a s IH]; intros n Hn; [reflexivity|].
  cbn [sub_from]. destruct n as [|n]; [simpl in Hn; lia|].
  apply IH. simpl in Hn. lia.
Qed.

Lemma sub_whole r t a s groups :
  match_here r (String a s) = Some (groups, "") ->
  sub r t (String a s) = expand t groups.
Proof.
  intros H. unfold sub. cbn [sub_from]. rewrite H.
  rewrite sub_from_skip by (simpl; lia). apply PyStrFacts.append_nil_r.
Qed.

Lemma sub_literal_absent r t c s :
  In (One (Chr c)) r -> all_match (NotChr c) s = true -> sub r t s = s.
Proof.
  intros Hin H. apply (@ReFacts.no_literal_no_match r t c s Hin).
  now apply contains_char_all_match.
Qed.

(** A connective pattern finds nothing in a text whose only closing
    parenthesis is its last character. *)
Lemma sub_closing_last k r t c : forall Y,
  all_match (NotChr c) Y = true ->
  sub (One (Chr c) :: Plus k :: r) t (Y ++ String c "") = Y ++ String c "".
Proof.
  unfold sub. induction Y as [|a Y IH]; intros H.
  - cbn [append sub_from match_here cls_match greedy].
    now rewrite Ascii.eqb_refl.
  - cbn [all_match cls_match] in H. apply andb_true_iff in H.
    destruct H as [Ha HY]. apply negb_true_iff in Ha.
    cbn [append sub_from match_here cls_match]. rewrite Ha.
    now rewrite (IH HY).
Qed.

Lemma connectives_noop Y :
  all_match (NotChr ")") Y = true ->
  sub pat_or [Lit ")|("] (sub pat_and [Lit "),("] (Y ++ ")")) = Y ++ ")".
Proof.
  intros H. unfold pat_and, pat_or, connective_pattern. cbn [app map].
  now rewrite !sub_closing_last.
Qed.

Ltac chars :=
  repeat (rewrite all_match_app || cbn [append all_match]);
  repeat match goal with
         | H : plain ?s = true |- context [all_match (NotChr ?c) ?s] =>
             rewrite (@plain_all_match s c H) by (simpl; tauto)
         end;
  repeat match goal with
         | H : all_match ?k ?s = true |- context [all_match ?k ?s] =>
             rewrite H
         end;
  reflexivity.

Ltac assoc :=
  repeat (rewrite PyStrFacts.append_assoc || cbn [append]); reflexivity.

Ltac absent c :=
  match goal with
  | |- context [sub ?r ?t ?s] =>
      rewrite (@sub_literal_absent r t c s)
        by first [chars | simpl; tauto]
  end.

Ltac closing Y :=
  match goal with
  | |- context [sub pat_and _ ?R] => replace R with (Y ++ ")") by assoc
  end;
  rewrite connectives_noop by chars; assoc.

Ltac fires r t c ops F W :=
  rewrite (@sub_whole r t _ _ [F; W]);
  [ unfold tpl_plus, tpl_minus, tpl_not; cbn [expand nth Nat.sub append]
  | apply (@predicate_match c ops F W);
    first [assumption | apply plain_not_empty; assumption | chars] ].

(** The rewriting of [(F>W)], for a value that may start with [=]. *)
Lemma repair_greater F W :
  plain F = true ->
  W <> "" -> all_match (NotChr ")") W = true ->
  all_match (NotChr ">") W = true ->
  all_match (NotChr "<") W = true ->
  all_match (NotChr "!") W = true ->
  _fix_rets_operators ("(" ++ F ++ ">" ++ W ++ ")")
  = "(" ++ F ++ "=" ++ W ++ "+)".
Proof.
  intros HF HWne HWp HWg HWl HWn. unfold _fix_rets_operators.
  cbn [append]. fires pat_gt tpl_plus ">"%char (@nil ascii) F W.
  absent ">"%char. absent "<"%char. absent "<"%char. absent "!"%char.
  closing ("(" ++ F ++ "=" ++ W ++ "+").
Qed.

(** X18.  On a single predicate whose field name and value are plain (not
    empty, no parenthesis, [=], [>], [<] or [!]) the repair pass turns
    [(F>V)] into [(F=V+)], [(F<V)] into [(F=-V)] and [(F!=V)] into
    [(F!V)], as the mapping says; but it turns [(F>=V)] into [(F==V+)] and
    [(F<=V)] into [(F=-=V)], because the patterns for [>] and [<] are
    tried first and take the [=] for the start of the value. *)
Theorem repair_pass_single_predicate :
  forall F V,
    plain F = true -> plain V = true ->
    _fix_rets_operators ("(" ++ F ++ ">" ++ V ++ ")")
    = "(" ++ F ++ "=" ++ V ++ "+)" /\
    _fix_rets_operators ("(" ++ F ++ "<" ++ V ++ ")")
    = "(" ++ F ++ "=-" ++ V ++ ")" /\
    _fix_rets_operators ("(" ++ F ++ "!=" ++ V ++ ")")
    = "(" ++ F ++ "!" ++ V ++ ")" /\
    _fix_rets_operators ("(" ++ F ++ ">=" ++ V ++ ")")
    = "(" ++ F ++ "==" ++ V ++ "+)" /\
    _fix_rets_operators ("(" ++ F ++ "<=" ++ V ++ ")")
    = "(" ++ F ++ "=-=" ++ V ++ ")".
Proof.
  intros F V HF HV.
  pose proof (fun W => @repair_greater F W HF) as Hgt.
  assert (Hlt : forall W,
             W <> "" -> all_match (NotChr ")") W = true ->
             all_match (NotChr ">") W = true ->
             all_match (NotChr "<") W = true ->
             all_match (NotChr "!") W = true ->
             _fix_rets_operators ("(" ++ F ++ "<" ++ W ++ ")")
             = "(" ++ F ++ "=-" ++ W ++ ")").
  { intros W HWne HWp HWg HWl HWn. unfold _fix_rets_operators.
    cbn [append]. absent ">"%char. absent ">"%char.
    fires pat_lt tpl_minus "<"%char (@nil ascii) F W.
    absent "<"%char. absent "!"%char.
    closing ("(" ++ F ++ "=-" ++ W). }
  assert (HW : "=" ++ V <> "") by discriminate.
  split; [|split; [|split; [|split]]].
  - apply Hgt; first [apply plain_not_empty; assumption | chars].
  - apply Hlt; first [apply plain_not_empty; assumption | chars].
  - unfold _fix_rets_operators. cbn [append].
    absent ">"%char. absent ">"%char. absent "<"%char. absent "<"%char.
    fires pat_ne tpl_not "!"%char ["="%char] F V.
    closing ("(" ++ F ++ "!" ++ V).
  - apply (Hgt ("=" ++ V)); first [exact HW | chars].
  - apply (Hlt ("=" ++ V)); first [exact HW | chars].
Qed.

(** *** Connectives *)

Lemma native_body_all_match s c :
  native_body s = true -> In c [")"; ">"; "<"; "!"]%char ->
  all_match (NotChr c) s = true.
Proof.
  unfold native_body. intros H Hc.
  induction s as [|a s IH]; [reflexivity|].
  cbn [every] in H. apply andb_true_iff in H. destruct H as [Ha Hs].
  cbn [all_match cls_match]. rewrite (IH Hs), andb_true_r.
  apply negb_true_iff in Ha.
  destruct (Ascii.eqb a c) eqn:E; [|reflexivity].
  apply Ascii.eqb_eq in E. subst a.
  assert (Hex : existsb (Ascii.eqb c) [")"; ">"; "<"; "!"]%char = true)
    by (apply existsb_exists; exists c; split;
        [exact Hc | apply Ascii.eqb_refl]).
  congruence.
Qed.

Lemma sub_first_literal c r t tail : forall Y,
  all_match (NotChr c) Y = true ->
  sub (One (Chr c) :: r) t (Y ++ tail) = Y ++ sub (One (Chr c) :: r) t tail.
Proof.
  unfold sub. induction Y as [|a Y IH]; intros H; [reflexivity|].
  cbn [all_match cls_match] in H. apply andb_true_iff in H.
  destruct H as [Ha HY]. apply negb_true_iff in Ha.
  cbn [append sub_from match_here cls_match]. rewrite Ha.
  now rewrite (IH HY).
Qed.

Lemma sub_step_none r t a s :
  match_here r (String a s) = None ->
  sub r t (String a s) = String a (sub r t s).
Proof. intros H. unfold sub. cbn [sub_from]. now rewrite H. Qed.

Lemma sub_from_skip_prefix r t rest : forall m,
  sub_from r t (String.length m) (m ++ rest) = sub_from r t 0 rest.
Proof.
  induction m as [|b m IH].
  - cbn [String.length append]. now destruct rest.
  - cbn [String.length append sub_from]. exact IH.
Qed.

Lemma sub_at_match r t a m rest groups :
  match_here r (String a (m ++ rest)) = Some (groups, rest) ->
  sub r t (String a (m ++ rest)) = expand t groups ++ sub r t rest.
Proof.
  intros H. unfold sub. cbn [sub_from]. rewrite H. f_equal.
  replace (String.length (String a (m ++ rest)) - String.length rest - 1)%nat
    with (String.length m)
    by (cbn [String.length]; rewrite PyStrFacts.length_append; lia).
  apply sub_from_skip_prefix.
Qed.

(** X19.  Between two predicate groups in native syntax (no closing
    parenthesis inside, no [>], [<] or [!]) and with single spaces around
    it, [AND] is rewritten to a comma and [OR] to a vertical bar, the
    groups being left as they are. *)
Theorem repair_pass_connectives :
  forall p q,
    native_body p = true -> native_body q = true ->
    _fix_rets_operators ("(" ++ p ++ ") AND (" ++ q ++ ")")
    = "(" ++ p ++ "),(" ++ q ++ ")" /\
    _fix_rets_operators ("(" ++ p ++ ") OR (" ++ q ++ ")")
    = "(" ++ p ++ ")|(" ++ q ++ ")".
Proof.
  intros p q Hp Hq.
  assert (Hp1 : all_match (NotChr ")") p = true)
    by (apply native_body_all_match; [assumption | simpl; tauto]).
  assert (Hp2 : all_match (NotChr ">") p = true)
    by (apply native_body_all_match; [assumption | simpl; tauto]).
  assert (Hp3 : all_match (NotChr "<") p = true)
    by (apply native_body_all_match; [assumption | simpl; tauto]).
  assert (Hp4 : all_match (NotChr "!") p = true)
    by (apply native_body_all_match; [assumption | simpl; tauto]).
  assert (Hq1 : all_match (NotChr ")") q = true)
    by (apply native_body_all_match; [assumption | simpl; tauto]).
  assert (Hq2 : all_match (NotChr ">") q = true)
    by (apply native_body_all_match; [assumption | simpl; tauto]).
  assert (Hq3 : all_match (NotChr "<") q = true)
    by (apply native_body_all_match; [assumption | simpl; tauto]).
  assert (Hq4 : all_match (NotChr "!") q = true)
    by (apply native_body_all_match; [assumption | simpl; tauto]).
  assert (Hopen : all_match (NotChr ")") ("(" ++ p) = true) by chars.
  split.
  - unfold _fix_rets_operators.
    absent ">"%char. absent ">"%char. absent "<"%char. absent "<"%char.
    absent "!"%char.
    replace ("(" ++ p ++ ") AND (" ++ q ++ ")")
      with (("(" ++ p) ++ String ")" (" AND (" ++ (q ++ ")"))) by assoc.
    unfold pat_and, pat_or, connective_pattern. cbn [app map].
    rewrite sub_first_literal by exact Hopen.
    rewrite (@sub_at_match _ _ _ " AND (" (q ++ ")") []) by reflexivity.
    rewrite sub_closing_last by exact Hq1.
    cbn [expand].
    replace (("(" ++ p) ++ ("),(" ++ "") ++ q ++ ")")
      with (("(" ++ p) ++ String ")" ((",(" ++ q) ++ ")")) by assoc.
    rewrite sub_first_literal by exact Hopen.
    rewrite sub_step_none by reflexivity.
    rewrite sub_closing_last by chars.
    assoc.
  - unfold _fix_rets_operators.
    absent ">"%char. absent ">"%char. absent "<"%char. absent "<"%char.
    absent "!"%char.
    replace ("(" ++ p ++ ") OR (" ++ q ++ ")")
      with (("(" ++ p) ++ String ")" ((" OR (" ++ q) ++ ")")) by assoc.
    unfold pat_and, pat_or, connective_pattern. cbn [app map].
    rewrite sub_first_literal by exact Hopen.
    rewrite sub_step_none
      by (rewrite PyStrFacts.append_assoc; reflexivity).
    rewrite sub_closing_last by chars.
    replace (("(" ++ p) ++ String ")" ((" OR (" ++ q) ++ ")"))
      with (("(" ++ p) ++ String ")" (" OR (" ++ (q ++ ")"))) by assoc.
    rewrite sub_first_literal by exact Hopen.
    rewrite (@sub_at_match _ _ _ " OR (" (q ++ ")") []) by reflexivity.
    rewrite sub_closing_last by exact Hq1.
    cbn [expand]. assoc.
Qed.

End PredicateFacts.

(** ** Cache statistics *)

Module CacheStatsFacts.
Import Cache CacheTools CacheStats CacheFacts CacheToolsFacts.

Section Facts.
Variable Data : Type.
Variable clock : nat -> Q.

(** The count of [get_stats] and the list of [clear_expired] come from the
    same clock reads. *)
Lemma count_expired_keys (items : list (string * CacheEntry Data)) : forall n,
  count_expired clock items n
  = (Z.of_nat (List.length (fst (expired_keys clock items n))),
     snd (expired_keys clock items n)).
Proof.
  induction items as [|[k e] items IH]; intros n; [reflexivity|].
  cbn [count_expired expired_keys]. unfold is_expired, time_time.
  rewrite (IH (S n)).
  destruct (expired_keys clock items (S n)) as [ks n2]. cbn [fst snd].
  destruct (Qltb _ _); [|reflexivity].
  cbn [List.length fst]. f_equal. lia.
Qed.

Lemma entry_ages_reads (items : list (string * CacheEntry Data)) : forall n,
  snd (entry_ages clock items n) = (n + List.length items)%nat.
Proof.
  induction items as [|[k e] items IH]; intros n; cbn [entry_ages];
    [simpl; lia|].
  unfold get_age_seconds, time_time. specialize (IH (S n)).
  destruct (entry_ages clock items (S n)) as [ages n2]. simpl in *. lia.
Qed.

Lemma expired_keys_length (items : list (string * CacheEntry Data)) : forall n,
  (List.length (fst (expired_keys clock items n)) <= List.length items)%nat.
Proof.
  induction items as [|[k e] items IH]; intros n; [simpl; lia|].
  cbn [expired_keys]. unfold is_expired, time_time. specialize (IH (S n)).
  destruct (expired_keys clock items (S n)) as [ks n2]. cbn [fst] in *.
  destruct (Qltb _ _); simpl; lia.
Qed.

(** X9.  [get_stats] reads the clock twice per entry and leaves the cache
    alone.  Its counts add up: the valid and the expired entries make the
    total, which is the number of entries.  The expired count is the
    number [clear_expired] would return if run in its place, and the valid
    count is the number of entries that call would leave. *)
Theorem get_stats_counts :
  forall (c : TTLCache Data) n,
    well_formed c ->
    let stats := fst (get_stats clock c n) in
    let cleared := fst (clear_expired clock c n) in
    snd (get_stats clock c n) = (n + 2 * List.length (cache c))%nat /\
    total_entries stats = PyDict.len (cache c) /\
    cache_size stats = PyDict.len (cache c) /\
    stats_max_size stats = max_size c /\
    (valid_entries stats + expired_entries stats = total_entries stats)%Z /\
    (0 <= expired_entries stats <= total_entries stats)%Z /\
    expired_entries stats = fst cleared /\
    valid_entries stats = PyDict.len (cache (snd cleared)).
Proof.
  intros c n Hw stats cleared. subst stats cleared.
  unfold get_stats, clear_expired. rewrite count_expired_keys.
  pose proof (expired_keys_count clock (cache c) n) as Hn.
  pose proof (expired_keys_NoDup clock (cache c) n (proj1 Hw)) as Hnd.
  pose proof (expired_keys_incl clock (cache c) n) as Hincl.
  pose proof (expired_keys_length (cache c) n) as Hlen.
  destruct (expired_keys clock (cache c) n) as [ks n1]. cbn [fst snd] in *.
  pose proof (entry_ages_reads (cache c) n1) as Ha.
  destruct (entry_ages clock (cache c) n1) as [ages n2]. cbn [fst snd] in *.
  cbn [total_entries cache_size stats_max_size valid_entries expired_entries].
  assert (Hr : PyDict.len (cache (remove_all ks c))
               = (PyDict.len (cache c) - Z.of_nat (List.length ks))%Z).
  { apply remove_all_len; [exact Hw | exact Hnd |].
    intros k Hk. apply PyDictFacts.mem_In. auto. }
  unfold PyDict.len in *. repeat split; lia.
Qed.

End Facts.
End CacheStatsFacts.

(** ** Field recommendations *)

Module RecommendationsFacts.
Import Rets Recommendations.

Local Open Scope string_scope.
Local Open Scope Z_scope.

Lemma boost_bounds search_lower field_lower relevance entry :
  relevance <= boost search_lower field_lower relevance entry <= relevance + 25.
Proof.
  unfold boost. destruct entry as [pattern keywords].
  destruct (PyStr.contains pattern search_lower); [|lia].
  destruct (existsb _ keywords); lia.
Qed.

Lemma fold_boost_bounds search_lower field_lower l : forall relevance,
  relevance <= fold_left (boost search_lower field_lower) l relevance
  <= relevance + 25 * Z.of_nat (List.length l).
Proof.
  induction l as [|entry l IH]; intros relevance.
  - simpl. lia.
  - cbn [fold_left].
    pose proof (boost_bounds search_lower field_lower relevance entry) as Hb.
    specialize (IH (boost search_lower field_lower relevance entry)).
    change (List.length (entry :: l)) with (S (List.length l)). lia.
Qed.

Lemma relevance_range field_name field_type description search_term :
  0 <= _calculate_field_relevance field_name field_type description
                                  search_term <= 320.
Proof.
  unfold _calculate_field_relevance.
  destruct (negb (PyStr.truthy search_term)); [lia|]. cbv zeta.
  match goal with
  | |- context [fold_left ?f ?l ?acc] =>
      pose proof (@fold_boost_bounds (PyStr.lower search_term)
                    (PyStr.lower field_name) l acc) as Hb
  end.
  change (Z.of_nat (List.length common_patterns)) with 7 in Hb.
  revert Hb.
  repeat match goal with
         | |- context [if ?b then _ else _] => destruct b
         end; lia.
Qed.

(** X20.  The relevance of a field is zero for an empty search term and
    lies between 0 and 320 otherwise; it is at least 100 when the search
    term is the field name up to letter case.  *)
Theorem relevance_bounds :
  forall field_name field_type description search_term,
    let r := _calculate_field_relevance field_name field_type description
                                        search_term in
    0 <= r <= 320 /\
    (search_term = "" -> r = 0) /\
    (search_term <> "" ->
     PyStr.lower search_term = PyStr.lower field_name -> 100 <= r).
Proof.
  intros field_name field_type description search_term r. subst r.
  split; [apply relevance_range|]. split.
  - intros ->. reflexivity.
  - intros Hne E. unfold _calculate_field_relevance.
    destruct search_term as [|a s]; [congruence|].
    cbn [PyStr.truthy negb]. cbv zeta.
    match goal with
    | |- context [fold_left ?f ?l ?acc] =>
        pose proof (@fold_boost_bounds (PyStr.lower (String a s))
                      (PyStr.lower field_name) l acc) as Hb
    end.
    revert Hb. rewrite E, String.eqb_refl.
    repeat match goal with
           | |- context [if ?b then _ else _] => destruct b
           end; lia.
Qed.

(** *** Sorting *)








(** *** The candidates *)




End RecommendationsFacts.

(** ** The age of an entry *)

Module EntryFacts.
Import Cache CacheTools CacheFacts.

Section Facts.
Variable Data : Type.
Variable clock : nat -> Q.

(** X8.  At one reading of the clock, the remaining life of an entry is
    never negative; it is zero when [is_expired] holds at that reading,
    and the TTL less the age otherwise. *)
Theorem remaining_ttl_and_expiry :
  forall (e : CacheEntry Data) n,
    let remaining := fst (get_remaining_ttl_seconds clock e n) in
    let age := fst (get_age_seconds clock e n) in
    snd (get_remaining_ttl_seconds clock e n) = S n /\
    age == clock n - created_at e /\
    0 <= remaining /\
    (fst (is_expired clock e n) = true -> remaining == 0) /\
    (fst (is_expired clock e n) = false ->
     remaining == inject_Z (ttl_seconds e) - age).
Proof.
  intros e n remaining age. subst remaining age.
  unfold get_remaining_ttl_seconds, get_age_seconds, is_expired, time_time,
    max0.
  cbn [fst snd].
  split; [reflexivity|]. split; [reflexivity|].
  destruct (Qltb 0 (inject_Z (ttl_seconds e) - (clock n - created_at e)))
    eqn:Hpos.
  - apply Qltb_true in Hpos. split; [lra|]. split.
    + intros H. apply Qltb_true in H. lra.
    + reflexivity.
  - apply Qltb_false in Hpos. split; [lra|]. split.
    + reflexivity.
    + intros H. apply Qltb_false in H. lra.
Qed.

End Facts.
End EntryFacts.

(** ** The further statements on concrete inputs *)

Module MoreChecks.
Import Http Cache CacheTools CacheStats CacheExamples ClientExamples
       MoreExamples.

Local Open Scope string_scope.

Lemma delete_removes_one_witness :
  fst (delete "k" one_short_lived) = true /\
  PyDict.len (cache (snd (delete "k" one_short_lived))) = 0%Z.
Proof.
  pose proof (@CacheToolsFacts.delete_removes_one
                nat "k" one_short_lived
                CacheChecks.one_short_lived_well_formed) as H.
  cbv zeta in H. destruct H as (H1 & _ & _ & H4 & _).
  split; [rewrite H1 | rewrite H4]; reflexivity.
Defined.

Lemma clear_expired_removes_expired_witness :
  let r := clear_expired clock_ticking one_short_lived 5%nat in
  fst (fst r) = 1%Z /\ PyDict.get "k" (cache (snd (fst r))) = None.
Proof.
  pose proof (@CacheToolsFacts.clear_expired_removes_expired
                nat clock_ticking one_short_lived 5%nat
                CacheChecks.one_short_lived_well_formed) as H.
  cbv zeta in H. destruct H as (_ & Hc & Hat & _).
  split; [rewrite Hc; reflexivity|].
  rewrite (Hat 0%nat "k" (mkEntry (Some 7%nat) 0 1) eq_refl). reflexivity.
Defined.

Lemma set_below_capacity_witness :
  PyDict.get "a" (cache (fst (set clock_ticking "a" (Some 1%nat) None fresh
                                  0%nat)))
  = Some (mkEntry (Some 1%nat) 0 3600).
Proof.
  assert (Hlt : (PyDict.len (cache fresh) < max_size fresh)%Z)
    by (vm_compute; reflexivity).
  pose proof (@CacheToolsFacts.set_below_capacity
                nat clock_ticking "a" (Some 1%nat) None fresh 0%nat Hlt) as H.
  cbv zeta in H. destruct H as (H1 & _). exact H1.
Defined.

Lemma set_overwrite_at_capacity_witness :
  let c := fst (run_ops clock_ticking
                  [OpSet "a" (Some 1%nat) None; OpSet "b" (Some 2%nat) None;
                   OpGet "a" None]
                  (TTLCache_init nat 3600 2) 0%nat) in
  let c' := fst (set clock_ticking "a" (Some 9%nat) None c 6%nat) in
  PyDict.get "a" (cache c') = Some (mkEntry (Some 9%nat) (clock_ticking 6) 3600) /\
  PyDict.keys (cache c') = ["a"].
Proof.
  assert (H1 : (1 <= 2)%Z) by lia.
  pose proof (@CacheToolsFacts.set_overwrite_at_capacity
                nat clock_ticking
                [OpSet "a" (Some 1%nat) None; OpSet "b" (Some 2%nat) None;
                 OpGet "a" None]
                3600%Z 2%Z 0%nat "a" (Some 9%nat) None 6%nat
                H1 eq_refl eq_refl) as H.
  cbv zeta in H. destruct H as (Hget & _).
  split; [exact Hget | reflexivity].
Defined.

Lemma clear_cache_by_type_removes_type_witness :
  exists c',
    ttl_cache (snd (clear_cache_by_type "metadata"
                      (mkSession (Some two_types) []))) = Some c' /\
    PyDict.mem "metadata:main" (cache c') = false /\
    PyDict.get "resources:main" (cache c')
    = Some (mkEntry (Some 2%nat) 0 1800).
Proof.
  destruct (@CacheToolsFacts.clear_cache_by_type_removes_type
              nat "metadata" (mkSession (Some two_types) [])) as (_ & H).
  destruct (H two_types eq_refl CacheChecks.two_types_well_formed)
    as (c' & Ht & _ & Hget & Hmem & _).
  exists c'. split; [exact Ht|]. split; [exact (Hmem "main")|].
  rewrite Hget. reflexivity.
Defined.

Lemma entry_dict_round_trip_witness :
  from_dict clock_ticking (to_dict (mkEntry (Some 7%nat) 0 60)) 5%nat
  = (Py.Ret (mkEntry (Some 7%nat) 0 60), 6%nat) /\
  exists k,
    fst (from_dict clock_ticking
           (mkEntryDict (Some (Some 7%nat)) None (Some 60%Z) ["note"]) 5%nat)
    = Py.Raise (Py.KeyError k).
Proof.
  destruct (@CacheToolsFacts.entry_dict_round_trip
              nat clock_ticking (mkEntry (Some 7%nat) 0 60)
              (mkEntryDict (Some (Some 7%nat)) None (Some 60%Z) ["note"])
              5%nat) as (H1 & _ & H3 & _).
  split; [exact H1|]. destruct (H3 eq_refl) as (k & Hk & _).
  exists k. exact Hk.
Defined.

Lemma get_cached_data_fetches_once_witness :
  let s := mkSession (Some fresh) [] in
  let r1 := fst (get_cached_data clock_ticking shortened_ttl_config
                   "metadata" "main" (Py.Ret (Some 7%nat)) None s 0%nat) in
  (exists c1, ttl_cache (snd r1) = Some c1 /\
              PyDict.get "metadata:main" (cache c1)
              = Some (mkEntry (Some 7%nat) 0 60)) /\
  fst (fst (get_cached_data clock_ticking CACHE_TTL_CONFIG "metadata" "main"
              (Py.Raise (Py.RequestException "timed out")) None (snd r1)
              10%nat))
  = Some 7%nat.
Proof.
  assert (Hle : clock_ticking 10 - clock_ticking 0 <= inject_Z 60)
    by (apply Qle_bool_imp_le; reflexivity).
  pose proof (@CacheToolsFacts.get_cached_data_fetches_once
                nat clock_ticking shortened_ttl_config "metadata" "main"
                7%nat None (mkSession (Some fresh) []) 0%nat
                CACHE_TTL_CONFIG
                (Py.Raise (Py.RequestException "timed out")) None 10%nat
                eq_refl Hle) as H.
  cbv zeta in H. destruct H as (_ & _ & H1 & H2 & _).
  split; [exact H1 | exact H2].
Defined.

Lemma get_stats_counts_witness :
  let stats := fst (get_stats clock_ticking one_short_lived 5%nat) in
  expired_entries stats = 1%Z /\ valid_entries stats = 0%Z.
Proof.
  pose proof (@CacheStatsFacts.get_stats_counts
                nat clock_ticking one_short_lived 5%nat
                CacheChecks.one_short_lived_well_formed) as H.
  cbv zeta in H. destruct H as (_ & _ & _ & _ & _ & _ & He & Hv).
  split; [rewrite He | rewrite Hv]; reflexivity.
Defined.

Lemma matrix_row_by_position_witness :
  PyDict.get "B"
    (Rets.matrix_row ["A"; "B"; "C"]
       (Rets.align_values ["A"; "B"; "C"] [""; "v1"; "v2"; "v3"]) [])
  = Some (Some "v2").
Proof.
  assert (Hnd : NoDup ["A"; "B"; "C"])
    by (repeat constructor; simpl; intuition discriminate).
  pose proof (@SearchFacts.matrix_row_by_position
                ["A"; "B"; "C"] [""; "v1"; "v2"; "v3"] Hnd) as H.
  cbv zeta in H. destruct H as (_ & _ & Hn).
  exact (Hn 1%nat "B" eq_refl).
Defined.

Lemma repair_pass_single_predicate_witness :
  Suggestions._fix_rets_operators "(Price!=100000)" = "(Price!100000)" /\
  Suggestions._fix_rets_operators "(Price>=100000)" = "(Price==100000+)".
Proof.
  destruct (@PredicateFacts.repair_pass_single_predicate
              "Price" "100000" eq_refl eq_refl) as (_ & _ & Hne & Hge & _).
  split; [exact Hne | exact Hge].
Defined.

Lemma repair_pass_connectives_witness :
  Suggestions._fix_rets_operators "(Status=A) AND (ListPrice=100000+)"
  = "(Status=A),(ListPrice=100000+)".
Proof.
  destruct (@PredicateFacts.repair_pass_connectives
              "Status=A" "ListPrice=100000+" eq_refl eq_refl) as (H & _).
  exact H.
Defined.

Lemma connect_outcome_witness :
  Rets.usable
    (Rets.self (snd (Rets.connect parse_nothing net_matrix
                                  (Rets.mkWorld rets_fresh []))))
  = true.
Proof.
  pose proof (@RetsBrowseFacts.connect_outcome
                parse_nothing net_matrix (Rets.mkWorld rets_fresh [])) as H.
  cbv zeta in H. destruct H as (_ & H & _).
  destruct (H eq_refl) as (Hu & _). exact Hu.
Defined.

Lemma execute_query_failure_modes_witness :
  fst (Rets.execute_query parse_nothing no_chr net_unauthorized
                          "Property" "RES" "" 100 ""
                          (Rets.mkWorld rets_connected []))
  = Py.Ret None.
Proof.
  pose proof (@RetsBrowseFacts.execute_query_failure_modes
                parse_nothing no_chr net_unauthorized
                "Property" "RES" "" 100%Z "" (Rets.mkWorld rets_connected []))
    as H.
  cbv zeta in H. destruct H as (_ & _ & _ & H).
  destruct (H (Http.mkSession [("User-Agent", "RETS-Dashboard/1.0")]
                              (Some (BasicAuth "agent" "secret")))
              eq_refl eq_refl) as (_ & Hne & _).
  apply (Hne (plain 401 "Unauthorized") eq_refl). discriminate.
Defined.

Lemma reso_connect_outcome_witness :
  let r := Reso.connect net_token (Reso.mkWorld reso_oauth []) in
  fst r = Py.Ret true /\
  Reso.access_token (Reso.self (snd r)) = Some "abc".
Proof.
  pose proof (@ResoSessionFacts.reso_connect_outcome
                net_token (Reso.mkWorld reso_oauth [])) as H.
  cbv zeta in H. destruct H as (_ & _ & _ & H).
  destruct (H eq_refl eq_refl eq_refl) as (_ & Hresp).
  destruct (Hresp _ [("access_token", JString "abc")] eq_refl eq_refl eq_refl)
    as (Ht & _).
  cbv zeta. rewrite (Ht "abc" eq_refl eq_refl). split; reflexivity.
Defined.

Lemma disconnect_forgets_token_witness :
  let w1 := snd (Reso.disconnect (Reso.mkWorld reso_expired [])) in
  Reso.connect net_matrix w1 = (Py.Ret false, w1).
Proof.
  pose proof (@ResoSessionFacts.disconnect_forgets_token
                net_matrix (Reso.mkWorld reso_expired [])) as H.
  cbv zeta in H. destruct H as (_ & _ & _ & H). exact (H eq_refl).
Defined.

Lemma make_api_request_outcomes_witness :
  (exists q,
      Reso.wire (snd (Reso._make_api_request net_unauthorized "/Property" []
                        (Reso.mkWorld reso_expired [])))
      = [q] /\
      url q = Some "https://api.example.com/reso/odata/Property" /\
      PyDict.get "Authorization" (headers q) = Some "Bearer expired-token") /\
  Reso.make_api_request_holding net_token (Reso.TokenOther true false "3600")
                                "/Property" [] (Reso.mkWorld reso_oauth [])
  = (Py.Raise (Py.TypeError "object is not subscriptable"),
     Reso.mkWorld reso_oauth []).
Proof.
  split.
  - pose proof (@ResoSessionFacts.make_api_request_outcomes
                  net_unauthorized "/Property" []
                  (Reso.mkWorld reso_expired [])) as H.
    destruct H as (H & E & _). rewrite E.
    specialize (H (Reso.TokenStr "expired-token")). cbv zeta in H.
    destruct H as (_ & _ & _ & H).
    destruct (H eq_refl eq_refl) as (_ & q & Hw & _ & _ & Ha & Hu & _).
    exists q. split; [exact Hw|]. split; [exact Hu | exact Ha].
  - pose proof (@ResoSessionFacts.make_api_request_outcomes
                  net_token "/Property" []
                  (Reso.mkWorld reso_oauth [])) as H.
    destruct H as (H & _).
    specialize (H (Reso.TokenOther true false "3600")). cbv zeta in H.
    destruct H as (_ & _ & H & _). apply (H eq_refl). reflexivity.
Defined.


End MoreChecks.

(** ** Lookup values *)

Module RetsLookupFacts.
Import Http Rets RetsBrowse RetsLookup RetsFacts.

Local Open Scope string_scope.

Section Facts.
Variable ET_fromstring : string -> option Xml.Element.
Variable net : network.

(** *** Computations that leave the client alone *)

Lemma bind_self A B (m : M A) (k : A -> M B) w :
  self (snd (m w)) = self w ->
  (forall a w1, self w1 = self w -> self (snd (k a w1)) = self w) ->
  self (snd (Eff.bind m k w)) = self w.
Proof.
  intros Hm Hk. rewrite EffFacts.bind_run.
  destruct (m w) as [[a|e] w1]; cbn [snd] in *; auto.
Qed.

Lemma try_except_self A (m : M A) (h : Py.exn -> M A) w :
  self (snd (m w)) = self w ->
  (forall e w1, self w1 = self w -> self (snd (h e w1)) = self w) ->
  self (snd (Eff.try_except m h w)) = self w.
Proof.
  intros Hm Hh. rewrite EffFacts.try_except_run.
  destruct (m w) as [[a|e] w1]; cbn [snd] in *; auto.
Qed.

Lemma session_get_self u params w :
  self (snd (session_get net u params w)) = self w.
Proof.
  unfold session_get, Eff.bind, Eff.read, Eff.write, Eff.lift, Eff.raise.
  destruct (session (self w)); reflexivity.
Qed.

Lemma metadata_request_self type id w :
  self (snd (metadata_request net type id w)) = self w.
Proof.
  unfold metadata_request. apply bind_self; [reflexivity|].
  intros c w1 <-. apply session_get_self.
Qed.

Lemma for_each_self A B (f : B -> A -> M B) :
  (forall acc x w, self (snd (f acc x w)) = self w) ->
  forall xs acc w, self (snd (for_each f xs acc w)) = self w.
Proof.
  intros Hf. induction xs as [|x xs IH]; intros acc w; [reflexivity|].
  cbn [for_each]. apply bind_self; [apply Hf|].
  intros acc1 w1 <-. apply IH.
Qed.

Lemma table_level_self rn md ci w :
  self (snd (table_level ET_fromstring net rn md ci w)) = self w.
Proof.
  unfold table_level. destruct (PyStr.truthy _); [|reflexivity].
  apply bind_self; [apply metadata_request_self|].
  intros resp w1 H. now destruct (status_code resp =? 200)%Z.
Qed.

Lemma class_level_self md resource w :
  self (snd (class_level ET_fromstring net md resource w)) = self w.
Proof.
  unfold class_level. destruct (PyStr.truthy _); [|reflexivity].
  apply bind_self; [apply metadata_request_self|].
  intros resp w1 H. destruct (status_code resp =? 200)%Z; [|exact H].
  rewrite <- H. apply for_each_self. intros. apply table_level_self.
Qed.

Lemma get_metadata_self w :
  self (snd (get_metadata ET_fromstring net w)) = self w.
Proof.
  unfold get_metadata. apply bind_self; [reflexivity|].
  intros c w0 H0. destruct (negb (usable c)); [exact H0|].
  rewrite <- H0. apply try_except_self; [|intros e w1 H1; exact H1].
  unfold get_metadata_body. apply bind_self; [apply metadata_request_self|].
  intros r0 w1 H1. destruct (status_code r0 =? 200)%Z; [|exact H1].
  rewrite <- H1. apply bind_self; [apply metadata_request_self|].
  intros r1 w2 H2. rewrite <- H2. apply bind_self; [|intros md w3 H3; exact H3].
  destruct (status_code r1 =? 200)%Z; [|reflexivity].
  apply for_each_self. intros. apply class_level_self.
Qed.

(** *** The parser *)

Lemma parse_lookup_response_fields response_text name :
  let result := _parse_lookup_response ET_fromstring response_text name in
  RetsLookup.field_name result = name /\
  count result = PyDict.len (values result) /\
  (values result <> [] -> error result = None).
Proof.
  unfold _parse_lookup_response.
  destruct (ET_fromstring response_text) as [root|];
    [|repeat split; intros H; now elim H].
  destruct (negb _); cbn; repeat split. intros H. now elim H.
Qed.

(** *** The attempts *)

Lemma lookup_attempt_post name attempt_params w s :
  session (self w) = Some s ->
  let q := session_request s (metadata_url (self w)) attempt_params in
  exists o,
    lookup_attempt ET_fromstring net name attempt_params w
    = (Py.Ret o, mkWorld (self w) (wire w ++ [q])) /\
    forall result,
      o = Some result ->
      values result <> [] /\ RetsLookup.field_name result = name /\
      count result = PyDict.len (values result) /\ error result = None /\
      exists resp, net (List.length (wire w)) q = Py.Ret resp /\
                   status_code resp = 200%Z.
Proof.
  intros Hs q. unfold lookup_attempt.
  rewrite EffFacts.try_except_run, EffFacts.bind_run, get_self_run.
  rewrite EffFacts.bind_run, (session_get_run _ _ _ _ Hs). fold q.
  destruct (net _ q) as [resp|e] eqn:E;
    [|exists None; split; [reflexivity | discriminate]].
  destruct (status_code resp =? 200)%Z eqn:H200;
    [|exists None; split; [reflexivity | discriminate]].
  destruct (parse_lookup_response_fields (text resp) name) as (Hf & Hc & He).
  cbv zeta.
  destruct (values (_parse_lookup_response ET_fromstring (text resp) name))
    as [|kv vs] eqn:Hv;
    [exists None; split; [reflexivity | discriminate]|].
  eexists. split; [reflexivity|]. intros result [= <-].
  rewrite Hv. split; [discriminate|]. split; [exact Hf|].
  split; [exact Hc|]. split; [apply He; discriminate|].
  exists resp. split; [reflexivity | now apply Z.eqb_eq].
Qed.

Lemma lookup_loop_post name attempts : forall w s,
  session (self w) = Some s ->
  exists o w',
    lookup_loop ET_fromstring net name attempts w = (Py.Ret o, w') /\
    self w' = self w /\
    (exists reqs,
        wire w' = (wire w ++ reqs)%list /\
        (List.length reqs <= List.length attempts)%nat /\
        Forall (fun q => exists a, In a attempts /\
                                   q = session_request s (metadata_url (self w)) a)
               reqs) /\
    forall result,
      o = Some result ->
      values result <> [] /\ RetsLookup.field_name result = name /\
      count result = PyDict.len (values result) /\ error result = None /\
      answered_200 net w'.
Proof.
  induction attempts as [|a rest IH]; intros w s Hs.
  - exists None, w. split; [reflexivity|]. split; [reflexivity|]. split.
    + exists []. split; [now rewrite app_nil_r|]. split; [simpl; lia|].
      constructor.
    + discriminate.
  - cbn [lookup_loop]. rewrite EffFacts.bind_run.
    destruct (lookup_attempt_post name a w Hs) as (o & -> & Ho).
    set (q := session_request s (metadata_url (self w)) a) in *.
    destruct o as [result|].
    + eexists; eexists. split; [reflexivity|]. split; [reflexivity|]. split.
      * exists [q]. split; [reflexivity|]. split; [simpl; lia|].
        constructor; [|constructor]. exists a. split; [now left | reflexivity].
      * intros result' [= <-].
        destruct (Ho result eq_refl) as (Hv & Hf & Hc & He & resp & E & H200).
        repeat (split; [assumption|]).
        exists (wire w), q, resp. repeat split; assumption.
    + destruct (IH (mkWorld (self w) (wire w ++ [q])) s Hs)
        as (o & w' & E & Hself & (reqs & Hw & Hlen & Hall) & Hres).
      exists o, w'. split; [exact E|]. split; [exact Hself|]. split.
      * exists (q :: reqs). split.
        { rewrite Hw. cbn [wire]. now rewrite <- app_assoc. }
        split; [simpl; lia|].
        constructor.
        { exists a. split; [now left | reflexivity]. }
        eapply Forall_impl; [|exact Hall]. cbn [self].
        intros q' (a' & Hin & ->). exists a'. split; [now right | reflexivity].
      * exact Hres.
Qed.

(** X22.  [get_lookup_values] never raises and never changes the client.
    On a client that is not connected or has no session it returns [None]
    and sends nothing.  Otherwise, after the metadata requests, it sends
    at most six lookup requests, each to the metadata URL with a type of
    [METADATA-LOOKUP_TYPE] or [METADATA-LOOKUP]; and a result it returns
    comes from the last of them, answered with 200, names the field asked
    for, carries no error, and holds at least one value, [count] being
    their number. *)
Theorem get_lookup_values_outcome :
  forall resource name w,
    let r := get_lookup_values ET_fromstring net resource name w in
    (exists o, fst r = Py.Ret o) /\
    self (snd r) = self w /\
    (usable (self w) = false -> r = (Py.Ret None, w)) /\
    (exists reqs,
        wire (snd r)
        = (wire (snd (get_metadata ET_fromstring net w)) ++ reqs)%list /\
        (List.length reqs <= 6)%nat /\
        Forall (fun q =>
                  Http.url q = metadata_url (self w) /\
                  method q = GET /\
                  (PyDict.get "Type" (params q) = Some "METADATA-LOOKUP_TYPE" \/
                   PyDict.get "Type" (params q) = Some "METADATA-LOOKUP") /\
                  PyDict.mem "ID" (params q) = true)
               reqs) /\
    forall result,
      fst r = Py.Ret (Some result) ->
      values result <> [] /\ RetsLookup.field_name result = name /\
      count result = PyDict.len (values result) /\ error result = None /\
      answered_200 net (snd r).
Proof.
  intros resource name w r.
  destruct (usable (self w)) eqn:Hu.
  - destruct (usable_session _ Hu) as (_ & s & Hs).
    destruct (RetsBrowseFacts.get_metadata_returns ET_fromstring net w)
      as (md & wm & Em).
    pose proof (get_metadata_self w) as Hm. rewrite Em in Hm. cbn [snd] in Hm.
    assert (Hsm : session (self wm) = Some s) by (now rewrite Hm).
    set (lookup_name :=
           match (match md with
                  | None => None
                  | Some [] => None
                  | Some md' => lookup_name_in md' resource name
                  end) with
           | Some n => if PyStr.truthy n then n else name
           | None => name
           end).
    destruct (lookup_loop_post name (lookup_attempts resource lookup_name name)
                               wm Hsm)
      as (o & w' & El & Hself & (reqs & Hw & Hlen & Hall) & Hres).
    assert (E : r = (Py.Ret o, w')).
    { subst r. unfold get_lookup_values.
      rewrite EffFacts.bind_run, get_self_run, Hu. cbn [negb].
      rewrite EffFacts.try_except_run, EffFacts.bind_run.
      unfold _get_lookup_name_for_field. rewrite EffFacts.bind_run, Em.
      subst lookup_name.
      destruct md as [[|kv md']|]; unfold Eff.ret at 1; now rewrite El. }
    rewrite E, Em. cbn [fst snd].
    split; [now exists o|]. split; [now rewrite Hself|].
    split; [discriminate|]. split.
    + exists reqs. split; [exact Hw|]. split; [exact Hlen|].
      eapply Forall_impl; [|exact Hall]. cbn beta.
      intros q (a & Hin & ->). rewrite Hm. cbn [Http.url method params session_request].
      split; [reflexivity|]. split; [reflexivity|].
      unfold lookup_attempts in Hin. cbn [In] in Hin.
      repeat destruct Hin as [<-|Hin]; try contradiction;
        (split; [first [left; reflexivity | right; reflexivity] | reflexivity]).
    + intros result [= ->]. now apply Hres.
  - assert (E : r = (Py.Ret None, w)).
    { subst r. unfold get_lookup_values.
      now rewrite EffFacts.bind_run, get_self_run, Hu. }
    rewrite E. cbn [fst snd].
    split; [now exists None|]. split; [reflexivity|]. split; [reflexivity|].
    split; [|discriminate].
    exists []. rewrite (RetsBrowseFacts.get_metadata_not_usable _ _ _ Hu).
    split; [now rewrite app_nil_r|]. split; [simpl; lia | constructor].
Qed.

(** *** The searches in the metadata *)

Lemma find_map_some A B (f : A -> option B) l b :
  find_map f l = Some b -> exists x, In x l /\ f x = Some b.
Proof.
  induction l as [|x l IH]; [discriminate|]. cbn [find_map].
  destruct (f x) as [b'|] eqn:E.
  - intros [= <-]. exists x. split; [now left | exact E].
  - intros H. destruct (IH H) as (y & Hy & Hf). exists y.
    split; [now right | exact Hf].
Qed.

Lemma find_map_none A B (f : A -> option B) l :
  find_map f l = None -> forall x, In x l -> f x = None.
Proof.
  induction l as [|x l IH]; [intros _ y []|]. cbn [find_map].
  destruct (f x) as [b'|] eqn:E; [discriminate|].
  intros H y [<-|Hy]; [exact E | now apply IH].
Qed.

Lemma truthy_not_empty s : PyStr.truthy s = true -> s <> "".
Proof. intros H ->. discriminate. Qed.

Lemma not_truthy_empty s : PyStr.truthy s = false -> s = "".
Proof. destruct s; [reflexivity | discriminate]. Qed.

Lemma lookup_name_in_some md resource name n :
  lookup_name_in md resource name = Some n ->
  n <> "" /\
  exists key content field,
    In (key, content) md /\
    PyStr.startswith "TABLE_" key = true /\
    PyStr.contains resource key = true /\
    In field (fields content) /\
    (get_or "SystemName" "" field = name \/
     get_or "StandardName" "" field = name) /\
    get_or "LookupName" "" field = n.
Proof.
  unfold lookup_name_in. intros H.
  apply find_map_some in H. destruct H as ([key content] & Hin & H).
  destruct (PyStr.startswith "TABLE_" key) eqn:Hs; [|discriminate].
  destruct (PyStr.contains resource key) eqn:Hc; [|discriminate].
  cbn [andb] in H. apply find_map_some in H.
  destruct H as (field & Hf & H). cbv zeta in H.
  destruct (String.eqb _ name || String.eqb _ name) eqn:Hn; [|discriminate].
  destruct (PyStr.truthy (get_or "LookupName" "" field)) eqn:Ht;
    [|discriminate].
  injection H as <-. split; [now apply truthy_not_empty|].
  exists key, content, field. repeat split; try assumption.
  apply orb_true_iff in Hn.
  destruct Hn as [Hn|Hn]; apply String.eqb_eq in Hn; tauto.
Qed.

Lemma lookup_name_in_none md resource name :
  lookup_name_in md resource name = None ->
  forall key content field,
    In (key, content) md ->
    PyStr.startswith "TABLE_" key = true ->
    PyStr.contains resource key = true ->
    In field (fields content) ->
    (get_or "SystemName" "" field = name \/
     get_or "StandardName" "" field = name) ->
    get_or "LookupName" "" field = "".
Proof.
  unfold lookup_name_in. intros H key content field Hin Hs Hc Hf Hn.
  pose proof (find_map_none _ _ H _ Hin) as H1. cbv beta iota in H1.
  rewrite Hs, Hc in H1. cbn [andb] in H1.
  pose proof (find_map_none _ _ H1 _ Hf) as H2. cbv beta zeta in H2.
  assert (Hb : String.eqb (get_or "SystemName" "" field) name ||
               String.eqb (get_or "StandardName" "" field) name = true).
  { apply orb_true_iff.
    destruct Hn as [Hn|Hn]; [left | right]; now apply String.eqb_eq. }
  rewrite Hb in H2.
  destruct (PyStr.truthy (get_or "LookupName" "" field)) eqn:Ht;
    [discriminate|].
  now apply not_truthy_empty.
Qed.

(** X23.  [_get_lookup_name_for_field] sends the metadata requests and
    nothing else.  A name it returns is not empty and is the [LookupName]
    of a field that carries the name asked for as its system or standard
    name, in a [TABLE_] entry whose key contains the resource; and it
    returns [None] only when every such field has an empty [LookupName] or
    none, or when there is no metadata. *)
Theorem lookup_name_found :
  forall resource name w,
    let gm := get_metadata ET_fromstring net w in
    let r := _get_lookup_name_for_field ET_fromstring net resource name w in
    snd r = snd gm /\
    exists o,
      fst r = Py.Ret o /\
      (forall n,
          o = Some n ->
          n <> "" /\
          exists md key content field,
            fst gm = Py.Ret (Some md) /\
            In (key, content) md /\
            PyStr.startswith "TABLE_" key = true /\
            PyStr.contains resource key = true /\
            In field (fields content) /\
            (get_or "SystemName" "" field = name \/
             get_or "StandardName" "" field = name) /\
            get_or "LookupName" "" field = n) /\
      (o = None ->
       forall md key content field,
         fst gm = Py.Ret (Some md) ->
         In (key, content) md ->
         PyStr.startswith "TABLE_" key = true ->
         PyStr.contains resource key = true ->
         In field (fields content) ->
         (get_or "SystemName" "" field = name \/
          get_or "StandardName" "" field = name) ->
         get_or "LookupName" "" field = "").
Proof.
  intros resource name w gm r. subst gm r.
  unfold _get_lookup_name_for_field. rewrite EffFacts.bind_run.
  destruct (RetsBrowseFacts.get_metadata_returns ET_fromstring net w)
    as (o & wm & ->).
  cbn [fst snd].
  destruct o as [[|kv md]|].
  - split; [reflexivity|]. exists None. split; [reflexivity|].
    split; [discriminate|]. intros _ md key content field [= <-] [].
  - split; [reflexivity|]. eexists. split; [reflexivity|]. split.
    + intros n Hn. destruct (lookup_name_in_some _ _ _ Hn)
        as (Hne & key & content & field & H).
      split; [exact Hne|]. exists (kv :: md), key, content, field.
      split; [reflexivity | exact H].
    + intros Hnone md' key content field [= <-].
      now apply lookup_name_in_none.
  - split; [reflexivity|]. exists None. split; [reflexivity|].
    split; [discriminate|]. discriminate.
Qed.

(** X24.  [get_all_lookup_fields] sends the metadata requests and nothing
    else.  Every name it returns is not empty and is the system name (the
    standard name where there is no system name) of a field of the table
    of that resource and class; when that field has a [LookupName], the
    search of [_get_lookup_name_for_field] in the same metadata finds a
    lookup name for it. *)
Theorem lookup_fields_listed :
  forall resource class_name w,
    let gm := get_metadata ET_fromstring net w in
    let r := get_all_lookup_fields ET_fromstring net resource class_name w in
    snd r = snd gm /\
    exists names,
      fst r = Py.Ret names /\
      forall f,
        In f names ->
        f <> "" /\
        exists md table field,
          fst gm = Py.Ret (Some md) /\
          PyDict.get ("TABLE_" ++ resource ++ "_" ++ class_name) md
          = Some table /\
          In field (fields table) /\
          f = get_or "SystemName" (get_or "StandardName" "" field) field /\
          (get_or "LookupName" "" field <> "" ->
           exists n, lookup_name_in md resource f = Some n).
Proof.
  intros resource class_name w gm r. subst gm r.
  unfold get_all_lookup_fields. rewrite EffFacts.bind_run.
  destruct (RetsBrowseFacts.get_metadata_returns ET_fromstring net w)
    as (o & wm & ->).
  cbn [fst snd].
  destruct o as [[|kv md]|];
    try (split; [reflexivity|]; exists []; split; [reflexivity | intros f []]).
  split; [reflexivity|]. eexists. split; [reflexivity|].
  intros f Hf. unfold lookup_fields_in in Hf.
  destruct (PyDict.get ("TABLE_" ++ resource ++ "_" ++ class_name) (kv :: md))
    as [table|] eqn:Ht; [|destruct Hf].
  apply in_flat_map in Hf. destruct Hf as (field & Hin & Hf). cbv zeta in Hf.
  destruct (_ || _ || _); [|destruct Hf].
  destruct (PyStr.truthy (get_or "SystemName" (get_or "StandardName" "" field)
                                 field)) eqn:Hn; [|destruct Hf].
  destruct Hf as [<-|[]]. split; [now apply truthy_not_empty|].
  exists (kv :: md), table, field.
  split; [reflexivity|]. split; [exact Ht|]. split; [exact Hin|].
  split; [reflexivity|].
  intros Hl.
  destruct (lookup_name_in (kv :: md) resource
              (get_or "SystemName" (get_or "StandardName" "" field) field))
    as [n|] eqn:E; [now exists n|].
  exfalso. apply Hl.
  apply (@lookup_name_in_none (kv :: md) resource _ E
           ("TABLE_" ++ resource ++ "_" ++ class_name) table field).
  - now apply CacheFacts.get_In.
  - apply PyStrFacts.prefix_append.
  - change ("TABLE_" ++ resource ++ "_" ++ class_name)
      with ("TABLE_" ++ (resource ++ ("_" ++ class_name))).
    apply PyStrFacts.contains_append.
  - exact Hin.
  - unfold get_or.
    destruct (PyDict.get "SystemName" field); [left | right]; reflexivity.
Qed.

End Facts.
End RetsLookupFacts.

(** ** The lookup statements on a concrete server *)

Module LookupChecks.
Import Http Rets RetsLookup ClientExamples MoreExamples.

Local Open Scope string_scope.

Lemma get_lookup_values_outcome_witness :
  let r := get_lookup_values catalog_parser net_catalog "Property" "Status"
                             catalog_world in
  fst r = Py.Ret (Some (mkLookupResult "Status" [("A", "Active")] 1 None)) /\
  RetsBrowse.answered_200 net_catalog (snd r) /\
  List.length (wire (snd r)) = 5%nat.
Proof.
  pose proof (@RetsLookupFacts.get_lookup_values_outcome
                catalog_parser net_catalog "Property" "Status" catalog_world)
    as H.
  cbv zeta in H. destruct H as (_ & _ & _ & _ & H).
  split; [reflexivity|]. split; [|reflexivity].
  apply (H (mkLookupResult "Status" [("A", "Active")] 1 None)). reflexivity.
Defined.

Lemma lookup_name_found_witness :
  let r := _get_lookup_name_for_field catalog_parser net_catalog "Property"
                                      "Status" catalog_world in
  fst r = Py.Ret (Some "StatusLookup") /\
  snd r = snd (get_metadata catalog_parser net_catalog catalog_world).
Proof.
  pose proof (@RetsLookupFacts.lookup_name_found
                catalog_parser net_catalog "Property" "Status" catalog_world)
    as H.
  cbv zeta in H. destruct H as (H & _).
  split; [reflexivity | exact H].
Defined.

Lemma lookup_fields_listed_witness :
  let r := get_all_lookup_fields catalog_parser net_catalog "Property" "RES"
                                 catalog_world in
  fst r = Py.Ret ["Status"] /\
  snd r = snd (get_metadata catalog_parser net_catalog catalog_world).
Proof.
  pose proof (@RetsLookupFacts.lookup_fields_listed
                catalog_parser net_catalog "Property" "RES" catalog_world)
    as H.
  cbv zeta in H. destruct H as (H & _).
  split; [reflexivity | exact H].
Defined.

Lemma browse_results_are_stock_witness :
  fst (RetsBrowse.get_resources catalog_parser net_catalog catalog_world)
  = Py.Ret ["Property"; "Agent"; "Office"; "Media"; "Tour"] /\
  fst (RetsBrowse.get_resource_details catalog_parser net_catalog "Property"
                                       catalog_world)
  = Py.Ret (RetsBrowse.basic_details "Property").
Proof.
  pose proof (@RetsBrowseFacts.browse_results_are_stock
                catalog_parser net_catalog catalog_world "Property") as H.
  cbv zeta in H. destruct H as (_ & Hr & Hd).
  rewrite Hr, Hd. split; reflexivity.
Defined.

End LookupChecks.

(** ** The query found in a text answer *)

Module ExtractFacts.
Import Re Suggestions Predicates Extract PredicateFacts.

Local Open Scope string_scope.

Lemma take_while_run (X : string) (b : ascii) (rest : string) :
  all_match (NotChr ")") X = true -> not_closing b = false ->
  PyStr.take_while not_closing (X ++ String b rest) = X.
Proof.
  intros HX Hb. induction X as [|a X IH].
  - cbn [append PyStr.take_while]. now rewrite Hb.
  - cbn [all_match cls_match] in HX. apply andb_true_iff in HX.
    destruct HX as [Ha HX]. cbn [append PyStr.take_while].
    unfold not_closing at 1. rewrite Ha. now rewrite (IH HX).
Qed.

Lemma drop_length (X rest : string) :
  PyStr.drop (String.length X) (X ++ rest) = rest.
Proof.
  induction X as [|a X IH]; [now destruct rest | exact IH].
Qed.

Lemma match_group_instance body rest :
  body <> "" -> all_match (NotChr ")") body = true ->
  match_group (String "(" (body ++ String ")" rest))
  = Some ("(" ++ body ++ ")", rest).
Proof.
  intros Hne Hall. cbn [match_group]. rewrite Ascii.eqb_refl.
  rewrite (@take_while_run body ")"%char rest Hall eq_refl).
  cbv zeta. rewrite drop_length, Ascii.eqb_refl.
  destruct body; [congruence | reflexivity].
Qed.

Lemma match_group_not_open s :
  match s with
  | String a _ => Ascii.eqb a "(" = false
  | EmptyString => True
  end ->
  match_group s = None.
Proof. destruct s as [|a s]; [reflexivity|]. cbn. now intros ->. Qed.

Lemma first_not_open s :
  all_match (NotChr "(") s = true ->
  match s with
  | String a _ => Ascii.eqb a "(" = false
  | EmptyString => True
  end.
Proof.
  destruct s as [|a s]; [exact (fun _ => I)|].
  cbn [all_match cls_match]. intros H. apply andb_true_iff in H.
  destruct H as [Ha _]. now apply negb_true_iff in Ha.
Qed.

Lemma match_more_none fuel s :
  all_match (NotChr "(") s = true -> match_more fuel s = ("", s).
Proof.
  intros H. destruct fuel as [|fuel]; [reflexivity|].
  destruct s as [|a s1]; [reflexivity|]. cbn [match_more].
  destruct (Ascii.eqb a ","); [|reflexivity].
  rewrite match_group_not_open; [reflexivity|].
  apply first_not_open. cbn [all_match] in H.
  apply andb_true_iff in H. tauto.
Qed.

Lemma search_dmql_unfold s :
  search_dmql s =
  match match_dmql s with
  | Some q => Some q
  | None => match s with
            | String _ s' => search_dmql s'
            | EmptyString => None
            end
  end.
Proof. destruct s; reflexivity. Qed.

Lemma search_dmql_skip s : forall pre,
  all_match (NotChr "(") pre = true ->
  search_dmql (pre ++ s) = search_dmql s.
Proof.
  induction pre as [|a pre IH]; intros H; [reflexivity|].
  cbn [all_match cls_match] in H. apply andb_true_iff in H.
  destruct H as [Ha Hpre]. apply negb_true_iff in Ha.
  cbn [append]. rewrite search_dmql_unfold. unfold match_dmql.
  rewrite match_group_not_open by exact Ha. now apply IH.
Qed.

Lemma search_dmql_none s :
  all_match (NotChr "(") s = true -> search_dmql s = None.
Proof.
  intros H. rewrite <- (PyStrFacts.append_nil_r s).
  rewrite search_dmql_skip by exact H. reflexivity.
Qed.

(** The bound on the repetitions never cuts a match short: more fuel than
    the length of the text changes nothing. *)
Lemma match_group_shorter s group rest :
  match_group s = Some (group, rest) ->
  (String.length rest < String.length s)%nat.
Proof.
  destruct s as [|a s1]; [discriminate|]. cbn [match_group].
  destruct (Ascii.eqb a "("); [|discriminate]. cbv zeta.
  destruct (PyStr.truthy _); [|discriminate].
  set (n := String.length (PyStr.take_while not_closing s1)).
  assert (Hd : forall k s, (String.length (PyStr.drop k s) <= String.length s)%nat).
  { induction k as [|k IHk]; intros [|c s]; simpl; try lia.
    specialize (IHk s). lia. }
  specialize (Hd n s1).
  destruct (PyStr.drop n s1) as [|b r]; [discriminate|].
  destruct (Ascii.eqb b ")"); [|discriminate].
  intros [= _ <-]. simpl in *. lia.
Qed.

Lemma match_more_fuel_below : forall n fuel s,
  (fuel <= n)%nat -> (String.length s <= fuel)%nat ->
  match_more fuel s = match_more (String.length s) s.
Proof.
  induction n as [|n IH]; intros fuel s Hn Hlen.
  - destruct s; [|simpl in Hlen; lia].
    now replace fuel with 0%nat by lia.
  - destruct fuel as [|fuel]; [destruct s; [reflexivity | simpl in Hlen; lia]|].
    destruct s as [|a s1]; [reflexivity|].
    cbn [match_more String.length].
    destruct (Ascii.eqb a ","); [|reflexivity].
    destruct (match_group s1) as [[group rest]|] eqn:E; [|reflexivity].
    pose proof (match_group_shorter _ E) as Hlt.
    simpl in Hlen.
    rewrite (IH fuel rest) by lia.
    rewrite (IH (String.length s1) rest) by lia.
    reflexivity.
Qed.

Lemma match_more_fuel fuel s :
  (String.length s <= fuel)%nat ->
  match_more fuel s = match_more (String.length s) s.
Proof. intros H. now apply (match_more_fuel_below (n := fuel)). Qed.

Section Facts.
Variable odata_search : string -> option string.

(** X25.  For the RETS protocol, a text without an opening parenthesis
    holds no query.  A text whose first parenthesis opens a single predicate
    [(F>V)] with plain name and value, followed by text without an opening
    parenthesis, gives the repaired query [(F=V+)], with an explanation that
    quotes the request; the OData pattern is not consulted.  And the bound
    on the repetition of groups is never what ends a match. *)
Theorem extract_then_repair :
  forall pre F V post request,
    all_match (NotChr "(") pre = true ->
    plain F = true -> plain V = true ->
    all_match (NotChr "(") post = true ->
    _extract_query_from_text odata_search
      (pre ++ "(" ++ F ++ ">" ++ V ++ ")" ++ post) request "RETS"
    = Some (mkExtracted ("(" ++ F ++ "=" ++ V ++ "+)")
                        ("AI-generated query based on: " ++ request)
                        [] "Query extracted from AI response") /\
    _extract_query_from_text odata_search (pre ++ post) request "RETS" = None /\
    forall fuel s, (String.length s <= fuel)%nat ->
                   match_more fuel s = match_more (String.length s) s.
Proof.
  intros pre F V post request Hpre HF HV Hpost.
  split; [|split; [|exact match_more_fuel]].
  - unfold _extract_query_from_text. cbn [String.eqb Ascii.eqb Bool.eqb].
    rewrite search_dmql_skip by exact Hpre.
    replace ("(" ++ F ++ ">" ++ V ++ ")" ++ post)
      with (String "(" ((F ++ ">" ++ V) ++ String ")" post)) by assoc.
    rewrite search_dmql_unfold. unfold match_dmql.
    rewrite match_group_instance;
      [|destruct F; discriminate | chars].
    rewrite (@match_more_none (String.length post) post Hpost). cbn [fst].
    rewrite PyStrFacts.append_nil_r.
    replace ("(" ++ (F ++ ">" ++ V) ++ ")")
      with ("(" ++ F ++ ">" ++ V ++ ")") by assoc.
    rewrite (@repair_greater F V HF);
      first [reflexivity | apply plain_not_empty; assumption | chars].
  - unfold _extract_query_from_text. cbn [String.eqb Ascii.eqb Bool.eqb].
    rewrite search_dmql_none; [reflexivity|].
    rewrite all_match_app, Hpre, Hpost. reflexivity.
Qed.

End Facts.
End ExtractFacts.

Module ExtractChecks.
Import Extract.

Local Open Scope string_scope.

Lemma extract_then_repair_witness :
  _extract_query_from_text (fun _ => None)
    "Try (ListPrice>500000) for this." "homes over 500k" "RETS"
  = Some (mkExtracted "(ListPrice=500000+)"
                      "AI-generated query based on: homes over 500k"
                      [] "Query extracted from AI response").
Proof.
  destruct (@ExtractFacts.extract_then_repair
              (fun _ => None) "Try " "ListPrice" "500000" " for this."
              "homes over 500k" eq_refl eq_refl eq_refl eq_refl) as (H & _).
  exact H.
Defined.

End ExtractChecks.
